(** * Tegra USB PHY and EHCI link-state driver: model and verification

    The development embeds the USB PHY layer
    ([arch/arm/mach-tegra/usb_phy.c]) and the Tegra EHCI glue
    ([drivers/usb/host/ehci-tegra.c]) as monadic programs over an
    explicit machine state.

    - Integers are [Z]; the 32-bit registers and C [int]/[unsigned long]
      counters have their wrap-around written out.
    - Hardware is an oracle: the k-th input operation of a run (an MMIO
      read, a GPIO read, the return value of a kernel service outside
      the driver) yields the k-th oracle value.  Every theorem
      quantifies over the oracle, hence over every behaviour of the
      hardware.
    - Every observable action is appended to the list of events a
      computation returns, in program order.
    - A computation returns [None] when a loop of the model exhausts its
      fuel or a pointer is dereferenced at the wrong type; termination
      statements are theorems that the result is [Some _]. *)

From Stdlib Require Import ZArith List String Bool Lia Permutation ArithRing.
Import ListNotations.
Local Open Scope Z_scope.

(** ** Kernel configuration

    The sources select code with the preprocessor; the model keeps both
    sides and takes the configuration as a value. *)

Record kconfig := mk_kconfig {
  CONFIG_MACH_N1 : bool;
  CONFIG_USB_EHCI_ONOFF_FEATURE : bool
}.

(** ** Machine words *)

Module Word.

Definition wrap32 (x : Z) : Z := x mod 2 ^ 32.

(** Two's complement reading of a 32-bit pattern (C [int]). *)
Definition wrap_int (x : Z) : Z := (x + 2 ^ 31) mod 2 ^ 32 - 2 ^ 31.

Definition BIT (n : Z) : Z := Z.shiftl 1 n.

(** [FIELD w sh x] is the macro [(((x) & w) << sh)]. *)
Definition FIELD (w sh x : Z) : Z := Z.shiftl (Z.land x w) sh.

(** [val & ~m] *)
Definition clr (val m : Z) : Z := Z.land val (Z.lnot m).

(** [~0] *)
Definition ALL_ONES : Z := Z.lnot 0.

End Word.

Import Word.

(** ** Error numbers ([include/asm-generic/errno-base.h], [errno.h]) *)

Definition EPIPE : Z := 32.
Definition EINVAL : Z := 22.
Definition ENOMEM : Z := 12.
Definition ENXIO : Z := 6.
Definition ENODEV : Z := 19.
Definition ENOTCONN : Z := 107.
Definition ETIMEDOUT : Z := 110.

(** ** Data model of the PHY layer *)

Inductive tegra_usb_phy_mode :=
| TEGRA_USB_PHY_MODE_DEVICE
| TEGRA_USB_PHY_MODE_HOST.

(** Modelled from the spec: [enum tegra_usb_phy_type] is declared in
    [mach/usb_phy.h], which is not among the sources.  The spec lists the
    transceiver kinds of instance 1 as ULPI-discrete, ULPI-null and
    HSIC; the code compares against [TEGRA_USB_LINK_ULPI] and
    [TEGRA_USB_UHSIC] and treats everything else as the null PHY. *)
Inductive tegra_usb_phy_type :=
| TEGRA_USB_LINK_ULPI
| TEGRA_USB_NULL_ULPI
| TEGRA_USB_UHSIC.

Definition phy_type_eqb (a b : tegra_usb_phy_type) : bool :=
  match a, b with
  | TEGRA_USB_LINK_ULPI, TEGRA_USB_LINK_ULPI => true
  | TEGRA_USB_NULL_ULPI, TEGRA_USB_NULL_ULPI => true
  | TEGRA_USB_UHSIC, TEGRA_USB_UHSIC => true
  | _, _ => false
  end.

(** [struct tegra_xtal_freq] *)
Record tegra_xtal_freq := mk_xtal_freq {
  freq : Z;
  enable_delay : Z;
  stable_count : Z;
  active_delay : Z;
  xtal_freq_count : Z;
  debounce : Z
}.

Definition tegra_freq_table : list tegra_xtal_freq :=
  [ mk_xtal_freq 12000000 0x02 0x2F 0x04 0x76 0x7530;
    mk_xtal_freq 13000000 0x02 0x33 0x05 0x7F 0x7EF4;
    mk_xtal_freq 19200000 0x03 0x4B 0x06 0xBB 0xBB80;
    mk_xtal_freq 26000000 0x04 0x66 0x09 0xFE 0xFDE8 ].

Definition tegra_uhsic_freq_table : list tegra_xtal_freq :=
  [ mk_xtal_freq 12000000 0x02 0x2F 0x0 0x1CA 0;
    mk_xtal_freq 13000000 0x02 0x33 0x0 0x1F0 0;
    mk_xtal_freq 19200000 0x03 0x4B 0x0 0x2DD 0;
    mk_xtal_freq 26000000 0x04 0x66 0x0 0x3E0 0 ].

(** The value of [phy->freq]: a pointer into one of the two tables, the
    null pointer, or whatever the allocator left in the field. *)
Inductive freq_ptr :=
| FreqNull
| FreqRow (uhsic : bool) (i : nat)
| FreqStale (bits : Z).

Definition freq_table (uhsic : bool) : list tegra_xtal_freq :=
  if uhsic then tegra_uhsic_freq_table else tegra_freq_table.

Definition zero_xtal_freq : tegra_xtal_freq := mk_xtal_freq 0 0 0 0 0 0.

Definition freq_deref (p : freq_ptr) : option tegra_xtal_freq :=
  match p with
  | FreqRow u i => nth_error (freq_table u) i
  | _ => None
  end.

(** [struct tegra_utmip_config] *)
Record tegra_utmip_config := mk_utmip_config {
  hssync_start_delay : Z;
  elastic_limit : Z;
  idle_wait_delay : Z;
  term_range_adj : Z;
  xcvr_setup : Z;
  xcvr_lsfslew : Z;
  xcvr_lsrslew : Z
}.

Definition zero_utmip_config : tegra_utmip_config :=
  mk_utmip_config 0 0 0 0 0 0 0.

(** [utmip_default[]]: designated initialisers for [[0]] and [[2]]; the
    element in between is zero-filled. *)
Definition utmip_default : list tegra_utmip_config :=
  [ mk_utmip_config 9 16 17 6 11 1 1;
    zero_utmip_config;
    mk_utmip_config 9 16 17 6 9 2 2 ].

(** [struct tegra_uhsic_config] and [uhsic_default] *)
Record tegra_uhsic_config := mk_uhsic_config {
  sync_start_delay : Z;
  uhsic_idle_wait_delay : Z;
  uhsic_term_range_adj : Z;
  elastic_underrun_limit : Z;
  elastic_overrun_limit : Z
}.

Definition uhsic_default : tegra_uhsic_config := mk_uhsic_config 9 17 0 16 16.

Record tegra_ulpi_trimmer := mk_trimmer {
  shadow_clk_delay : Z;
  clock_out_delay : Z;
  data_trimmer : Z;
  stpdirnxt_trimmer : Z
}.

(** [struct tegra_ulpi_config]; [preinit]/[postinit] record whether the
    hook pointer is set. *)
Record tegra_ulpi_config := mk_ulpi_config {
  inf_type : tegra_usb_phy_type;
  reset_gpio : Z;
  clk_name : string;
  trimmer : option tegra_ulpi_trimmer;
  preinit : bool;
  postinit : bool
}.

(** A non-null [void *config]. *)
Inductive config_ptr :=
| PtrUtmipDefault (i : Z)
| PtrUtmip (c : tegra_utmip_config)
| PtrUlpi (c : tegra_ulpi_config).

Definition as_ulpi_config (p : config_ptr) : option tegra_ulpi_config :=
  match p with PtrUlpi c => Some c | _ => None end.

Definition as_utmip_config (p : config_ptr) : option tegra_utmip_config :=
  match p with
  | PtrUtmip c => Some c
  | PtrUtmipDefault i =>
      if (0 <=? i) && (i <? 3) then nth_error utmip_default (Z.to_nat i) else None
  | PtrUlpi _ => None
  end.

(** [struct tegra_usb_phy] *)
Record tegra_usb_phy := mk_phy {
  instance : Z;
  phy_freq : freq_ptr;
  regs : Z;
  pad_regs : Z;
  mode : tegra_usb_phy_mode;
  config : config_ptr
}.

(** [struct usb_phy_plat_data], one element of [usb_phy_data[]]. *)
Record usb_phy_plat_data := mk_plat_data {
  vbus_irq : Z;
  vbus_gpio : Z;
  usb_ldo_en : bool
}.

(** ** Events *)

Inductive ehci_reg :=
| REG_command
| REG_status
| REG_intr_enable
| REG_frame_list
| REG_async_next
| REG_configured_flag
| REG_port_status (i : Z).

Inductive ioaddr :=
| Mmio (a : Z)
| EhciReg (r : ehci_reg).

Inductive gpio_id :=
| GPIO_PHONE_ACTIVE
| GPIO_IPC_SLAVE_WAKEUP
| GPIO_CP_RST
| GPIO_ACTIVE_STATE_HSIC
| GPIO_HSIC_EN
| GPIO_PDA_ACTIVE
| GPIO_NUM (n : Z).

Inductive delay_kind := Udelay | Mdelay | Msleep.

(** The exported operations of the PHY layer. *)
Inductive phy_op :=
| OpPowerOn
| OpPowerOff
| OpPreresume
| OpPostresume
| OpRestoreStart
| OpRestoreEnd
| OpBusConnect
| OpBusReset
| OpBusIdle
| OpIsDeviceConnected
| OpSetPhyClock.

Inductive event :=
| EvReadl (a : ioaddr) (v : Z)
| EvWritel (a : ioaddr) (v : Z)
| EvGpioGet (g : gpio_id) (v : Z)
| EvGpioSet (g : gpio_id) (v : Z)
| EvDelay (k : delay_kind) (n : Z)
| EvLog (msg : string)
| EvClk (enable : bool) (clk : string)
| EvLock (acquire : bool) (lock : string)
| EvExt (name : string) (ret : Z)
| EvPhyOp (op : phy_op) (ready : bool)
| EvPhyRet (op : phy_op) (ret : Z).

(** ** Machine state

    One controller with its PHY handle is under consideration at a time;
    [regulator_on] is the only field of that handle written after
    [tegra_usb_phy_open]. *)

(** The fields of [struct tegra_ehci_hcd] the driver mutates. *)
Record tegra_ehci_hcd := mk_tegra {
  hub_suspend_req : Z;
  host_resumed : Z;
  bus_is_power_down : Z;
  port_resuming : Z;
  device_ready_for_reset : bool;
  port_speed : Z
}.

(** The fields of [struct ehci_hcd] and [struct usb_hcd] the glue code
    writes. *)
Record ehci_hcd := mk_ehci {
  reset_done : Z -> Z;
  suspended_ports : Z;
  ehci_command : Z;
  controller_resets_phy : Z;
  hw_accessible : bool
}.

Record machine := mk_machine {
  inputs : nat;
  regulator_on : Z;
  utmip_pad_count : Z;
  shutdown : Z;
  work_count : Z;
  ehci_power_up_by_sysfs : bool;
  tegra : tegra_ehci_hcd;
  ehci : ehci_hcd
}.

Definition set_inputs (n : nat) (s : machine) : machine :=
  mk_machine n (regulator_on s) (utmip_pad_count s) (shutdown s) (work_count s)
             (ehci_power_up_by_sysfs s) (tegra s) (ehci s).

Definition set_regulator_on (v : Z) (s : machine) : machine :=
  mk_machine (inputs s) v (utmip_pad_count s) (shutdown s) (work_count s)
             (ehci_power_up_by_sysfs s) (tegra s) (ehci s).

Definition set_utmip_pad_count (c : Z) (s : machine) : machine :=
  mk_machine (inputs s) (regulator_on s) c (shutdown s) (work_count s)
             (ehci_power_up_by_sysfs s) (tegra s) (ehci s).

Definition set_shutdown (v : Z) (s : machine) : machine :=
  mk_machine (inputs s) (regulator_on s) (utmip_pad_count s) v (work_count s)
             (ehci_power_up_by_sysfs s) (tegra s) (ehci s).

Definition set_work_count (v : Z) (s : machine) : machine :=
  mk_machine (inputs s) (regulator_on s) (utmip_pad_count s) (shutdown s) v
             (ehci_power_up_by_sysfs s) (tegra s) (ehci s).

Definition set_ehci_power_up_by_sysfs (b : bool) (s : machine) : machine :=
  mk_machine (inputs s) (regulator_on s) (utmip_pad_count s) (shutdown s) (work_count s)
             b (tegra s) (ehci s).

Definition set_tegra (t : tegra_ehci_hcd) (s : machine) : machine :=
  mk_machine (inputs s) (regulator_on s) (utmip_pad_count s) (shutdown s) (work_count s)
             (ehci_power_up_by_sysfs s) t (ehci s).

Definition set_ehci (e : ehci_hcd) (s : machine) : machine :=
  mk_machine (inputs s) (regulator_on s) (utmip_pad_count s) (shutdown s) (work_count s)
             (ehci_power_up_by_sysfs s) (tegra s) e.

Definition set_hub_suspend_req (v : Z) (t : tegra_ehci_hcd) :=
  mk_tegra v (host_resumed t) (bus_is_power_down t) (port_resuming t)
           (device_ready_for_reset t) (port_speed t).
Definition set_host_resumed (v : Z) (t : tegra_ehci_hcd) :=
  mk_tegra (hub_suspend_req t) v (bus_is_power_down t) (port_resuming t)
           (device_ready_for_reset t) (port_speed t).
Definition set_bus_is_power_down (v : Z) (t : tegra_ehci_hcd) :=
  mk_tegra (hub_suspend_req t) (host_resumed t) v (port_resuming t)
           (device_ready_for_reset t) (port_speed t).
Definition set_port_resuming (v : Z) (t : tegra_ehci_hcd) :=
  mk_tegra (hub_suspend_req t) (host_resumed t) (bus_is_power_down t) v
           (device_ready_for_reset t) (port_speed t).
Definition set_device_ready_for_reset (b : bool) (t : tegra_ehci_hcd) :=
  mk_tegra (hub_suspend_req t) (host_resumed t) (bus_is_power_down t)
           (port_resuming t) b (port_speed t).
Definition set_port_speed (v : Z) (t : tegra_ehci_hcd) :=
  mk_tegra (hub_suspend_req t) (host_resumed t) (bus_is_power_down t)
           (port_resuming t) (device_ready_for_reset t) v.

Definition set_reset_done (i v : Z) (e : ehci_hcd) :=
  mk_ehci (fun j => if j =? i then v else reset_done e j) (suspended_ports e)
          (ehci_command e) (controller_resets_phy e) (hw_accessible e).
Definition set_suspended_ports (v : Z) (e : ehci_hcd) :=
  mk_ehci (reset_done e) v (ehci_command e) (controller_resets_phy e)
          (hw_accessible e).
Definition set_ehci_command (v : Z) (e : ehci_hcd) :=
  mk_ehci (reset_done e) (suspended_ports e) v (controller_resets_phy e)
          (hw_accessible e).
Definition set_controller_resets_phy (v : Z) (e : ehci_hcd) :=
  mk_ehci (reset_done e) (suspended_ports e) (ehci_command e) v
          (hw_accessible e).
Definition set_hw_accessible (b : bool) (e : ehci_hcd) :=
  mk_ehci (reset_done e) (suspended_ports e) (ehci_command e)
          (controller_resets_phy e) b.

(** ** The driver monad *)

Module Drv.

Definition oracle := nat -> Z.

Definition M (A : Type) : Type :=
  oracle -> machine -> option (A * machine * list event).

Definition ret {A} (a : A) : M A := fun _ s => Some (a, s, []).

Definition bind {A B} (m : M A) (f : A -> M B) : M B := fun hw s =>
  match m hw s with
  | None => None
  | Some (a, s1, e1) =>
      match f a hw s1 with
      | None => None
      | Some (b, s2, e2) => Some (b, s2, e1 ++ e2)
      end
  end.

(** No result: fuel exhausted, or a fault. *)
Definition stuck {A} : M A := fun _ _ => None.

Definition emit (e : event) : M unit := fun _ s => Some (tt, s, [e]).

Definition get : M machine := fun _ s => Some (s, s, []).

Definition modify (f : machine -> machine) : M unit :=
  fun _ s => Some (tt, f s, []).

(** The next oracle value. *)
Definition input : M Z := fun hw s =>
  Some (hw (inputs s), set_inputs (S (inputs s)) s, []).

Definition lift_option {A} (o : option A) : M A :=
  match o with Some a => ret a | None => stuck end.

Definition when (b : bool) (m : M unit) : M unit := if b then m else ret tt.

End Drv.

Import Drv.

Declare Scope drv_scope.
Delimit Scope drv_scope with drv.
Notation "x <- m ;; k" := (bind m (fun x => k))
  (at level 61, m at next level, right associativity) : drv_scope.
Notation "m ;; k" := (bind m (fun _ => k))
  (at level 61, right associativity) : drv_scope.
Local Open Scope drv_scope.

(** ** Kernel services *)

Module Kernel.

Definition readl (a : ioaddr) : M Z :=
  x <- input ;;
  let v := wrap32 x in
  emit (EvReadl a v) ;; ret v.

Definition writel (v : Z) (a : ioaddr) : M unit := emit (EvWritel a (wrap32 v)).

(** [val = readl(a); val = f(val); writel(val, a);] *)
Definition rmw (a : ioaddr) (f : Z -> Z) : M unit :=
  val <- readl a ;; writel (f val) a.

Definition udelay (n : Z) : M unit := emit (EvDelay Udelay n).
Definition mdelay (n : Z) : M unit := emit (EvDelay Mdelay n).
Definition msleep (n : Z) : M unit := emit (EvDelay Msleep n).

Definition pr_err (msg : string) : M unit := emit (EvLog msg).

Definition gpio_get_value (g : gpio_id) : M Z :=
  x <- input ;; emit (EvGpioGet g x) ;; ret x.

Definition gpio_set_value (g : gpio_id) (v : Z) : M unit := emit (EvGpioSet g v).

Definition clk_enable (c : string) : M unit := emit (EvClk true c).
Definition clk_disable (c : string) : M unit := emit (EvClk false c).

Definition spin_lock_irqsave (lock : string) : M unit := emit (EvLock true lock).
Definition spin_unlock_irqrestore (lock : string) : M unit :=
  emit (EvLock false lock).

(** A call into kernel code outside the sources; its [int] result comes
    from the oracle. *)
Definition ext_call (name : string) : M Z :=
  x <- input ;;
  let r := wrap_int x in
  emit (EvExt name r) ;; ret r.

(** The same for a [void] function. *)
Definition ext_proc (name : string) : M unit := emit (EvExt name 0).

End Kernel.

Import Kernel.

(** ** The PHY layer: [arch/arm/mach-tegra/usb_phy.c] *)

Module UsbPhy.

Local Open Scope string_scope.
Local Open Scope list_scope.
Local Open Scope Z_scope.
Local Open Scope drv_scope.

(** *** Register map *)

Definition USB_USBCMD : Z := 0x140.
Definition USB_USBCMD_RS : Z := BIT 0.

Definition USB_USBSTS : Z := 0x144.
Definition USB_USBSTS_PCI : Z := BIT 2.
Definition USB_USBSTS_HCH : Z := BIT 12.

Definition USB_TXFILLTUNING : Z := 0x164.
Definition USB_FIFO_TXFILL_THRES (x : Z) : Z := FIELD 0x1f 16 x.
Definition USB_FIFO_TXFILL_MASK : Z := 0x1f0000.

Definition ULPI_VIEWPORT : Z := 0x170.

Definition USB_PORTSC1 : Z := 0x184.
Definition USB_PORTSC1_PTS (x : Z) : Z := FIELD 0x3 30 x.
Definition USB_PORTSC1_PSPD (x : Z) : Z := FIELD 0x3 26 x.
Definition USB_PORTSC1_PHCD : Z := BIT 23.
Definition USB_PORTSC1_WKOC : Z := BIT 22.
Definition USB_PORTSC1_WKDS : Z := BIT 21.
Definition USB_PORTSC1_WKCN : Z := BIT 20.
Definition USB_PORTSC1_PTC (x : Z) : Z := FIELD 0xf 16 x.
Definition USB_PORTSC1_PP : Z := BIT 12.
Definition USB_PORTSC1_LS (x : Z) : Z := FIELD 0x3 10 x.
Definition USB_PORTSC1_SUSP : Z := BIT 7.
Definition USB_PORTSC1_PE : Z := BIT 2.
Definition USB_PORTSC1_CCS : Z := BIT 0.

Definition USB_SUSP_CTRL : Z := 0x400.
Definition USB_WAKE_ON_CNNT_EN_DEV : Z := BIT 3.
Definition USB_WAKE_ON_DISCON_EN_DEV : Z := BIT 4.
Definition USB_SUSP_CLR : Z := BIT 5.
Definition USB_CLKEN : Z := BIT 6.
Definition USB_PHY_CLK_VALID : Z := BIT 7.
Definition UTMIP_RESET : Z := BIT 11.
Definition UHSIC_RESET : Z := BIT 11.
Definition UTMIP_PHY_ENABLE : Z := BIT 12.
Definition UHSIC_PHY_ENABLE : Z := BIT 12.
Definition ULPI_PHY_ENABLE : Z := BIT 13.
Definition USB_SUSP_SET : Z := BIT 14.
Definition USB_WAKEUP_DEBOUNCE_COUNT (x : Z) : Z := FIELD 0x7 16 x.

Definition USB1_LEGACY_CTRL : Z := 0x410.
Definition USB1_NO_LEGACY_MODE : Z := BIT 0.
Definition USB1_VBUS_SENSE_CTL_MASK : Z := Z.shiftl 3 1.
Definition USB1_VBUS_SENSE_CTL_A_SESS_VLD : Z := Z.shiftl 3 1.

Definition ULPIS2S_CTRL : Z := 0x418.
Definition ULPIS2S_ENA : Z := BIT 0.
Definition ULPIS2S_PLLU_MASTER_BLASTER60 : Z := BIT 3.
Definition ULPIS2S_SPARE (x : Z) : Z := FIELD 0xF 8 x.

Definition ULPI_TIMING_CTRL_0 : Z := 0x424.
Definition ULPI_CLOCK_OUT_DELAY (x : Z) : Z := Z.land x 0x1F.
Definition ULPI_OUTPUT_PINMUX_BYP : Z := BIT 10.
Definition ULPI_CLKOUT_PINMUX_BYP : Z := BIT 11.
Definition ULPI_SHADOW_CLK_LOOPBACK_EN : Z := BIT 12.
Definition ULPI_SHADOW_CLK_SEL : Z := BIT 13.
Definition ULPI_CORE_CLK_SEL : Z := BIT 14.
Definition ULPI_SHADOW_CLK_DELAY (x : Z) : Z := FIELD 0x1F 16 x.
Definition ULPI_LBK_PAD_EN : Z := BIT 26.
Definition ULPI_LBK_PAD_E_INPUT_OR : Z := BIT 27.
Definition ULPI_CLK_OUT_ENA : Z := BIT 28.
Definition ULPI_CLK_PADOUT_ENA : Z := BIT 29.

Definition ULPI_TIMING_CTRL_1 : Z := 0x428.
Definition ULPI_DATA_TRIMMER_LOAD : Z := BIT 0.
Definition ULPI_DATA_TRIMMER_SEL (x : Z) : Z := FIELD 0x7 1 x.
Definition ULPI_STPDIRNXT_TRIMMER_LOAD : Z := BIT 16.
Definition ULPI_STPDIRNXT_TRIMMER_SEL (x : Z) : Z := FIELD 0x7 17 x.
Definition ULPI_DIR_TRIMMER_LOAD : Z := BIT 24.
Definition ULPI_DIR_TRIMMER_SEL (x : Z) : Z := FIELD 0x7 25 x.

Definition UTMIP_PLL_CFG1 : Z := 0x804.
Definition UTMIP_XTAL_FREQ_COUNT (x : Z) : Z := FIELD 0xfff 0 x.
Definition UTMIP_PLLU_ENABLE_DLY_COUNT (x : Z) : Z := FIELD 0x1f 27 x.

Definition UTMIP_XCVR_CFG0 : Z := 0x808.
Definition UTMIP_XCVR_SETUP (x : Z) : Z := FIELD 0xf 0 x.
Definition UTMIP_XCVR_LSRSLEW (x : Z) : Z := FIELD 0x3 8 x.
Definition UTMIP_XCVR_LSFSLEW (x : Z) : Z := FIELD 0x3 10 x.
Definition UTMIP_FORCE_PD_POWERDOWN : Z := BIT 14.
Definition UTMIP_FORCE_PD2_POWERDOWN : Z := BIT 16.
Definition UTMIP_FORCE_PDZI_POWERDOWN : Z := BIT 18.
Definition UTMIP_XCVR_HSSLEW_MSB (x : Z) : Z := FIELD 0x7f 25 x.

Definition UTMIP_BIAS_CFG0 : Z := 0x80c.
Definition UTMIP_OTGPD : Z := BIT 11.
Definition UTMIP_BIASPD : Z := BIT 10.

Definition UTMIP_HSRX_CFG0 : Z := 0x810.
Definition UTMIP_ELASTIC_LIMIT (x : Z) : Z := FIELD 0x1f 10 x.
Definition UTMIP_IDLE_WAIT (x : Z) : Z := FIELD 0x1f 15 x.

Definition UTMIP_HSRX_CFG1 : Z := 0x814.
Definition UTMIP_HS_SYNC_START_DLY (x : Z) : Z := FIELD 0x1f 1 x.

Definition UTMIP_TX_CFG0 : Z := 0x820.
Definition UTMIP_FS_PREABMLE_J : Z := BIT 19.
Definition UTMIP_HS_DISCON_DISABLE : Z := BIT 8.

Definition UTMIP_MISC_CFG0 : Z := 0x824.
Definition UTMIP_DPDM_OBSERVE : Z := BIT 26.
Definition UTMIP_DPDM_OBSERVE_SEL (x : Z) : Z := FIELD 0xf 27 x.
Definition UTMIP_DPDM_OBSERVE_SEL_FS_J : Z := UTMIP_DPDM_OBSERVE_SEL 0xf.
Definition UTMIP_DPDM_OBSERVE_SEL_FS_K : Z := UTMIP_DPDM_OBSERVE_SEL 0xe.
Definition UTMIP_SUSPEND_EXIT_ON_EDGE : Z := BIT 22.

Definition UTMIP_MISC_CFG1 : Z := 0x828.
Definition UTMIP_PLL_ACTIVE_DLY_COUNT (x : Z) : Z := FIELD 0x1f 18 x.
Definition UTMIP_PLLU_STABLE_COUNT (x : Z) : Z := FIELD 0xfff 6 x.

Definition UTMIP_DEBOUNCE_CFG0 : Z := 0x82c.
Definition UTMIP_BIAS_DEBOUNCE_A (x : Z) : Z := FIELD 0xffff 0 x.

Definition UTMIP_BAT_CHRG_CFG0 : Z := 0x830.
Definition UTMIP_PD_CHRG : Z := BIT 0.

Definition UTMIP_SPARE_CFG0 : Z := 0x834.
Definition FUSE_SETUP_SEL : Z := BIT 3.

Definition UTMIP_XCVR_CFG1 : Z := 0x838.
Definition UTMIP_FORCE_PDDISC_POWERDOWN : Z := BIT 0.
Definition UTMIP_FORCE_PDCHRP_POWERDOWN : Z := BIT 2.
Definition UTMIP_FORCE_PDDR_POWERDOWN : Z := BIT 4.
Definition UTMIP_XCVR_TERM_RANGE_ADJ (x : Z) : Z := FIELD 0xf 18 x.

Definition UTMIP_BIAS_CFG1 : Z := 0x83c.
Definition UTMIP_BIAS_PDTRK_COUNT (x : Z) : Z := FIELD 0x1f 3 x.

Definition UHSIC_PLL_CFG1 : Z := 0x804.
Definition UHSIC_XTAL_FREQ_COUNT (x : Z) : Z := FIELD 0xfff 0 x.
Definition UHSIC_PLLU_ENABLE_DLY_COUNT (x : Z) : Z := FIELD 0x1f 14 x.

Definition UHSIC_HSRX_CFG0 : Z := 0x808.
Definition UHSIC_ELASTIC_UNDERRUN_LIMIT (x : Z) : Z := FIELD 0x1f 2 x.
Definition UHSIC_ELASTIC_OVERRUN_LIMIT (x : Z) : Z := FIELD 0x1f 8 x.
Definition UHSIC_IDLE_WAIT (x : Z) : Z := FIELD 0x1f 13 x.

Definition UHSIC_HSRX_CFG1 : Z := 0x80c.
Definition UHSIC_HS_SYNC_START_DLY (x : Z) : Z := FIELD 0x1f 1 x.

Definition UHSIC_MISC_CFG0 : Z := 0x814.
Definition UHSIC_SUSPEND_EXIT_ON_EDGE : Z := BIT 7.
Definition UHSIC_DETECT_SHORT_CONNECT : Z := BIT 8.
Definition UHSIC_FORCE_XCVR_MODE : Z := BIT 15.

Definition UHSIC_MISC_CFG1 : Z := 0x818.
Definition UHSIC_PLLU_STABLE_COUNT (x : Z) : Z := FIELD 0xfff 2 x.

Definition UHSIC_PADS_CFG0 : Z := 0x81c.
Definition UHSIC_TX_RTUNEN : Z := 0xf000.
Definition UHSIC_TX_RTUNE (x : Z) : Z := FIELD 0xf 12 x.

Definition UHSIC_PADS_CFG1 : Z := 0x820.
Definition UHSIC_PD_BG : Z := BIT 2.
Definition UHSIC_PD_TX : Z := BIT 3.
Definition UHSIC_PD_TRK : Z := BIT 4.
Definition UHSIC_PD_RX : Z := BIT 5.
Definition UHSIC_PD_ZI : Z := BIT 6.
Definition UHSIC_RX_SEL : Z := BIT 7.
Definition UHSIC_RPD_DATA : Z := BIT 9.
Definition UHSIC_RPD_STROBE : Z := BIT 10.
Definition UHSIC_RPU_DATA : Z := BIT 11.
Definition UHSIC_RPU_STROBE : Z := BIT 12.

Definition UHSIC_STAT_CFG0 : Z := 0x828.
Definition UHSIC_CONNECT_DETECT : Z := BIT 0.

(** [AHB_AHB_MEM_PREFETCH_CFG3], poked through a fixed virtual address. *)
Definition MEM_6000_C0E4 : Z := (0x6000c0e4 - 0x60000000) + 0xfe200000.

Definition lor_all (l : list Z) : Z := fold_right Z.lor 0 l.

(** Entry into an exported operation, with the value
    [device_ready_for_reset] has at that moment. *)
Definition phy_enter (op : phy_op) : M unit :=
  s <- get ;; emit (EvPhyOp op (device_ready_for_reset (tegra s))).

Definition phy_leave (op : phy_op) (r : Z) : M Z := emit (EvPhyRet op r) ;; ret r.

Definition phy_is_ulpi (phy : tegra_usb_phy) : bool := instance phy =? 1.

(** [struct tegra_ulpi_config *config = phy->config;] read through. *)
Definition ulpi_config_of (phy : tegra_usb_phy) : M tegra_ulpi_config :=
  lift_option (as_ulpi_config (config phy)).

Definition utmip_config_of (phy : tegra_usb_phy) : M tegra_utmip_config :=
  lift_option (as_utmip_config (config phy)).

(** [phy->freq->...] *)
Definition freq_of (phy : tegra_usb_phy) : M tegra_xtal_freq :=
  lift_option (freq_deref (phy_freq phy)).

(** [phy_is_ulpi(phy) && (config->inf_type == TEGRA_USB_UHSIC)] *)
Definition phy_is_uhsic (phy : tegra_usb_phy) : M bool :=
  if phy_is_ulpi phy then
    c <- ulpi_config_of phy ;; ret (phy_type_eqb (inf_type c) TEGRA_USB_UHSIC)
  else ret false.

Section WithConfig.

Variable cfg : kconfig.

(** [usb_phy_data[]], as [tegra_usb_phy_init] left it. *)
Variable usb_phy_data : Z -> usb_phy_plat_data.

(** The enumerators of [enum tegra_usb_phy_port_speed] are declared in
    [mach/usb_phy.h], which is not among the sources; their values are
    parameters of the model. *)
Variable TEGRA_USB_PHY_PORT_SPEED_LOW : Z.

Definition utmip_pad_power_on (phy : tegra_usb_phy) : M unit :=
  let base := pad_regs phy in
  clk_enable "utmip-pad" ;;
  spin_lock_irqsave "utmip_pad_lock" ;;
  s <- get ;;
  let old := utmip_pad_count s in
  modify (set_utmip_pad_count (wrap_int (old + 1))) ;;
  when (old =? 0)
    (rmw (Mmio (base + UTMIP_BIAS_CFG0))
         (fun val => clr val (Z.lor UTMIP_OTGPD UTMIP_BIASPD))) ;;
  spin_unlock_irqrestore "utmip_pad_lock" ;;
  clk_disable "utmip-pad".

Definition utmip_pad_power_off (phy : tegra_usb_phy) : M Z :=
  let base := pad_regs phy in
  s <- get ;;
  if utmip_pad_count s =? 0 then
    pr_err "utmip pad already powered off" ;;
    ret (- EINVAL)
  else
    clk_enable "utmip-pad" ;;
    spin_lock_irqsave "utmip_pad_lock" ;;
    s <- get ;;
    let new := wrap_int (utmip_pad_count s - 1) in
    modify (set_utmip_pad_count new) ;;
    when (new =? 0)
      (rmw (Mmio (base + UTMIP_BIAS_CFG0))
           (fun val => Z.lor val (Z.lor UTMIP_OTGPD UTMIP_BIASPD))) ;;
    spin_unlock_irqrestore "utmip_pad_lock" ;;
    clk_disable "utmip-pad" ;;
    ret 0.

(** The [do { ... } while (timeout)] loop of [utmi_wait_register];
    [timeout] is the [unsigned long] counter, [fuel] bounds the
    unfolding. *)
Fixpoint utmi_wait_loop (fuel : nat) (reg : ioaddr) (mask result timeout : Z)
  : M Z :=
  match fuel with
  | O => stuck
  | S fuel' =>
      v <- readl reg ;;
      if Z.land v mask =? result then ret 0
      else
        udelay 1 ;;
        let timeout' := wrap32 (timeout - 1) in
        if timeout' =? 0 then ret (-1)
        else utmi_wait_loop fuel' reg mask result timeout'
  end.

Definition utmi_wait_timeout : Z :=
  if CONFIG_MACH_N1 cfg then 50000 else 2000.

Definition utmi_wait_register (reg : ioaddr) (mask result : Z) : M Z :=
  utmi_wait_loop (Z.to_nat utmi_wait_timeout) reg mask result utmi_wait_timeout.

Definition utmi_phy_clk_disable (phy : tegra_usb_phy) : M unit :=
  let base := regs phy in
  when (instance phy =? 0)
    (rmw (Mmio (base + USB_SUSP_CTRL)) (fun val => Z.lor val USB_SUSP_SET) ;;
     udelay 10 ;;
     rmw (Mmio (base + USB_SUSP_CTRL)) (fun val => clr val USB_SUSP_SET)) ;;
  when (instance phy =? 2)
    (rmw (Mmio (base + USB_PORTSC1)) (fun val => Z.lor val USB_PORTSC1_PHCD)) ;;
  r <- utmi_wait_register (Mmio (base + USB_SUSP_CTRL)) USB_PHY_CLK_VALID 0 ;;
  when (r <? 0) (pr_err "timeout waiting for phy to stabilize").

Definition utmi_phy_clk_enable (phy : tegra_usb_phy) : M unit :=
  let base := regs phy in
  when (instance phy =? 0)
    (rmw (Mmio (base + USB_SUSP_CTRL)) (fun val => Z.lor val USB_SUSP_CLR) ;;
     udelay 10 ;;
     rmw (Mmio (base + USB_SUSP_CTRL)) (fun val => clr val USB_SUSP_CLR)) ;;
  when (instance phy =? 2)
    (rmw (Mmio (base + USB_PORTSC1)) (fun val => clr val USB_PORTSC1_PHCD)) ;;
  r <- utmi_wait_register (Mmio (base + USB_SUSP_CTRL))
                          USB_PHY_CLK_VALID USB_PHY_CLK_VALID ;;
  when (negb (r =? 0)) (pr_err "timeout waiting for phy to stabilize").

Definition vbus_enable (gpio : Z) : M unit :=
  if gpio =? -1 then ret tt
  else
    gpio_status <- ext_call "gpio_request" ;;
    if gpio_status <? 0 then ext_proc "WARN_ON"
    else
      ext_proc "tegra_gpio_enable" ;;
      gpio_status <- ext_call "gpio_direction_output" ;;
      if gpio_status <? 0 then ext_proc "WARN_ON"
      else gpio_set_value (GPIO_NUM gpio) 1.

Definition vbus_disable (gpio : Z) : M unit :=
  if gpio =? -1 then ret tt
  else gpio_set_value (GPIO_NUM gpio) 0 ;; ext_proc "gpio_free".

Definition is_host (phy : tegra_usb_phy) : bool :=
  match mode phy with TEGRA_USB_PHY_MODE_HOST => true | _ => false end.

Definition is_device (phy : tegra_usb_phy) : bool :=
  match mode phy with TEGRA_USB_PHY_MODE_DEVICE => true | _ => false end.

Definition utmi_phy_power_on (phy : tegra_usb_phy) : M Z :=
  let base := regs phy in
  config <- utmip_config_of phy ;;
  rmw (Mmio (base + USB_SUSP_CTRL)) (fun val => Z.lor val UTMIP_RESET) ;;
  when (instance phy =? 0)
    (rmw (Mmio (base + USB1_LEGACY_CTRL))
         (fun val => Z.lor val USB1_NO_LEGACY_MODE)) ;;
  rmw (Mmio (base + UTMIP_TX_CFG0)) (fun val => clr val UTMIP_FS_PREABMLE_J) ;;
  rmw (Mmio (base + UTMIP_HSRX_CFG0))
      (fun val =>
         let val := clr val (Z.lor (UTMIP_IDLE_WAIT ALL_ONES)
                                   (UTMIP_ELASTIC_LIMIT ALL_ONES)) in
         let val := Z.lor val (UTMIP_IDLE_WAIT (idle_wait_delay config)) in
         Z.lor val (UTMIP_ELASTIC_LIMIT (elastic_limit config))) ;;
  rmw (Mmio (base + UTMIP_HSRX_CFG1))
      (fun val =>
         let val := clr val (UTMIP_HS_SYNC_START_DLY ALL_ONES) in
         Z.lor val (UTMIP_HS_SYNC_START_DLY (hssync_start_delay config))) ;;
  f <- freq_of phy ;;
  rmw (Mmio (base + UTMIP_DEBOUNCE_CFG0))
      (fun val =>
         let val := clr val (UTMIP_BIAS_DEBOUNCE_A ALL_ONES) in
         Z.lor val (UTMIP_BIAS_DEBOUNCE_A (debounce f))) ;;
  rmw (Mmio (base + UTMIP_MISC_CFG0))
      (fun val => clr val UTMIP_SUSPEND_EXIT_ON_EDGE) ;;
  rmw (Mmio (base + UTMIP_MISC_CFG1))
      (fun val =>
         let val := clr val (Z.lor (UTMIP_PLL_ACTIVE_DLY_COUNT ALL_ONES)
                                   (UTMIP_PLLU_STABLE_COUNT ALL_ONES)) in
         Z.lor val (Z.lor (UTMIP_PLL_ACTIVE_DLY_COUNT (active_delay f))
                          (UTMIP_PLLU_STABLE_COUNT (stable_count f)))) ;;
  rmw (Mmio (base + UTMIP_PLL_CFG1))
      (fun val =>
         let val := clr val (Z.lor (UTMIP_XTAL_FREQ_COUNT ALL_ONES)
                                   (UTMIP_PLLU_ENABLE_DLY_COUNT ALL_ONES)) in
         Z.lor val (Z.lor (UTMIP_XTAL_FREQ_COUNT (xtal_freq_count f))
                          (UTMIP_PLLU_ENABLE_DLY_COUNT (enable_delay f)))) ;;
  when (is_device phy)
    (rmw (Mmio (base + USB_SUSP_CTRL))
         (fun val => clr val (Z.lor USB_WAKE_ON_CNNT_EN_DEV
                                    USB_WAKE_ON_DISCON_EN_DEV))) ;;
  utmip_pad_power_on phy ;;
  rmw (Mmio (base + UTMIP_XCVR_CFG0))
      (fun val =>
         let val := clr val (lor_all [UTMIP_FORCE_PD_POWERDOWN;
                                      UTMIP_FORCE_PD2_POWERDOWN;
                                      UTMIP_FORCE_PDZI_POWERDOWN;
                                      UTMIP_XCVR_SETUP ALL_ONES;
                                      UTMIP_XCVR_LSFSLEW ALL_ONES;
                                      UTMIP_XCVR_LSRSLEW ALL_ONES;
                                      UTMIP_XCVR_HSSLEW_MSB ALL_ONES]) in
         let val := Z.lor val (UTMIP_XCVR_SETUP (xcvr_setup config)) in
         let val := Z.lor val (UTMIP_XCVR_LSFSLEW (xcvr_lsfslew config)) in
         Z.lor val (UTMIP_XCVR_LSRSLEW (xcvr_lsrslew config))) ;;
  rmw (Mmio (base + UTMIP_XCVR_CFG1))
      (fun val =>
         let val := clr val (lor_all [UTMIP_FORCE_PDDISC_POWERDOWN;
                                      UTMIP_FORCE_PDCHRP_POWERDOWN;
                                      UTMIP_FORCE_PDDR_POWERDOWN;
                                      UTMIP_XCVR_TERM_RANGE_ADJ ALL_ONES]) in
         Z.lor val (UTMIP_XCVR_TERM_RANGE_ADJ (term_range_adj config))) ;;
  rmw (Mmio (base + UTMIP_BAT_CHRG_CFG0)) (fun val => clr val UTMIP_PD_CHRG) ;;
  rmw (Mmio (base + UTMIP_BIAS_CFG1))
      (fun val =>
         let val := clr val (UTMIP_BIAS_PDTRK_COUNT ALL_ONES) in
         Z.lor val (UTMIP_BIAS_PDTRK_COUNT 0x5)) ;;
  when (instance phy =? 0)
    (rmw (Mmio (base + UTMIP_SPARE_CFG0))
         (fun val => if is_device phy then clr val FUSE_SETUP_SEL
                     else Z.lor val FUSE_SETUP_SEL)) ;;
  when (instance phy =? 2)
    (rmw (Mmio (base + USB_SUSP_CTRL)) (fun val => Z.lor val UTMIP_PHY_ENABLE)) ;;
  rmw (Mmio (base + USB_SUSP_CTRL)) (fun val => clr val UTMIP_RESET) ;;
  when (instance phy =? 0)
    (rmw (Mmio (base + USB1_LEGACY_CTRL))
         (fun val => Z.lor (clr val USB1_VBUS_SENSE_CTL_MASK)
                           USB1_VBUS_SENSE_CTL_A_SESS_VLD) ;;
     rmw (Mmio (base + USB_SUSP_CTRL)) (fun val => clr val USB_SUSP_SET) ;;
     when (CONFIG_MACH_N1 cfg && is_host phy) (ext_proc "tegra_usb1_power(1)")) ;;
  utmi_phy_clk_enable phy ;;
  when (instance phy =? 2)
    (rmw (Mmio (base + USB_PORTSC1))
         (fun val => clr val (USB_PORTSC1_PTS ALL_ONES))) ;;
  when (is_host phy) (vbus_enable (vbus_gpio (usb_phy_data (instance phy)))) ;;
  ret 0.

Definition utmi_phy_power_off (phy : tegra_usb_phy) : M unit :=
  let base := regs phy in
  utmi_phy_clk_disable phy ;;
  when (CONFIG_MACH_N1 cfg && (instance phy =? 0) && is_host phy)
    (ext_proc "tegra_usb1_power(0)") ;;
  when (is_host phy) (vbus_disable (vbus_gpio (usb_phy_data (instance phy)))) ;;
  when (is_device phy)
    (rmw (Mmio (base + USB_SUSP_CTRL))
         (fun val =>
            let val := clr val (USB_WAKEUP_DEBOUNCE_COUNT ALL_ONES) in
            Z.lor val (Z.lor USB_WAKE_ON_CNNT_EN_DEV
                             (USB_WAKEUP_DEBOUNCE_COUNT 5)))) ;;
  rmw (Mmio (base + USB_SUSP_CTRL)) (fun val => Z.lor val UTMIP_RESET) ;;
  rmw (Mmio (base + UTMIP_BAT_CHRG_CFG0)) (fun val => Z.lor val UTMIP_PD_CHRG) ;;
  rmw (Mmio (base + UTMIP_XCVR_CFG0))
      (fun val => Z.lor val (lor_all [UTMIP_FORCE_PD_POWERDOWN;
                                      UTMIP_FORCE_PD2_POWERDOWN;
                                      UTMIP_FORCE_PDZI_POWERDOWN])) ;;
  rmw (Mmio (base + UTMIP_XCVR_CFG1))
      (fun val => Z.lor val (lor_all [UTMIP_FORCE_PDDISC_POWERDOWN;
                                      UTMIP_FORCE_PDCHRP_POWERDOWN;
                                      UTMIP_FORCE_PDDR_POWERDOWN])) ;;
  _ <- utmip_pad_power_off phy ;;
  ret tt.

Definition utmi_phy_preresume (phy : tegra_usb_phy) : M unit :=
  rmw (Mmio (regs phy + UTMIP_TX_CFG0))
      (fun val => Z.lor val UTMIP_HS_DISCON_DISABLE).

Definition utmi_phy_postresume (phy : tegra_usb_phy) : M unit :=
  rmw (Mmio (regs phy + UTMIP_TX_CFG0))
      (fun val => clr val UTMIP_HS_DISCON_DISABLE).

Definition uhsic_phy_postresume (phy : tegra_usb_phy) : M unit :=
  val <- readl (Mmio (regs phy + USB_TXFILLTUNING)) ;;
  when (negb (Z.land val USB_FIFO_TXFILL_MASK =? USB_FIFO_TXFILL_THRES 0x10))
    (writel (USB_FIFO_TXFILL_THRES 0x10) (Mmio (regs phy + USB_TXFILLTUNING))).

Definition utmi_phy_restore_start (phy : tegra_usb_phy) (port_speed : Z)
  : M unit :=
  let base := regs phy in
  rmw (Mmio (base + UTMIP_MISC_CFG0))
      (fun val =>
         let val := clr val (UTMIP_DPDM_OBSERVE_SEL ALL_ONES) in
         if port_speed =? TEGRA_USB_PHY_PORT_SPEED_LOW
         then Z.lor val UTMIP_DPDM_OBSERVE_SEL_FS_K
         else Z.lor val UTMIP_DPDM_OBSERVE_SEL_FS_J) ;;
  udelay 1 ;;
  rmw (Mmio (base + UTMIP_MISC_CFG0)) (fun val => Z.lor val UTMIP_DPDM_OBSERVE) ;;
  udelay 10.

Definition utmi_phy_restore_end (phy : tegra_usb_phy) : M unit :=
  rmw (Mmio (regs phy + UTMIP_MISC_CFG0))
      (fun val => clr val UTMIP_DPDM_OBSERVE) ;;
  udelay 10.

Definition ulpi_phy_power_on (phy : tegra_usb_phy) : M Z :=
  let base := regs phy in
  config <- ulpi_config_of phy ;;
  gpio_set_value (GPIO_NUM (reset_gpio config)) 0 ;;
  msleep 5 ;;
  gpio_set_value (GPIO_NUM (reset_gpio config)) 1 ;;
  clk_enable (clk_name config) ;;
  msleep 1 ;;
  rmw (Mmio (base + USB_SUSP_CTRL)) (fun val => Z.lor val UHSIC_RESET) ;;
  rmw (Mmio (base + ULPI_TIMING_CTRL_0))
      (fun val => Z.lor val (Z.lor ULPI_OUTPUT_PINMUX_BYP ULPI_CLKOUT_PINMUX_BYP)) ;;
  rmw (Mmio (base + USB_SUSP_CTRL)) (fun val => Z.lor val ULPI_PHY_ENABLE) ;;
  let val := 0 in
  writel val (Mmio (base + ULPI_TIMING_CTRL_1)) ;;
  let val := lor_all [val; ULPI_DATA_TRIMMER_SEL 4;
                      ULPI_STPDIRNXT_TRIMMER_SEL 4; ULPI_DIR_TRIMMER_SEL 4] in
  writel val (Mmio (base + ULPI_TIMING_CTRL_1)) ;;
  udelay 10 ;;
  let val := lor_all [val; ULPI_DATA_TRIMMER_LOAD;
                      ULPI_STPDIRNXT_TRIMMER_LOAD; ULPI_DIR_TRIMMER_LOAD] in
  writel val (Mmio (base + ULPI_TIMING_CTRL_1)) ;;
  r <- ext_call "otg_io_write(0x40, 0x08)" ;;
  if negb (r =? 0) then pr_err "ulpi write failed" ;; ret r
  else
    r <- ext_call "otg_io_write(0x80, 0x0B)" ;;
    if negb (r =? 0) then pr_err "ulpi write failed" ;; ret r
    else
      rmw (Mmio (base + USB_PORTSC1))
          (fun val => Z.lor val (lor_all [USB_PORTSC1_WKOC; USB_PORTSC1_WKDS;
                                          USB_PORTSC1_WKCN])) ;;
      rmw (Mmio (base + USB_SUSP_CTRL)) (fun val => Z.lor val USB_SUSP_CLR) ;;
      udelay 100 ;;
      rmw (Mmio (base + USB_SUSP_CTRL)) (fun val => clr val USB_SUSP_CLR) ;;
      ret 0.

Definition ulpi_phy_power_off (phy : tegra_usb_phy) : M unit :=
  let base := regs phy in
  config <- ulpi_config_of phy ;;
  rmw (Mmio (base + USB_PORTSC1))
      (fun val => clr val (lor_all [USB_PORTSC1_WKOC; USB_PORTSC1_WKDS;
                                    USB_PORTSC1_WKCN])) ;;
  gpio_set_value (GPIO_NUM (reset_gpio config)) 0 ;;
  clk_disable (clk_name config).

Definition default_trimmer : tegra_ulpi_trimmer := mk_trimmer 0 0 4 4.

(** [config->trimmer = &default_trimmer] is kept local to the call. *)
Definition null_phy_power_on (phy : tegra_usb_phy) : M Z :=
  let base := regs phy in
  config <- ulpi_config_of phy ;;
  when (preinit config) (ext_proc "preinit") ;;
  let trimmer :=
    match trimmer config with Some t => t | None => default_trimmer end in
  rmw (Mmio (base + USB_SUSP_CTRL)) (fun val => Z.lor val UHSIC_RESET) ;;
  rmw (Mmio (base + ULPI_TIMING_CTRL_0))
      (fun val => Z.lor val (Z.lor ULPI_OUTPUT_PINMUX_BYP ULPI_CLKOUT_PINMUX_BYP)) ;;
  rmw (Mmio (base + USB_SUSP_CTRL)) (fun val => Z.lor val ULPI_PHY_ENABLE) ;;
  rmw (Mmio (base + ULPI_TIMING_CTRL_0))
      (fun val => lor_all [val; ULPI_SHADOW_CLK_LOOPBACK_EN; ULPI_SHADOW_CLK_SEL;
                           ULPI_OUTPUT_PINMUX_BYP; ULPI_CLKOUT_PINMUX_BYP;
                           ULPI_LBK_PAD_EN;
                           ULPI_SHADOW_CLK_DELAY (shadow_clk_delay trimmer);
                           ULPI_CLOCK_OUT_DELAY (clock_out_delay trimmer);
                           ULPI_LBK_PAD_E_INPUT_OR]) ;;
  writel 0 (Mmio (base + ULPI_TIMING_CTRL_1)) ;;
  udelay 10 ;;
  writel (lor_all [ULPIS2S_ENA; ULPIS2S_PLLU_MASTER_BLASTER60;
                   ULPIS2S_SPARE (if is_host phy then 3 else 1)])
         (Mmio (base + ULPIS2S_CTRL)) ;;
  rmw (Mmio (base + ULPI_TIMING_CTRL_0)) (fun val => Z.lor val ULPI_CORE_CLK_SEL) ;;
  udelay 10 ;;
  rmw (Mmio (base + ULPI_TIMING_CTRL_0)) (fun val => Z.lor val ULPI_CLK_OUT_ENA) ;;
  udelay 10 ;;
  let val := lor_all [ULPI_DATA_TRIMMER_SEL (data_trimmer trimmer);
                      ULPI_STPDIRNXT_TRIMMER_SEL (stpdirnxt_trimmer trimmer);
                      ULPI_DIR_TRIMMER_SEL 4] in
  writel val (Mmio (base + ULPI_TIMING_CTRL_1)) ;;
  udelay 10 ;;
  let val := lor_all [val; ULPI_DATA_TRIMMER_LOAD;
                      ULPI_STPDIRNXT_TRIMMER_LOAD; ULPI_DIR_TRIMMER_LOAD] in
  writel val (Mmio (base + ULPI_TIMING_CTRL_1)) ;;
  rmw (Mmio (base + ULPI_TIMING_CTRL_0)) (fun val => Z.lor val ULPI_CLK_PADOUT_ENA) ;;
  udelay 10 ;;
  rmw (Mmio (base + USB_SUSP_CTRL)) (fun val => Z.lor val USB_SUSP_CLR) ;;
  udelay 100 ;;
  rmw (Mmio (base + USB_SUSP_CTRL)) (fun val => clr val USB_SUSP_CLR) ;;
  r <- utmi_wait_register (Mmio (base + USB_SUSP_CTRL))
                          USB_PHY_CLK_VALID USB_PHY_CLK_VALID ;;
  when (negb (r =? 0)) (pr_err "timeout waiting for phy to stabilize") ;;
  when (postinit config) (ext_proc "postinit") ;;
  ret 0.

Definition null_phy_power_off (phy : tegra_usb_phy) : M unit :=
  rmw (Mmio (regs phy + ULPI_TIMING_CTRL_0))
      (fun val => clr val ULPI_CLK_PADOUT_ENA).

Definition uhsic_phy_power_off (phy : tegra_usb_phy) : M unit :=
  let base := regs phy in
  rmw (Mmio (base + UHSIC_PADS_CFG1))
      (fun val => Z.lor (clr val UHSIC_RPU_STROBE) UHSIC_RPD_STROBE) ;;
  rmw (Mmio (base + USB_SUSP_CTRL)) (fun val => Z.lor val UHSIC_RESET) ;;
  udelay 30 ;;
  rmw (Mmio (base + USB_SUSP_CTRL)) (fun val => clr val UHSIC_PHY_ENABLE) ;;
  when (CONFIG_MACH_N1 cfg)
    (v <- gpio_get_value GPIO_CP_RST ;;
     when (negb (v =? 0)) (gpio_set_value GPIO_ACTIVE_STATE_HSIC 0)).

(** One pass over the register sequence between [retry:] and the retry
    test of [uhsic_phy_power_on]. *)
Definition uhsic_phy_power_on_sequence (phy : tegra_usb_phy) : M unit :=
  let base := regs phy in
  let config := uhsic_default in
  rmw (Mmio (base + UHSIC_PADS_CFG1))
      (fun val =>
         Z.lor (clr val (lor_all [UHSIC_PD_BG; UHSIC_PD_TX; UHSIC_PD_TRK;
                                  UHSIC_PD_RX; UHSIC_PD_ZI; UHSIC_RPD_DATA;
                                  UHSIC_RPD_STROBE]))
               UHSIC_RX_SEL) ;;
  udelay 2 ;;
  rmw (Mmio (base + USB_SUSP_CTRL)) (fun val => Z.lor val UHSIC_RESET) ;;
  udelay 30 ;;
  rmw (Mmio (base + USB_SUSP_CTRL)) (fun val => Z.lor val UHSIC_PHY_ENABLE) ;;
  rmw (Mmio (base + UHSIC_HSRX_CFG0))
      (fun val =>
         lor_all [val; UHSIC_IDLE_WAIT (uhsic_idle_wait_delay config);
                  UHSIC_ELASTIC_UNDERRUN_LIMIT (elastic_underrun_limit config);
                  UHSIC_ELASTIC_OVERRUN_LIMIT (elastic_overrun_limit config)]) ;;
  rmw (Mmio (base + UHSIC_HSRX_CFG1))
      (fun val => Z.lor val (UHSIC_HS_SYNC_START_DLY (sync_start_delay config))) ;;
  rmw (Mmio (base + UHSIC_MISC_CFG0))
      (fun val => Z.lor val UHSIC_SUSPEND_EXIT_ON_EDGE) ;;
  f <- freq_of phy ;;
  rmw (Mmio (base + UHSIC_MISC_CFG1))
      (fun val => Z.lor val (UHSIC_PLLU_STABLE_COUNT (stable_count f))) ;;
  rmw (Mmio (base + UHSIC_PLL_CFG1))
      (fun val =>
         lor_all [val; UHSIC_PLLU_ENABLE_DLY_COUNT (enable_delay f);
                  UHSIC_XTAL_FREQ_COUNT (xtal_freq_count f)]) ;;
  rmw (Mmio (base + USB_SUSP_CTRL)) (fun val => clr val UHSIC_RESET) ;;
  udelay 2 ;;
  rmw (Mmio (base + USB_PORTSC1)) (fun val => clr val (USB_PORTSC1_PTS ALL_ONES)) ;;
  val <- readl (Mmio (base + USB_TXFILLTUNING)) ;;
  when (negb (Z.land val USB_FIFO_TXFILL_MASK =? USB_FIFO_TXFILL_THRES 0x10))
    (writel (USB_FIFO_TXFILL_THRES 0x10) (Mmio (base + USB_TXFILLTUNING))) ;;
  when (CONFIG_MACH_N1 cfg)
    (value <- readl (Mmio MEM_6000_C0E4) ;;
     when (negb (Z.land value 0x80000000 =? 0x80000000))
       (writel (lor_all [Z.shiftl 1 31; Z.shiftl 18 26; Z.shiftl 9 21;
                         Z.shiftl 0 16; 0x800])
               (Mmio MEM_6000_C0E4))) ;;
  rmw (Mmio (base + USB_PORTSC1))
      (fun val => clr val (lor_all [USB_PORTSC1_WKOC; USB_PORTSC1_WKDS;
                                    USB_PORTSC1_WKCN])) ;;
  rmw (Mmio (base + UHSIC_PADS_CFG0))
      (fun val => Z.lor (clr val UHSIC_TX_RTUNEN) (UHSIC_TX_RTUNE 0)) ;;
  r <- utmi_wait_register (Mmio (base + USB_SUSP_CTRL))
                          USB_PHY_CLK_VALID USB_PHY_CLK_VALID ;;
  when (negb (r =? 0)) (pr_err "timeout waiting for phy to stabilize") ;;
  _ <- readl (Mmio (base + USB_PORTSC1)) ;;
  ret tt.

(** What runs between a failed attempt and [goto retry]. *)
Definition uhsic_phy_power_on_recover (phy : tegra_usb_phy) : M unit :=
  pr_err "register init fail, retry phy power on" ;;
  uhsic_phy_power_off phy ;;
  mdelay 10 ;;
  gpio_set_value GPIO_IPC_SLAVE_WAKEUP 1 ;;
  mdelay 10 ;;
  gpio_set_value GPIO_IPC_SLAVE_WAKEUP 0 ;;
  mdelay 10.

(** The body from [retry:] on; [spin] is the [int] retry counter. *)
Fixpoint uhsic_phy_power_on_retry (fuel : nat) (phy : tegra_usb_phy) (spin : Z)
  : M Z :=
  match fuel with
  | O => stuck
  | S fuel' =>
      uhsic_phy_power_on_sequence phy ;;
      if CONFIG_MACH_N1 cfg then
        active <- gpio_get_value GPIO_PHONE_ACTIVE ;;
        if negb (active =? 0) then
          let spin' := wrap_int (spin - 1) in
          if spin >? 0 then
            val <- readl (Mmio (regs phy + USB_PORTSC1)) ;;
            if negb (Z.land val (USB_PORTSC1_PSPD ALL_ONES)
                       =? USB_PORTSC1_PSPD ALL_ONES)
            then
              uhsic_phy_power_on_recover phy ;;
              uhsic_phy_power_on_retry fuel' phy spin'
            else ret 0
          else ret 0
        else ret 0
      else ret 0
  end.

Definition uhsic_spin : Z := 5.

Definition uhsic_phy_power_on (phy : tegra_usb_phy) : M Z :=
  ulpi_config <- ulpi_config_of phy ;;
  when (preinit ulpi_config) (ext_proc "preinit") ;;
  uhsic_phy_power_on_retry (S (Z.to_nat uhsic_spin)) phy uhsic_spin.

Definition usb_enable_phy_clk (phy : tegra_usb_phy) : M Z :=
  let addr := Mmio (regs phy + USB_SUSP_CTRL) in
  val <- readl addr ;;
  writel (Z.lor val USB_SUSP_CLR) addr ;;
  r <- utmi_wait_register addr USB_PHY_CLK_VALID USB_PHY_CLK_VALID ;;
  when (negb (r =? 0)) (pr_err "failed turn on EHCI port PHY clock(CLK_VALID)") ;;
  r <- utmi_wait_register addr USB_CLKEN USB_CLKEN ;;
  when (negb (r =? 0)) (pr_err "failed turn on EHCI port PHY clock (CLKEN)") ;;
  val <- readl addr ;;
  writel (clr val USB_SUSP_CLR) addr ;;
  ret r.

Definition usb_disable_phy_clk (phy : tegra_usb_phy) : M Z :=
  let base := regs phy in
  (if instance phy =? 0 then
     val <- readl (Mmio (base + USB_SUSP_CTRL)) ;;
     writel (Z.lor val USB_SUSP_SET) (Mmio (base + USB_SUSP_CTRL)) ;;
     udelay 10 ;;
     writel (clr val USB_SUSP_SET) (Mmio (base + USB_SUSP_CTRL))
   else if (instance phy =? 1) || (instance phy =? 2) then
     val <- readl (Mmio (base + USB_PORTSC1)) ;;
     writel (Z.lor val USB_PORTSC1_PHCD) (Mmio (base + USB_PORTSC1))
   else pr_err "unknow USB instance") ;;
  r <- utmi_wait_register (Mmio (base + USB_SUSP_CTRL)) USB_PHY_CLK_VALID 0 ;;
  when (negb (r =? 0)) (pr_err "failed turn off EHCI port PHY clock") ;;
  ret r.

Definition tegra_usb_set_phy_clock (phy : tegra_usb_phy) (clock_on : Z) : M Z :=
  phy_enter OpSetPhyClock ;;
  r <- (if negb (clock_on =? 0) then usb_enable_phy_clk phy
        else usb_disable_phy_clk phy) ;;
  phy_leave OpSetPhyClock r.

Definition tegra_usb_phy_power_on (phy : tegra_usb_phy) : M Z :=
  phy_enter OpPowerOn ;;
  when (CONFIG_MACH_N1 cfg && (instance phy =? 1))
    (gpio_set_value GPIO_HSIC_EN 1) ;;
  (if CONFIG_MACH_N1 cfg then
     when (usb_ldo_en (usb_phy_data (instance phy))) (ext_proc "usb_ldo_en(1)")
   else
     s <- get ;;
     when (regulator_on s =? 0)
       (ext_proc "regulator_enable" ;; modify (set_regulator_on 1))) ;;
  r <- (if phy_is_ulpi phy then
          ulpi_config <- ulpi_config_of phy ;;
          match inf_type ulpi_config with
          | TEGRA_USB_LINK_ULPI => ulpi_phy_power_on phy
          | TEGRA_USB_UHSIC => uhsic_phy_power_on phy
          | TEGRA_USB_NULL_ULPI => null_phy_power_on phy
          end
        else utmi_phy_power_on phy) ;;
  phy_leave OpPowerOn r.

Definition tegra_usb_phy_power_off (phy : tegra_usb_phy) : M unit :=
  phy_enter OpPowerOff ;;
  (if phy_is_ulpi phy then
     ulpi_config <- ulpi_config_of phy ;;
     match inf_type ulpi_config with
     | TEGRA_USB_LINK_ULPI => ulpi_phy_power_off phy
     | TEGRA_USB_UHSIC =>
         uhsic_phy_power_off phy ;;
         when (CONFIG_MACH_N1 cfg && (instance phy =? 1))
           (gpio_set_value GPIO_HSIC_EN 0)
     | TEGRA_USB_NULL_ULPI => null_phy_power_off phy
     end
   else utmi_phy_power_off phy) ;;
  if CONFIG_MACH_N1 cfg then
    when (usb_ldo_en (usb_phy_data (instance phy))) (ext_proc "usb_ldo_en(0)")
  else
    s <- get ;;
    if negb (regulator_on s =? 0) then
      rev_ok <- ext_call "tegra_get_revision() >= TEGRA_REVISION_A03" ;;
      when (negb (rev_ok =? 0))
        (ext_proc "regulator_disable" ;; modify (set_regulator_on 0))
    else ret tt.

Definition tegra_usb_phy_preresume (phy : tegra_usb_phy) : M unit :=
  phy_enter OpPreresume ;;
  when (negb (phy_is_ulpi phy)) (utmi_phy_preresume phy).

Definition tegra_usb_phy_postresume (phy : tegra_usb_phy) : M unit :=
  phy_enter OpPostresume ;;
  hsic <- phy_is_uhsic phy ;;
  if hsic then uhsic_phy_postresume phy
  else when (negb (phy_is_ulpi phy)) (utmi_phy_postresume phy).

Definition tegra_ehci_phy_restore_start (phy : tegra_usb_phy) (port_speed : Z)
  : M unit :=
  phy_enter OpRestoreStart ;;
  when (negb (phy_is_ulpi phy)) (utmi_phy_restore_start phy port_speed).

Definition tegra_ehci_phy_restore_end (phy : tegra_usb_phy) : M unit :=
  phy_enter OpRestoreEnd ;;
  when (negb (phy_is_ulpi phy)) (utmi_phy_restore_end phy).

(** The error the HSIC bus operations return on a timeout. *)
Definition hsic_timeout_error : Z :=
  if CONFIG_MACH_N1 cfg then - ENOTCONN else - ETIMEDOUT.

Definition hsic_connect_lines (base : Z) : M unit :=
  rmw (Mmio (base + UHSIC_MISC_CFG0))
      (fun val => Z.lor val UHSIC_DETECT_SHORT_CONNECT) ;;
  udelay 1 ;;
  rmw (Mmio (base + UHSIC_MISC_CFG0)) (fun val => Z.lor val UHSIC_FORCE_XCVR_MODE) ;;
  rmw (Mmio (base + UHSIC_PADS_CFG1))
      (fun val => Z.lor (clr val UHSIC_RPD_STROBE) UHSIC_RPU_STROBE).

Definition bus_connect_waits (base : Z) : M Z :=
  r <- utmi_wait_register (Mmio (base + UHSIC_STAT_CFG0))
                          UHSIC_CONNECT_DETECT UHSIC_CONNECT_DETECT ;;
  if r <? 0 then
    pr_err "timeout waiting for hsic connect detect" ;; ret hsic_timeout_error
  else
    r <- utmi_wait_register (Mmio (base + USB_PORTSC1))
                            (USB_PORTSC1_LS 2) (USB_PORTSC1_LS 2) ;;
    if r <? 0 then
      pr_err "timeout waiting for dplus state" ;; ret hsic_timeout_error
    else ret 0.

Definition tegra_usb_phy_bus_connect (phy : tegra_usb_phy) : M Z :=
  let base := regs phy in
  phy_enter OpBusConnect ;;
  hsic <- phy_is_uhsic phy ;;
  r <- (if hsic then
          s <- get ;;
          if negb (CONFIG_MACH_N1 cfg) && (regulator_on s =? 0)
          then ret (- ENOTCONN)
          else
            hsic_connect_lines base ;;
            if CONFIG_MACH_N1 cfg then
              v <- gpio_get_value GPIO_CP_RST ;;
              if negb (v =? 0) then
                gpio_set_value GPIO_ACTIVE_STATE_HSIC 1 ;;
                bus_connect_waits base
              else ret (- ENOTCONN)
            else bus_connect_waits base
        else ret 0) ;;
  phy_leave OpBusConnect r.

(** [tegra_usb_phy_bus_reset] after the port-test pulse. *)
Definition bus_reset_handshakes (base : Z) : M Z :=
  r <- utmi_wait_register (Mmio (base + USB_PORTSC1)) (USB_PORTSC1_LS 0) 0 ;;
  if r <? 0 then pr_err "timeout waiting for SE0" ;; ret hsic_timeout_error
  else
  r <- utmi_wait_register (Mmio (base + USB_PORTSC1))
                          USB_PORTSC1_CCS USB_PORTSC1_CCS ;;
  if r <? 0 then
    pr_err "timeout waiting for connection status" ;; ret hsic_timeout_error
  else
  r <- utmi_wait_register (Mmio (base + USB_PORTSC1))
                          (USB_PORTSC1_PSPD 2) (USB_PORTSC1_PSPD 2) ;;
  if r <? 0 then
    pr_err "timeout waiting hsic high speed configuration" ;;
    ret hsic_timeout_error
  else
  rmw (Mmio (base + USB_USBCMD)) (fun val => clr val USB_USBCMD_RS) ;;
  r <- utmi_wait_register (Mmio (base + USB_USBSTS))
                          USB_USBSTS_HCH USB_USBSTS_HCH ;;
  if r <? 0 then
    pr_err "timeout waiting for stopping the controller" ;;
    ret hsic_timeout_error
  else
  rmw (Mmio (base + UHSIC_PADS_CFG1))
      (fun val => Z.lor (clr val UHSIC_RPU_STROBE) UHSIC_RPD_STROBE) ;;
  mdelay 50 ;;
  rmw (Mmio (base + UHSIC_PADS_CFG1))
      (fun val => Z.lor (clr val UHSIC_RPD_STROBE) UHSIC_RPU_STROBE) ;;
  rmw (Mmio (base + USB_USBCMD)) (fun val => Z.lor val USB_USBCMD_RS) ;;
  rmw (Mmio (base + UHSIC_PADS_CFG1)) (fun val => clr val UHSIC_RPU_STROBE) ;;
  r <- utmi_wait_register (Mmio (base + USB_USBCMD)) USB_USBCMD_RS USB_USBCMD_RS ;;
  if r <? 0 then
    pr_err "timeout waiting for starting the controller" ;;
    ret hsic_timeout_error
  else
  when (CONFIG_MACH_N1 cfg)
    (_ <- readl (Mmio (base + 0x1a8)) ;;
     _ <- readl (Mmio (base + USB_USBCMD)) ;;
     _ <- readl (Mmio (base + USB_PORTSC1)) ;;
     _ <- readl (Mmio (base + USB_USBSTS)) ;;
     ret tt) ;;
  ret 0.

Definition tegra_usb_phy_bus_reset (phy : tegra_usb_phy) : M Z :=
  let base := regs phy in
  phy_enter OpBusReset ;;
  hsic <- phy_is_uhsic phy ;;
  r <- (if hsic then
          rmw (Mmio (base + USB_PORTSC1))
              (fun val => Z.lor val (USB_PORTSC1_PTC 5)) ;;
          udelay 2 ;;
          rmw (Mmio (base + USB_PORTSC1))
              (fun val => clr val (USB_PORTSC1_PTC ALL_ONES)) ;;
          udelay 2 ;;
          if CONFIG_MACH_N1 cfg then
            v <- gpio_get_value GPIO_CP_RST ;;
            if v =? 0 then ret (- ENOTCONN) else bus_reset_handshakes base
          else bus_reset_handshakes base
        else ret 0) ;;
  phy_leave OpBusReset r.

(** The [for (val = 0; val < 3; val++)] loop of [tegra_usb_phy_bus_idle];
    the result tells whether connect-detect was seen. *)
Fixpoint bus_idle_redetect (fuel : nat) (base : Z) (val : Z) : M bool :=
  match fuel with
  | O => stuck
  | S fuel' =>
      if val <? 3 then
        r <- utmi_wait_register (Mmio (base + UHSIC_STAT_CFG0))
                                UHSIC_CONNECT_DETECT UHSIC_CONNECT_DETECT ;;
        if r =? 0 then ret true
        else bus_idle_redetect fuel' base (wrap32 (val + 1))
      else ret false
  end.

(** The CONFIG_MACH_N1 part of [tegra_usb_phy_bus_idle]. *)
Definition bus_idle_n1 (base : Z) : M unit :=
  active <- gpio_get_value GPIO_PHONE_ACTIVE ;;
  if active =? 0 then gpio_set_value GPIO_HSIC_EN 0
  else
    v <- gpio_get_value GPIO_CP_RST ;;
    if v =? 0 then ret tt
    else
      gpio_set_value GPIO_ACTIVE_STATE_HSIC 1 ;;
      r <- utmi_wait_register (Mmio (base + UHSIC_STAT_CFG0))
                              UHSIC_CONNECT_DETECT UHSIC_CONNECT_DETECT ;;
      if r =? 0 then ret tt
      else
        pr_err "connect detect timeout,trying reconnection" ;;
        gpio_set_value GPIO_ACTIVE_STATE_HSIC 0 ;;
        gpio_set_value GPIO_PDA_ACTIVE 0 ;;
        mdelay 30 ;;
        gpio_set_value GPIO_PDA_ACTIVE 1 ;;
        mdelay 10 ;;
        gpio_set_value GPIO_IPC_SLAVE_WAKEUP 1 ;;
        mdelay 10 ;;
        gpio_set_value GPIO_IPC_SLAVE_WAKEUP 0 ;;
        mdelay 10 ;;
        gpio_set_value GPIO_ACTIVE_STATE_HSIC 1 ;;
        seen <- bus_idle_redetect 4 base 0 ;;
        if seen then ret tt else gpio_set_value GPIO_HSIC_EN 0.

Definition tegra_usb_phy_bus_idle (phy : tegra_usb_phy) : M Z :=
  let base := regs phy in
  phy_enter OpBusIdle ;;
  hsic <- phy_is_uhsic phy ;;
  when hsic
    (hsic_connect_lines base ;;
     when (CONFIG_MACH_N1 cfg) (bus_idle_n1 base)) ;;
  phy_leave OpBusIdle 0.

Definition tegra_usb_phy_is_device_connected (phy : tegra_usb_phy) : M bool :=
  let base := regs phy in
  phy_enter OpIsDeviceConnected ;;
  hsic <- phy_is_uhsic phy ;;
  r <- (if hsic then
          absent <-
            (if CONFIG_MACH_N1 cfg then
               r <- utmi_wait_register (Mmio (base + UHSIC_STAT_CFG0))
                                       UHSIC_CONNECT_DETECT UHSIC_CONNECT_DETECT ;;
               ret (r <? 0)
             else
               v <- readl (Mmio (base + UHSIC_STAT_CFG0)) ;;
               ret (negb (Z.land v UHSIC_CONNECT_DETECT =? UHSIC_CONNECT_DETECT))) ;;
          if absent then pr_err "hsic no device connection" ;; ret false
          else
            r <- utmi_wait_register (Mmio (base + USB_PORTSC1))
                                    (USB_PORTSC1_LS 2) (USB_PORTSC1_LS 2) ;;
            if r <? 0 then pr_err "timeout waiting for dplus state" ;; ret false
            else ret true
        else ret true) ;;
  _ <- phy_leave OpIsDeviceConnected (if r then 1 else 0) ;;
  ret r.

(** *** [tegra_usb_phy_open]

    The outcomes of the kernel services the function calls are collected
    in a record.  [kmalloc] does not clear the block it returns:
    [kmalloc_stale_freq] is the bit pattern the block holds where the
    [freq] field lies.  The other fields are written before they are
    read. *)

Record open_env := mk_open_env {
  kmalloc_ok : bool;
  kmalloc_stale_freq : Z;
  pll_u_err : option Z;
  parent_rate : Z;
  ulpi_clk_err : option Z;
  pad_clk_err : option Z;
  ioremap_addr : Z;
  reg_vdd_err : option Z;
  request_irq_err : Z
}.

Definition raw_freq_ptr (bits : Z) : freq_ptr :=
  if bits =? 0 then FreqNull else FreqStale bits.

Definition freq_ptr_is_null (p : freq_ptr) : bool :=
  match p with
  | FreqNull => true
  | FreqStale bits => bits =? 0
  | FreqRow _ _ => false
  end.

(** The [for] loop over a frequency table: the index of the first row
    with [table[i].freq == parent_rate], an [int] compared with an
    [unsigned long]. *)
Fixpoint freq_lookup (table : list tegra_xtal_freq) (rate : Z) (i : nat)
  : option nat :=
  match table with
  | [] => None
  | row :: rest =>
      if wrap32 (freq row) =? rate then Some i else freq_lookup rest rate (S i)
  end.

Definition open_result : Type := (Z + tegra_usb_phy) * list event.

Definition open_err0 (err : Z) (evs : list event) : open_result :=
  (inl err, evs ++ [EvExt "kfree" 0]).

Definition open_err1 (err : Z) (evs : list event) : open_result :=
  open_err0 err (evs ++ [EvClk false "pll_u"; EvExt "clk_put" 0]).

(** [utmip_pad_open]: the error, or the value of [phy->pad_regs]. *)
Definition utmip_pad_open (env : open_env) (instance regs : Z)
  : (Z + Z) * list event :=
  match pad_clk_err env with
  | Some e => (inl e, [EvLog "can't get utmip pad clock"])
  | None =>
      if instance =? 0 then (inr regs, [])
      else if ioremap_addr env =? 0 then
        (inl (- ENOMEM), [EvLog "can't remap usb registers"; EvExt "clk_put" 0])
      else (inr (ioremap_addr env), [])
  end.

(** The tail of [tegra_usb_phy_open] once [phy->freq] passed the null
    test. *)
Definition open_finish (env : open_env) (instance regs : Z)
    (config : config_ptr) (ulpi : option tegra_ulpi_config)
    (phy_mode : tegra_usb_phy_mode) (fp : freq_ptr) (evs : list event)
  : open_result :=
  let acquired :=
    match ulpi with
    | Some ulpi_config =>
        if phy_type_eqb (inf_type ulpi_config) TEGRA_USB_LINK_ULPI then
          match ulpi_clk_err env with
          | Some _ => (inl (- ENXIO), [EvLog "can't get ulpi clock"])
          | None =>
              (inr 0,
               [EvExt "tegra_gpio_enable" 0; EvExt "gpio_request" 0;
                EvGpioSet (GPIO_NUM (reset_gpio ulpi_config)) 0;
                EvExt "otg_ulpi_create" 0])
          end
        else (inr 0, [])
    | None => utmip_pad_open env instance regs
    end in
  match acquired with
  | (inl err, e1) => open_err1 err (evs ++ e1)
  | (inr pad, e1) =>
      let evs := evs ++ e1 in
      let phy := mk_phy instance fp regs pad phy_mode config in
      match (if CONFIG_MACH_N1 cfg then None else reg_vdd_err env) with
      | Some err =>
          open_err1 err (evs ++ [EvLog "couldn't get regulator avdd_usb"])
      | None =>
          if (instance =? 0) && negb (vbus_irq (usb_phy_data 0) =? 0) then
            if negb (request_irq_err env =? 0) then
              open_err1 (request_irq_err env)
                        (evs ++ [EvExt "request_threaded_irq" (request_irq_err env);
                                 EvLog "Failed to register IRQ"])
            else (inr phy, evs ++ [EvExt "request_threaded_irq" 0])
          else (inr phy, evs)
      end
  end.

(** [None] is the fault of reading a non-ULPI configuration through
    [struct tegra_ulpi_config *]. *)
Definition tegra_usb_phy_open (env : open_env) (instance regs : Z)
    (config : option config_ptr) (phy_mode : tegra_usb_phy_mode)
  : option open_result :=
  if negb (kmalloc_ok env) then Some (inl (- ENOMEM), [EvExt "kmalloc" 0])
  else
    let evs := [EvExt "kmalloc" 1] in
    let is_ulpi := instance =? 1 in
    match config, is_ulpi with
    | None, true =>
        Some (open_err0 (- EINVAL) (evs ++ [EvLog "ulpi phy configuration missing"]))
    | _, _ =>
        let phy_config :=
          match config with
          | Some c => c
          | None => PtrUtmipDefault instance
          end in
        let ulpi := if is_ulpi then as_ulpi_config phy_config else None in
        if is_ulpi && match ulpi with None => true | Some _ => false end
        then None
        else
          let hsic :=
            match ulpi with
            | Some ulpi_config => phy_type_eqb (inf_type ulpi_config) TEGRA_USB_UHSIC
            | None => false
            end in
          match pll_u_err env with
          | Some err => Some (open_err0 err (evs ++ [EvLog "Can't get pll_u clock"]))
          | None =>
              let evs := evs ++ [EvClk true "pll_u"] in
              let fp :=
                match freq_lookup (freq_table hsic) (parent_rate env) 0 with
                | Some i => FreqRow hsic i
                | None => raw_freq_ptr (kmalloc_stale_freq env)
                end in
              if freq_ptr_is_null fp then
                Some (open_err1 (- EINVAL) (evs ++ [EvLog "invalid pll_u parent rate"]))
              else Some (open_finish env instance regs phy_config ulpi phy_mode fp evs)
          end
    end.

End WithConfig.

End UsbPhy.

(** ** The host-controller glue: [drivers/usb/host/ehci-tegra.c] *)

Module EhciTegra.

Import UsbPhy.

Local Open Scope string_scope.
Local Open Scope list_scope.
Local Open Scope Z_scope.
Local Open Scope drv_scope.

(** *** Constants of the EHCI core

    Modelled from the spec: [include/linux/usb/ehci_def.h],
    [include/linux/usb/ch11.h] and [drivers/usb/host/ehci.h] are not
    among the sources.  The spec names the port states (suspend, resume,
    reset, enabled, connect, power) and the hub requests (get/set port
    feature, get port status); the values are the ones the EHCI and
    USB 2.0 specifications assign to them. *)

Definition ClearPortFeature : Z := 0x2301.
Definition GetPortStatus : Z := 0xa300.
Definition SetPortFeature : Z := 0x2303.

Definition USB_PORT_FEAT_ENABLE : Z := 1.
Definition USB_PORT_FEAT_SUSPEND : Z := 2.
Definition USB_PORT_FEAT_RESET : Z := 4.
Definition USB_PORT_FEAT_POWER : Z := 8.

Definition PORT_WKOC_E : Z := BIT 22.
Definition PORT_WKDISC_E : Z := BIT 21.
Definition PORT_WKCONN_E : Z := BIT 20.
Definition PORT_TEST (x : Z) : Z := FIELD 0xf 16 x.
Definition PORT_TEST_FORCE : Z := PORT_TEST 0x5.
Definition PORT_OWNER : Z := BIT 13.
Definition PORT_POWER : Z := BIT 12.
Definition PORT_USB11 (x : Z) : bool := Z.land x (Z.shiftl 3 10) =? Z.shiftl 1 10.
Definition PORT_RESET : Z := BIT 8.
Definition PORT_SUSPEND : Z := BIT 7.
Definition PORT_RESUME : Z := BIT 6.
Definition PORT_OCC : Z := BIT 5.
Definition PORT_PEC : Z := BIT 3.
Definition PORT_PE : Z := BIT 2.
Definition PORT_CSC : Z := BIT 1.
Definition PORT_CONNECT : Z := BIT 0.
Definition PORT_RWC_BITS : Z := lor_all [PORT_CSC; PORT_PEC; PORT_OCC].
Definition PORT_WAKE_BITS : Z := lor_all [PORT_WKOC_E; PORT_WKDISC_E; PORT_WKCONN_E].

Definition STS_PCD : Z := BIT 2.
Definition INTR_MASK : Z := lor_all [BIT 5; BIT 4; BIT 2; BIT 1; BIT 0].

Definition CMD_LRESET : Z := BIT 7.
Definition CMD_IAAD : Z := BIT 6.
Definition CMD_ASE : Z := BIT 5.
Definition CMD_PSE : Z := BIT 4.
Definition CMD_RESET : Z := BIT 1.
Definition CMD_RUN : Z := BIT 0.
Definition FLAG_CF : Z := BIT 0.

Definition HCS_N_PORTS (p : Z) : Z := Z.land p 0xf.
Definition HCS_PPC (p : Z) : bool := negb (Z.land p (BIT 4) =? 0).

(** *** Constants of [ehci-tegra.c] *)

Definition TEGRA_USB_USBCMD_REG_OFFSET : Z := 0x140.
Definition TEGRA_USB_USBCMD_RESET : Z := BIT 1.
Definition TEGRA_USB_USBMODE_REG_OFFSET : Z := 0x1a8.
Definition TEGRA_USB_USBMODE_HOST : Z := Z.shiftl 3 0.
Definition STS_SRI : Z := BIT 7.

(** What the glue reads from [struct usb_hcd], [struct ehci_hcd] and
    [struct tegra_ehci_hcd] without writing it. *)
Record usb_hcd := mk_hcd {
  hcd_phy : tegra_usb_phy;
  hcd_regs : Z;
  hcs_params : Z;
  has_tt : bool;
  periodic_dma : Z;
  async_qh_dma : Z;
  require_power_down_on_bus_suspend : Z;
  ehci_pointers_set : bool
}.

Definition upd_tegra (f : tegra_ehci_hcd -> tegra_ehci_hcd) : M unit :=
  modify (fun s => set_tegra (f (tegra s)) s).

Definition upd_ehci (f : ehci_hcd -> ehci_hcd) : M unit :=
  modify (fun s => set_ehci (f (ehci s)) s).

(** [jiffies + msecs_to_jiffies(ms)], read from the clock. *)
Definition jiffies_after (ms : Z) : M Z :=
  x <- input ;; emit (EvExt "jiffies" (wrap32 x)) ;; ret (wrap32 x).

(** Modelled from the spec: [handshake] is defined in
    [drivers/usb/host/ehci-hcd.c], which is not among the sources.  The
    spec describes every register-handshake wait as a bounded busy-poll
    with microsecond-granularity spins whose timeout is a distinct
    outcome from success: the register is read until its masked value
    equals [done], at most [usec] times with a 1 us delay in between;
    the result is 0 on a match and [-ETIMEDOUT] otherwise. *)
Fixpoint handshake_loop (fuel : nat) (ptr : ioaddr) (mask done usec : Z) : M Z :=
  match fuel with
  | O => stuck
  | S fuel' =>
      result <- readl ptr ;;
      if Z.land result mask =? done then ret 0
      else
        udelay 1 ;;
        let usec' := wrap_int (usec - 1) in
        if usec' >? 0 then handshake_loop fuel' ptr mask done usec'
        else ret (- ETIMEDOUT)
  end.

Definition handshake (ptr : ioaddr) (mask done usec : Z) : M Z :=
  handshake_loop (S (Z.to_nat usec)) ptr mask done usec.

Section WithConfig.

Variable cfg : kconfig.
Variable usb_phy_data : Z -> usb_phy_plat_data.

(** The enumerators of [enum tegra_usb_phy_port_speed]; see
    [UsbPhy.utmi_phy_restore_start]. *)
Variable TEGRA_USB_PHY_PORT_SPEED_FULL : Z.
Variable TEGRA_USB_PHY_PORT_SPEED_LOW : Z.
Variable TEGRA_USB_PHY_PORT_SPEED_HIGH : Z.

Definition N1 : bool := CONFIG_MACH_N1 cfg.

Definition tegra_ehci_power_up (hcd : usb_hcd) : M unit :=
  clk_enable "emc" ;;
  clk_enable "sclk" ;;
  clk_enable "usb2" ;;
  when (CONFIG_USB_EHCI_ONOFF_FEATURE cfg && N1)
    (s <- get ;;
     when (ehci_power_up_by_sysfs s && (instance (hcd_phy hcd) =? 1))
       (modify (set_ehci_power_up_by_sysfs false) ;; mdelay 50)) ;;
  _ <- tegra_usb_phy_power_on cfg usb_phy_data (hcd_phy hcd) ;;
  upd_tegra (set_host_resumed 1) ;;
  upd_tegra (set_bus_is_power_down 0).

Definition tegra_ehci_power_down (hcd : usb_hcd) : M unit :=
  upd_tegra (set_host_resumed 0) ;;
  tegra_usb_phy_power_off cfg usb_phy_data (hcd_phy hcd) ;;
  s <- get ;;
  if negb (bus_is_power_down (tegra s) =? 0) then clk_disable "usb2min"
  else
    clk_disable "usb2" ;;
    clk_disable "sclk" ;;
    clk_disable "emc" ;;
    upd_tegra (set_hub_suspend_req 0).

(** The [while (retry_connect)] loop of the port-reset path. *)
Fixpoint hsic_wait_connected (fuel : nat) (hcd : usb_hcd) (retry_connect : Z)
  : M unit :=
  match fuel with
  | O => stuck
  | S fuel' =>
      if negb (retry_connect =? 0) then
        connected <- tegra_usb_phy_is_device_connected cfg (hcd_phy hcd) ;;
        if connected then upd_tegra (set_device_ready_for_reset true)
        else
          spin_unlock_irqrestore "ehci->lock" ;;
          msleep 50 ;;
          spin_lock_irqsave "ehci->lock" ;;
          hsic_wait_connected fuel' hcd (wrap32 (retry_connect - 1))
      else ret tt
  end.

Definition retry_connect_init : Z := 20.

(** [if (hsic && (wIndex == 0))] in [case USB_PORT_FEAT_RESET]. *)
Definition hsic_port_reset (hcd : usb_hcd) (retval : Z) : M Z :=
  let phy := hcd_phy hcd in
  if N1 then
    s <- get ;;
    when (negb (device_ready_for_reset (tegra s)))
      (_ <- tegra_usb_phy_bus_idle cfg phy ;;
       hsic_wait_connected (S (Z.to_nat retry_connect_init)) hcd
                           retry_connect_init) ;;
    s <- get ;;
    if device_ready_for_reset (tegra s) then
      retval <- tegra_usb_phy_bus_reset cfg phy ;;
      upd_tegra (set_device_ready_for_reset false) ;;
      ret retval
    else ret retval
  else
    _ <- tegra_usb_phy_bus_reset cfg phy ;;
    ret retval.

(** [done:] *)
Definition hub_done (retval : Z) : M Z :=
  spin_unlock_irqrestore "ehci->lock" ;; ret retval.

(** [ClearPortFeature] / [USB_PORT_FEAT_SUSPEND]: port resume. *)
Definition hub_port_resume (hcd : usb_hcd) (wIndex : Z) (status_reg : ioaddr)
  : M Z :=
  temp <- readl status_reg ;;
  if negb (Z.land temp PORT_RESET =? 0) || (Z.land temp PORT_PE =? 0) then
    hub_done (- EPIPE)
  else if Z.land temp PORT_SUSPEND =? 0 then hub_done 0
  else
    tegra_usb_phy_preresume (hcd_phy hcd) ;;
    t <- jiffies_after 25 ;;
    upd_ehci (set_reset_done (wIndex - 1) t) ;;
    usbsts_reg <- readl (EhciReg REG_status) ;;
    writel usbsts_reg (EhciReg REG_status) ;;
    _ <- readl (EhciReg REG_status) ;;
    udelay 20 ;;
    r <- handshake (EhciReg REG_status) STS_SRI STS_SRI 2000 ;;
    when (negb (r =? 0)) (pr_err "timeout set for STS_SRI") ;;
    usbsts_reg <- readl (EhciReg REG_status) ;;
    writel usbsts_reg (EhciReg REG_status) ;;
    r <- handshake (EhciReg REG_status) STS_SRI 0 2000 ;;
    when (negb (r =? 0)) (pr_err "timeout clear STS_SRI") ;;
    r <- handshake (EhciReg REG_status) STS_SRI STS_SRI 2000 ;;
    when (negb (r =? 0)) (pr_err "timeout set STS_SRI") ;;
    udelay 20 ;;
    let temp := clr temp (Z.lor PORT_RWC_BITS PORT_WAKE_BITS) in
    writel (Z.lor temp PORT_RESUME) status_reg ;;
    spin_unlock_irqrestore "ehci->lock" ;;
    msleep 20 ;;
    spin_lock_irqsave "ehci->lock" ;;
    r <- handshake status_reg PORT_RESUME 0 (if N1 then 2100 else 2000) ;;
    when (negb (r =? 0)) (pr_err "timeout waiting for RESUME") ;;
    r <- handshake status_reg PORT_SUSPEND 0 2000 ;;
    when (negb (r =? 0)) (pr_err "timeout waiting for SUSPEND") ;;
    upd_ehci (set_reset_done (wIndex - 1) 0) ;;
    upd_tegra (set_port_resuming 1) ;;
    hub_done 0.

(** [SetPortFeature] / [USB_PORT_FEAT_SUSPEND]: port suspend. *)
Definition hub_port_suspend (wIndex : Z) (status_reg : ioaddr) : M Z :=
  temp <- readl status_reg ;;
  if (Z.land temp PORT_PE =? 0) || negb (Z.land temp PORT_RESET =? 0) then
    hub_done (- EPIPE)
  else
    let temp := Z.lor (clr temp PORT_WKCONN_E) (Z.lor PORT_WKDISC_E PORT_WKOC_E) in
    writel (Z.lor temp PORT_SUSPEND) status_reg ;;
    r <- handshake status_reg PORT_SUSPEND PORT_SUSPEND 5000 ;;
    when (negb (r =? 0)) (pr_err "timeout waiting for SUSPEND") ;;
    upd_ehci (fun e => set_suspended_ports
                         (Z.lor (suspended_ports e) (BIT (Z.land wIndex 0xff - 1))) e) ;;
    upd_tegra (set_hub_suspend_req 1) ;;
    hub_done 0.

(** The block under [Handle port reset here], entered for an HSIC
    controller with [SetPortFeature] and a reset or power feature. *)
Definition hub_hsic_reset_power (hcd : usb_hcd) (hsic : bool)
    (wValue wIndex : Z) (status_reg : ioaddr) : M Z :=
  let ports := HCS_N_PORTS (hcs_params hcd) in
  let wIndex := Z.land wIndex 0xff in
  if (wIndex =? 0) || (wIndex >? ports) then hub_done (- EPIPE)
  else
    let wIndex := wIndex - 1 in
    temp <- readl status_reg ;;
    if negb (Z.land temp PORT_OWNER =? 0) then hub_done 0
    else
      let temp := clr temp PORT_RWC_BITS in
      if wValue =? USB_PORT_FEAT_RESET then
        if negb (Z.land temp PORT_RESUME =? 0) then hub_done (- EPIPE)
        else if (Z.land temp (Z.lor PORT_PE PORT_CONNECT) =? PORT_CONNECT)
                && negb (has_tt hcd) && PORT_USB11 temp
        then
          writel (Z.lor temp PORT_OWNER) status_reg ;;
          hub_done 0
        else
          let temp := clr temp PORT_PE in
          t <- jiffies_after 50 ;;
          upd_ehci (set_reset_done wIndex t) ;;
          writel temp status_reg ;;
          retval <- (if hsic && (wIndex =? 0) then hsic_port_reset hcd 0
                     else ret 0) ;;
          hub_done retval
      else
        when (HCS_PPC (hcs_params hcd))
          (writel (Z.lor temp PORT_POWER) status_reg) ;;
        if hsic && (wIndex =? 0) then
          s <- get ;;
          if N1 && (shutdown s =? 1) then hub_done 0
          else
            _ <- tegra_usb_phy_bus_connect cfg (hcd_phy hcd) ;;
            when N1 (upd_tegra (set_device_ready_for_reset true)) ;;
            hub_done 0
        else hub_done 0.

(** What follows the request dispatch: the HSIC reset/power block, or
    the hand-over to [ehci_hub_control]. *)
Definition hub_rest (hcd : usb_hcd) (hsic : bool) (typeReq wValue wIndex : Z)
    (status_reg : ioaddr) : M Z :=
  if hsic && (typeReq =? SetPortFeature)
     && ((wValue =? USB_PORT_FEAT_RESET) || (wValue =? USB_PORT_FEAT_POWER))
  then hub_hsic_reset_power hcd hsic wValue wIndex status_reg
  else
    spin_unlock_irqrestore "ehci->lock" ;;
    ext_call "ehci_hub_control".

Definition tegra_ehci_hub_control (hcd : usb_hcd) (typeReq wValue wIndex : Z)
  : M Z :=
  hsic <- phy_is_uhsic (hcd_phy hcd) ;;
  let status_reg := EhciReg (REG_port_status (Z.land wIndex 0xff - 1)) in
  spin_lock_irqsave "ehci->lock" ;;
  if (typeReq =? ClearPortFeature) && (wValue =? USB_PORT_FEAT_ENABLE) then
    v <- readl status_reg ;;
    let temp := clr v PORT_RWC_BITS in
    writel (clr temp PORT_PE) status_reg ;;
    hub_done 0
  else if typeReq =? GetPortStatus then
    temp <- readl status_reg ;;
    s <- get ;;
    when (negb (port_resuming (tegra s) =? 0) && (Z.land temp PORT_SUSPEND =? 0))
      (upd_tegra (set_port_resuming 0) ;;
       tegra_usb_phy_postresume (hcd_phy hcd)) ;;
    hub_rest hcd hsic typeReq wValue wIndex status_reg
  else if (typeReq =? SetPortFeature) && (wValue =? USB_PORT_FEAT_SUSPEND) then
    hub_port_suspend wIndex status_reg
  else if (typeReq =? ClearPortFeature) && (wValue =? USB_PORT_FEAT_SUSPEND) then
    hub_port_resume hcd wIndex status_reg
  else hub_rest hcd hsic typeReq wValue wIndex status_reg.

Definition tegra_ehci_restart (hcd : usb_hcd) : M unit :=
  (if N1 then
     upd_ehci (set_controller_resets_phy 0) ;;
     ext_proc "ehci_reset" ;;
     upd_ehci (set_controller_resets_phy 1)
   else ext_proc "ehci_reset") ;;
  writel (periodic_dma hcd) (EhciReg REG_frame_list) ;;
  writel (async_qh_dma hcd) (EhciReg REG_async_next) ;;
  upd_ehci (fun e =>
    set_ehci_command
      (Z.lor (clr (ehci_command e)
                  (lor_all [CMD_LRESET; CMD_IAAD; CMD_PSE; CMD_ASE; CMD_RESET]))
             CMD_RUN) e) ;;
  s <- get ;;
  writel (ehci_command (ehci s)) (EhciReg REG_command) ;;
  when (HCS_PPC (hcs_params hcd))
    (rmw (EhciReg (REG_port_status 0)) (fun temp => Z.lor temp PORT_POWER)) ;;
  ext_proc "down_write(&ehci_cf_port_reset_rwsem)" ;;
  ext_proc "hcd->state = HC_STATE_RUNNING" ;;
  writel FLAG_CF (EhciReg REG_configured_flag) ;;
  _ <- readl (EhciReg REG_command) ;;
  ext_proc "up_write(&ehci_cf_port_reset_rwsem)" ;;
  writel INTR_MASK (EhciReg REG_intr_enable).

Definition tegra_usb_suspend (hcd : usb_hcd) : M Z :=
  hsic <- phy_is_uhsic (hcd_phy hcd) ;;
  spin_lock_irqsave "ehci->lock" ;;
  v <- readl (EhciReg (REG_port_status 0)) ;;
  upd_tegra (set_port_speed (Z.land (Z.shiftr v 26) 0x3)) ;;
  _ <- ext_call "ehci_halt" ;;
  upd_ehci (set_hw_accessible false) ;;
  when (N1 && hsic) (upd_tegra (set_device_ready_for_reset false)) ;;
  spin_unlock_irqrestore "ehci->lock" ;;
  s <- get ;;
  if N1 && (instance (hcd_phy hcd) =? 1) && (shutdown s =? 1) then ret 0
  else tegra_ehci_power_down hcd ;; ret 0.

(** [restart:] in [tegra_usb_resume]. *)
Definition resume_restart (hcd : usb_hcd) (hsic : bool) : M Z :=
  let phy := hcd_phy hcd in
  s <- get ;;
  when ((N1 && negb hsic)
        || (port_speed (tegra s) <=? TEGRA_USB_PHY_PORT_SPEED_HIGH))
    (tegra_ehci_phy_restore_end phy) ;;
  if hsic then
    if N1 && negb (ehci_pointers_set hcd) then ret 0
    else
      val <- readl (EhciReg (REG_port_status 0)) ;;
      when (negb (negb (Z.land val PORT_POWER =? 0)
                  && negb (Z.land val PORT_PE =? 0)))
        (tegra_ehci_restart hcd ;;
         ext_proc "usb_set_device_state(udev, USB_STATE_CONFIGURED)") ;;
      _ <- tegra_usb_phy_bus_idle cfg phy ;;
      connected <- tegra_usb_phy_is_device_connected cfg phy ;;
      (if negb connected then ext_proc "schedule_delayed_work(&tegra->work, 50)"
       else when N1 (upd_tegra (set_device_ready_for_reset true))) ;;
      ret 0
  else tegra_ehci_restart hcd ;; ret 0.

(** [tegra_usb_resume] from [Force the phy to keep data lines in suspend
    state] on. *)
Definition resume_restore (hcd : usb_hcd) (hsic : bool) : M Z :=
  let phy := hcd_phy hcd in
  let port0 := EhciReg (REG_port_status 0) in
  s <- get ;;
  let speed := port_speed (tegra s) in
  tegra_ehci_phy_restore_start TEGRA_USB_PHY_PORT_SPEED_LOW phy speed ;;
  ext_proc "tdi_reset" ;;
  rmw port0 (fun val => Z.lor val PORT_POWER) ;;
  udelay 10 ;;
  async_next <- readl (EhciReg REG_async_next) ;;
  when (async_next =? 0)
    (rmw port0
         (fun val =>
            let val := clr val (PORT_TEST ALL_ONES) in
            if speed =? TEGRA_USB_PHY_PORT_SPEED_HIGH
            then Z.lor val PORT_TEST_FORCE
            else if speed =? TEGRA_USB_PHY_PORT_SPEED_FULL
            then Z.lor val (PORT_TEST 6)
            else if speed =? TEGRA_USB_PHY_PORT_SPEED_LOW
            then Z.lor val (PORT_TEST 7)
            else val) ;;
     udelay 10 ;;
     rmw port0 (fun val => clr val (PORT_TEST ALL_ONES)) ;;
     udelay 10) ;;
  r <- handshake port0 PORT_CONNECT PORT_CONNECT 2000 ;;
  if negb (r =? 0) then
    pr_err "timeout waiting for PORT_CONNECT" ;; resume_restart hcd hsic
  else
  r <- handshake port0 PORT_PE PORT_PE 2000 ;;
  if negb (r =? 0) then
    pr_err "timeout waiting for USB_PORTSC1_PE" ;; resume_restart hcd hsic
  else
  rmw (EhciReg REG_status) (fun val => Z.lor val STS_PCD) ;;
  val <- readl port0 ;;
  if negb (Z.land val PORT_POWER =? 0) && negb (Z.land val PORT_PE =? 0) then
    writel (Z.lor val PORT_SUSPEND) port0 ;;
    r <- handshake port0 PORT_SUSPEND PORT_SUSPEND 1000 ;;
    if negb (r =? 0) then
      pr_err "timeout waiting for PORT_SUSPEND" ;; resume_restart hcd hsic
    else tegra_ehci_phy_restore_end phy ;; ret 0
  else tegra_ehci_phy_restore_end phy ;; ret 0.

Definition tegra_usb_resume (hcd : usb_hcd) : M Z :=
  hsic <- phy_is_uhsic (hcd_phy hcd) ;;
  upd_ehci (set_hw_accessible true) ;;
  tegra_ehci_power_up hcd ;;
  if N1 && hsic then resume_restart hcd hsic
  else
    s <- get ;;
    if port_speed (tegra s) >? TEGRA_USB_PHY_PORT_SPEED_HIGH then
      when (negb hsic) (msleep 10) ;;
      resume_restart hcd hsic
    else resume_restore hcd hsic.

(** The [do { ... } while (usec)] loop of [tegra_ehci_reset]; the result
    is the final value of the [int] counter. *)
Fixpoint tegra_ehci_reset_loop (fuel : nat) (hcd : usb_hcd) (usec : Z) : M Z :=
  match fuel with
  | O => stuck
  | S fuel' =>
      temp <- readl (Mmio (hcd_regs hcd + TEGRA_USB_USBCMD_REG_OFFSET)) ;;
      if Z.land temp TEGRA_USB_USBCMD_RESET =? 0 then ret usec
      else
        udelay 1 ;;
        let usec' := wrap_int (usec - 1) in
        if negb (usec' =? 0) then tegra_ehci_reset_loop fuel' hcd usec'
        else ret usec'
  end.

Definition tegra_ehci_reset (hcd : usb_hcd) : M Z :=
  let usec := 250 * 1000 in
  rmw (Mmio (hcd_regs hcd + TEGRA_USB_USBCMD_REG_OFFSET))
      (fun temp => Z.lor temp TEGRA_USB_USBCMD_RESET) ;;
  usec <- tegra_ehci_reset_loop (Z.to_nat usec) hcd usec ;;
  if usec =? 0 then ret (- ETIMEDOUT)
  else
    rmw (Mmio (hcd_regs hcd + TEGRA_USB_USBMODE_REG_OFFSET))
        (fun temp => Z.lor temp TEGRA_USB_USBMODE_HOST) ;;
    ret 0.

Definition tegra_ehci_bus_suspend (hcd : usb_hcd) : M Z :=
  s <- get ;;
  if N1 && (instance (hcd_phy hcd) =? 1) && (shutdown s =? 1) then ret 0
  else
    r <- ext_call "ehci_bus_suspend" ;;
    if negb (r =? 0) then ret r
    else
      s <- get ;;
      if negb (require_power_down_on_bus_suspend hcd =? 0)
         && negb (hub_suspend_req (tegra s) =? 0)
      then
        _ <- tegra_usb_set_phy_clock cfg (hcd_phy hcd) 0 ;;
        r <- ext_call "clk_enable(tegra->clk_min)" ;;
        if negb (r =? 0) then
          pr_err "HSIC USB core clk enable failed" ;; ret r
        else
          clk_disable "usb2" ;;
          clk_disable "emc" ;;
          upd_tegra (set_hub_suspend_req 0) ;;
          upd_tegra (set_bus_is_power_down 1) ;;
          ret r
      else ret r.

Definition tegra_ehci_bus_resume (hcd : usb_hcd) : M Z :=
  s <- get ;;
  when (negb (require_power_down_on_bus_suspend hcd =? 0)
        && negb (bus_is_power_down (tegra s) =? 0))
    (r <- ext_call "clk_enable(tegra->clk)" ;;
     when (negb (r =? 0)) (pr_err "HSIC usb PHY clk enable failed") ;;
     r <- ext_call "clk_enable(tegra->emc_clk)" ;;
     when (negb (r =? 0)) (pr_err "HSIC USB EMC clk enable failed") ;;
     clk_disable "usb2min" ;;
     _ <- tegra_usb_set_phy_clock cfg (hcd_phy hcd) 1 ;;
     msleep 50 ;;
     upd_tegra (set_bus_is_power_down 0)) ;;
  tegra_usb_phy_preresume (hcd_phy hcd) ;;
  upd_tegra (set_port_resuming 1) ;;
  ext_call "ehci_bus_resume".

Definition tegra_hsic_connection_work (hcd : usb_hcd) : M unit :=
  connected <- tegra_usb_phy_is_device_connected cfg (hcd_phy hcd) ;;
  if connected then
    ext_proc "cancel_delayed_work" ;;
    when N1
      (upd_tegra (set_device_ready_for_reset true) ;;
       modify (set_work_count 0))
  else
    s <- get ;;
    let old := work_count s in
    if N1 && (old >? 40) then modify (set_work_count 0)
    else
      when N1 (modify (set_work_count (wrap_int (old + 1)))) ;;
      ext_proc "schedule_delayed_work(&tegra->work, msecs_to_jiffies(50))".

End WithConfig.

End EhciTegra.

(** ** [ehci-tegra.c]: shutdown, the sysfs power switch, the platform hooks *)

Module EhciPower.

Import UsbPhy EhciTegra.

(** [include/asm-generic/errno-base.h] *)
Definition EBUSY : Z := 16.

Section WithConfig.

Variable cfg : kconfig.
Variable usb_phy_data : Z -> usb_phy_plat_data.
Variable TEGRA_USB_PHY_PORT_SPEED_FULL : Z.
Variable TEGRA_USB_PHY_PORT_SPEED_LOW : Z.
Variable TEGRA_USB_PHY_PORT_SPEED_HIGH : Z.

(** [#if defined (CONFIG_MACH_N1) && defined (CONFIG_USB_EHCI_ONOFF_FEATURE)] *)
Definition N1_ONOFF : bool :=
  CONFIG_MACH_N1 cfg && CONFIG_USB_EHCI_ONOFF_FEATURE cfg.

(** [ehci_shutdown] is the generic EHCI code; it is a kernel service
    here. *)
Definition tegra_ehci_shutdown (hcd : usb_hcd) : M unit :=
  pr_err "tegra_ehci_shutdown +" ;;
  when (CONFIG_MACH_N1 cfg && (instance (hcd_phy hcd) =? 1))
    (modify (set_shutdown 1)) ;;
  s <- get ;;
  when (host_resumed (tegra s) =? 0) (tegra_ehci_power_up cfg usb_phy_data hcd) ;;
  ext_proc "ehci_shutdown" ;;
  tegra_ehci_power_down cfg usb_phy_data hcd ;;
  pr_err "tegra_ehci_shutdown -".

(** [hcd->driver] is [tegra_ehci_hc_driver], whose [shutdown] member is
    [tegra_ehci_shutdown]. *)
Definition tegra_ehci_hcd_shutdown (hcd : usb_hcd) : M unit :=
  tegra_ehci_shutdown hcd.

(** [store_ehci_power], compiled with CONFIG_USB_EHCI_ONOFF_FEATURE.
    [parsed] is what [sscanf(buf, "%d", &power_on)] read, if it read a
    number; [root_hub] tells whether [hcd->self.root_hub] is set.  The
    global [ehci_handle] is passed in and handed back as a flag: whether
    it is non-null.  The result is the [ssize_t] the function returns. *)
Definition store_ehci_power (hcd : usb_hcd) (root_hub : bool)
    (parsed : option Z) (count : Z) (ehci_handle : bool) : M (Z * bool) :=
  match parsed with
  | None => ret (- EINVAL, ehci_handle)
  | Some power_on =>
      locked <- (if CONFIG_MACH_N1 cfg then ext_call "device_trylock"
                 else ret 1) ;;
      if locked =? 0 then ret (- EBUSY, ehci_handle)
      else
        r <- (if (power_on =? 0) && ehci_handle then
                when root_hub
                  (ext_proc "usb_disable_autosuspend" ;;
                   ext_proc "usleep_range(5000, 10000)") ;;
                ext_proc "usb_remove_hcd" ;;
                tegra_ehci_power_down cfg usb_phy_data hcd ;;
                ret (count, false)
              else if power_on =? 1 then
                when ehci_handle (ext_proc "usb_remove_hcd") ;;
                when (CONFIG_MACH_N1 cfg)
                  (modify (set_ehci_power_up_by_sysfs true)) ;;
                tegra_ehci_power_up cfg usb_phy_data hcd ;;
                retval <- ext_call "usb_add_hcd" ;;
                if retval <? 0 then
                  pr_err "power_on error" ;;
                  tegra_ehci_power_down cfg usb_phy_data hcd ;;
                  ret (retval, false)
                else ret (count, true)
              else ret (count, ehci_handle)) ;;
        when (CONFIG_MACH_N1 cfg) (ext_proc "device_unlock") ;;
        ret r
  end.

(** The platform driver's [resume] and [suspend]. *)
Definition tegra_ehci_resume (hcd : usb_hcd) (ehci_handle : bool) : M Z :=
  if N1_ONOFF && (instance (hcd_phy hcd) =? 1) && negb ehci_handle then ret 0
  else
    tegra_usb_resume cfg usb_phy_data TEGRA_USB_PHY_PORT_SPEED_FULL
      TEGRA_USB_PHY_PORT_SPEED_LOW TEGRA_USB_PHY_PORT_SPEED_HIGH hcd.

Definition tegra_ehci_suspend (hcd : usb_hcd) (ehci_handle : bool) : M Z :=
  early <- ext_call "time_before(jiffies, tegra->ehci->next_statechange)" ;;
  when (negb (early =? 0)) (msleep 10) ;;
  s <- get ;;
  if N1_ONOFF && (instance (hcd_phy hcd) =? 1) && (shutdown s =? 1) then ret 0
  else if N1_ONOFF && (instance (hcd_phy hcd) =? 1) && negb ehci_handle
  then ret 0
  else tegra_usb_suspend cfg usb_phy_data hcd.

End WithConfig.

End EhciPower.

(** ** [ehci-tegra.c]: bounce buffers for unaligned transfers

    The controller needs transfer buffers aligned to
    [TEGRA_USB_DMA_ALIGN] bytes.  Memory is byte addressed; a pointer is
    its address, 32 bits wide as on the ARM cores the file is built for,
    and is stored in four bytes, the lowest first. *)

Module UrbBuffer.

Definition memory := Z -> Z.

Definition load_ptr (m : memory) (a : Z) : Z :=
  m a + 2 ^ 8 * m (a + 1) + 2 ^ 16 * m (a + 2) + 2 ^ 24 * m (a + 3).

Definition store_ptr (m : memory) (a v : Z) : memory :=
  fun x =>
    if (a <=? x) && (x <? a + 4) then (v / 2 ^ (8 * (x - a))) mod 2 ^ 8
    else m x.

(** [memcpy(dst, src, n)] for regions that do not overlap. *)
Definition memcpy (m : memory) (dst src n : Z) : memory :=
  fun x => if (dst <=? x) && (x <? dst + n) then m (src + (x - dst)) else m x.

(** The members of [struct urb] the functions use. *)
Record urb := mk_urb {
  transfer_flags : Z;
  transfer_buffer : Z;
  transfer_buffer_length : Z;
  num_sgs : Z;
  sg : Z
}.

Definition set_transfer_buffer (p : Z) (u : urb) : urb :=
  mk_urb (transfer_flags u) p (transfer_buffer_length u) (num_sgs u) (sg u).

Definition set_transfer_flags (f : Z) (u : urb) : urb :=
  mk_urb f (transfer_buffer u) (transfer_buffer_length u) (num_sgs u) (sg u).

Definition TEGRA_USB_DMA_ALIGN : Z := 32.

(** [struct temp_buffer]: two pointers, then the data. *)
Definition kmalloc_ptr_offset : Z := 0.
Definition old_xfer_buffer_offset : Z := 4.
Definition data_offset : Z := 8.
Definition sizeof_temp_buffer : Z := 8.

(** [PTR_ALIGN(p, a)] of [include/linux/kernel.h]:
    [(p + (a - 1)) & ~(a - 1)] on [unsigned long]. *)
Definition PTR_ALIGN (p a : Z) : Z :=
  Z.land (wrap32 (p + (a - 1))) (Z.lnot (a - 1)).

Section WithUsbCore.

(** [include/linux/usb.h] is not among the sources: the flag bit and the
    direction test it declares are parameters. *)
Variable URB_ALIGNED_TEMP_BUFFER : Z.
Variable usb_urb_dir_in : urb -> bool.

(** What the allocator returns for a request of [size] bytes; 0 is the
    null pointer. *)
Variable kmalloc : Z -> Z.

(** [usb_hcd_map_urb_for_dma] and [usb_hcd_unmap_urb_for_dma] of the USB
    core: the result, and what they leave in the URB. *)
Variable usb_hcd_map_urb_for_dma : urb -> Z * urb.
Variable usb_hcd_unmap_urb_for_dma : urb -> urb.

Definition free_temp_buffer (u : urb) (m : memory) : urb * memory * list event :=
  if Z.land (transfer_flags u) URB_ALIGNED_TEMP_BUFFER =? 0 then (u, m, [])
  else
    let temp := wrap32 (transfer_buffer u - data_offset) in
    let m :=
      if usb_urb_dir_in u then
        memcpy m (load_ptr m (wrap32 (temp + old_xfer_buffer_offset)))
               (wrap32 (temp + data_offset)) (transfer_buffer_length u)
      else m in
    let u := set_transfer_buffer
               (load_ptr m (wrap32 (temp + old_xfer_buffer_offset))) u in
    let freed := load_ptr m (wrap32 (temp + kmalloc_ptr_offset)) in
    (set_transfer_flags
       (Z.land (transfer_flags u) (wrap32 (Z.lnot URB_ALIGNED_TEMP_BUFFER))) u,
     m, [EvExt "kfree" freed]).

Definition alloc_temp_buffer (u : urb) (m : memory)
  : Z * urb * memory * list event :=
  if negb (num_sgs u =? 0) || negb (sg u =? 0)
     || (transfer_buffer_length u =? 0)
     || (Z.land (transfer_buffer u) (TEGRA_USB_DMA_ALIGN - 1) =? 0)
  then (0, u, m, [])
  else
    let kmalloc_size :=
      wrap32 (transfer_buffer_length u + sizeof_temp_buffer
              + TEGRA_USB_DMA_ALIGN - 1) in
    let kmalloc_ptr := kmalloc kmalloc_size in
    if kmalloc_ptr =? 0 then (- ENOMEM, u, m, [EvExt "kmalloc" 0])
    else
      let temp :=
        wrap32 (PTR_ALIGN (wrap32 (kmalloc_ptr + sizeof_temp_buffer))
                          TEGRA_USB_DMA_ALIGN
                - sizeof_temp_buffer) in
      let m := store_ptr m (wrap32 (temp + kmalloc_ptr_offset)) kmalloc_ptr in
      let m := store_ptr m (wrap32 (temp + old_xfer_buffer_offset))
                         (transfer_buffer u) in
      let m :=
        if usb_urb_dir_in u then m
        else memcpy m (wrap32 (temp + data_offset)) (transfer_buffer u)
                    (transfer_buffer_length u) in
      let u := set_transfer_buffer (wrap32 (temp + data_offset)) u in
      (0,
       set_transfer_flags (Z.lor (transfer_flags u) URB_ALIGNED_TEMP_BUFFER) u,
       m, [EvExt "kmalloc" kmalloc_ptr]).

Definition tegra_ehci_map_urb_for_dma (u : urb) (m : memory)
  : Z * urb * memory * list event :=
  match alloc_temp_buffer u m with
  | (ret, u, m, evs) =>
      if negb (ret =? 0) then (ret, u, m, evs)
      else
        let '(ret, u) := usb_hcd_map_urb_for_dma u in
        let evs := evs ++ [EvExt "usb_hcd_map_urb_for_dma" ret] in
        if negb (ret =? 0) then
          let '(u, m, e) := free_temp_buffer u m in (ret, u, m, evs ++ e)
        else (ret, u, m, evs)
  end.

Definition tegra_ehci_unmap_urb_for_dma (u : urb) (m : memory)
  : urb * memory * list event :=
  let u := usb_hcd_unmap_urb_for_dma u in
  let '(u, m, e) := free_temp_buffer u m in
  (u, m, EvExt "usb_hcd_unmap_urb_for_dma" 0 :: e).

End WithUsbCore.

End UrbBuffer.

(** ** [usb_phy.c]: board data and the end of a handle's life *)

Module UsbPhyBoard.

Import UsbPhy.

(** The static initialiser of [usb_phy_data[]]: three rows
    [{ 0, 0, -1, NULL }]. *)
Definition usb_phy_data_static : Z -> usb_phy_plat_data :=
  fun _ => mk_plat_data 0 (-1) false.

Definition usb_phy_data_rows : Z := 3.

Definition row_set (table : Z -> usb_phy_plat_data) (i : Z)
    (row : usb_phy_plat_data) : Z -> usb_phy_plat_data :=
  fun j => if j =? i then row else table j.

Section WithConfig.

Variable cfg : kconfig.

(** The [for (i = 0; i < size; i++, pdata++)] loop of
    [tegra_usb_phy_init].  An element of [pdata] is its [instance] and
    the other members; [None] is an access outside [pdata] or outside
    [usb_phy_data[]].  The [instance] member of a row is written but
    never read, and the rows of the model do not carry it. *)
Fixpoint init_rows (n : nat) (pdata : list (Z * usb_phy_plat_data))
    (table : Z -> usb_phy_plat_data) : option (Z -> usb_phy_plat_data) :=
  match n with
  | O => Some table
  | S n' =>
      match pdata with
      | [] => None
      | (inst, d) :: rest =>
          if (0 <=? inst) && (inst <? usb_phy_data_rows) then
            init_rows n' rest
              (row_set table inst
                 (mk_plat_data (vbus_irq d) (vbus_gpio d)
                    (if CONFIG_MACH_N1 cfg then usb_ldo_en d
                     else usb_ldo_en (table inst))))
          else None
      end
  end.

Definition tegra_usb_phy_init (pdata : option (list (Z * usb_phy_plat_data)))
    (size : Z) (table : Z -> usb_phy_plat_data)
  : option (Z * (Z -> usb_phy_plat_data)) :=
  match pdata with
  | None => Some (0, table)
  | Some rows =>
      match init_rows (Z.to_nat size) rows table with
      | Some table' => Some (0, table')
      | None => None
      end
  end.

Variable usb_phy_data : Z -> usb_phy_plat_data.

Definition utmip_pad_close (phy : tegra_usb_phy) : M unit :=
  when (negb (instance phy =? 0)) (ext_proc "iounmap(phy->pad_regs)") ;;
  ext_proc "clk_put(phy->pad_clk)".

Definition tegra_usb_phy_clk_disable (phy : tegra_usb_phy) : M unit :=
  when (negb (phy_is_ulpi phy)) (utmi_phy_clk_disable cfg phy).

Definition tegra_usb_phy_clk_enable (phy : tegra_usb_phy) : M unit :=
  when (negb (phy_is_ulpi phy)) (utmi_phy_clk_enable cfg phy).

Definition tegra_usb_phy_close (phy : tegra_usb_phy) : M unit :=
  (if phy_is_ulpi phy then
     ulpi_config <- ulpi_config_of phy ;;
     when (phy_type_eqb (inf_type ulpi_config) TEGRA_USB_LINK_ULPI)
       (ext_proc "clk_put(phy->clk)")
   else utmip_pad_close phy) ;;
  clk_disable "pll_u" ;;
  ext_proc "clk_put(phy->pll_u)" ;;
  when (negb (CONFIG_MACH_N1 cfg)) (ext_proc "regulator_put") ;;
  when ((instance phy =? 0) && negb (vbus_irq (usb_phy_data 0) =? 0))
    (ext_proc "free_irq") ;;
  ext_proc "kfree".

End WithConfig.

End UsbPhyBoard.

(** ** [ehci-tegra.c]: FIFO tuning and receive-error recovery

    Both functions act on the controller stored in [ehci_handle]; the
    argument is that handle, [None] for a null pointer.  They are
    compiled with CONFIG_USB_EHCI_ONOFF_FEATURE. *)

Module EhciRecover.

Import UsbPhy EhciTegra.

Definition TEGRA_USB_TXFILLTUNING : Z := 0x164.
Definition TEGRA_USB_PORTSC_PHCD : Z := BIT 23.
Definition TEGRA_USB_SUSP_CTRL_OFFSET : Z := 0x400.
Definition TEGRA_USB_SUSP_CLR : Z := BIT 5.
Definition TEGRA_USB_PHY_CLK_VALID : Z := BIT 7.
Definition TEGRA_USB_SRT : Z := BIT 25.
Definition TEGRA_LVL2_CLK_GATE_OVRB : Z := 0xfc.
Definition TEGRA_USB2_CLK_OVR_ON : Z := BIT 10.

(** The [do { ... } while (timeout)] loop of [ehci_tegra_wait_register];
    [timeout] is the [unsigned long] counter. *)
Fixpoint ehci_tegra_wait_loop (fuel : nat) (reg : ioaddr) (mask result timeout : Z)
  : M Z :=
  match fuel with
  | O => stuck
  | S fuel' =>
      v <- readl reg ;;
      if Z.land v mask =? result then ret 0
      else
        udelay 1 ;;
        let timeout' := wrap32 (timeout - 1) in
        if negb (timeout' =? 0)
        then ehci_tegra_wait_loop fuel' reg mask result timeout'
        else ret (-1)
  end.

Definition ehci_tegra_wait_register (reg : ioaddr) (mask result : Z) : M Z :=
  let timeout := 50000 in
  ehci_tegra_wait_loop (Z.to_nat timeout) reg mask result timeout.

(** The [pr_debug] line is compiled out. *)
Definition tegra_ehci_txfilltuning (ehci_handle : option usb_hcd) : M unit :=
  match ehci_handle with
  | None => ret tt
  | Some hcd =>
      val <- readl (Mmio (hcd_regs hcd + TEGRA_USB_TXFILLTUNING)) ;;
      let val :=
        if negb (Z.land val 0x00ff0000 =? 0x00100000) then 0x00100000
        else val in
      writel val (Mmio (hcd_regs hcd + TEGRA_USB_TXFILLTUNING))
  end.

Section WithIomap.

(** [IO_ADDRESS(TEGRA_CLK_RESET_BASE)]; [mach/iomap.h] is not among the
    sources. *)
Variable clk_reset_base : Z.

Definition rx_err_start : string := "{ RX_ERR_HANDLING_START ".
Definition rx_err_suspend : string :=
  "tegra_ehci_recover_rx_error: timeout waiting for PORT_SUSPEND = 1".
Definition rx_err_clk_off : string :=
  "tegra_ehci_recover_rx_error: timeout waiting for TEGRA_USB_PHY_CLK_VALID = 0".
Definition rx_err_clk_on : string :=
  "tegra_ehci_recover_rx_error: timeout waiting for TEGRA_USB_PHY_CLK_VALID = 1".
Definition rx_err_resume : string :=
  "tegra_ehci_recover_rx_error: timeout waiting for PORT_RESUME = 1".
Definition rx_err_end : string := "} ".

(** [pr_info] and [pr_err] both leave a log line. *)
Definition tegra_ehci_recover_rx_error (ehci_handle : option usb_hcd) : M unit :=
  match ehci_handle with
  | None => ret tt
  | Some hcd =>
      let portsc := EhciReg (REG_port_status 0) in
      let susp_ctrl := Mmio (hcd_regs hcd + TEGRA_USB_SUSP_CTRL_OFFSET) in
      pr_err rx_err_start ;;
      rmw (Mmio (clk_reset_base + TEGRA_LVL2_CLK_GATE_OVRB))
          (fun val => Z.lor val TEGRA_USB2_CLK_OVR_ON) ;;
      rmw portsc (fun val => Z.lor val PORT_SUSPEND) ;;
      r <- handshake portsc PORT_SUSPEND PORT_SUSPEND 5000 ;;
      if negb (r =? 0) then pr_err rx_err_suspend
      else
        rmw portsc (fun val => Z.lor val TEGRA_USB_PORTSC_PHCD) ;;
        r <- ehci_tegra_wait_register susp_ctrl TEGRA_USB_PHY_CLK_VALID 0 ;;
        if r <? 0 then pr_err rx_err_clk_off
        else
          rmw susp_ctrl (fun val => Z.lor val TEGRA_USB_SUSP_CLR) ;;
          rmw susp_ctrl (fun val => clr val TEGRA_USB_SUSP_CLR) ;;
          r <- ehci_tegra_wait_register susp_ctrl TEGRA_USB_PHY_CLK_VALID
                                        TEGRA_USB_PHY_CLK_VALID ;;
          if r <? 0 then pr_err rx_err_clk_on
          else
            rmw portsc (fun val => Z.lor val TEGRA_USB_SRT) ;;
            rmw portsc (fun val => Z.lor val PORT_RESUME) ;;
            r <- handshake portsc PORT_RESUME 0 5000 ;;
            if negb (r =? 0) then pr_err rx_err_resume
            else
              rmw portsc (fun val => clr val TEGRA_USB_SRT) ;;
              pr_err rx_err_end
  end.

End WithIomap.

End EhciRecover.

(** ** Specification vocabulary *)

Module DrvLogic.

(** Total and partial weakest preconditions. *)
Definition wp {A} (m : M A) (hw : oracle) (s : machine)
    (Q : A -> machine -> list event -> Prop) : Prop :=
  match m hw s with
  | Some (a, s', evs) => Q a s' evs
  | None => False
  end.

Definition wlp {A} (m : M A) (hw : oracle) (s : machine)
    (Q : A -> machine -> list event -> Prop) : Prop :=
  match m hw s with
  | Some (a, s', evs) => Q a s' evs
  | None => True
  end.

(** Put [evs] in front of the events of a result. *)
Definition prepend {A} (evs : list event)
    (r : option (A * machine * list event)) : option (A * machine * list event) :=
  match r with
  | Some (a, s, e) => Some (a, s, evs ++ e)
  | None => None
  end.

(** A computation that always returns. *)
Definition total {A} (m : M A) : Prop :=
  forall hw s, exists r, m hw s = Some r.

(** Frames.

    [link_of] is the part of the machine the PHY layer never writes. *)

Definition link_of (s : machine)
  : Z * Z * bool * tegra_ehci_hcd * ehci_hcd :=
  (shutdown s, work_count s, ehci_power_up_by_sysfs s, tegra s, ehci s).

Definition is_phy_event (e : event) : bool :=
  match e with
  | EvPhyOp _ _ | EvPhyRet _ _ => true
  | _ => false
  end.

Definition no_phy_events (evs : list event) : Prop :=
  Forall (fun e => is_phy_event e = false) evs.

(** A quiet computation leaves the link state alone and enters no
    exported PHY operation. *)
Definition quiet {A} (m : M A) : Prop :=
  forall hw s,
    wlp m hw s (fun _ s' evs => link_of s' = link_of s /\ no_phy_events evs).

End DrvLogic.

Import DrvLogic.

(** Observations on runs. *)

Module Obs.

(** The value of the k-th input operation of a run started in [s], read
    as a 32-bit register. *)
Definition read_at (hw : oracle) (s : machine) (k : nat) : Z :=
  wrap32 (hw (inputs s + k)%nat).

(** [n] failed polls of [reg]: a read followed by a 1 us delay, each. *)
Definition poll_events (reg : ioaddr) (hw : oracle) (s : machine) (n : nat)
  : list event :=
  flat_map (fun k => [EvReadl reg (read_at hw s k); EvDelay Udelay 1]) (seq 0 n).

(** Advance the input counter by [n]. *)
Definition consume (n : nat) (s : machine) : machine :=
  set_inputs (inputs s + n)%nat s.

(** What a read-modify-write of [a] leaves in the trace when it reads
    [v]. *)
Definition rmw_events (a : ioaddr) (f : Z -> Z) (v : Z) : list event :=
  [EvReadl a v; EvWritel a (wrap32 (f v))].

End Obs.

Import Obs.

(** Sequences of calls on the shared UTMI pad. *)

Module PadRun.

Import UsbPhy.

Inductive pad_call :=
| PadOn (phy : tegra_usb_phy)
| PadOff (phy : tegra_usb_phy).

Definition pad_step (c : pad_call) : M Z :=
  match c with
  | PadOn phy => bind (utmip_pad_power_on phy) (fun _ => ret 0)
  | PadOff phy => utmip_pad_power_off phy
  end.

Definition is_writel (e : event) : bool :=
  match e with EvWritel _ _ => true | _ => false end.

(** What one call is observed to do: its return value, the reference
    count it leaves, and the register writes it performs. *)
Record pad_obs := mk_pad_obs {
  pad_ret : Z;
  pad_count_after : Z;
  pad_writes : list event
}.

Fixpoint pad_run (cs : list pad_call) (hw : oracle) (s : machine)
  : option (list pad_obs * machine) :=
  match cs with
  | [] => Some ([], s)
  | c :: cs' =>
      match pad_step c hw s with
      | None => None
      | Some (r, s1, evs) =>
          match pad_run cs' hw s1 with
          | None => None
          | Some (obs, s2) =>
              Some (mk_pad_obs r (utmip_pad_count s1) (filter is_writel evs) :: obs,
                    s2)
          end
      end
  end.

Definition BIAS_PD : Z := Z.lor UTMIP_OTGPD UTMIP_BIASPD.

(** A write to [UTMIP_BIAS_CFG0] of [phy]'s pad block that clears
    (powers up) or sets (powers down) both power-down bits. *)
Definition bias_power_up (phy : tegra_usb_phy) (e : event) : Prop :=
  exists v, e = EvWritel (Mmio (pad_regs phy + UTMIP_BIAS_CFG0)) v
            /\ Z.land v BIAS_PD = 0.

Definition bias_power_down (phy : tegra_usb_phy) (e : event) : Prop :=
  exists v, e = EvWritel (Mmio (pad_regs phy + UTMIP_BIAS_CFG0)) v
            /\ Z.land v BIAS_PD = BIAS_PD.

(** The events of a pad call that leaves the bias cell alone. *)
Definition pad_idle_events : list event :=
  [EvClk true "utmip-pad"; EvLock true "utmip_pad_lock";
   EvLock false "utmip_pad_lock"; EvClk false "utmip-pad"].

End PadRun.

Import PadRun.

(** Well-formed handles, and the shape of a call into the PHY layer. *)

Module PhyObs.

Import UsbPhy.

(** What [tegra_usb_phy_open] establishes for the handle it returns when
    the frequency lookup has matched: instance 1 carries a ULPI
    configuration, the other instances a UTMI one, and [freq] points to a
    table row. *)
Definition phy_wf (phy : tegra_usb_phy) : Prop :=
  (instance phy = 1 -> exists c, config phy = PtrUlpi c) /\
  (instance phy <> 1 -> exists c, as_utmip_config (config phy) = Some c) /\
  (exists f, freq_deref (phy_freq phy) = Some f).

(** The handle of an HSIC port. *)
Definition phy_is_hsic (phy : tegra_usb_phy) : Prop :=
  instance phy = 1 /\
  exists c, config phy = PtrUlpi c /\ inf_type c = TEGRA_USB_UHSIC.

Definition ready (s : machine) : bool := device_ready_for_reset (tegra s).

(** The events of one call of the exported operation [op]: the entry
    event with the value of [device_ready_for_reset] at that moment, the
    events of the body, none of which belongs to the PHY interface, and
    the return event when the operation returns a value. *)
Definition phy_call_shape (op : phy_op) (b : bool) (r : option Z)
    (evs : list event) : Prop :=
  exists body,
    no_phy_events body /\
    evs = EvPhyOp op b :: body
            ++ match r with Some v => [EvPhyRet op v] | None => [] end.

Definition is_op (op : phy_op) (e : event) : bool :=
  match e with
  | EvPhyOp o _ =>
      match op, o with
      | OpPowerOn, OpPowerOn | OpPowerOff, OpPowerOff
      | OpPreresume, OpPreresume | OpPostresume, OpPostresume
      | OpRestoreStart, OpRestoreStart | OpRestoreEnd, OpRestoreEnd
      | OpBusConnect, OpBusConnect | OpBusReset, OpBusReset
      | OpBusIdle, OpBusIdle | OpIsDeviceConnected, OpIsDeviceConnected
      | OpSetPhyClock, OpSetPhyClock => true
      | _, _ => false
      end
  | _ => false
  end.

(** How many times [op] is entered in [evs]. *)
Definition calls (op : phy_op) (evs : list event) : nat :=
  List.length (filter (is_op op) evs).

(** A computation that ends by reporting its result [a] as
    [EvPhyRet op (code a)]. *)
Definition leaves {A} (op : phy_op) (code : A -> Z) (m : M A) : Prop :=
  forall hw s,
    wlp m hw s (fun a s' evs =>
      link_of s' = link_of s /\
      exists body, no_phy_events body /\ evs = body ++ [EvPhyRet op (code a)]).

(** A C [bool] as the [int] it is returned as. *)
Definition bool_code (b : bool) : Z := if b then 1 else 0.

End PhyObs.

Import PhyObs.

(** The passes of the HSIC power-on sequence. *)

Module HsicPowerOn.

Import UsbPhy.

Section WithConfig.

Variable cfg : kconfig.

(** The inputs one pass of the register sequence reads before its wait
    for USB_PHY_CLK_VALID: one per register read. *)
Definition sequence_reads : nat :=
  if CONFIG_MACH_N1 cfg then 14%nat else 13%nat.

(** The trace of one pass of the power-on register sequence started in
    [s]: the register writes in the order of the source, the wait for
    USB_PHY_CLK_VALID ([k] reads, result [r], events [w]) and the closing
    read of USB_PORTSC1. *)
Definition sequence_trace (phy : tegra_usb_phy) (f : tegra_xtal_freq)
    (hw : oracle) (s : machine) (k : nat) (r : Z) (w : list event)
  : list event :=
  let base := regs phy in
  let config := uhsic_default in
  let rd := read_at hw s in
  let susp := Mmio (base + USB_SUSP_CTRL) in
  let portsc := Mmio (base + USB_PORTSC1) in
  let txfill := Mmio (base + USB_TXFILLTUNING) in
  let n1 := if CONFIG_MACH_N1 cfg then 1%nat else 0%nat in
  rmw_events (Mmio (base + UHSIC_PADS_CFG1))
    (fun val =>
       Z.lor (clr val (lor_all [UHSIC_PD_BG; UHSIC_PD_TX; UHSIC_PD_TRK;
                                UHSIC_PD_RX; UHSIC_PD_ZI; UHSIC_RPD_DATA;
                                UHSIC_RPD_STROBE]))
             UHSIC_RX_SEL) (rd 0%nat)
  ++ [EvDelay Udelay 2]
  ++ rmw_events susp (fun val => Z.lor val UHSIC_RESET) (rd 1%nat)
  ++ [EvDelay Udelay 30]
  ++ rmw_events susp (fun val => Z.lor val UHSIC_PHY_ENABLE) (rd 2%nat)
  ++ rmw_events (Mmio (base + UHSIC_HSRX_CFG0))
       (fun val =>
          lor_all [val; UHSIC_IDLE_WAIT (uhsic_idle_wait_delay config);
                   UHSIC_ELASTIC_UNDERRUN_LIMIT (elastic_underrun_limit config);
                   UHSIC_ELASTIC_OVERRUN_LIMIT (elastic_overrun_limit config)])
       (rd 3%nat)
  ++ rmw_events (Mmio (base + UHSIC_HSRX_CFG1))
       (fun val => Z.lor val (UHSIC_HS_SYNC_START_DLY (sync_start_delay config)))
       (rd 4%nat)
  ++ rmw_events (Mmio (base + UHSIC_MISC_CFG0))
       (fun val => Z.lor val UHSIC_SUSPEND_EXIT_ON_EDGE) (rd 5%nat)
  ++ rmw_events (Mmio (base + UHSIC_MISC_CFG1))
       (fun val => Z.lor val (UHSIC_PLLU_STABLE_COUNT (stable_count f)))
       (rd 6%nat)
  ++ rmw_events (Mmio (base + UHSIC_PLL_CFG1))
       (fun val =>
          lor_all [val; UHSIC_PLLU_ENABLE_DLY_COUNT (enable_delay f);
                   UHSIC_XTAL_FREQ_COUNT (xtal_freq_count f)])
       (rd 7%nat)
  ++ rmw_events susp (fun val => clr val UHSIC_RESET) (rd 8%nat)
  ++ [EvDelay Udelay 2]
  ++ rmw_events portsc (fun val => clr val (USB_PORTSC1_PTS ALL_ONES)) (rd 9%nat)
  ++ [EvReadl txfill (rd 10%nat)]
  ++ (if Z.land (rd 10%nat) USB_FIFO_TXFILL_MASK =? USB_FIFO_TXFILL_THRES 0x10
      then []
      else [EvWritel txfill (wrap32 (USB_FIFO_TXFILL_THRES 0x10))])
  ++ (if CONFIG_MACH_N1 cfg
      then EvReadl (Mmio MEM_6000_C0E4) (rd 11%nat)
             :: (if Z.land (rd 11%nat) 0x80000000 =? 0x80000000 then []
                 else [EvWritel (Mmio MEM_6000_C0E4)
                         (wrap32 (lor_all [Z.shiftl 1 31; Z.shiftl 18 26;
                                           Z.shiftl 9 21; Z.shiftl 0 16;
                                           0x800]))])
      else [])
  ++ rmw_events portsc
       (fun val => clr val (lor_all [USB_PORTSC1_WKOC; USB_PORTSC1_WKDS;
                                     USB_PORTSC1_WKCN]))
       (rd (11 + n1)%nat)
  ++ rmw_events (Mmio (base + UHSIC_PADS_CFG0))
       (fun val => Z.lor (clr val UHSIC_TX_RTUNEN) (UHSIC_TX_RTUNE 0))
       (rd (12 + n1)%nat)
  ++ w
  ++ (if r =? 0 then [] else [EvLog "timeout waiting for phy to stabilize"])
  ++ [EvReadl portsc (rd (13 + n1 + k)%nat)].

(** The retry test after a pass that ended in [s1], with [spin] retries
    left: another pass is asked for when GPIO_PHONE_ACTIVE reads
    non-zero, a retry is left, and the port speed field of USB_PORTSC1
    does not read all ones.  The port status is read only when the first
    two hold. *)
Definition retry_asked (phy : tegra_usb_phy) (hw : oracle) (s1 : machine)
    (spin : Z) : bool :=
  CONFIG_MACH_N1 cfg && negb (hw (inputs s1) =? 0) && (spin >? 0)
  && negb (Z.land (read_at hw s1 1) (USB_PORTSC1_PSPD ALL_ONES)
             =? USB_PORTSC1_PSPD ALL_ONES).

Definition retry_probe (phy : tegra_usb_phy) (hw : oracle) (s1 : machine)
    (spin : Z) : list event :=
  if CONFIG_MACH_N1 cfg then
    EvGpioGet GPIO_PHONE_ACTIVE (hw (inputs s1))
      :: (if negb (hw (inputs s1) =? 0) && (spin >? 0)
          then [EvReadl (Mmio (regs phy + USB_PORTSC1)) (read_at hw s1 1)]
          else [])
  else [].

(** The inputs the recovery reads, and its trace when started in [s]:
    the log line, the power-off (strobe pull-down, UHSIC_RESET set,
    UHSIC_PHY_ENABLE cleared and, with CONFIG_MACH_N1, the active-state
    line dropped while the modem is out of reset) and the
    GPIO_IPC_SLAVE_WAKEUP pulse, 10 ms apart. *)
Definition recover_reads : nat :=
  if CONFIG_MACH_N1 cfg then 4%nat else 3%nat.

Definition recover_trace (phy : tegra_usb_phy) (hw : oracle) (s : machine)
  : list event :=
  let base := regs phy in
  let rd := read_at hw s in
  let susp := Mmio (base + USB_SUSP_CTRL) in
  let cp_rst := hw (inputs s + 3)%nat in
  [EvLog "register init fail, retry phy power on"]
  ++ rmw_events (Mmio (base + UHSIC_PADS_CFG1))
       (fun val => Z.lor (clr val UHSIC_RPU_STROBE) UHSIC_RPD_STROBE) (rd 0%nat)
  ++ rmw_events susp (fun val => Z.lor val UHSIC_RESET) (rd 1%nat)
  ++ [EvDelay Udelay 30]
  ++ rmw_events susp (fun val => clr val UHSIC_PHY_ENABLE) (rd 2%nat)
  ++ (if CONFIG_MACH_N1 cfg
      then EvGpioGet GPIO_CP_RST cp_rst
             :: (if cp_rst =? 0 then []
                 else [EvGpioSet GPIO_ACTIVE_STATE_HSIC 0])
      else [])
  ++ [EvDelay Mdelay 10;
      EvGpioSet GPIO_IPC_SLAVE_WAKEUP 1;
      EvDelay Mdelay 10;
      EvGpioSet GPIO_IPC_SLAVE_WAKEUP 0;
      EvDelay Mdelay 10].

(** [power_on_passes phy f hw spin n s s' evs]: started in [s] with
    [spin] retries left, the run makes [n + 1] passes of the register
    sequence and ends in [s'] with the trace [evs].  After each of the
    first [n] passes the retry test asks for another pass and the
    recovery follows; after the last pass the test does not ask for
    one and the run ends. *)
Inductive power_on_passes (phy : tegra_usb_phy) (f : tegra_xtal_freq)
    (hw : oracle)
  : Z -> nat -> machine -> machine -> list event -> Prop :=
| passes_last spin s k r w s1 :
    utmi_wait_register cfg (Mmio (regs phy + USB_SUSP_CTRL))
      USB_PHY_CLK_VALID USB_PHY_CLK_VALID hw (consume sequence_reads s)
      = Some (r, consume (sequence_reads + k) s, w) ->
    s1 = consume (sequence_reads + k + 1) s ->
    retry_asked phy hw s1 spin = false ->
    power_on_passes phy f hw spin 0 s
      (consume (List.length (retry_probe phy hw s1 spin)) s1)
      (sequence_trace phy f hw s k r w ++ retry_probe phy hw s1 spin)
| passes_retry spin n s k r w s1 s' evs :
    utmi_wait_register cfg (Mmio (regs phy + USB_SUSP_CTRL))
      USB_PHY_CLK_VALID USB_PHY_CLK_VALID hw (consume sequence_reads s)
      = Some (r, consume (sequence_reads + k) s, w) ->
    s1 = consume (sequence_reads + k + 1) s ->
    retry_asked phy hw s1 spin = true ->
    power_on_passes phy f hw (spin - 1) n
      (consume recover_reads (consume 2 s1)) s' evs ->
    power_on_passes phy f hw spin (S n) s s'
      (sequence_trace phy f hw s k r w
         ++ retry_probe phy hw s1 spin
         ++ recover_trace phy hw (consume 2 s1)
         ++ evs).

(** Hardware on which every retry test asks for another pass: the modem
    is reported active and the port speed field never reads all ones. *)
Definition always_retry (hw : oracle) : Prop :=
  forall k,
    hw k <> 0 /\
    Z.land (wrap32 (hw k)) (USB_PORTSC1_PSPD ALL_ONES) <> USB_PORTSC1_PSPD ALL_ONES.

End WithConfig.

End HsicPowerOn.

Import HsicPowerOn.

(** Concrete inputs used to exercise the theorems. *)

Module Samples.

Import UsbPhy.

Definition boot_tegra : tegra_ehci_hcd := mk_tegra 0 0 0 0 false 0.

Definition boot_ehci : ehci_hcd := mk_ehci (fun _ => 0) 0 0 0 true.

(** The machine after boot: nothing read yet, pad count 0. *)
Definition boot_machine : machine :=
  mk_machine 0 0 0 0 0 false boot_tegra boot_ehci.

Definition n1_config : kconfig := mk_kconfig true true.

Definition no_plat_data (_ : Z) : usb_phy_plat_data := mk_plat_data 0 (-1) false.

(** The UTMI handles of controllers 0 and 2; both pad windows map the
    block of controller 0. *)
Definition utmi_phy0 : tegra_usb_phy :=
  mk_phy 0 (FreqRow false 0) 0xC5000000 0xC5000000 TEGRA_USB_PHY_MODE_HOST
         (PtrUtmipDefault 0).

Definition utmi_phy2 : tegra_usb_phy :=
  mk_phy 2 (FreqRow false 0) 0xC5008000 0xC5000000 TEGRA_USB_PHY_MODE_HOST
         (PtrUtmipDefault 2).

Definition hsic_config : tegra_ulpi_config :=
  mk_ulpi_config TEGRA_USB_UHSIC 0 "" None false false.

Definition ulpi_link_config : tegra_ulpi_config :=
  mk_ulpi_config TEGRA_USB_LINK_ULPI 0 "cdev2" None false false.

(** The HSIC handle of controller 1. *)
Definition hsic_phy : tegra_usb_phy :=
  mk_phy 1 (FreqRow true 0) 0xC5004000 0 TEGRA_USB_PHY_MODE_HOST
         (PtrUlpi hsic_config).

(** The host controllers of the two handles: one root port with port
    power control. *)
Definition utmi_hcd : EhciTegra.usb_hcd :=
  EhciTegra.mk_hcd utmi_phy0 0xC5000000 0x11 true 0 0 0 true.

Definition hsic_hcd : EhciTegra.usb_hcd :=
  EhciTegra.mk_hcd hsic_phy 0xC5004000 0x11 true 0 0 1 true.

(** One assignment of the enumerators of
    [enum tegra_usb_phy_port_speed], in the order of the port speed
    field of PORTSC1 (bits 27:26) that [tegra_usb_suspend] records. *)
Definition speed_full : Z := 0.
Definition speed_low : Z := 1.
Definition speed_high : Z := 2.

(** A port status register whose speed field reads high speed. *)
Definition portsc_high_speed : Z := Z.shiftl speed_high 26.

(** Hardware whose every input reads [v]. *)
Definition stuck_at (v : Z) : oracle := fun _ => v.

(** Kernel services that all succeed, with a 12 MHz parent clock and a
    fresh allocation that happens to be zero-filled. *)
Definition healthy_env : open_env :=
  mk_open_env true 0 None 12000000 None None 0xC5000000 None 0.

(** The same with a 24 MHz parent clock, which is in no table, and an
    allocation that reuses a block holding other data. *)
Definition stale_env : open_env :=
  mk_open_env true 0xC0DE None 24000000 None None 0xC5000000 None 0.

(** A machine whose root hub has asked for a suspend. *)
Definition suspend_requested : machine :=
  set_tegra (set_hub_suspend_req 1 boot_tegra) boot_machine.

(** Services on which [clk_get_sys] fails for [pll_u]. *)
Definition no_pll_env : open_env :=
  mk_open_env true 0 (Some (-2)) 12000000 None None 0xC5000000 None 0.

(** Board data that names instance 0 twice. *)
Definition board_rows : list (Z * usb_phy_plat_data) :=
  [(0, mk_plat_data 5 7 false); (1, mk_plat_data 0 (-1) true);
   (0, mk_plat_data 9 3 false)].

(** An IN transfer of five bytes into a buffer at an odd address, the
    flag bit and the direction test of [include/linux/usb.h], and an
    allocator that hands out the block at 0x1000. *)
Definition temp_buffer_flag : Z := 0x00800000.
Definition dir_in_bit (u : UrbBuffer.urb) : bool :=
  negb (Z.land (UrbBuffer.transfer_flags u) 0x0200 =? 0).
Definition block_at_0x1000 (_ : Z) : Z := 0x1000.
Definition odd_urb : UrbBuffer.urb := UrbBuffer.mk_urb 0x0200 0x2003 5 0 0.

(** A transfer whose padded size wraps: [0xFFFFFFF0 + 39] is 23 in
    [size_t]. *)
Definition wrapping_urb : UrbBuffer.urb :=
  UrbBuffer.mk_urb 0x0200 0x2003 0xFFFFFFF0 0 0.

Definition zero_memory : UrbBuffer.memory := fun _ => 0.
Definition failing_map (u : UrbBuffer.urb) : Z * UrbBuffer.urb := (-5, u).

End Samples.

Import Samples.

(** The PHY calls of a run, and the link-level observations built on
    them. *)

Module LinkObs.

Import UsbPhy EhciTegra.

(** The events selected by [P] among [evs], in order. *)
Fixpoint obs (P : event -> bool) (evs : list event) : list event :=
  match evs with
  | [] => []
  | e :: rest => if P e then e :: obs P rest else obs P rest
  end.

(** The calls of the PHY interface in a run. *)
Definition phy_trace (evs : list event) : list event := obs is_phy_event evs.

(** A write to a port status register that raises PORT_RESUME: the start
    of resume signalling on the port. *)
Definition is_port_resume_write (e : event) : bool :=
  match e with
  | EvWritel (EhciReg (REG_port_status _)) v => negb (Z.land v PORT_RESUME =? 0)
  | _ => false
  end.

(** A call of [tegra_usb_phy_bus_idle] made while the device is not
    known to be present. *)
Definition idle_call (r : Z) : list event :=
  [EvPhyOp OpBusIdle false; EvPhyRet OpBusIdle r].

(** A presence poll that reports no device, and one that reports a
    device, both made while [device_ready_for_reset] is false. *)
Definition failed_poll : list event :=
  [EvPhyOp OpIsDeviceConnected false; EvPhyRet OpIsDeviceConnected 0].

Definition good_poll : list event :=
  [EvPhyOp OpIsDeviceConnected false; EvPhyRet OpIsDeviceConnected 1].

Definition failed_polls (k : nat) : list event := List.concat (repeat failed_poll k).

(** A call of [tegra_usb_phy_bus_reset] made while
    [device_ready_for_reset] is true. *)
Definition reset_call (r : Z) : list event :=
  [EvPhyOp OpBusReset true; EvPhyRet OpBusReset r].

(** Hardware that never shows UHSIC_CONNECT_DETECT. *)
Definition never_detects (hw : oracle) : Prop :=
  forall k, Z.land (wrap32 (hw k)) UHSIC_CONNECT_DETECT <> UHSIC_CONNECT_DETECT.

(** What a step keeps of the link: the reset-readiness flag and the
    recorded port speed. *)
Definition kept (s s' : machine) : Prop :=
  ready s' = ready s /\ port_speed (tegra s') = port_speed (tegra s).

(** A computation that returns, keeps the link and shows nothing to the
    observer [P]. *)
Definition steady {A} (P : event -> bool) (m : M A) : Prop :=
  forall hw s, wp m hw s (fun _ s' evs => kept s s' /\ obs P evs = []).

(** Total weakest precondition over what [P] observes. *)
Definition twp {A} (P : event -> bool) (m : M A) (hw : oracle) (s : machine)
    (Q : A -> machine -> list event -> Prop) : Prop :=
  wp m hw s (fun a s' evs => Q a s' (obs P evs)).

(** The value written to start resume signalling, from the port status
    [temp] read at the start of the request. *)
Definition resume_value (temp : Z) : Z :=
  wrap32 (Z.lor (clr temp (Z.lor PORT_RWC_BITS PORT_WAKE_BITS)) PORT_RESUME).

Definition port_of (wIndex : Z) : ioaddr :=
  EhciReg (REG_port_status (Z.land wIndex 0xff - 1)).

(** The PHY calls of the HSIC port-reset block, entered with
    [device_ready_for_reset] equal to [was_ready] and with [retval0] as
    the result so far: a bus reset at once when the flag is set;
    otherwise a bus idle and presence polls, and a bus reset only after
    a poll among the first twenty that found the device. *)
Definition port_reset_trace (was_ready : bool) (retval0 r : Z)
    (t : list event) : Prop :=
  (was_ready = true /\ t = reset_call r) \/
  (was_ready = false /\
   exists ri k, (k < 20)%nat /\
     t = idle_call ri ++ failed_polls k ++ good_poll ++ reset_call r) \/
  (was_ready = false /\ r = retval0 /\
   exists ri, t = idle_call ri ++ failed_polls 20).

(** The port status [temp] and the port number let a SetPortFeature
    (PORT_RESET) request through to the HSIC reset block. *)
Definition reaches_hsic_reset (hcd : usb_hcd) (hsic : bool) (wIndex temp : Z)
  : bool :=
  let w := Z.land wIndex 0xff in
  let temp' := clr temp PORT_RWC_BITS in
  negb ((w =? 0) || (w >? HCS_N_PORTS (hcs_params hcd)))
  && (Z.land temp PORT_OWNER =? 0)
  && (Z.land temp' PORT_RESUME =? 0)
  && negb ((Z.land temp' (Z.lor PORT_PE PORT_CONNECT) =? PORT_CONNECT)
           && negb (has_tt hcd) && PORT_USB11 temp')
  && (hsic && (w - 1 =? 0)).

(** Events that confirm a device on the link: a presence poll that
    returned true, or a bus connect. *)
Definition is_confirmation (e : event) : bool :=
  match e with
  | EvPhyRet OpIsDeviceConnected r => negb (r =? 0)
  | EvPhyOp OpBusConnect _ => true
  | _ => false
  end.

(** Scan the PHY calls of a run.  [confirmed] tells whether the device
    has been confirmed since the last bus reset.  The scan fails at a
    bus reset that is entered with [device_ready_for_reset] clear or
    with no confirmation since the bus reset before it. *)
Fixpoint presence_scan (confirmed : bool) (t : list event) : option bool :=
  match t with
  | [] => Some confirmed
  | EvPhyOp OpBusReset b :: rest =>
      if confirmed && b then presence_scan false rest else None
  | e :: rest => presence_scan (confirmed || is_confirmation e) rest
  end.

(** A run that enters no bus reset and raises the readiness flag only
    along with a confirmation. *)
Definition benign (s s' : machine) (t : list event) : Prop :=
  calls OpBusReset t = 0%nat /\
  (ready s' = true ->
   ready s = true \/ exists e, In e t /\ is_confirmation e = true).

(** A run whose PHY calls pass the scan from every state of the scan
    that is consistent with the flag, and leave it consistent. *)
Definition scan_ok (s s' : machine) (t : list event) : Prop :=
  forall c, (ready s = true -> c = true) ->
    exists c', presence_scan c t = Some c' /\ (ready s' = true -> c' = true).

(** How often [tegra_usb_resume] enters the two halves of the restore
    pair, from the build, the kind of port and the recorded speed. *)
Definition restore_start_expected (cfg : kconfig) (HIGH : Z) (hsic : bool)
    (speed : Z) : nat :=
  if (CONFIG_MACH_N1 cfg && hsic) || (speed >? HIGH) then 0 else 1.

Definition restore_end_expected (cfg : kconfig) (HIGH : Z) (hsic : bool)
    (speed : Z) : nat :=
  if (CONFIG_MACH_N1 cfg && negb hsic) || (speed <=? HIGH) then 1 else 0.

(** [phy_is_ulpi(phy) && config->inf_type == TEGRA_USB_UHSIC] as a
    function of a well-formed handle. *)
Definition hsic_handle (phy : tegra_usb_phy) : bool :=
  (instance phy =? 1)
  && match config phy with
     | PtrUlpi c => phy_type_eqb (inf_type c) TEGRA_USB_UHSIC
     | _ => false
     end.

(** The entry points of the glue that reach the PHY of one controller,
    and runs made of them one after the other. *)
Inductive entry :=
| HubControl (typeReq wValue wIndex : Z)
| ConnectionWork
| Suspend
| Resume
| BusSuspend
| BusResume.

Section Entries.

Variable cfg : kconfig.
Variable usb_phy_data : Z -> usb_phy_plat_data.
Variable TEGRA_USB_PHY_PORT_SPEED_FULL : Z.
Variable TEGRA_USB_PHY_PORT_SPEED_LOW : Z.
Variable TEGRA_USB_PHY_PORT_SPEED_HIGH : Z.

Definition run_entry (hcd : usb_hcd) (e : entry) : M unit :=
  match e with
  | HubControl typeReq wValue wIndex =>
      bind (tegra_ehci_hub_control cfg hcd typeReq wValue wIndex) (fun _ => ret tt)
  | ConnectionWork => tegra_hsic_connection_work cfg hcd
  | Suspend => bind (tegra_usb_suspend cfg usb_phy_data hcd) (fun _ => ret tt)
  | Resume =>
      bind (tegra_usb_resume cfg usb_phy_data TEGRA_USB_PHY_PORT_SPEED_FULL
              TEGRA_USB_PHY_PORT_SPEED_LOW TEGRA_USB_PHY_PORT_SPEED_HIGH hcd)
           (fun _ => ret tt)
  | BusSuspend => bind (tegra_ehci_bus_suspend cfg hcd) (fun _ => ret tt)
  | BusResume => bind (tegra_ehci_bus_resume cfg hcd) (fun _ => ret tt)
  end.

Fixpoint run_entries (hcd : usb_hcd) (es : list entry) : M unit :=
  match es with
  | [] => ret tt
  | e :: rest => bind (run_entry hcd e) (fun _ => run_entries hcd rest)
  end.

End Entries.

(** Every bus reset entered in [t] found [device_ready_for_reset]
    set. *)
Definition resets_ready (t : list event) : bool :=
  forallb (fun e => match e with EvPhyOp OpBusReset b => b | _ => true end) t.

(** An observer that sees only PHY calls and register writes. *)
Definition plain (P : event -> bool) : Prop :=
  forall e, is_phy_event e = false -> PadRun.is_writel e = false -> P e = false.

End LinkObs.

Import LinkObs.

(** Observations for the rest of the two files. *)

Module CodeObs.

Import UsbPhy EhciTegra.

(** Every event of [m] is one that [P] allows. *)
Definition only (P : event -> bool) {A} (m : M A) : Prop :=
  forall hw s, wlp m hw s (fun _ _ evs => Forall (fun e => P e = true) evs).

(** Register reads, delays and log lines. *)
Definition is_poll_event (e : event) : bool :=
  match e with
  | EvReadl _ _ | EvDelay _ _ | EvLog _ => true
  | _ => false
  end.

(** The events of a wait on registers inside a PHY call. *)
Definition is_wait_event (e : event) : bool :=
  is_poll_event e || is_phy_event e.

(** Calls of the kernel service [name]. *)
Definition is_ext (name : string) (e : event) : bool :=
  match e with
  | EvExt n _ => String.eqb n name
  | _ => false
  end.

Definition ext_count (name : string) (evs : list event) : nat :=
  List.length (filter (is_ext name) evs).

(** [clk_enable] ([en = true]) or [clk_disable] of the clock [name]. *)
Definition is_clk (en : bool) (name : string) (e : event) : bool :=
  match e with
  | EvClk b n => Bool.eqb b en && String.eqb n name
  | _ => false
  end.

Definition clk_count (en : bool) (name : string) (evs : list event) : nat :=
  List.length (filter (is_clk en name) evs).

(** The re-arm of the connection worker. *)
Definition schedule_work : string :=
  "schedule_delayed_work(&tegra->work, msecs_to_jiffies(50))".

(** The kernel services [usb_phy.c] calls while a PHY operation runs. *)
Definition phy_layer_services : list string :=
  ["gpio_direction_output"; "gpio_request"; "gpio_free"; "tegra_gpio_enable";
   "otg_io_write(0x40, 0x08)"; "otg_io_write(0x80, 0x0B)";
   "tegra_get_revision() >= TEGRA_REVISION_A03"; "WARN_ON";
   "preinit"; "postinit"; "regulator_enable"; "regulator_disable";
   "tegra_usb1_power(0)"; "tegra_usb1_power(1)";
   "usb_ldo_en(0)"; "usb_ldo_en(1)"]%string.

(** The clocks of [struct tegra_ehci_hcd]: [emc_clk], [sclk_clk], [clk]
    and [clk_min]. *)
Definition glue_clocks : list string := ["emc"; "sclk"; "usb2"; "usb2min"]%string.

(** The clock a ULPI link configuration names is not one of them. *)
Definition link_clock_apart (phy : tegra_usb_phy) : Prop :=
  forall c, config phy = PtrUlpi c ->
            existsb (String.eqb (clk_name c)) glue_clocks = false.

(** What a PHY operation may do: register and GPIO traffic, delays, log
    lines, clocks other than those of the glue, the pad lock, and the
    services above. *)
Definition is_phy_layer_event (e : event) : bool :=
  match e with
  | EvClk _ n => negb (existsb (String.eqb n) glue_clocks)
  | EvLock _ n => String.eqb n "utmip_pad_lock"
  | EvExt n _ => existsb (String.eqb n) phy_layer_services
  | _ => true
  end.

(** What is seen of the host-controller glue from outside the register
    file: the PHY calls it makes, and its own clock, lock and kernel
    service calls. *)
Definition glue_view (e : event) : bool :=
  is_phy_event e || negb (is_phy_layer_event e).

(** Register reads and delays: what a wait on a register does. *)
Definition is_spin_event (e : event) : bool :=
  match e with
  | EvReadl _ _ | EvDelay _ _ => true
  | _ => false
  end.

End CodeObs.

Import CodeObs.

(** * Verification *)

(** ** Reasoning about the driver monad *)

Module DrvLogicFacts.

Lemma wp_elim {A} (m : M A) hw s Q :
  wp m hw s Q -> exists a s' evs, m hw s = Some (a, s', evs) /\ Q a s' evs.
Proof.
  unfold wp. destruct (m hw s) as [[[a s'] evs]|]; [|tauto].
  intros H. exists a, s', evs. split; [reflexivity | exact H].
Qed.

Lemma wp_intro {A} (m : M A) hw s (Q : A -> machine -> list event -> Prop) a s' evs :
  m hw s = Some (a, s', evs) -> Q a s' evs -> wp m hw s Q.
Proof. unfold wp. intros ->. auto. Qed.

Lemma wp_mono {A} (m : M A) hw s (Q Q' : A -> machine -> list event -> Prop) :
  wp m hw s Q -> (forall a s' evs, Q a s' evs -> Q' a s' evs) -> wp m hw s Q'.
Proof. unfold wp. destruct (m hw s) as [[[a s'] evs]|]; auto. Qed.

Lemma wlp_mono {A} (m : M A) hw s (Q Q' : A -> machine -> list event -> Prop) :
  wlp m hw s Q -> (forall a s' evs, Q a s' evs -> Q' a s' evs) -> wlp m hw s Q'.
Proof. unfold wlp. destruct (m hw s) as [[[a s'] evs]|]; auto. Qed.

Lemma wp_split {A} (m : M A) hw s Q :
  total m -> wlp m hw s Q -> wp m hw s Q.
Proof.
  intros T. destruct (T hw s) as [[[a s'] evs] E]. unfold wp, wlp. now rewrite E.
Qed.

Lemma wp_wlp {A} (m : M A) hw s Q : wp m hw s Q -> wlp m hw s Q.
Proof. unfold wp, wlp. destruct (m hw s) as [[[a s'] evs]|]; auto. Qed.

Lemma wlp_elim {A} (m : M A) hw s Q a s' evs :
  wlp m hw s Q -> m hw s = Some (a, s', evs) -> Q a s' evs.
Proof. unfold wlp. intros H E. now rewrite E in H. Qed.

Lemma wp_ret {A} (a : A) hw s (Q : A -> machine -> list event -> Prop) :
  Q a s [] -> wp (ret a) hw s Q.
Proof. exact (fun H => H). Qed.

Lemma wp_bind {A B} (m : M A) (f : A -> M B) hw s Q :
  wp m hw s (fun a s1 e1 => wp (f a) hw s1 (fun b s2 e2 => Q b s2 (e1 ++ e2))) ->
  wp (bind m f) hw s Q.
Proof.
  unfold wp, bind. destruct (m hw s) as [[[a s1] e1]|]; [|tauto].
  destruct (f a hw s1) as [[[b s2] e2]|]; tauto.
Qed.

Lemma wlp_ret {A} (a : A) hw s (Q : A -> machine -> list event -> Prop) :
  Q a s [] -> wlp (ret a) hw s Q.
Proof. exact (fun H => H). Qed.

Lemma wlp_bind {A B} (m : M A) (f : A -> M B) hw s Q :
  wlp m hw s (fun a s1 e1 => wlp (f a) hw s1 (fun b s2 e2 => Q b s2 (e1 ++ e2))) ->
  wlp (bind m f) hw s Q.
Proof.
  unfold wlp, bind. destruct (m hw s) as [[[a s1] e1]|]; [|tauto].
  destruct (f a hw s1) as [[[b s2] e2]|]; tauto.
Qed.

Lemma bind_inv {A B} (m : M A) (f : A -> M B) hw s b s2 evs :
  bind m f hw s = Some (b, s2, evs) ->
  exists a s1 e1 e2,
    m hw s = Some (a, s1, e1) /\ f a hw s1 = Some (b, s2, e2) /\ evs = e1 ++ e2.
Proof.
  unfold bind. destruct (m hw s) as [[[a s1] e1]|]; [|discriminate].
  destruct (f a hw s1) as [[[b' s2'] e2]|] eqn:E; [|discriminate].
  intros H. inversion H; subst. exists a, s1, e1, e2. auto.
Qed.

Lemma bind_eq {A B} (m : M A) (f : A -> M B) hw s a s1 e1 :
  m hw s = Some (a, s1, e1) ->
  bind m f hw s =
  match f a hw s1 with
  | Some (b, s2, e2) => Some (b, s2, e1 ++ e2)
  | None => None
  end.
Proof. unfold bind. intros ->. reflexivity. Qed.

(** *** Symbolic execution *)

Lemma prepend_nil {A} (r : option (A * machine * list event)) : prepend [] r = r.
Proof. destruct r as [[[a s] e]|]; reflexivity. Qed.

Lemma prepend_prepend {A} e1 e2 (r : option (A * machine * list event)) :
  prepend e1 (prepend e2 r) = prepend (e1 ++ e2) r.
Proof. destruct r as [[[a s] e]|]; simpl; [now rewrite app_assoc | reflexivity]. Qed.

Lemma prepend_Some {A} e1 (a : A) s e :
  prepend e1 (Some (a, s, e)) = Some (a, s, e1 ++ e).
Proof. reflexivity. Qed.

Lemma bind_run {A B} (m : M A) (f : A -> M B) hw s a s1 e1 :
  m hw s = Some (a, s1, e1) -> bind m f hw s = prepend e1 (f a hw s1).
Proof. unfold bind, prepend. intros ->. reflexivity. Qed.

Lemma bind_ret {A B} (a : A) (f : A -> M B) hw s :
  bind (ret a) f hw s = f a hw s.
Proof. rewrite (bind_run _ _ hw s a s []) by reflexivity. apply prepend_nil. Qed.

Lemma bind_emit {B} e (f : unit -> M B) hw s :
  bind (emit e) f hw s = prepend [e] (f tt hw s).
Proof. now apply bind_run. Qed.

Lemma bind_get {B} (f : machine -> M B) hw s : bind get f hw s = f s hw s.
Proof. rewrite (bind_run _ _ hw s s s []) by reflexivity. apply prepend_nil. Qed.

Lemma bind_modify {B} g (f : unit -> M B) hw s :
  bind (modify g) f hw s = f tt hw (g s).
Proof. rewrite (bind_run _ _ hw s tt (g s) []) by reflexivity. apply prepend_nil. Qed.

Lemma bind_input {B} (f : Z -> M B) hw s :
  bind input f hw s = f (hw (inputs s)) hw (set_inputs (S (inputs s)) s).
Proof.
  rewrite (bind_run _ _ hw s (hw (inputs s)) (set_inputs (S (inputs s)) s) [])
    by reflexivity.
  apply prepend_nil.
Qed.

Lemma bind_assoc {A B C} (m : M A) (f : A -> M B) (g : B -> M C) hw s :
  bind (bind m f) g hw s = bind m (fun a => bind (f a) g) hw s.
Proof.
  unfold bind. destruct (m hw s) as [[[a s1] e1]|]; [|reflexivity].
  destruct (f a hw s1) as [[[b s2] e2]|]; [|reflexivity].
  destruct (g b hw s2) as [[[c s3] e3]|]; [|reflexivity].
  now rewrite app_assoc.
Qed.

Lemma bind_stuck {A B} (f : A -> M B) hw s : bind stuck f hw s = None.
Proof. reflexivity. Qed.

(** *** Totality *)

Lemma total_ret {A} (a : A) : total (ret a).
Proof. intros hw s. eexists. reflexivity. Qed.

Lemma total_bind {A B} (m : M A) (f : A -> M B) :
  total m -> (forall a, total (f a)) -> total (bind m f).
Proof.
  intros Hm Hf hw s. destruct (Hm hw s) as [[[a s1] e1] E1].
  destruct (Hf a hw s1) as [[[b s2] e2] E2].
  exists (b, s2, e1 ++ e2). unfold bind. now rewrite E1, E2.
Qed.

Lemma total_emit e : total (emit e).
Proof. intros hw s. eexists. reflexivity. Qed.

Lemma total_get : total get.
Proof. intros hw s. eexists. reflexivity. Qed.

Lemma total_modify f : total (modify f).
Proof. intros hw s. eexists. reflexivity. Qed.

Lemma total_input : total input.
Proof. intros hw s. eexists. reflexivity. Qed.

Lemma total_when b m : total m -> total (when b m).
Proof. destruct b; simpl; auto using total_ret. Qed.

Lemma total_if {A} (b : bool) (m1 m2 : M A) :
  total m1 -> total m2 -> total (if b then m1 else m2).
Proof. destruct b; auto. Qed.

Lemma total_lift_some {A} (a : A) : total (lift_option (Some a)).
Proof. apply total_ret. Qed.

(** *** Frames *)

Lemma quiet_ret {A} (a : A) : quiet (ret a).
Proof. intros hw s. apply wlp_ret. split; [reflexivity | constructor]. Qed.

Lemma quiet_stuck {A} : quiet (@stuck A).
Proof. intros hw s. exact I. Qed.

Lemma quiet_bind {A B} (m : M A) (f : A -> M B) :
  quiet m -> (forall a, quiet (f a)) -> quiet (bind m f).
Proof.
  intros Hm Hf hw s. apply wlp_bind.
  eapply wlp_mono; [apply Hm|]. intros a s1 e1 [L1 N1].
  eapply wlp_mono; [apply Hf|]. intros b s2 e2 [L2 N2].
  split; [congruence | apply Forall_app; auto].
Qed.

Lemma quiet_emit e : is_phy_event e = false -> quiet (emit e).
Proof. intros H hw s. split; [reflexivity | repeat constructor; exact H]. Qed.

Lemma quiet_get : quiet get.
Proof. intros hw s. split; [reflexivity | constructor]. Qed.

Lemma quiet_input : quiet input.
Proof. intros hw s. split; [reflexivity | constructor]. Qed.

Lemma quiet_modify f :
  (forall s, link_of (f s) = link_of s) -> quiet (modify f).
Proof. intros H hw s. split; [apply H | constructor]. Qed.

Lemma quiet_when b m : quiet m -> quiet (when b m).
Proof. destruct b; simpl; auto using quiet_ret. Qed.

Lemma quiet_if {A} (b : bool) (m1 m2 : M A) :
  quiet m1 -> quiet m2 -> quiet (if b then m1 else m2).
Proof. destruct b; auto. Qed.

Lemma quiet_lift_option {A} (o : option A) : quiet (lift_option o).
Proof. destruct o; [apply quiet_ret | apply quiet_stuck]. Qed.

End DrvLogicFacts.

Import DrvLogicFacts.

Create HintDb total discriminated.
Create HintDb quiet discriminated.

#[export] Hint Resolve total_ret total_emit total_get total_modify total_input
  total_lift_some : total.
#[export] Hint Resolve quiet_ret quiet_stuck quiet_get quiet_input
  quiet_lift_option : quiet.

(** Walk through a monadic term, closing every leaf from a hint
    database. *)
Ltac total_step :=
  first
    [ solve [auto with total nocore]
    | apply total_bind; [| intro]
    | apply total_when
    | match goal with
      | |- total (if ?c then _ else _) => destruct c
      | |- total (match ?x with _ => _ end) => destruct x
      end ].

Ltac total_tac := repeat total_step.

Ltac quiet_step :=
  first
    [ solve [auto with quiet nocore]
    | apply quiet_emit; reflexivity
    | apply quiet_modify; reflexivity
    | apply quiet_bind; [| intro]
    | apply quiet_when
    | match goal with
      | |- quiet (if ?c then _ else _) => destruct c
      | |- quiet (match ?x with _ => _ end) => destruct x
      end ].

Ltac quiet_tac := repeat quiet_step.

(** ** Kernel services *)

Module KernelFacts.

Lemma total_readl a : total (readl a).
Proof. unfold readl. total_tac. Qed.

Lemma total_writel v a : total (writel v a).
Proof. unfold writel. total_tac. Qed.

Lemma total_rmw a f : total (rmw a f).
Proof. unfold rmw, readl, writel. total_tac. Qed.

Lemma total_udelay n : total (udelay n).
Proof. unfold udelay. total_tac. Qed.

Lemma total_mdelay n : total (mdelay n).
Proof. unfold mdelay. total_tac. Qed.

Lemma total_msleep n : total (msleep n).
Proof. unfold msleep. total_tac. Qed.

Lemma total_pr_err msg : total (pr_err msg).
Proof. unfold pr_err. total_tac. Qed.

Lemma total_gpio_get_value g : total (gpio_get_value g).
Proof. unfold gpio_get_value. total_tac. Qed.

Lemma total_gpio_set_value g v : total (gpio_set_value g v).
Proof. unfold gpio_set_value. total_tac. Qed.

Lemma total_clk_enable c : total (clk_enable c).
Proof. unfold clk_enable. total_tac. Qed.

Lemma total_clk_disable c : total (clk_disable c).
Proof. unfold clk_disable. total_tac. Qed.

Lemma total_spin_lock l : total (spin_lock_irqsave l).
Proof. unfold spin_lock_irqsave. total_tac. Qed.

Lemma total_spin_unlock l : total (spin_unlock_irqrestore l).
Proof. unfold spin_unlock_irqrestore. total_tac. Qed.

Lemma total_ext_call n : total (ext_call n).
Proof. unfold ext_call. total_tac. Qed.

Lemma total_ext_proc n : total (ext_proc n).
Proof. unfold ext_proc. total_tac. Qed.

Lemma quiet_readl a : quiet (readl a).
Proof. unfold readl. quiet_tac. Qed.

Lemma quiet_writel v a : quiet (writel v a).
Proof. unfold writel. quiet_tac. Qed.

Lemma quiet_rmw a f : quiet (rmw a f).
Proof. unfold rmw, readl, writel. quiet_tac. Qed.

Lemma quiet_udelay n : quiet (udelay n).
Proof. unfold udelay. quiet_tac. Qed.

Lemma quiet_mdelay n : quiet (mdelay n).
Proof. unfold mdelay. quiet_tac. Qed.

Lemma quiet_msleep n : quiet (msleep n).
Proof. unfold msleep. quiet_tac. Qed.

Lemma quiet_pr_err msg : quiet (pr_err msg).
Proof. unfold pr_err. quiet_tac. Qed.

Lemma quiet_gpio_get_value g : quiet (gpio_get_value g).
Proof. unfold gpio_get_value. quiet_tac. Qed.

Lemma quiet_gpio_set_value g v : quiet (gpio_set_value g v).
Proof. unfold gpio_set_value. quiet_tac. Qed.

Lemma quiet_clk_enable c : quiet (clk_enable c).
Proof. unfold clk_enable. quiet_tac. Qed.

Lemma quiet_clk_disable c : quiet (clk_disable c).
Proof. unfold clk_disable. quiet_tac. Qed.

Lemma quiet_spin_lock l : quiet (spin_lock_irqsave l).
Proof. unfold spin_lock_irqsave. quiet_tac. Qed.

Lemma quiet_spin_unlock l : quiet (spin_unlock_irqrestore l).
Proof. unfold spin_unlock_irqrestore. quiet_tac. Qed.

Lemma quiet_ext_call n : quiet (ext_call n).
Proof. unfold ext_call. quiet_tac. Qed.

Lemma quiet_ext_proc n : quiet (ext_proc n).
Proof. unfold ext_proc. quiet_tac. Qed.

End KernelFacts.

Import KernelFacts.

#[export] Hint Resolve total_readl total_writel total_rmw total_udelay
  total_mdelay total_msleep total_pr_err total_gpio_get_value
  total_gpio_set_value total_clk_enable total_clk_disable total_spin_lock
  total_spin_unlock total_ext_call total_ext_proc : total.
#[export] Hint Resolve quiet_readl quiet_writel quiet_rmw quiet_udelay
  quiet_mdelay quiet_msleep quiet_pr_err quiet_gpio_get_value
  quiet_gpio_set_value quiet_clk_enable quiet_clk_disable quiet_spin_lock
  quiet_spin_unlock quiet_ext_call quiet_ext_proc : quiet.

(** ** The PHY layer *)

Module UsbPhyFacts.

Import UsbPhy.

Local Open Scope string_scope.
Local Open Scope list_scope.
Local Open Scope Z_scope.
Local Open Scope drv_scope.

Lemma readl_run a hw s :
  readl a hw s =
  Some (read_at hw s 0, consume 1 s, [EvReadl a (read_at hw s 0)]).
Proof.
  unfold readl, read_at, consume, bind, input, emit, ret. simpl.
  rewrite !Nat.add_0_r, Nat.add_1_r. reflexivity.
Qed.

Lemma bind_readl {B} a (f : Z -> M B) hw s :
  bind (readl a) f hw s =
  prepend [EvReadl a (read_at hw s 0)] (f (read_at hw s 0) hw (consume 1 s)).
Proof. apply bind_run, readl_run. Qed.

Lemma bind_udelay {B} n (f : unit -> M B) hw s :
  bind (udelay n) f hw s = prepend [EvDelay Udelay n] (f tt hw s).
Proof. apply bind_emit. Qed.

Lemma rmw_run a f hw s :
  rmw a f hw s = Some (tt, consume 1 s, rmw_events a f (read_at hw s 0)).
Proof.
  unfold rmw, writel. rewrite bind_readl. unfold emit. reflexivity.
Qed.

Lemma bind_rmw {B} a f (k : unit -> M B) hw s :
  bind (rmw a f) k hw s =
  prepend (rmw_events a f (read_at hw s 0)) (k tt hw (consume 1 s)).
Proof. apply bind_run, rmw_run. Qed.

Lemma read_at_consume hw s n k :
  read_at hw (consume n s) k = read_at hw s (n + k).
Proof. unfold read_at, consume. simpl. now rewrite Nat.add_assoc. Qed.

Lemma consume_consume n m s : consume n (consume m s) = consume (m + n) s.
Proof. unfold consume, set_inputs. simpl. now rewrite Nat.add_assoc. Qed.

Lemma poll_events_S reg hw s n :
  poll_events reg hw s (S n) =
  [EvReadl reg (read_at hw s 0); EvDelay Udelay 1]
    ++ poll_events reg hw (consume 1 s) n.
Proof.
  unfold poll_events. simpl. f_equal. f_equal.
  rewrite <- seq_shift, flat_map_concat_map, map_map, <- flat_map_concat_map.
  apply flat_map_ext. intros k. now rewrite read_at_consume.
Qed.

Lemma wrap32_small x : 0 <= x < 2 ^ 32 -> wrap32 x = x.
Proof. intros H. unfold wrap32. now apply Z.mod_small. Qed.

Section WithConfig.

Variable cfg : kconfig.
Variable usb_phy_data : Z -> usb_phy_plat_data.
Variable TEGRA_USB_PHY_PORT_SPEED_LOW : Z.

(** The loop of [utmi_wait_register] leaves after at most [timeout]
    reads, at the first read whose masked value is [result]. *)
Lemma utmi_wait_loop_run reg mask result :
  forall fuel timeout hw s,
    1 <= timeout < 2 ^ 32 ->
    (Z.to_nat timeout <= fuel)%nat ->
    exists n : nat,
      (1 <= n <= Z.to_nat timeout)%nat /\
      (forall k, (k < n - 1)%nat -> Z.land (read_at hw s k) mask <> result) /\
      ((Z.land (read_at hw s (n - 1)) mask = result /\
        utmi_wait_loop fuel reg mask result timeout hw s =
        Some (0, consume n s,
              poll_events reg hw s (n - 1) ++ [EvReadl reg (read_at hw s (n - 1))]))
       \/
       (n = Z.to_nat timeout /\
        Z.land (read_at hw s (n - 1)) mask <> result /\
        utmi_wait_loop fuel reg mask result timeout hw s =
        Some (-1, consume n s, poll_events reg hw s n))).
Proof.
  induction fuel as [|fuel IH]; intros timeout hw s Ht Hf; [lia|].
  cbn [utmi_wait_loop]. rewrite bind_readl.
  destruct (Z.land (read_at hw s 0) mask =? result) eqn:Hit.
  - apply Z.eqb_eq in Hit. exists 1%nat. split; [lia|]. split; [intros; lia|].
    left. split; [exact Hit|]. reflexivity.
  - apply Z.eqb_neq in Hit.
    rewrite bind_udelay, prepend_prepend, wrap32_small by lia.
    destruct (timeout - 1 =? 0) eqn:Hz.
    + apply Z.eqb_eq in Hz. exists 1%nat.
      split; [lia|]. split; [intros; lia|]. right.
      split; [lia|]. split; [exact Hit|]. reflexivity.
    + apply Z.eqb_neq in Hz.
      destruct (IH (timeout - 1) hw (consume 1 s)) as (n & Hn & Hbefore & Hres);
        [lia | lia |].
      exists (S n). split; [lia|]. split.
      * intros k Hk. destruct k as [|k]; [exact Hit|].
        specialize (Hbefore k). rewrite read_at_consume in Hbefore.
        apply Hbefore. lia.
      * replace (S n - 1)%nat with (S (n - 1)) by lia.
        rewrite read_at_consume in Hres.
        replace (1 + (n - 1))%nat with (S (n - 1)) in Hres by lia.
        destruct Hres as [[Hhit E]|(Hn' & Hmiss & E)].
        -- left. split; [exact Hhit|].
           rewrite E, prepend_Some, consume_consume, poll_events_S.
           now rewrite app_assoc.
        -- right. split; [lia|]. split; [exact Hmiss|].
           rewrite E, prepend_Some, consume_consume, (poll_events_S reg hw s n).
           reflexivity.
Qed.

Lemma utmi_wait_timeout_range : 1 <= utmi_wait_timeout cfg <= 50000.
Proof. unfold utmi_wait_timeout. destruct (CONFIG_MACH_N1 cfg); lia. Qed.

(** C8.  [utmi_wait_register] always returns.  It reads the register [n]
    times, with [1 <= n <= timeout <= 50000] and a 1 us delay after each
    failed read; none of the first [n - 1] reads has the expected masked
    value; the result is 0 when read [n] has it, and -1 when the budget
    of [timeout] reads (50000 with CONFIG_MACH_N1, 2000 without) is used
    up without a match. *)
Theorem utmi_wait_register_bounded (reg : ioaddr) (mask result : Z)
    (hw : oracle) (s : machine) :
  exists (n : nat) (r : Z) (evs : list event),
    utmi_wait_register cfg reg mask result hw s = Some (r, consume n s, evs) /\
    (1 <= n)%nat /\
    Z.of_nat n <= utmi_wait_timeout cfg <= 50000 /\
    (forall k, (k < n - 1)%nat -> Z.land (read_at hw s k) mask <> result) /\
    ((r = 0 /\
      Z.land (read_at hw s (n - 1)) mask = result /\
      evs = poll_events reg hw s (n - 1) ++ [EvReadl reg (read_at hw s (n - 1))])
     \/
     (r = -1 /\
      Z.of_nat n = utmi_wait_timeout cfg /\
      Z.land (read_at hw s (n - 1)) mask <> result /\
      evs = poll_events reg hw s n)).
Proof.
  pose proof utmi_wait_timeout_range as R.
  destruct (utmi_wait_loop_run reg mask result
              (Z.to_nat (utmi_wait_timeout cfg)) (utmi_wait_timeout cfg) hw s)
    as (n & Hn & Hbefore & Hres); [lia | lia |].
  unfold utmi_wait_register.
  destruct Hres as [[Hhit E]|(Hn' & Hmiss & E)].
  - exists n, 0, (poll_events reg hw s (n - 1) ++ [EvReadl reg (read_at hw s (n - 1))]).
    split; [exact E|]. split; [lia|]. split; [lia|]. split; [exact Hbefore|].
    left. auto.
  - exists n, (-1), (poll_events reg hw s n).
    split; [exact E|]. split; [lia|]. split; [lia|]. split; [exact Hbefore|].
    right. repeat split; auto. lia.
Qed.

Lemma utmi_wait_register_runs reg mask result hw s :
  exists n r evs,
    utmi_wait_register cfg reg mask result hw s = Some (r, consume n s, evs).
Proof.
  unfold utmi_wait_register.
  pose proof utmi_wait_timeout_range as R.
  destruct (utmi_wait_loop_run reg mask result
              (Z.to_nat (utmi_wait_timeout cfg)) (utmi_wait_timeout cfg) hw s)
    as (n & _ & _ & [[_ E]|(_ & _ & E)]); [lia | lia | |];
    rewrite E; eexists _, _, _; reflexivity.
Qed.

(** More fuel than the budget changes nothing. *)
Lemma utmi_wait_loop_fuel reg mask result fuel timeout hw s :
  1 <= timeout < 2 ^ 32 ->
  (Z.to_nat timeout <= fuel)%nat ->
  utmi_wait_loop fuel reg mask result timeout hw s =
  utmi_wait_loop (Z.to_nat timeout) reg mask result timeout hw s.
Proof.
  intros Ht Hf.
  destruct (utmi_wait_loop_run reg mask result fuel timeout hw s Ht Hf)
    as (n & Hn & Hb & H).
  destruct (utmi_wait_loop_run reg mask result (Z.to_nat timeout) timeout hw s Ht
              (Nat.le_refl _)) as (n' & Hn' & Hb' & H').
  assert (n = n') as <-.
  { destruct H as [[H1 _]|(H1 & H2 & _)], H' as [[H1' _]|(H1' & H2' & _)].
    - destruct (Nat.lt_trichotomy n n') as [L|[L|L]]; [|exact L|].
      + exfalso. apply (Hb' (n - 1)%nat); [lia | exact H1].
      + exfalso. apply (Hb (n' - 1)%nat); [lia | exact H1'].
    - destruct (Nat.eq_dec n n') as [L|L]; [exact L|].
      exfalso. apply (Hb' (n - 1)%nat); [lia | exact H1].
    - destruct (Nat.eq_dec n n') as [L|L]; [exact L|].
      exfalso. apply (Hb (n' - 1)%nat); [lia | exact H1'].
    - congruence. }
  destruct H as [[H1 E]|(H1 & H2 & E)], H' as [[H1' E']|(H1' & H2' & E')];
    try congruence.
Qed.

Lemma total_utmi_wait_register reg mask result :
  total (utmi_wait_register cfg reg mask result).
Proof.
  intros hw s. pose proof utmi_wait_timeout_range as R. unfold utmi_wait_register.
  destruct (utmi_wait_loop_run reg mask result
              (Z.to_nat (utmi_wait_timeout cfg)) (utmi_wait_timeout cfg) hw s)
    as (n & _ & _ & [[_ E]|(_ & _ & E)]); [lia | lia | |]; eexists; exact E.
Qed.

Lemma quiet_utmi_wait_loop reg mask result :
  forall fuel timeout, quiet (utmi_wait_loop fuel reg mask result timeout).
Proof.
  induction fuel as [|fuel IH]; intros timeout; cbn [utmi_wait_loop]; quiet_tac.
Qed.

Lemma quiet_utmi_wait_register reg mask result :
  quiet (utmi_wait_register cfg reg mask result).
Proof. apply quiet_utmi_wait_loop. Qed.

(** *** The shared UTMI pad *)

Lemma wrap_int_small x : - 2 ^ 31 <= x < 2 ^ 31 -> wrap_int x = x.
Proof. intros H. unfold wrap_int. rewrite Z.mod_small; lia. Qed.

Lemma testbit_wrap32 x n : 0 <= n -> Z.testbit (wrap32 x) n = (n <? 32) && Z.testbit x n.
Proof.
  intros Hn. unfold wrap32.
  destruct (n <? 32) eqn:L.
  - apply Z.ltb_lt in L. now rewrite Z.mod_pow2_bits_low by lia.
  - apply Z.ltb_ge in L. now rewrite Z.mod_pow2_bits_high by lia.
Qed.

Lemma land_wrap32_clr val m : Z.land (wrap32 (clr val m)) m = 0.
Proof.
  apply Z.bits_inj'. intros n Hn.
  rewrite Z.land_spec, testbit_wrap32, Z.bits_0 by exact Hn.
  unfold clr. rewrite Z.land_spec, Z.lnot_spec by exact Hn.
  destruct (n <? 32), (Z.testbit val n), (Z.testbit m n); reflexivity.
Qed.

Lemma land_wrap32_set val m :
  0 <= m < 2 ^ 32 -> Z.land (wrap32 (Z.lor val m)) m = m.
Proof.
  intros Hm. apply Z.bits_inj'. intros n Hn.
  rewrite Z.land_spec, testbit_wrap32, Z.lor_spec by exact Hn.
  destruct (n <? 32) eqn:L.
  - destruct (Z.testbit val n), (Z.testbit m n); reflexivity.
  - apply Z.ltb_ge in L.
    rewrite <- (wrap32_small m Hm) at 2 3.
    rewrite testbit_wrap32 by exact Hn.
    replace (n <? 32) with false by (symmetry; now apply Z.ltb_ge).
    reflexivity.
Qed.

Lemma emit_run e hw s : emit e hw s = Some (tt, s, [e]).
Proof. reflexivity. Qed.

Lemma ret_run {A} (a : A) hw s : ret a hw s = Some (a, s, []).
Proof. reflexivity. Qed.

(** Run a straight-line computation symbolically. *)
Ltac mrun :=
  unfold clk_enable, clk_disable, spin_lock_irqsave, spin_unlock_irqrestore,
    udelay, mdelay, msleep, pr_err, gpio_set_value, writel, rmw, ext_proc;
  repeat first
    [ rewrite bind_assoc
    | rewrite bind_ret
    | rewrite bind_emit
    | rewrite bind_get
    | rewrite bind_modify
    | rewrite bind_readl
    | rewrite prepend_prepend
    | rewrite emit_run
    | rewrite ret_run
    | rewrite prepend_Some
    | progress cbn [when app] ].

Lemma pad_on_first phy hw s :
  utmip_pad_count s = 0 ->
  utmip_pad_power_on phy hw s =
  Some (tt, consume 1 (set_utmip_pad_count 1 s),
        [EvClk true "utmip-pad"; EvLock true "utmip_pad_lock";
         EvReadl (Mmio (pad_regs phy + UTMIP_BIAS_CFG0)) (read_at hw s 0);
         EvWritel (Mmio (pad_regs phy + UTMIP_BIAS_CFG0))
                  (wrap32 (clr (read_at hw s 0) BIAS_PD));
         EvLock false "utmip_pad_lock"; EvClk false "utmip-pad"]).
Proof.
  intros H0. unfold utmip_pad_power_on. mrun. rewrite H0.
  change (0 =? 0) with true. change (wrap_int (0 + 1)) with 1.
  mrun. reflexivity.
Qed.

Lemma pad_on_next phy hw s :
  1 <= utmip_pad_count s < 2 ^ 31 - 1 ->
  utmip_pad_power_on phy hw s =
  Some (tt, set_utmip_pad_count (utmip_pad_count s + 1) s, pad_idle_events).
Proof.
  intros H. unfold utmip_pad_power_on. mrun.
  replace (utmip_pad_count s =? 0) with false by (symmetry; apply Z.eqb_neq; lia).
  rewrite wrap_int_small by lia. mrun. reflexivity.
Qed.

Lemma pad_off_already phy hw s :
  utmip_pad_count s = 0 ->
  utmip_pad_power_off phy hw s =
  Some (- EINVAL, s, [EvLog "utmip pad already powered off"]).
Proof.
  intros H0. unfold utmip_pad_power_off. mrun. rewrite H0.
  change (0 =? 0) with true. mrun. reflexivity.
Qed.

Lemma pad_off_last phy hw s :
  utmip_pad_count s = 1 ->
  utmip_pad_power_off phy hw s =
  Some (0, consume 1 (set_utmip_pad_count 0 s),
        [EvClk true "utmip-pad"; EvLock true "utmip_pad_lock";
         EvReadl (Mmio (pad_regs phy + UTMIP_BIAS_CFG0)) (read_at hw s 0);
         EvWritel (Mmio (pad_regs phy + UTMIP_BIAS_CFG0))
                  (wrap32 (Z.lor (read_at hw s 0) BIAS_PD));
         EvLock false "utmip_pad_lock"; EvClk false "utmip-pad"]).
Proof.
  intros H1. unfold utmip_pad_power_off. mrun. rewrite H1.
  change (1 =? 0) with false. mrun. rewrite H1.
  change (wrap_int (1 - 1)) with 0. change (0 =? 0) with true.
  mrun. reflexivity.
Qed.

Lemma pad_off_next phy hw s :
  2 <= utmip_pad_count s < 2 ^ 31 ->
  utmip_pad_power_off phy hw s =
  Some (0, set_utmip_pad_count (utmip_pad_count s - 1) s, pad_idle_events).
Proof.
  intros H. unfold utmip_pad_power_off. mrun.
  replace (utmip_pad_count s =? 0) with false by (symmetry; apply Z.eqb_neq; lia).
  mrun. rewrite wrap_int_small by lia.
  replace (utmip_pad_count s - 1 =? 0) with false
    by (symmetry; apply Z.eqb_neq; lia).
  mrun. reflexivity.
Qed.

Lemma pad_run_app xs ys hw s :
  pad_run (xs ++ ys) hw s =
  match pad_run xs hw s with
  | None => None
  | Some (o1, s1) =>
      match pad_run ys hw s1 with
      | None => None
      | Some (o2, s2) => Some (o1 ++ o2, s2)
      end
  end.
Proof.
  revert s. induction xs as [|x xs IH]; intros s; simpl.
  - destruct (pad_run ys hw s) as [[o2 s2]|]; reflexivity.
  - destruct (pad_step x hw s) as [[[r s1] evs]|]; [|reflexivity].
    rewrite IH. destruct (pad_run xs hw s1) as [[o1 s1']|]; [|reflexivity].
    destruct (pad_run ys hw s1') as [[o2 s2]|]; reflexivity.
Qed.

(** Power-on calls that find the pad already powered. *)
Lemma pad_run_ons :
  forall ps hw s,
    1 <= utmip_pad_count s ->
    utmip_pad_count s + Z.of_nat (List.length ps) < 2 ^ 31 ->
    exists s',
      pad_run (map PadOn ps) hw s =
      Some (map (fun k => mk_pad_obs 0 (utmip_pad_count s + 1 + Z.of_nat k) [])
                (seq 0 (List.length ps)), s') /\
      utmip_pad_count s' = utmip_pad_count s + Z.of_nat (List.length ps) /\
      inputs s' = inputs s.
Proof.
  induction ps as [|p ps IH]; intros hw s H1 H2.
  - exists s. simpl. repeat split; lia.
  - cbn [map pad_run pad_step List.length] in *.
    rewrite (bind_run _ _ _ _ _ _ _ (pad_on_next p hw s ltac:(lia))).
    rewrite ret_run, prepend_Some.
    destruct (IH hw (set_utmip_pad_count (utmip_pad_count s + 1) s))
      as (s' & E & Hc & Hi); [simpl; lia | simpl; lia |].
    rewrite E. exists s'. simpl in *. split; [|split; [lia | exact Hi]].
    f_equal. f_equal. f_equal.
    + f_equal. lia.
    + rewrite <- seq_shift, map_map. apply map_ext. intros k. f_equal. lia.
Qed.

(** Power-off calls that leave the pad powered. *)
Lemma pad_run_offs :
  forall qs hw s,
    Z.of_nat (List.length qs) < utmip_pad_count s < 2 ^ 31 ->
    exists s',
      pad_run (map PadOff qs) hw s =
      Some (map (fun k => mk_pad_obs 0 (utmip_pad_count s - 1 - Z.of_nat k) [])
                (seq 0 (List.length qs)), s') /\
      utmip_pad_count s' = utmip_pad_count s - Z.of_nat (List.length qs) /\
      inputs s' = inputs s.
Proof.
  induction qs as [|q qs IH]; intros hw s H.
  - exists s. simpl. repeat split; lia.
  - cbn [map pad_run pad_step List.length] in *.
    rewrite (pad_off_next q hw s ltac:(lia)).
    destruct (IH hw (set_utmip_pad_count (utmip_pad_count s - 1) s))
      as (s' & E & Hc & Hi); [simpl; lia |].
    rewrite E. exists s'. simpl in *. split; [|split; [lia | exact Hi]].
    f_equal. f_equal. f_equal.
    + f_equal. lia.
    + rewrite <- seq_shift, map_map. apply map_ext. intros k. f_equal. lia.
Qed.

Lemma BIAS_PD_range : 0 <= BIAS_PD < 2 ^ 32.
Proof. unfold BIAS_PD. cbv. split; [discriminate | reflexivity]. Qed.

Lemma map_const_repeat {A B} (b : B) (l : list A) :
  map (fun _ => b) l = repeat b (List.length l).
Proof. induction l; simpl; congruence. Qed.

Ltac exists_pad_obs hw s s3 p q :=
  eexists _, _,
    (EvWritel (Mmio (pad_regs p + UTMIP_BIAS_CFG0))
              (wrap32 (clr (read_at hw s 0) BIAS_PD))),
    (EvWritel (Mmio (pad_regs q + UTMIP_BIAS_CFG0))
              (wrap32 (Z.lor (read_at hw s3 0) BIAS_PD))).

Lemma count_profile n :
  map (fun k => 1 + Z.of_nat k) (seq 0 (S n))
    ++ map (fun k => Z.of_nat (S n) - 1 - Z.of_nat k) (seq 0 (S n)) =
  1 :: map (fun x => 1 + 1 + Z.of_nat x) (seq 0 n)
    ++ map (fun x => 1 + Z.of_nat n - 1 - Z.of_nat x) (seq 0 n) ++ [0].
Proof.
  replace (map (fun k => Z.of_nat (S n) - 1 - Z.of_nat k) (seq 0 (S n)))
    with (map (fun k => Z.of_nat (S n) - 1 - Z.of_nat k) (seq 0 n)
            ++ [Z.of_nat (S n) - 1 - Z.of_nat n])
    by (rewrite seq_S, map_app; reflexivity).
  cbn [seq map app]. rewrite <- seq_shift, map_map.
  f_equal. f_equal; [apply map_ext; intros k; lia|].
  f_equal; [apply map_ext; intros k; lia|]. f_equal. lia.
Qed.

(** C1.  Starting from a reference count of 0, [N >= 1] calls of
    [utmip_pad_power_on] for the handles [ons] followed by [N] calls of
    [utmip_pad_power_off] for the same handles in any order all return;
    the count runs 1, ..., N, N-1, ..., 0 and is never negative; the only
    register writes are one write to UTMIP_BIAS_CFG0 clearing
    OTGPD/BIASPD, made by the first power-on, and one write setting them,
    made by the last power-off.  A power-off that finds the count at 0
    returns -EINVAL and leaves the machine as it is, writing nothing. *)
Theorem utmip_pad_refcount (ons offs : list tegra_usb_phy) (hw : oracle)
    (s : machine) :
  utmip_pad_count s = 0 ->
  ons <> [] ->
  Permutation ons offs ->
  Z.of_nat (List.length ons) < 2 ^ 31 ->
  let N := List.length ons in
  (exists obs s' up down,
      pad_run (map PadOn ons ++ map PadOff offs) hw s = Some (obs, s') /\
      utmip_pad_count s' = 0 /\
      map pad_count_after obs =
        map (fun k => 1 + Z.of_nat k) (seq 0 N)
          ++ map (fun k => Z.of_nat N - 1 - Z.of_nat k) (seq 0 N) /\
      Forall (fun o => 0 <= pad_count_after o) obs /\
      Forall (fun o => pad_ret o = 0) obs /\
      bias_power_up (hd (mk_phy 0 FreqNull 0 0 TEGRA_USB_PHY_MODE_HOST
                                (PtrUtmipDefault 0)) ons) up /\
      bias_power_down (last offs (mk_phy 0 FreqNull 0 0 TEGRA_USB_PHY_MODE_HOST
                                         (PtrUtmipDefault 0))) down /\
      map pad_writes obs =
        [[up]] ++ repeat [] (N - 1) ++ repeat [] (N - 1) ++ [[down]])
  /\
  (forall phy hw0 s0,
      utmip_pad_count s0 = 0 ->
      utmip_pad_power_off phy hw0 s0 =
      Some (- EINVAL, s0, [EvLog "utmip pad already powered off"])).
Proof.
  intros H0 Hne Hperm HN N. split; [|intros; now apply pad_off_already].
  pose proof (Permutation_length Hperm) as Hlen.
  destruct ons as [|p ps]; [congruence|].
  destruct (exists_last (l := offs)) as (qs & q & ->).
  { intros ->. simpl in Hlen. discriminate. }
  rewrite length_app in Hlen. cbn [List.length] in Hlen, HN.
  assert (List.length qs = List.length ps) as Hqp by lia.
  subst N. cbn [List.length map hd]. rewrite last_last.
  rewrite map_app. cbn [map app].
  change (PadOn p :: map PadOn ps ++ map PadOff qs ++ [PadOff q])
    with ([PadOn p] ++ map PadOn ps ++ map PadOff qs ++ [PadOff q]).
  set (s1 := consume 1 (set_utmip_pad_count 1 s)).
  assert (utmip_pad_count s1 = 1) as Hs1 by reflexivity.
  destruct (pad_run_ons ps hw s1) as (s2 & E2 & C2 & I2);
    [rewrite Hs1; lia | rewrite Hs1; lia |].
  rewrite Hs1 in C2, E2.
  destruct (pad_run_offs qs hw s2) as (s3 & E3 & C3 & I3);
    [rewrite C2; lia |].
  rewrite C2 in C3, E3.
  assert (utmip_pad_count s3 = 1) as C3' by lia.
  rewrite pad_run_app. cbn [pad_run pad_step].
  rewrite (bind_run _ _ _ _ _ _ _ (pad_on_first p hw s H0)), ret_run, prepend_Some.
  fold s1. rewrite pad_run_app, E2, pad_run_app, E3. cbn [pad_run pad_step].
  rewrite (pad_off_last q hw s3 C3').
  exists_pad_obs hw s s3 p q. split; [reflexivity|].
  cbn [filter is_writel app].
  split; [reflexivity|]. split.
  { cbn [map app pad_count_after]. rewrite !map_app, !map_map.
    cbn [pad_count_after map]. rewrite Hs1, Hqp.
    change (utmip_pad_count (consume 1 (set_utmip_pad_count 0 s3))) with 0.
    symmetry. apply count_profile. }
  split.
  { constructor; [cbn [pad_count_after]; lia|]. rewrite !Forall_app. repeat split.
    - apply Forall_forall. intros o Ho. apply in_map_iff in Ho.
      destruct Ho as (k & <- & _). cbn [pad_count_after]. lia.
    - apply Forall_forall. intros o Ho. apply in_map_iff in Ho.
      destruct Ho as (k & <- & Hk). apply in_seq in Hk.
      cbn [pad_count_after]. lia.
    - constructor; [|constructor]. change (0 <= 0). lia. }
  split.
  { constructor; [reflexivity|]. rewrite !Forall_app. repeat split.
    - apply Forall_forall. intros o Ho. apply in_map_iff in Ho.
      now destruct Ho as (k & <- & _).
    - apply Forall_forall. intros o Ho. apply in_map_iff in Ho.
      now destruct Ho as (k & <- & _).
    - repeat constructor. }
  split; [eexists; split; [reflexivity | apply land_wrap32_clr]|].
  split; [eexists; split; [reflexivity | apply land_wrap32_set, BIAS_PD_range]|].
  cbn [map app pad_writes]. rewrite !map_app, !map_map. cbn [pad_writes map].
  rewrite !map_const_repeat, !length_seq, Hqp.
  replace (S (List.length ps) - 1)%nat with (List.length ps) by lia.
  reflexivity.
Qed.

(** *** Termination and frames of the internal functions *)

#[local] Hint Resolve total_utmi_wait_register : total.
#[local] Hint Resolve quiet_utmi_wait_register quiet_utmi_wait_loop : quiet.

Lemma total_utmip_pad_power_on phy : total (utmip_pad_power_on phy).
Proof. unfold utmip_pad_power_on. total_tac. Qed.

Lemma total_utmip_pad_power_off phy : total (utmip_pad_power_off phy).
Proof. unfold utmip_pad_power_off. total_tac. Qed.

Lemma quiet_utmip_pad_power_on phy : quiet (utmip_pad_power_on phy).
Proof. unfold utmip_pad_power_on. quiet_tac. Qed.

Lemma quiet_utmip_pad_power_off phy : quiet (utmip_pad_power_off phy).
Proof. unfold utmip_pad_power_off. quiet_tac. Qed.

Lemma total_utmi_phy_clk_disable phy : total (utmi_phy_clk_disable cfg phy).
Proof. unfold utmi_phy_clk_disable. total_tac. Qed.

Lemma quiet_utmi_phy_clk_disable phy : quiet (utmi_phy_clk_disable cfg phy).
Proof. unfold utmi_phy_clk_disable. quiet_tac. Qed.

Lemma total_utmi_phy_clk_enable phy : total (utmi_phy_clk_enable cfg phy).
Proof. unfold utmi_phy_clk_enable. total_tac. Qed.

Lemma quiet_utmi_phy_clk_enable phy : quiet (utmi_phy_clk_enable cfg phy).
Proof. unfold utmi_phy_clk_enable. quiet_tac. Qed.

Lemma total_vbus_enable gpio : total (vbus_enable gpio).
Proof. unfold vbus_enable. total_tac. Qed.

Lemma quiet_vbus_enable gpio : quiet (vbus_enable gpio).
Proof. unfold vbus_enable. quiet_tac. Qed.

Lemma total_vbus_disable gpio : total (vbus_disable gpio).
Proof. unfold vbus_disable. total_tac. Qed.

Lemma quiet_vbus_disable gpio : quiet (vbus_disable gpio).
Proof. unfold vbus_disable. quiet_tac. Qed.

#[local] Hint Resolve total_utmip_pad_power_on total_utmip_pad_power_off
  total_utmi_phy_clk_disable total_utmi_phy_clk_enable total_vbus_enable
  total_vbus_disable : total.
#[local] Hint Resolve quiet_utmip_pad_power_on quiet_utmip_pad_power_off
  quiet_utmi_phy_clk_disable quiet_utmi_phy_clk_enable quiet_vbus_enable
  quiet_vbus_disable : quiet.

Lemma total_utmi_phy_power_on phy c f :
  as_utmip_config (config phy) = Some c ->
  freq_deref (phy_freq phy) = Some f ->
  total (utmi_phy_power_on cfg usb_phy_data phy).
Proof.
  intros Hc Hf. unfold utmi_phy_power_on, utmip_config_of, freq_of.
  rewrite Hc, Hf. total_tac.
Qed.

Lemma quiet_utmi_phy_power_on phy : quiet (utmi_phy_power_on cfg usb_phy_data phy).
Proof. unfold utmi_phy_power_on, utmip_config_of, freq_of. quiet_tac. Qed.

Lemma total_utmi_phy_power_off phy :
  total (utmi_phy_power_off cfg usb_phy_data phy).
Proof. unfold utmi_phy_power_off. total_tac. Qed.

Lemma quiet_utmi_phy_power_off phy :
  quiet (utmi_phy_power_off cfg usb_phy_data phy).
Proof. unfold utmi_phy_power_off. quiet_tac. Qed.

Lemma total_utmi_phy_preresume phy : total (utmi_phy_preresume phy).
Proof. unfold utmi_phy_preresume. total_tac. Qed.

Lemma quiet_utmi_phy_preresume phy : quiet (utmi_phy_preresume phy).
Proof. unfold utmi_phy_preresume. quiet_tac. Qed.

Lemma total_utmi_phy_postresume phy : total (utmi_phy_postresume phy).
Proof. unfold utmi_phy_postresume. total_tac. Qed.

Lemma quiet_utmi_phy_postresume phy : quiet (utmi_phy_postresume phy).
Proof. unfold utmi_phy_postresume. quiet_tac. Qed.

Lemma total_uhsic_phy_postresume phy : total (uhsic_phy_postresume phy).
Proof. unfold uhsic_phy_postresume. total_tac. Qed.

Lemma quiet_uhsic_phy_postresume phy : quiet (uhsic_phy_postresume phy).
Proof. unfold uhsic_phy_postresume. quiet_tac. Qed.

Lemma total_utmi_phy_restore_start phy speed :
  total (utmi_phy_restore_start TEGRA_USB_PHY_PORT_SPEED_LOW phy speed).
Proof. unfold utmi_phy_restore_start. total_tac. Qed.

Lemma quiet_utmi_phy_restore_start phy speed :
  quiet (utmi_phy_restore_start TEGRA_USB_PHY_PORT_SPEED_LOW phy speed).
Proof. unfold utmi_phy_restore_start. quiet_tac. Qed.

Lemma total_utmi_phy_restore_end phy : total (utmi_phy_restore_end phy).
Proof. unfold utmi_phy_restore_end. total_tac. Qed.

Lemma quiet_utmi_phy_restore_end phy : quiet (utmi_phy_restore_end phy).
Proof. unfold utmi_phy_restore_end. quiet_tac. Qed.

Lemma total_ulpi_phy_power_on phy c :
  config phy = PtrUlpi c -> total (ulpi_phy_power_on phy).
Proof.
  intros Hc. unfold ulpi_phy_power_on, ulpi_config_of. rewrite Hc.
  cbn [as_ulpi_config]. total_tac.
Qed.

Lemma quiet_ulpi_phy_power_on phy : quiet (ulpi_phy_power_on phy).
Proof. unfold ulpi_phy_power_on, ulpi_config_of. quiet_tac. Qed.

Lemma total_ulpi_phy_power_off phy c :
  config phy = PtrUlpi c -> total (ulpi_phy_power_off phy).
Proof.
  intros Hc. unfold ulpi_phy_power_off, ulpi_config_of. rewrite Hc.
  cbn [as_ulpi_config]. total_tac.
Qed.

Lemma quiet_ulpi_phy_power_off phy : quiet (ulpi_phy_power_off phy).
Proof. unfold ulpi_phy_power_off, ulpi_config_of. quiet_tac. Qed.

Lemma total_null_phy_power_on phy c :
  config phy = PtrUlpi c -> total (null_phy_power_on cfg phy).
Proof.
  intros Hc. unfold null_phy_power_on, ulpi_config_of. rewrite Hc.
  cbn [as_ulpi_config]. total_tac.
Qed.

Lemma quiet_null_phy_power_on phy : quiet (null_phy_power_on cfg phy).
Proof. unfold null_phy_power_on, ulpi_config_of. quiet_tac. Qed.

Lemma total_null_phy_power_off phy : total (null_phy_power_off phy).
Proof. unfold null_phy_power_off. total_tac. Qed.

Lemma quiet_null_phy_power_off phy : quiet (null_phy_power_off phy).
Proof. unfold null_phy_power_off. quiet_tac. Qed.

Lemma total_uhsic_phy_power_off phy : total (uhsic_phy_power_off cfg phy).
Proof. unfold uhsic_phy_power_off. total_tac. Qed.

Lemma quiet_uhsic_phy_power_off phy : quiet (uhsic_phy_power_off cfg phy).
Proof. unfold uhsic_phy_power_off. quiet_tac. Qed.

#[local] Hint Resolve total_uhsic_phy_power_off total_utmi_phy_power_off
  total_utmi_phy_preresume total_utmi_phy_postresume total_uhsic_phy_postresume
  total_utmi_phy_restore_start total_utmi_phy_restore_end
  total_null_phy_power_off : total.
#[local] Hint Resolve quiet_uhsic_phy_power_off quiet_utmi_phy_power_on
  quiet_utmi_phy_power_off quiet_utmi_phy_preresume quiet_utmi_phy_postresume
  quiet_uhsic_phy_postresume quiet_utmi_phy_restore_start
  quiet_utmi_phy_restore_end quiet_ulpi_phy_power_on quiet_ulpi_phy_power_off
  quiet_null_phy_power_on quiet_null_phy_power_off : quiet.

Lemma total_uhsic_phy_power_on_sequence phy f :
  freq_deref (phy_freq phy) = Some f ->
  total (uhsic_phy_power_on_sequence cfg phy).
Proof.
  intros Hf. unfold uhsic_phy_power_on_sequence, freq_of. rewrite Hf. total_tac.
Qed.

Lemma quiet_uhsic_phy_power_on_sequence phy :
  quiet (uhsic_phy_power_on_sequence cfg phy).
Proof. unfold uhsic_phy_power_on_sequence, freq_of. quiet_tac. Qed.

Lemma total_uhsic_phy_power_on_recover phy :
  total (uhsic_phy_power_on_recover cfg phy).
Proof. unfold uhsic_phy_power_on_recover. total_tac. Qed.

Lemma quiet_uhsic_phy_power_on_recover phy :
  quiet (uhsic_phy_power_on_recover cfg phy).
Proof. unfold uhsic_phy_power_on_recover. quiet_tac. Qed.

#[local] Hint Resolve quiet_uhsic_phy_power_on_sequence
  quiet_uhsic_phy_power_on_recover : quiet.

Lemma quiet_uhsic_phy_power_on_retry phy :
  forall fuel spin, quiet (uhsic_phy_power_on_retry cfg fuel phy spin).
Proof.
  induction fuel as [|fuel IH]; intros spin; cbn [uhsic_phy_power_on_retry];
    quiet_tac.
Qed.

Lemma quiet_uhsic_phy_power_on phy : quiet (uhsic_phy_power_on cfg phy).
Proof.
  unfold uhsic_phy_power_on, ulpi_config_of.
  pose proof (quiet_uhsic_phy_power_on_retry phy). quiet_tac.
Qed.

Lemma total_usb_enable_phy_clk phy : total (usb_enable_phy_clk cfg phy).
Proof. unfold usb_enable_phy_clk. total_tac. Qed.

Lemma quiet_usb_enable_phy_clk phy : quiet (usb_enable_phy_clk cfg phy).
Proof. unfold usb_enable_phy_clk. quiet_tac. Qed.

Lemma total_usb_disable_phy_clk phy : total (usb_disable_phy_clk cfg phy).
Proof. unfold usb_disable_phy_clk. total_tac. Qed.

Lemma quiet_usb_disable_phy_clk phy : quiet (usb_disable_phy_clk cfg phy).
Proof. unfold usb_disable_phy_clk. quiet_tac. Qed.

Lemma total_hsic_connect_lines base : total (hsic_connect_lines base).
Proof. unfold hsic_connect_lines. total_tac. Qed.

Lemma quiet_hsic_connect_lines base : quiet (hsic_connect_lines base).
Proof. unfold hsic_connect_lines. quiet_tac. Qed.

Lemma total_bus_connect_waits base : total (bus_connect_waits cfg base).
Proof. unfold bus_connect_waits. total_tac. Qed.

Lemma quiet_bus_connect_waits base : quiet (bus_connect_waits cfg base).
Proof. unfold bus_connect_waits. quiet_tac. Qed.

Lemma total_bus_reset_handshakes base : total (bus_reset_handshakes cfg base).
Proof. unfold bus_reset_handshakes. total_tac. Qed.

Lemma quiet_bus_reset_handshakes base : quiet (bus_reset_handshakes cfg base).
Proof. unfold bus_reset_handshakes. quiet_tac. Qed.

Lemma quiet_bus_idle_redetect base :
  forall fuel val, quiet (bus_idle_redetect cfg fuel base val).
Proof.
  induction fuel as [|fuel IH]; intros val; cbn [bus_idle_redetect]; quiet_tac.
Qed.

Lemma total_bus_idle_redetect base :
  forall fuel val,
    0 <= val <= 3 -> (Z.to_nat (3 - val) < fuel)%nat ->
    total (bus_idle_redetect cfg fuel base val).
Proof.
  induction fuel as [|fuel IH]; intros val Hv Hf; [lia|].
  cbn [bus_idle_redetect].
  destruct (val <? 3) eqn:L; [|apply total_ret].
  apply Z.ltb_lt in L.
  apply total_bind; [auto with total|]. intros r.
  destruct (r =? 0); [apply total_ret|].
  rewrite wrap32_small by lia. apply IH; lia.
Qed.

#[local] Hint Resolve total_hsic_connect_lines total_bus_connect_waits
  total_bus_reset_handshakes total_usb_enable_phy_clk total_usb_disable_phy_clk
  total_uhsic_phy_power_on_recover : total.
#[local] Hint Resolve quiet_hsic_connect_lines quiet_bus_connect_waits
  quiet_bus_reset_handshakes quiet_bus_idle_redetect quiet_usb_enable_phy_clk
  quiet_usb_disable_phy_clk quiet_uhsic_phy_power_on : quiet.

Lemma total_bus_idle_n1 base : total (bus_idle_n1 cfg base).
Proof.
  unfold bus_idle_n1.
  pose proof (total_bus_idle_redetect base 4 0 ltac:(lia) ltac:(simpl; lia)).
  total_tac.
Qed.

Lemma quiet_bus_idle_n1 base : quiet (bus_idle_n1 cfg base).
Proof. unfold bus_idle_n1. quiet_tac. Qed.

#[local] Hint Resolve total_bus_idle_n1 : total.
#[local] Hint Resolve quiet_bus_idle_n1 : quiet.

(** *** HSIC power-on *)

Lemma consume_0 s : consume 0 s = s.
Proof. destruct s. unfold consume, set_inputs. simpl. now rewrite Nat.add_0_r. Qed.

Lemma gpio_get_value_run g hw s :
  gpio_get_value g hw s =
  Some (hw (inputs s), consume 1 s, [EvGpioGet g (hw (inputs s))]).
Proof.
  unfold gpio_get_value, consume, bind, input, emit, ret. simpl.
  now rewrite Nat.add_1_r.
Qed.

Lemma bind_gpio_get {B} g (f : Z -> M B) hw s :
  bind (gpio_get_value g) f hw s =
  prepend [EvGpioGet g (hw (inputs s))] (f (hw (inputs s)) hw (consume 1 s)).
Proof. apply bind_run, gpio_get_value_run. Qed.

Lemma read_at_0 hw s : read_at hw s 0 = wrap32 (hw (inputs s)).
Proof. unfold read_at. now rewrite Nat.add_0_r. Qed.

Ltac pass_run :=
  repeat first
    [ rewrite bind_assoc
    | rewrite bind_ret
    | rewrite bind_rmw
    | rewrite bind_emit
    | rewrite bind_readl
    | rewrite bind_gpio_get
    | rewrite prepend_prepend
    | rewrite prepend_Some
    | rewrite read_at_consume
    | rewrite consume_consume
    | rewrite emit_run
    | rewrite ret_run
    | rewrite rmw_run
    | progress cbn [when Nat.add negb] ].

(** Bring the input positions of a goal to one form. *)
Ltac nat_canon :=
  repeat match goal with
         | |- context [consume ?a _] => progress ring_simplify a
         | |- context [read_at _ _ ?a] => progress ring_simplify a
         end.

Ltac trace_eq :=
  unfold rmw_events; rewrite <- ?app_assoc; cbn [app]; nat_canon; reflexivity.

(** One pass of the register sequence. *)
Lemma uhsic_sequence_run phy f hw s :
  freq_deref (phy_freq phy) = Some f ->
  exists (k : nat) (r : Z) (w : list event),
    utmi_wait_register cfg (Mmio (regs phy + USB_SUSP_CTRL))
      USB_PHY_CLK_VALID USB_PHY_CLK_VALID hw (consume (sequence_reads cfg) s)
      = Some (r, consume (sequence_reads cfg + k) s, w) /\
    uhsic_phy_power_on_sequence cfg phy hw s =
      Some (tt, consume (sequence_reads cfg + k + 1) s,
            sequence_trace cfg phy f hw s k r w).
Proof.
  intros Hf.
  unfold uhsic_phy_power_on_sequence, freq_of. rewrite Hf. cbn [lift_option].
  unfold sequence_trace, sequence_reads, writel, udelay, pr_err.
  destruct (CONFIG_MACH_N1 cfg) eqn:HN.
  - pass_run.
    destruct (Z.land (read_at hw s 10) USB_FIFO_TXFILL_MASK
                =? USB_FIFO_TXFILL_THRES 16);
      pass_run;
      destruct (Z.land (read_at hw s 11) 2147483648 =? 2147483648);
      pass_run;
      match goal with
      | |- context [bind (utmi_wait_register cfg ?a ?b ?c) _ hw ?st] =>
          destruct (utmi_wait_register_runs a b c hw st) as (k & r & w & E)
      end;
      rewrite (bind_run _ _ _ _ _ _ _ E); rewrite consume_consume in E;
      exists k, r, w; (split; [exact E|]);
      destruct (r =? 0); pass_run; trace_eq.
  - pass_run.
    destruct (Z.land (read_at hw s 10) USB_FIFO_TXFILL_MASK
                =? USB_FIFO_TXFILL_THRES 16);
      pass_run;
      match goal with
      | |- context [bind (utmi_wait_register cfg ?a ?b ?c) _ hw ?st] =>
          destruct (utmi_wait_register_runs a b c hw st) as (k & r & w & E)
      end;
      rewrite (bind_run _ _ _ _ _ _ _ E); rewrite consume_consume in E;
      exists k, r, w; (split; [exact E|]);
      destruct (r =? 0); pass_run; trace_eq.
Qed.


(** The recovery between two passes. *)
Lemma uhsic_recover_run phy hw s :
  uhsic_phy_power_on_recover cfg phy hw s =
    Some (tt, consume (recover_reads cfg) s, recover_trace cfg phy hw s).
Proof.
  unfold uhsic_phy_power_on_recover, uhsic_phy_power_off, recover_reads,
    recover_trace, pr_err, udelay, mdelay, gpio_set_value.
  destruct (CONFIG_MACH_N1 cfg); pass_run.
  - replace (inputs (consume 3 s)) with (inputs s + 3)%nat
      by (destruct s; reflexivity).
    destruct (hw (inputs s + 3)%nat =? 0); pass_run; trace_eq.
  - trace_eq.
Qed.

Lemma passes_last_eq phy f hw spin s k r w s1 s' evs :
  utmi_wait_register cfg (Mmio (regs phy + USB_SUSP_CTRL))
    USB_PHY_CLK_VALID USB_PHY_CLK_VALID hw (consume (sequence_reads cfg) s)
    = Some (r, consume (sequence_reads cfg + k) s, w) ->
  s1 = consume (sequence_reads cfg + k + 1) s ->
  retry_asked cfg phy hw s1 spin = false ->
  s' = consume (List.length (retry_probe cfg phy hw s1 spin)) s1 ->
  evs = sequence_trace cfg phy f hw s k r w ++ retry_probe cfg phy hw s1 spin ->
  power_on_passes cfg phy f hw spin 0 s s' evs.
Proof. intros Hw H1 Ha -> ->. now apply passes_last. Qed.

Lemma uhsic_retry_run phy f :
  freq_deref (phy_freq phy) = Some f ->
  forall fuel spin hw s,
    0 <= spin < 2 ^ 31 ->
    (Z.to_nat spin < fuel)%nat ->
    exists n s' evs,
      uhsic_phy_power_on_retry cfg fuel phy spin hw s = Some (0, s', evs) /\
      (n <= Z.to_nat spin)%nat /\
      power_on_passes cfg phy f hw spin n s s' evs /\
      (CONFIG_MACH_N1 cfg = false -> n = 0%nat) /\
      (CONFIG_MACH_N1 cfg = true -> always_retry hw -> n = Z.to_nat spin).
Proof.
  intros Hf.
  induction fuel as [|fuel IH]; intros spin hw s Hs Hfuel; [lia|].
  cbn [uhsic_phy_power_on_retry].
  destruct (uhsic_sequence_run phy f hw s Hf) as (k & r & w & Ew & E1).
  rewrite (bind_run _ _ _ _ _ _ _ E1).
  set (s1 := consume (sequence_reads cfg + k + 1) s) in *.
  destruct (CONFIG_MACH_N1 cfg) eqn:HN1.
  2:{ exists 0%nat. eexists _, _. rewrite ret_run, prepend_Some.
      split; [reflexivity|]. split; [lia|]. split.
      - eapply passes_last_eq; [exact Ew | reflexivity | | |];
          fold s1; unfold retry_asked, retry_probe; rewrite HN1;
          [reflexivity | now rewrite consume_0 | reflexivity].
      - split; [reflexivity | discriminate]. }
  rewrite bind_gpio_get.
  destruct (hw (inputs s1) =? 0) eqn:Hact; cbn [negb].
  { exists 0%nat. eexists _, _. rewrite ret_run, !prepend_Some.
    split; [reflexivity|]. split; [lia|]. split.
    - eapply passes_last_eq; [exact Ew | reflexivity | | |];
        fold s1; unfold retry_asked, retry_probe; rewrite HN1, Hact;
        [reflexivity | reflexivity | now rewrite app_nil_r].
    - split; [discriminate|]. intros _ Hal. apply Z.eqb_eq in Hact.
      now destruct (Hal (inputs s1)). }
  destruct (spin >? 0) eqn:Hspin.
  2:{ exists 0%nat. eexists _, _. rewrite ret_run, !prepend_Some.
      split; [reflexivity|]. split; [lia|]. split.
      - eapply passes_last_eq; [exact Ew | reflexivity | | |];
          fold s1; unfold retry_asked, retry_probe; rewrite HN1, Hact, Hspin;
          [reflexivity | reflexivity | now rewrite app_nil_r].
      - split; [discriminate|]. intros _ _.
        assert (spin = 0) as -> by lia. reflexivity. }
  assert (0 < spin) as Hpos by lia.
  rewrite bind_readl, prepend_prepend, read_at_consume.
  change (read_at hw s1 (1 + 0)) with (read_at hw s1 1).
  destruct (Z.land (read_at hw s1 1) (USB_PORTSC1_PSPD ALL_ONES)
              =? USB_PORTSC1_PSPD ALL_ONES) eqn:Hspd; cbn [negb].
  { exists 0%nat. eexists _, _. rewrite ret_run, !prepend_Some.
    split; [reflexivity|]. split; [lia|]. split.
    - eapply passes_last_eq; [exact Ew | reflexivity | | |];
        fold s1; unfold retry_asked, retry_probe;
        rewrite HN1, Hact, Hspin, ?Hspd;
        [reflexivity | now rewrite consume_consume
        | now rewrite app_nil_r, <- app_assoc].
    - split; [discriminate|]. intros _ Hal. apply Z.eqb_eq in Hspd.
      unfold read_at in Hspd. now destruct (Hal (inputs s1 + 1)%nat). }
  rewrite (bind_run _ _ _ _ _ _ _ (uhsic_recover_run phy hw _)).
  rewrite wrap_int_small by lia. rewrite consume_consume.
  change (consume (1 + 1) s1) with (consume 2 s1).
  destruct (IH (spin - 1) hw (consume (recover_reads cfg) (consume 2 s1)))
    as (n & s4 & e4 & E4 & Hn & Hp & Hoff & Hall); [lia | lia |].
  exists (S n), s4. eexists. rewrite E4, !prepend_Some.
  split; [reflexivity|]. split; [lia|]. split.
  - rewrite <- !app_assoc.
    replace ([EvGpioGet GPIO_PHONE_ACTIVE (hw (inputs s1))]
               ++ [EvReadl (Mmio (regs phy + USB_PORTSC1)) (read_at hw s1 1)]
               ++ recover_trace cfg phy hw (consume 2 s1) ++ e4)
      with (retry_probe cfg phy hw s1 spin
              ++ recover_trace cfg phy hw (consume 2 s1) ++ e4).
    + eapply passes_retry; [exact Ew | reflexivity | |].
      * fold s1. unfold retry_asked. now rewrite HN1, Hact, Hspin, Hspd.
      * fold s1. exact Hp.
    + unfold retry_probe. rewrite HN1, Hact, Hspin. reflexivity.
  - split; [discriminate|]. intros H1 Hal. rewrite (Hall H1 Hal). lia.
Qed.




Lemma total_uhsic_phy_power_on phy c f :
  config phy = PtrUlpi c ->
  freq_deref (phy_freq phy) = Some f ->
  total (uhsic_phy_power_on cfg phy).
Proof.
  intros Hc Hf hw s. unfold uhsic_phy_power_on, ulpi_config_of.
  rewrite Hc. cbn [as_ulpi_config lift_option]. rewrite bind_ret.
  destruct (preinit c); cbn [when].
  - unfold ext_proc. rewrite bind_emit.
    destruct (uhsic_retry_run phy f Hf (S (Z.to_nat uhsic_spin)) uhsic_spin hw s)
      as (n & s' & evs & E & _); [unfold uhsic_spin; lia | lia |].
    rewrite E. eexists. reflexivity.
  - rewrite bind_ret.
    destruct (uhsic_retry_run phy f Hf (S (Z.to_nat uhsic_spin)) uhsic_spin hw s)
      as (n & s' & evs & E & _); [unfold uhsic_spin; lia | lia |].
    eexists. exact E.
Qed.

(** *** The exported operations *)

Lemma total_phy_enter op : total (phy_enter op).
Proof. unfold phy_enter. total_tac. Qed.

Lemma total_phy_leave op r : total (phy_leave op r).
Proof. unfold phy_leave. total_tac. Qed.

Lemma quiet_phy_is_uhsic phy : quiet (phy_is_uhsic phy).
Proof. unfold phy_is_uhsic, ulpi_config_of. quiet_tac. Qed.

Lemma total_phy_is_uhsic phy :
  (instance phy = 1 -> exists c, config phy = PtrUlpi c) ->
  total (phy_is_uhsic phy).
Proof.
  intros H. unfold phy_is_uhsic, phy_is_ulpi, ulpi_config_of.
  destruct (instance phy =? 1) eqn:E; [|apply total_ret].
  apply Z.eqb_eq in E. destruct (H E) as [c ->]. cbn [as_ulpi_config].
  total_tac.
Qed.

Lemma quiet_ulpi_config_of phy : quiet (ulpi_config_of phy).
Proof. apply quiet_lift_option. Qed.

Lemma quiet_utmip_config_of phy : quiet (utmip_config_of phy).
Proof. apply quiet_lift_option. Qed.

Lemma quiet_freq_of phy : quiet (freq_of phy).
Proof. apply quiet_lift_option. Qed.

#[local] Hint Resolve total_phy_enter total_phy_leave : total.
#[local] Hint Resolve quiet_phy_is_uhsic quiet_ulpi_config_of
  quiet_utmip_config_of quiet_freq_of : quiet.

Lemma leaves_leave op r : leaves op (fun a => a) (phy_leave op r).
Proof.
  intros hw s. unfold phy_leave, wlp. rewrite bind_emit, ret_run, prepend_Some.
  split; [reflexivity|]. exists []. split; [constructor | reflexivity].
Qed.

Lemma leaves_bind {A B} op code (m : M A) (f : A -> M B) :
  quiet m -> (forall a, leaves op code (f a)) -> leaves op code (bind m f).
Proof.
  intros Hm Hf hw s. apply wlp_bind.
  eapply wlp_mono; [apply Hm|]. intros a s1 e1 [L1 N1].
  eapply wlp_mono; [apply Hf|]. intros b s2 e2 (L2 & body & N2 & ->).
  split; [congruence|]. exists (e1 ++ body).
  split; [now apply Forall_app | now rewrite app_assoc].
Qed.

Lemma enter_leaves {A} op code (m : M A) :
  leaves op code m ->
  forall hw s,
    wlp (bind (phy_enter op) (fun _ => m)) hw s (fun a s' evs =>
      link_of s' = link_of s /\
      phy_call_shape op (ready s) (Some (code a)) evs).
Proof.
  intros Hm hw s. unfold phy_enter. apply wlp_bind. unfold wlp at 1.
  rewrite bind_get, emit_run.
  eapply wlp_mono; [apply Hm|]. intros a s' evs (L & body & N & ->).
  split; [exact L|]. exists body. split; [exact N | reflexivity].
Qed.

Lemma enter_quiet {A} op (m : M A) :
  quiet m ->
  forall hw s,
    wlp (bind (phy_enter op) (fun _ => m)) hw s (fun a s' evs =>
      link_of s' = link_of s /\ phy_call_shape op (ready s) None evs).
Proof.
  intros Hm hw s. unfold phy_enter. apply wlp_bind. unfold wlp at 1.
  rewrite bind_get, emit_run.
  eapply wlp_mono; [apply Hm|]. intros a s' evs (L & N).
  split; [exact L|]. exists evs. split; [exact N|]. now rewrite app_nil_r.
Qed.

Ltac leaves_step :=
  first
    [ apply leaves_leave
    | apply leaves_bind; [solve [quiet_tac] | intro]
    | match goal with
      | |- leaves _ _ (if ?c then _ else _) => destruct c
      | |- leaves _ _ (match ?x with _ => _ end) => destruct x
      end ].

Lemma shape_power_on phy hw s :
  wlp (tegra_usb_phy_power_on cfg usb_phy_data phy) hw s (fun r s' evs =>
    link_of s' = link_of s /\ phy_call_shape OpPowerOn (ready s) (Some r) evs).
Proof.
  unfold tegra_usb_phy_power_on.
  apply (enter_leaves OpPowerOn (fun a => a)).
  repeat leaves_step.
Qed.

Lemma shape_power_off phy hw s :
  wlp (tegra_usb_phy_power_off cfg usb_phy_data phy) hw s (fun _ s' evs =>
    link_of s' = link_of s /\ phy_call_shape OpPowerOff (ready s) None evs).
Proof.
  unfold tegra_usb_phy_power_off. apply enter_quiet.
  unfold ulpi_config_of. quiet_tac.
Qed.

Lemma shape_preresume phy hw s :
  wlp (tegra_usb_phy_preresume phy) hw s (fun _ s' evs =>
    link_of s' = link_of s /\ phy_call_shape OpPreresume (ready s) None evs).
Proof. unfold tegra_usb_phy_preresume. apply enter_quiet. quiet_tac. Qed.

Lemma shape_postresume phy hw s :
  wlp (tegra_usb_phy_postresume phy) hw s (fun _ s' evs =>
    link_of s' = link_of s /\ phy_call_shape OpPostresume (ready s) None evs).
Proof. unfold tegra_usb_phy_postresume. apply enter_quiet. quiet_tac. Qed.

Lemma shape_restore_start phy speed hw s :
  wlp (tegra_ehci_phy_restore_start TEGRA_USB_PHY_PORT_SPEED_LOW phy speed) hw s
    (fun _ s' evs =>
       link_of s' = link_of s /\ phy_call_shape OpRestoreStart (ready s) None evs).
Proof. unfold tegra_ehci_phy_restore_start. apply enter_quiet. quiet_tac. Qed.

Lemma shape_restore_end phy hw s :
  wlp (tegra_ehci_phy_restore_end phy) hw s (fun _ s' evs =>
    link_of s' = link_of s /\ phy_call_shape OpRestoreEnd (ready s) None evs).
Proof. unfold tegra_ehci_phy_restore_end. apply enter_quiet. quiet_tac. Qed.

Lemma shape_bus_connect phy hw s :
  wlp (tegra_usb_phy_bus_connect cfg phy) hw s (fun r s' evs =>
    link_of s' = link_of s /\ phy_call_shape OpBusConnect (ready s) (Some r) evs).
Proof.
  unfold tegra_usb_phy_bus_connect.
  apply (enter_leaves OpBusConnect (fun a => a)). repeat leaves_step.
Qed.

Lemma shape_bus_reset phy hw s :
  wlp (tegra_usb_phy_bus_reset cfg phy) hw s (fun r s' evs =>
    link_of s' = link_of s /\ phy_call_shape OpBusReset (ready s) (Some r) evs).
Proof.
  unfold tegra_usb_phy_bus_reset.
  apply (enter_leaves OpBusReset (fun a => a)). repeat leaves_step.
Qed.

Lemma shape_bus_idle phy hw s :
  wlp (tegra_usb_phy_bus_idle cfg phy) hw s (fun r s' evs =>
    link_of s' = link_of s /\ phy_call_shape OpBusIdle (ready s) (Some r) evs).
Proof.
  unfold tegra_usb_phy_bus_idle.
  apply (enter_leaves OpBusIdle (fun a => a)). repeat leaves_step.
Qed.

Lemma shape_set_phy_clock phy on hw s :
  wlp (tegra_usb_set_phy_clock cfg phy on) hw s (fun r s' evs =>
    link_of s' = link_of s /\ phy_call_shape OpSetPhyClock (ready s) (Some r) evs).
Proof.
  unfold tegra_usb_set_phy_clock.
  apply (enter_leaves OpSetPhyClock (fun a => a)). repeat leaves_step.
Qed.

Lemma leaves_leave_bool op (r : bool) :
  leaves op bool_code
    (bind (phy_leave op (if r then 1 else 0)) (fun _ => ret r)).
Proof.
  intros hw s. unfold phy_leave, wlp.
  rewrite bind_assoc, bind_emit, bind_ret. cbv beta.
  rewrite ret_run, prepend_Some.
  split; [reflexivity|]. exists []. split; [constructor | reflexivity].
Qed.

Lemma shape_is_device_connected phy hw s :
  wlp (tegra_usb_phy_is_device_connected cfg phy) hw s (fun r s' evs =>
    link_of s' = link_of s /\
    phy_call_shape OpIsDeviceConnected (ready s) (Some (bool_code r)) evs).
Proof.
  unfold tegra_usb_phy_is_device_connected.
  apply (enter_leaves OpIsDeviceConnected bool_code).
  repeat first [apply leaves_leave_bool | leaves_step].
Qed.

(** Termination of the exported operations on well-formed handles. *)

Lemma total_power_on phy :
  phy_wf phy -> total (tegra_usb_phy_power_on cfg usb_phy_data phy).
Proof.
  intros (Hu & Hn & f & Hf). unfold tegra_usb_phy_power_on, phy_is_ulpi.
  destruct (instance phy =? 1) eqn:E.
  - apply Z.eqb_eq in E. destruct (Hu E) as [c Hc].
    pose proof (total_ulpi_phy_power_on phy c Hc).
    pose proof (total_null_phy_power_on phy c Hc).
    pose proof (total_uhsic_phy_power_on phy c f Hc Hf).
    unfold ulpi_config_of. rewrite Hc. cbn [as_ulpi_config]. total_tac.
  - apply Z.eqb_neq in E. destruct (Hn E) as [c Hc].
    pose proof (total_utmi_phy_power_on phy c f Hc Hf). total_tac.
Qed.

Lemma total_power_off phy :
  phy_wf phy -> total (tegra_usb_phy_power_off cfg usb_phy_data phy).
Proof.
  intros (Hu & Hn & f & Hf). unfold tegra_usb_phy_power_off, phy_is_ulpi.
  destruct (instance phy =? 1) eqn:E.
  - apply Z.eqb_eq in E. destruct (Hu E) as [c Hc].
    pose proof (total_ulpi_phy_power_off phy c Hc).
    unfold ulpi_config_of. rewrite Hc. cbn [as_ulpi_config]. total_tac.
  - total_tac.
Qed.

Lemma total_preresume phy : total (tegra_usb_phy_preresume phy).
Proof. unfold tegra_usb_phy_preresume. total_tac. Qed.

Lemma total_postresume phy :
  phy_wf phy -> total (tegra_usb_phy_postresume phy).
Proof.
  intros (Hu & _). pose proof (total_phy_is_uhsic phy Hu).
  unfold tegra_usb_phy_postresume. total_tac.
Qed.

Lemma total_restore_start phy speed :
  total (tegra_ehci_phy_restore_start TEGRA_USB_PHY_PORT_SPEED_LOW phy speed).
Proof. unfold tegra_ehci_phy_restore_start. total_tac. Qed.

Lemma total_restore_end phy : total (tegra_ehci_phy_restore_end phy).
Proof. unfold tegra_ehci_phy_restore_end. total_tac. Qed.

Lemma total_bus_connect phy :
  phy_wf phy -> total (tegra_usb_phy_bus_connect cfg phy).
Proof.
  intros (Hu & _). pose proof (total_phy_is_uhsic phy Hu).
  unfold tegra_usb_phy_bus_connect. total_tac.
Qed.

Lemma total_bus_reset phy :
  phy_wf phy -> total (tegra_usb_phy_bus_reset cfg phy).
Proof.
  intros (Hu & _). pose proof (total_phy_is_uhsic phy Hu).
  unfold tegra_usb_phy_bus_reset. total_tac.
Qed.

Lemma total_bus_idle phy :
  phy_wf phy -> total (tegra_usb_phy_bus_idle cfg phy).
Proof.
  intros (Hu & _). pose proof (total_phy_is_uhsic phy Hu).
  unfold tegra_usb_phy_bus_idle. total_tac.
Qed.

Lemma total_is_device_connected phy :
  phy_wf phy -> total (tegra_usb_phy_is_device_connected cfg phy).
Proof.
  intros (Hu & _). pose proof (total_phy_is_uhsic phy Hu).
  unfold tegra_usb_phy_is_device_connected. total_tac.
Qed.

Lemma total_set_phy_clock phy on : total (tegra_usb_set_phy_clock cfg phy on).
Proof. unfold tegra_usb_set_phy_clock. total_tac. Qed.

(** *** Device presence *)

Lemma phy_is_uhsic_non_hsic phy hw s :
  (instance phy <> 1 \/
   exists c, config phy = PtrUlpi c /\ inf_type c <> TEGRA_USB_UHSIC) ->
  phy_is_uhsic phy hw s = Some (false, s, []).
Proof.
  intros [H|(c & Hc & Ht)]; unfold phy_is_uhsic, phy_is_ulpi.
  - now replace (instance phy =? 1) with false by (symmetry; now apply Z.eqb_neq).
  - destruct (instance phy =? 1); [|reflexivity].
    unfold ulpi_config_of. rewrite Hc. cbn [as_ulpi_config lift_option].
    rewrite bind_ret.
    destruct (inf_type c) eqn:E; try reflexivity. congruence.
Qed.

Lemma phy_is_uhsic_hsic phy hw s :
  phy_is_hsic phy -> phy_is_uhsic phy hw s = Some (true, s, []).
Proof.
  intros (Hi & c & Hc & Ht). unfold phy_is_uhsic, phy_is_ulpi, ulpi_config_of.
  rewrite Hi, Hc. cbn [as_ulpi_config lift_option Z.eqb Pos.eqb].
  rewrite bind_ret, Ht. reflexivity.
Qed.

Lemma is_device_connected_run_non_hsic phy hw s :
  (instance phy <> 1 \/
   exists c, config phy = PtrUlpi c /\ inf_type c <> TEGRA_USB_UHSIC) ->
  tegra_usb_phy_is_device_connected cfg phy hw s =
    Some (true, s, [EvPhyOp OpIsDeviceConnected (ready s);
                    EvPhyRet OpIsDeviceConnected 1]).
Proof.
  intros H. unfold tegra_usb_phy_is_device_connected, phy_enter, phy_leave.
  rewrite bind_assoc, bind_get, bind_emit.
  rewrite (bind_run _ _ _ _ _ _ _ (phy_is_uhsic_non_hsic phy hw s H)).
  rewrite prepend_nil.
  repeat first [rewrite bind_assoc | rewrite bind_ret | rewrite bind_emit
               | cbv beta].
  reflexivity.
Qed.

(** C9.  For a handle that is not an HSIC handle
    [tegra_usb_phy_is_device_connected] returns true without reading any
    register: the machine is left as it was and the only events are the
    entry and the return of the call.  A call that returns false was
    made on an HSIC handle. *)
Theorem is_device_connected_non_hsic (phy : tegra_usb_phy) (hw : oracle)
    (s : machine) :
  (instance phy <> 1 \/
   exists c, config phy = PtrUlpi c /\ inf_type c <> TEGRA_USB_UHSIC) ->
  tegra_usb_phy_is_device_connected cfg phy hw s =
    Some (true, s, [EvPhyOp OpIsDeviceConnected (ready s);
                    EvPhyRet OpIsDeviceConnected 1])
  /\
  (forall phy' hw' s0 s' evs,
      tegra_usb_phy_is_device_connected cfg phy' hw' s0 = Some (false, s', evs) ->
      phy_is_hsic phy').
Proof.
  intros H. split; [now apply is_device_connected_run_non_hsic|].
  intros phy' hw' s0 s' evs E.
  destruct (Z.eq_dec (instance phy') 1) as [Hi|Hi].
  - destruct (config phy') as [i|c|c] eqn:Hc.
    + unfold tegra_usb_phy_is_device_connected, phy_is_uhsic, phy_is_ulpi,
        ulpi_config_of, phy_enter in E.
      rewrite Hi, Hc in E. cbn [Z.eqb Pos.eqb as_ulpi_config lift_option] in E.
      rewrite bind_assoc, bind_get, bind_emit, bind_assoc, bind_stuck in E.
      discriminate.
    + unfold tegra_usb_phy_is_device_connected, phy_is_uhsic, phy_is_ulpi,
        ulpi_config_of, phy_enter in E.
      rewrite Hi, Hc in E. cbn [Z.eqb Pos.eqb as_ulpi_config lift_option] in E.
      rewrite bind_assoc, bind_get, bind_emit, bind_assoc, bind_stuck in E.
      discriminate.
    + destruct (inf_type c) eqn:Ht.
      * rewrite is_device_connected_run_non_hsic in E; [discriminate|].
        right. exists c. split; [exact Hc | congruence].
      * rewrite is_device_connected_run_non_hsic in E; [discriminate|].
        right. exists c. split; [exact Hc | congruence].
      * split; [exact Hi|]. exists c. auto.
  - rewrite is_device_connected_run_non_hsic in E; [discriminate | now left].
Qed.

(** *** [tegra_usb_phy_open] *)

Lemma open_finish_handle env inst base conf ulpi md fp evs phy evs' :
  open_finish cfg usb_phy_data env inst base conf ulpi md fp evs = (inr phy, evs') ->
  instance phy = inst /\ regs phy = base /\ config phy = conf /\
  mode phy = md /\ phy_freq phy = fp.
Proof.
  unfold open_finish, open_err1, open_err0.
  destruct (match ulpi with Some _ => _ | None => _ end) as [[err|pad] e1];
    [discriminate|].
  destruct (if CONFIG_MACH_N1 cfg then None else reg_vdd_err env); [discriminate|].
  destruct ((inst =? 0) && negb (vbus_irq (usb_phy_data 0) =? 0)).
  - destruct (negb (request_irq_err env =? 0)); [discriminate|].
    intros H. inversion H; subst. simpl. auto.
  - intros H. inversion H; subst. simpl. auto.
Qed.

(** C6.  Without a configuration record [tegra_usb_phy_open] returns
    -EINVAL and no handle for instance 1 (after a successful allocation;
    -ENOMEM otherwise), freeing the block it allocated.  For a UTMI
    instance it behaves as if the caller had passed
    [&utmip_default[instance]] and goes on: the missing-configuration
    line is never logged, the next step is the request for the [pll_u]
    clock (whose error, if any, is the result), and when the services it
    calls succeed and the parent rate is in the table it returns a
    handle.  Every handle it returns carries the default
    configuration. *)
Theorem open_without_config (env : open_env) (inst base : Z)
    (md : tegra_usb_phy_mode) :
  inst <> 1 ->
  tegra_usb_phy_open cfg usb_phy_data env 1 base None md =
    Some (if kmalloc_ok env
          then (inl (- EINVAL),
                [EvExt "kmalloc" 1; EvLog "ulpi phy configuration missing";
                 EvExt "kfree" 0])
          else (inl (- ENOMEM), [EvExt "kmalloc" 0]))
  /\
  tegra_usb_phy_open cfg usb_phy_data env inst base None md =
    tegra_usb_phy_open cfg usb_phy_data env inst base
                       (Some (PtrUtmipDefault inst)) md
  /\
  (forall phy evs,
      tegra_usb_phy_open cfg usb_phy_data env inst base None md
        = Some (inr phy, evs) ->
      config phy = PtrUtmipDefault inst)
  /\
  (exists r evs,
      tegra_usb_phy_open cfg usb_phy_data env inst base None md = Some (r, evs) /\
      ~ In (EvLog "ulpi phy configuration missing") evs)
  /\
  (kmalloc_ok env = true ->
   forall err, pll_u_err env = Some err ->
   tegra_usb_phy_open cfg usb_phy_data env inst base None md =
     Some (inl err,
           [EvExt "kmalloc" 1; EvLog "Can't get pll_u clock"; EvExt "kfree" 0]))
  /\
  (kmalloc_ok env = true -> pll_u_err env = None -> pad_clk_err env = None ->
   (inst = 0 \/ ioremap_addr env <> 0) ->
   (CONFIG_MACH_N1 cfg = false -> reg_vdd_err env = None) ->
   (inst = 0 -> vbus_irq (usb_phy_data 0) <> 0 -> request_irq_err env = 0) ->
   forall i,
     freq_lookup tegra_freq_table (parent_rate env) 0 = Some i ->
     tegra_usb_phy_open cfg usb_phy_data env inst base None md =
       Some (inr (mk_phy inst (FreqRow false i) base
                         (if inst =? 0 then base else ioremap_addr env)
                         md (PtrUtmipDefault inst)),
             [EvExt "kmalloc" 1; EvClk true "pll_u"]
               ++ (if (inst =? 0) && negb (vbus_irq (usb_phy_data 0) =? 0)
                   then [EvExt "request_threaded_irq" 0] else []))).
Proof.
  intros Hi.
  assert ((inst =? 1) = false) as Hb by now apply Z.eqb_neq.
  split; [|split; [|split; [|split; [|split]]]].
  - unfold tegra_usb_phy_open. destruct (kmalloc_ok env); reflexivity.
  - unfold tegra_usb_phy_open. rewrite Hb. reflexivity.
  - intros phy evs. unfold tegra_usb_phy_open. rewrite Hb. cbn [negb andb].
    destruct (kmalloc_ok env); cbn [negb]; [|discriminate].
    destruct (pll_u_err env); [discriminate|].
    destruct (freq_ptr_is_null _); [discriminate|].
    intros H. injection H as H. now apply open_finish_handle in H.
  - unfold tegra_usb_phy_open. rewrite Hb. cbn [negb andb].
    destruct (kmalloc_ok env); cbn [negb].
    2:{ eexists _, _. split; [reflexivity|]. cbn [In].
        intros [H|[]]; discriminate H. }
    destruct (pll_u_err env).
    { eexists _, _. split; [reflexivity|]. cbn [app In].
      intros [H|[H|[H|[]]]]; discriminate H. }
    destruct (freq_ptr_is_null _).
    { eexists _, _. split; [reflexivity|]. cbn [app In].
      intros [H|[H|[H|[H|[H|[H|[]]]]]]]; discriminate H. }
    unfold open_finish, open_err1, open_err0, utmip_pad_open.
    destruct (pad_clk_err env);
      [|destruct (inst =? 0) eqn:H0;
        [|destruct (ioremap_addr env =? 0)]];
      try destruct (if CONFIG_MACH_N1 cfg then None else reg_vdd_err env);
      cbn [andb];
      try destruct (negb (vbus_irq (usb_phy_data 0) =? 0));
      try destruct (negb (request_irq_err env =? 0));
      (eexists _, _; split; [reflexivity|]); cbn [app In];
      intros H; repeat (destruct H as [H|H]; [discriminate H|]); exact H.
  - intros Hk err Hp. unfold tegra_usb_phy_open.
    rewrite Hb, Hk, Hp. reflexivity.
  - intros Hk Hp Hpad Hmap Hreg Hirq i Hrow. unfold tegra_usb_phy_open.
    rewrite Hb, Hk, Hp. cbn [negb andb freq_table]. rewrite Hrow.
    cbn [freq_ptr_is_null]. unfold open_finish, utmip_pad_open. rewrite Hpad.
    assert ((if CONFIG_MACH_N1 cfg then None else reg_vdd_err env) = None) as Hr.
    { destruct (CONFIG_MACH_N1 cfg); [reflexivity | now apply Hreg]. }
    destruct (inst =? 0) eqn:H0.
    + apply Z.eqb_eq in H0. rewrite Hr. cbn [andb app].
      destruct (vbus_irq (usb_phy_data 0) =? 0) eqn:Hv; cbn [negb].
      * reflexivity.
      * apply Z.eqb_neq in Hv. rewrite (Hirq H0 Hv). reflexivity.
    + apply Z.eqb_neq in H0.
      destruct Hmap as [Hmap|Hmap]; [contradiction|].
      replace (ioremap_addr env =? 0) with false
        by (symmetry; now apply Z.eqb_neq).
      rewrite Hr. reflexivity.
Qed.

Lemma freq_lookup_sound table rate :
  forall i0 i,
    freq_lookup table rate i0 = Some i ->
    (i0 <= i)%nat /\
    exists row, nth_error table (i - i0) = Some row /\ wrap32 (freq row) = rate /\
    forall j row', (j < i - i0)%nat -> nth_error table j = Some row' ->
                   wrap32 (freq row') <> rate.
Proof.
  induction table as [|row rest IH]; intros i0 i; cbn [freq_lookup];
    [discriminate|].
  destruct (wrap32 (freq row) =? rate) eqn:E.
  - intros H. injection H as <-. split; [lia|]. exists row.
    rewrite Nat.sub_diag. split; [reflexivity|]. split; [now apply Z.eqb_eq|].
    intros; lia.
  - intros H. destruct (IH _ _ H) as (Hle & row' & Hn & Hr & Hfirst).
    split; [lia|]. exists row'.
    replace (i - i0)%nat with (S (i - S i0)) by lia.
    split; [exact Hn|]. split; [exact Hr|].
    intros j r Hj. destruct j as [|j]; cbn [nth_error].
    + intros [= <-]. now apply Z.eqb_neq.
    + apply Hfirst. lia.
Qed.

Lemma freq_lookup_complete table rate :
  forall i0,
    freq_lookup table rate i0 = None ->
    forall row, In row table -> wrap32 (freq row) <> rate.
Proof.
  induction table as [|row rest IH]; intros i0; cbn [freq_lookup];
    [intros _ r []|].
  destruct (wrap32 (freq row) =? rate) eqn:E; [discriminate|].
  intros H r [<-|Hr]; [now apply Z.eqb_neq | eapply IH; eauto].
Qed.

Lemma freq_rows_distinct uhsic i j ri rj :
  nth_error (freq_table uhsic) i = Some ri ->
  nth_error (freq_table uhsic) j = Some rj ->
  freq ri = freq rj -> i = j.
Proof.
  destruct uhsic;
    destruct i as [|[|[|[|i]]]]; destruct j as [|[|[|[|j]]]];
    cbn [freq_table nth_error tegra_freq_table tegra_uhsic_freq_table];
    intros Hi Hj Hf; try reflexivity;
    try (destruct i; discriminate); try (destruct j; discriminate);
    injection Hi as <-; injection Hj as <-; cbn in Hf; discriminate.
Qed.

Lemma freq_rows_small uhsic row :
  In row (freq_table uhsic) -> wrap32 (freq row) = freq row.
Proof.
  destruct uhsic; cbn; intros H;
    repeat (destruct H as [<-|H]; [reflexivity|]); destruct H.
Qed.

(** The frequency lookup of [tegra_usb_phy_open] for a rate that is in
    the table of the handle's transceiver family: the row with that
    frequency, and no other, is selected, and the function goes on to
    acquire the remaining resources. *)
Lemma open_supported_rate (env : open_env) (inst base : Z)
    (conf : option config_ptr) (md : tegra_usb_phy_mode) (uhsic : bool) row :
  kmalloc_ok env = true ->
  pll_u_err env = None ->
  match conf with
  | Some (PtrUlpi c) =>
      inst = 1 /\ uhsic = phy_type_eqb (inf_type c) TEGRA_USB_UHSIC
  | _ => inst <> 1 /\ uhsic = false
  end ->
  In row (freq_table uhsic) ->
  parent_rate env = freq row ->
  exists i phy_config ulpi evs,
    nth_error (freq_table uhsic) i = Some row /\
    (forall j row', nth_error (freq_table uhsic) j = Some row' ->
                    freq row' = parent_rate env -> j = i) /\
    tegra_usb_phy_open cfg usb_phy_data env inst base conf md =
      Some (open_finish cfg usb_phy_data env inst base phy_config ulpi md
                        (FreqRow uhsic i) evs) /\
    (forall phy evs',
        tegra_usb_phy_open cfg usb_phy_data env inst base conf md
          = Some (inr phy, evs') ->
        phy_freq phy = FreqRow uhsic i).
Proof.
  intros Hk Hp Hconf Hin Hrate.
  destruct (In_nth_error _ _ Hin) as [i0 Hi0].
  destruct (freq_lookup (freq_table uhsic) (parent_rate env) 0) as [i|] eqn:L.
  2:{ exfalso. apply (freq_lookup_complete _ _ _ L row Hin).
      rewrite (freq_rows_small uhsic row Hin). now symmetry. }
  destruct (freq_lookup_sound _ _ _ _ L) as (_ & row' & Hn & Hr & _).
  rewrite Nat.sub_0_r in Hn.
  assert (In row' (freq_table uhsic)) as Hin' by (eapply nth_error_In; eauto).
  rewrite (freq_rows_small uhsic row' Hin') in Hr.
  assert (i = i0) as -> by (eapply freq_rows_distinct; eauto; congruence).
  assert (row' = row) as -> by congruence.
  assert (forall phy_config ulpi,
             (if (inst =? 1) then as_ulpi_config phy_config else None) = ulpi ->
             ((inst =? 1) && match ulpi with None => true | Some _ => false end)
               = false ->
             match ulpi with
             | Some ulpi_config => phy_type_eqb (inf_type ulpi_config) TEGRA_USB_UHSIC
             | None => false
             end = uhsic ->
             match conf with Some c => c | None => PtrUtmipDefault inst end
               = phy_config ->
             (match conf, inst =? 1 with None, true => false | _, _ => true end)
               = true ->
             exists evs,
               tegra_usb_phy_open cfg usb_phy_data env inst base conf md =
               Some (open_finish cfg usb_phy_data env inst base phy_config ulpi md
                                 (FreqRow uhsic i0) evs)) as Hopen.
  { intros phy_config ulpi Hu Hfault Hh Hpc Hnm. unfold tegra_usb_phy_open.
    rewrite Hk. cbn [negb]. rewrite Hpc, Hu, Hfault, Hh, Hp, L.
    cbn [freq_ptr_is_null].
    destruct conf as [c|]; [eexists; reflexivity|].
    destruct (inst =? 1); [discriminate | eexists; reflexivity]. }
  assert (exists phy_config ulpi evs,
             tegra_usb_phy_open cfg usb_phy_data env inst base conf md =
             Some (open_finish cfg usb_phy_data env inst base phy_config ulpi md
                               (FreqRow uhsic i0) evs)) as (pc & ul & evs & E).
  { destruct conf as [[k|c|c]|]; destruct Hconf as [Hi Hh].
    - apply Z.eqb_neq in Hi.
      destruct (Hopen (PtrUtmipDefault k) None) as [evs E]; rewrite ?Hi; auto.
      eauto.
    - apply Z.eqb_neq in Hi.
      destruct (Hopen (PtrUtmip c) None) as [evs E]; rewrite ?Hi; auto. eauto.
    - subst inst.
      destruct (Hopen (PtrUlpi c) (Some c)) as [evs E]; auto. eauto.
    - apply Z.eqb_neq in Hi.
      destruct (Hopen (PtrUtmipDefault inst) None) as [evs E]; rewrite ?Hi; auto.
      eauto. }
  exists i0, pc, ul, evs. split; [exact Hi0|]. split.
  - intros j r Hj Hf. eapply freq_rows_distinct; eauto. congruence.
  - split; [exact E|]. intros phy evs' E'. rewrite E in E'.
    injection E' as E'. now apply open_finish_handle in E'.
Qed.

(** When the block [kmalloc] returns holds zero where [freq] lies, a
    rate that is in no table makes [tegra_usb_phy_open] fail with
    -EINVAL, releasing the PLL clock and the block. *)
Lemma open_unsupported_rate_zeroed (env : open_env) (inst base : Z)
    (conf : config_ptr) (md : tegra_usb_phy_mode) :
  kmalloc_ok env = true ->
  pll_u_err env = None ->
  kmalloc_stale_freq env = 0 ->
  (inst = 1 -> exists c, conf = PtrUlpi c) ->
  (forall uhsic row, In row (freq_table uhsic) -> freq row <> parent_rate env) ->
  tegra_usb_phy_open cfg usb_phy_data env inst base (Some conf) md =
    Some (inl (- EINVAL),
          [EvExt "kmalloc" 1; EvClk true "pll_u";
           EvLog "invalid pll_u parent rate";
           EvClk false "pll_u"; EvExt "clk_put" 0; EvExt "kfree" 0]).
Proof.
  intros Hk Hp Hz Hc Hrate. unfold tegra_usb_phy_open.
  rewrite Hk, Hp, Hz. cbn [negb].
  assert (forall uhsic, freq_lookup (freq_table uhsic) (parent_rate env) 0 = None)
    as Hnone.
  { intros uhsic.
    destruct (freq_lookup (freq_table uhsic) (parent_rate env) 0) as [i|] eqn:L;
      [|reflexivity].
    destruct (freq_lookup_sound _ _ _ _ L) as (_ & row & Hn & Hr & _).
    apply nth_error_In in Hn. rewrite (freq_rows_small _ _ Hn) in Hr.
    now destruct (Hrate uhsic row Hn). }
  destruct (inst =? 1) eqn:Hi.
  - apply Z.eqb_eq in Hi. destruct (Hc Hi) as [c ->].
    cbn [as_ulpi_config andb]. rewrite Hnone. reflexivity.
  - cbn [andb]. rewrite Hnone. reflexivity.
Qed.

(** C3, at the input on which the code departs from it.  The parent
    clock runs at 24 MHz, which is in no table, and the block [kmalloc]
    returns holds a non-zero pattern where [freq] lies: no row is
    selected, the null test on [phy->freq] reads the stale pattern, and
    [tegra_usb_phy_open] returns a handle whose [freq] is that pattern
    instead of failing with -EINVAL. *)
Theorem open_unsupported_rate_stale :
  (forall uhsic row, In row (freq_table uhsic) -> freq row <> parent_rate stale_env)
  /\
  tegra_usb_phy_open n1_config no_plat_data stale_env 0 0xC5000000 None
                     TEGRA_USB_PHY_MODE_HOST =
    Some (inr (mk_phy 0 (FreqStale 0xC0DE) 0xC5000000 0xC5000000
                      TEGRA_USB_PHY_MODE_HOST (PtrUtmipDefault 0)),
          [EvExt "kmalloc" 1; EvClk true "pll_u"])
  /\
  freq_deref (FreqStale 0xC0DE) = None.
Proof.
  split; [|split; reflexivity].
  intros uhsic row H. destruct uhsic; cbn in H;
    repeat (destruct H as [<-|H]; [discriminate|]); destruct H.
Qed.

(** *** What a computation emits *)

Lemma only_ret P {A} (a : A) : only P (ret a).
Proof. intros hw s. constructor. Qed.

Lemma only_stuck P {A} : only P (@stuck A).
Proof. intros hw s. exact I. Qed.

Lemma only_bind P {A B} (m : M A) (f : A -> M B) :
  only P m -> (forall a, only P (f a)) -> only P (bind m f).
Proof.
  intros Hm Hf hw s. apply wlp_bind.
  eapply wlp_mono; [apply Hm|]. intros a s1 e1 H1.
  eapply wlp_mono; [apply Hf|]. intros b s2 e2 H2. now apply Forall_app.
Qed.

Lemma only_emit P e : P e = true -> only P (emit e).
Proof. intros H hw s. constructor; [exact H | constructor]. Qed.

Lemma only_get P : only P get.
Proof. intros hw s. constructor. Qed.

Lemma only_input P : only P input.
Proof. intros hw s. constructor. Qed.

Lemma only_modify P g : only P (modify g).
Proof. intros hw s. constructor. Qed.

Lemma only_when P b m : only P m -> only P (when b m).
Proof. intros H. destruct b; [exact H | apply only_ret]. Qed.

Lemma only_lift_option P {A} (o : option A) : only P (lift_option o).
Proof. destruct o; [apply only_ret | apply only_stuck]. Qed.

Lemma only_weaken (P Q : event -> bool) {A} (m : M A) :
  (forall e, P e = true -> Q e = true) -> only P m -> only Q m.
Proof.
  intros HPQ H hw s. eapply wlp_mono; [apply H|]. intros a s' evs F.
  eapply Forall_impl; [|exact F]. exact HPQ.
Qed.

Ltac only_step :=
  first
    [ apply only_ret
    | apply only_stuck
    | apply only_get
    | apply only_input
    | apply only_modify
    | apply only_lift_option
    | assumption
    | apply only_emit; reflexivity
    | apply only_bind; [| intro]
    | apply only_when
    | match goal with
      | |- only _ (if ?c then _ else _) => destruct c
      | |- only _ (match ?x with _ => _ end) => destruct x
      end ].

Ltac only_tac :=
  unfold rmw, readl, writel, udelay, mdelay, msleep, pr_err, clk_enable,
    clk_disable, spin_lock_irqsave, spin_unlock_irqrestore, ext_call, ext_proc,
    gpio_get_value, gpio_set_value, phy_enter, phy_leave, ulpi_config_of,
    utmip_config_of, freq_of;
  repeat only_step.

Lemma only_utmi_wait_loop P reg mask result :
  (forall a v, P (EvReadl a v) = true) ->
  (forall k n, P (EvDelay k n) = true) ->
  forall fuel timeout, only P (utmi_wait_loop fuel reg mask result timeout).
Proof.
  intros Hr Hd. induction fuel as [|fuel IH]; intros timeout; cbn [utmi_wait_loop].
  - apply only_stuck.
  - unfold readl, udelay.
    repeat first [ apply only_emit; [apply Hr || apply Hd]
                 | apply IH
                 | only_step ].
Qed.

Lemma only_utmi_wait_register P reg mask result :
  (forall a v, P (EvReadl a v) = true) ->
  (forall k n, P (EvDelay k n) = true) ->
  only P (utmi_wait_register cfg reg mask result).
Proof. intros Hr Hd. now apply only_utmi_wait_loop. Qed.

Lemma only_wait_register_poll reg mask result :
  only is_wait_event (utmi_wait_register cfg reg mask result).
Proof. apply only_utmi_wait_register; reflexivity. Qed.

Lemma only_phy_is_uhsic P phy : only P (phy_is_uhsic phy).
Proof. unfold phy_is_uhsic. only_tac. Qed.

Lemma only_is_device_connected phy :
  only is_wait_event (tegra_usb_phy_is_device_connected cfg phy).
Proof.
  pose proof only_wait_register_poll as W. pose proof (only_phy_is_uhsic is_wait_event) as U.
  unfold tegra_usb_phy_is_device_connected.
  repeat first [ apply W | apply U | progress only_tac ].
Qed.

(** *** The bus operations *)

Ltac bus_op_non_hsic H :=
  unfold phy_enter, phy_leave;
  rewrite ?bind_assoc, bind_get, bind_emit;
  rewrite (bind_run _ _ _ _ _ _ _ (phy_is_uhsic_non_hsic _ _ _ H));
  rewrite prepend_nil;
  repeat first [rewrite bind_assoc | rewrite bind_ret | rewrite bind_emit
               | progress cbn [when] | cbv beta];
  reflexivity.

(** X3.  On a handle that is not an HSIC handle the three bus operations
    [tegra_usb_phy_bus_connect], [tegra_usb_phy_bus_reset] and
    [tegra_usb_phy_bus_idle] do nothing: each returns 0, reads and
    writes no register or GPIO, and leaves the machine as it was. *)
Theorem bus_operations_non_hsic (phy : tegra_usb_phy) (hw : oracle)
    (s : machine) :
  (instance phy <> 1 \/
   exists c, config phy = PtrUlpi c /\ inf_type c <> TEGRA_USB_UHSIC) ->
  tegra_usb_phy_bus_connect cfg phy hw s =
    Some (0, s, [EvPhyOp OpBusConnect (ready s); EvPhyRet OpBusConnect 0]) /\
  tegra_usb_phy_bus_reset cfg phy hw s =
    Some (0, s, [EvPhyOp OpBusReset (ready s); EvPhyRet OpBusReset 0]) /\
  tegra_usb_phy_bus_idle cfg phy hw s =
    Some (0, s, [EvPhyOp OpBusIdle (ready s); EvPhyRet OpBusIdle 0]).
Proof.
  intros H. repeat split.
  - unfold tegra_usb_phy_bus_connect. bus_op_non_hsic H.
  - unfold tegra_usb_phy_bus_reset. bus_op_non_hsic H.
  - unfold tegra_usb_phy_bus_idle. bus_op_non_hsic H.
Qed.

Ltac bus_run :=
  repeat first
    [ rewrite bind_assoc
    | rewrite bind_ret
    | rewrite bind_emit
    | rewrite bind_get
    | rewrite bind_readl
    | rewrite bind_gpio_get
    | rewrite prepend_prepend
    | rewrite prepend_Some
    | rewrite read_at_consume
    | rewrite consume_consume
    | progress cbn [when app Nat.add negb andb inputs consume set_inputs] ].

(** X4.  On the N1 build an HSIC bus operation that finds the modem held
    in reset (the [GPIO_CP_RST] line reads 0) fails with [-ENOTCONN]
    at once: [tegra_usb_phy_bus_connect] has only switched the pads to
    connect detection, [tegra_usb_phy_bus_reset] has only pulsed the
    port test field, and neither waits for any status bit. *)
Theorem bus_operations_modem_in_reset (phy : tegra_usb_phy) (hw : oracle)
    (s : machine) :
  CONFIG_MACH_N1 cfg = true ->
  phy_is_hsic phy ->
  let misc := Mmio (regs phy + UHSIC_MISC_CFG0) in
  let pads := Mmio (regs phy + UHSIC_PADS_CFG1) in
  let portsc := Mmio (regs phy + USB_PORTSC1) in
  (hw (inputs s + 3)%nat = 0 ->
   tegra_usb_phy_bus_connect cfg phy hw s =
     Some (- ENOTCONN, consume 4 s,
           [EvPhyOp OpBusConnect (ready s);
            EvReadl misc (read_at hw s 0);
            EvWritel misc
              (wrap32 (Z.lor (read_at hw s 0) UHSIC_DETECT_SHORT_CONNECT));
            EvDelay Udelay 1;
            EvReadl misc (read_at hw s 1);
            EvWritel misc (wrap32 (Z.lor (read_at hw s 1) UHSIC_FORCE_XCVR_MODE));
            EvReadl pads (read_at hw s 2);
            EvWritel pads
              (wrap32 (Z.lor (clr (read_at hw s 2) UHSIC_RPD_STROBE)
                             UHSIC_RPU_STROBE));
            EvGpioGet GPIO_CP_RST 0;
            EvPhyRet OpBusConnect (- ENOTCONN)]))
  /\
  (hw (inputs s + 2)%nat = 0 ->
   tegra_usb_phy_bus_reset cfg phy hw s =
     Some (- ENOTCONN, consume 3 s,
           [EvPhyOp OpBusReset (ready s);
            EvReadl portsc (read_at hw s 0);
            EvWritel portsc (wrap32 (Z.lor (read_at hw s 0) (USB_PORTSC1_PTC 5)));
            EvDelay Udelay 2;
            EvReadl portsc (read_at hw s 1);
            EvWritel portsc
              (wrap32 (clr (read_at hw s 1) (USB_PORTSC1_PTC ALL_ONES)));
            EvDelay Udelay 2;
            EvGpioGet GPIO_CP_RST 0;
            EvPhyRet OpBusReset (- ENOTCONN)])).
Proof.
  intros HN Hh misc pads portsc. subst misc pads portsc. split; intros Hg.
  - unfold tegra_usb_phy_bus_connect, phy_enter, phy_leave, hsic_connect_lines,
      rmw, writel, udelay.
    rewrite HN.
    rewrite ?bind_assoc, bind_get, bind_emit.
    rewrite (bind_run _ _ _ _ _ _ _ (phy_is_uhsic_hsic _ _ _ Hh)).
    rewrite prepend_nil. bus_run.
    replace (hw (inputs s + 3)%nat) with 0. cbn [Z.eqb negb]. bus_run.
    reflexivity.
  - unfold tegra_usb_phy_bus_reset, phy_enter, phy_leave, rmw, writel, udelay.
    rewrite HN.
    rewrite ?bind_assoc, bind_get, bind_emit.
    rewrite (bind_run _ _ _ _ _ _ _ (phy_is_uhsic_hsic _ _ _ Hh)).
    rewrite prepend_nil. bus_run.
    replace (hw (inputs s + 2)%nat) with 0. cbn [Z.eqb negb]. bus_run.
    reflexivity.
Qed.





Lemma body_cons {A} (x : A) rest b tail :
  rest = b ++ tail -> x :: rest = (x :: b) ++ tail.
Proof. now intros ->. Qed.

Lemma body_app {A} (p : list A) rest b tail :
  rest = b ++ tail -> p ++ rest = (p ++ b) ++ tail.
Proof. intros ->. now rewrite app_assoc. Qed.

Lemma body_nil {A} (tail : list A) : tail = [] ++ tail.
Proof. reflexivity. Qed.

Ltac body_split :=
  repeat first [exact (body_nil _) | apply body_cons | apply body_app].



(** *** The PHY clock *)

Lemma wrap32_clr_land v m : Z.land (wrap32 (clr v m)) m = 0.
Proof.
  apply Z.bits_inj'. intros n Hn.
  rewrite Z.land_spec, Z.bits_0. unfold wrap32, clr.
  destruct (Z.lt_ge_cases n 32) as [Hlt|Hge].
  - rewrite Z.mod_pow2_bits_low by lia.
    rewrite Z.land_spec, Z.lnot_spec by lia.
    now destruct (Z.testbit m n); rewrite ?andb_false_r.
  - rewrite Z.mod_pow2_bits_high by lia. reflexivity.
Qed.

(** X6.  [usb_enable_phy_clk] always returns, and what it returns is the
    result of its second wait (for [USB_CLKEN]) alone: a timeout of the
    first wait (for [USB_PHY_CLK_VALID]) is logged and then dropped.
    On every path the function ends by writing the suspend control
    register back with [USB_SUSP_CLR] cleared, so the pulse it started
    is always finished. *)
Theorem usb_enable_phy_clk_reports_clken (phy : tegra_usb_phy) (hw : oracle)
    (s : machine) :
  let addr := Mmio (regs phy + USB_SUSP_CTRL) in
  exists (n1 n2 : nat) (r1 r : Z) (w1 w2 : list event),
    utmi_wait_register cfg addr USB_PHY_CLK_VALID USB_PHY_CLK_VALID hw
      (consume 1 s) = Some (r1, consume (1 + n1) s, w1) /\
    utmi_wait_register cfg addr USB_CLKEN USB_CLKEN hw
      (consume (1 + n1) s) = Some (r, consume (1 + n1 + n2) s, w2) /\
    let v := read_at hw s (1 + n1 + n2) in
    usb_enable_phy_clk cfg phy hw s =
      Some (r, consume (2 + n1 + n2) s,
            [EvReadl addr (read_at hw s 0);
             EvWritel addr (wrap32 (Z.lor (read_at hw s 0) USB_SUSP_CLR))]
              ++ w1
              ++ (if r1 =? 0 then []
                  else [EvLog "failed turn on EHCI port PHY clock(CLK_VALID)"])
              ++ w2
              ++ (if r =? 0 then []
                  else [EvLog "failed turn on EHCI port PHY clock (CLKEN)"])
              ++ [EvReadl addr v; EvWritel addr (wrap32 (clr v USB_SUSP_CLR))]) /\
    Z.land (wrap32 (clr v USB_SUSP_CLR)) USB_SUSP_CLR = 0.
Proof.
  intros addr.
  destruct (utmi_wait_register_runs addr USB_PHY_CLK_VALID USB_PHY_CLK_VALID hw
              (consume 1 s)) as (n1 & r1 & w1 & E1).
  rewrite consume_consume in E1.
  destruct (utmi_wait_register_runs addr USB_CLKEN USB_CLKEN hw
              (consume (1 + n1) s)) as (n2 & r & w2 & E2).
  rewrite consume_consume in E2.
  exists n1, n2, r1, r, w1, w2. split; [exact E1|]. split; [exact E2|].
  cbv zeta. split; [|apply wrap32_clr_land].
  unfold usb_enable_phy_clk, writel, pr_err. fold addr.
  rewrite bind_readl, bind_emit.
  rewrite (bind_run _ _ _ _ _ _ _ E1).
  assert (forall (b : bool) (msg : string) {B} (k : unit -> M B) hw' s',
             bind (when b (emit (EvLog msg))) k hw' s' =
             prepend (if b then [EvLog msg] else []) (k tt hw' s')) as W.
  { intros [|] msg B k hw' s'; cbn [when];
      [apply bind_emit | now rewrite bind_ret, prepend_nil]. }
  rewrite W, (bind_run _ _ _ _ _ _ _ E2), W.
  rewrite bind_readl, bind_emit, ret_run, !prepend_Some.
  rewrite read_at_consume, consume_consume, Nat.add_0_r.
  replace (1 + n1 + n2 + 1)%nat with (2 + n1 + n2)%nat by lia.
  destruct (r1 =? 0), (r =? 0); cbn [negb app]; rewrite <- ?app_assoc;
    reflexivity.
Qed.

(** *** Releasing what [tegra_usb_phy_open] took *)

Ltac open_cases :=
  repeat match goal with
         | H : context [match ?x with _ => _ end] |- _ => destruct x eqn:?
         end;
  repeat match goal with
         | H : _ = _ |- _ =>
             first [discriminate H | injection H; clear H; intros; subst]
         end.

(** X7.  A failed [tegra_usb_phy_open] frees the handle it allocated:
    once [kmalloc] has succeeded, every error return ends with the one
    [kfree] of the call, and the [pll_u] clock has been disabled as often
    as it was enabled.  A successful open frees nothing and leaves
    [pll_u] enabled exactly once. *)
Theorem open_failure_frees_handle (env : open_env) (inst base : Z)
    (conf : option config_ptr) (md : tegra_usb_phy_mode) (evs : list event) :
  (forall err,
      tegra_usb_phy_open cfg usb_phy_data env inst base conf md
        = Some (inl err, evs) ->
      kmalloc_ok env = true ->
      (exists pre, evs = pre ++ [EvExt "kfree" 0]) /\
      ext_count "kfree" evs = 1%nat /\
      clk_count true "pll_u" evs = clk_count false "pll_u" evs)
  /\
  (forall phy,
      tegra_usb_phy_open cfg usb_phy_data env inst base conf md
        = Some (inr phy, evs) ->
      ext_count "kfree" evs = 0%nat /\
      clk_count true "pll_u" evs = 1%nat /\
      clk_count false "pll_u" evs = 0%nat).
Proof.
  split.
  - intros err H Hk.
    unfold tegra_usb_phy_open, open_finish, utmip_pad_open, open_err1,
      open_err0 in H.
    rewrite Hk in H. cbn [negb] in H.
    open_cases;
      (split; [eexists; cbn [app]; body_split | split; reflexivity]).
  - intros phy H.
    unfold tegra_usb_phy_open, open_finish, utmip_pad_open, open_err1,
      open_err0 in H.
    open_cases; (split; [reflexivity | split; reflexivity]).
Qed.

(** *** What a PHY operation may do *)

Create HintDb layer discriminated.

Ltac layer_step :=
  first
    [ solve [auto with layer nocore]
    | assumption
    | apply only_ret
    | apply only_stuck
    | apply only_get
    | apply only_input
    | apply only_modify
    | apply only_lift_option
    | apply only_emit; reflexivity
    | apply only_when
    | match goal with
      | |- only _ (if ?c then _ else _) => destruct c
      | |- only _ (match ?x with _ => _ end) => destruct x
      end
    | apply only_bind; [| intro] ].

Ltac layer_tac :=
  unfold rmw, readl, writel, udelay, mdelay, msleep, pr_err, clk_enable,
    clk_disable, spin_lock_irqsave, spin_unlock_irqrestore, ext_call, ext_proc,
    gpio_get_value, gpio_set_value, phy_enter, phy_leave, ulpi_config_of,
    utmip_config_of, freq_of;
  repeat layer_step.

Lemma layer_wait_register reg mask result :
  only is_phy_layer_event (utmi_wait_register cfg reg mask result).
Proof. apply only_utmi_wait_register; reflexivity. Qed.

#[local] Hint Resolve layer_wait_register : layer.

Lemma layer_uhsic_phy_power_off phy :
  only is_phy_layer_event (uhsic_phy_power_off cfg phy).
Proof. unfold uhsic_phy_power_off. layer_tac. Qed.

Lemma layer_uhsic_phy_power_on_sequence phy :
  only is_phy_layer_event (uhsic_phy_power_on_sequence cfg phy).
Proof. unfold uhsic_phy_power_on_sequence. layer_tac. Qed.

Lemma layer_uhsic_phy_power_on_recover phy :
  only is_phy_layer_event (uhsic_phy_power_on_recover cfg phy).
Proof. unfold uhsic_phy_power_on_recover. layer_tac. Qed.

#[local] Hint Resolve layer_uhsic_phy_power_off layer_uhsic_phy_power_on_sequence
  layer_uhsic_phy_power_on_recover : layer.

Lemma layer_uhsic_phy_power_on_retry phy :
  forall fuel spin,
    only is_phy_layer_event (uhsic_phy_power_on_retry cfg fuel phy spin).
Proof.
  induction fuel as [|fuel IH]; intros spin; cbn [uhsic_phy_power_on_retry];
    layer_tac.
Qed.

Lemma layer_bus_idle_redetect base :
  forall fuel val, only is_phy_layer_event (bus_idle_redetect cfg fuel base val).
Proof.
  induction fuel as [|fuel IH]; intros val; cbn [bus_idle_redetect]; layer_tac.
Qed.

#[local] Hint Resolve layer_uhsic_phy_power_on_retry layer_bus_idle_redetect
  : layer.

Lemma only_ulpi_config P phy {B} (f : tegra_ulpi_config -> M B) :
  (forall c, config phy = PtrUlpi c -> only P (f c)) ->
  only P (bind (ulpi_config_of phy) f).
Proof.
  intros H hw s. unfold ulpi_config_of, wlp.
  destruct (config phy) as [i|c|c] eqn:E; cbn [as_ulpi_config lift_option].
  - now rewrite bind_stuck.
  - now rewrite bind_stuck.
  - rewrite bind_ret. now apply H.
Qed.

Lemma layer_link_clock phy c b :
  link_clock_apart phy -> config phy = PtrUlpi c ->
  only is_phy_layer_event (emit (EvClk b (clk_name c))).
Proof.
  intros Hc E. apply only_emit. cbn [is_phy_layer_event].
  now rewrite (Hc c E).
Qed.

Lemma layer_ulpi_phy_power_on phy :
  link_clock_apart phy -> only is_phy_layer_event (ulpi_phy_power_on phy).
Proof.
  intros Hc. unfold ulpi_phy_power_on. apply only_ulpi_config. intros c E.
  pose proof (layer_link_clock phy c true Hc E). layer_tac.
Qed.

Lemma layer_ulpi_phy_power_off phy :
  link_clock_apart phy -> only is_phy_layer_event (ulpi_phy_power_off phy).
Proof.
  intros Hc. unfold ulpi_phy_power_off. apply only_ulpi_config. intros c E.
  pose proof (layer_link_clock phy c false Hc E). layer_tac.
Qed.

#[local] Hint Resolve layer_ulpi_phy_power_on layer_ulpi_phy_power_off : layer.

Lemma layer_power_on phy :
  link_clock_apart phy ->
  only is_phy_layer_event (tegra_usb_phy_power_on cfg usb_phy_data phy).
Proof.
  intros Hc.
  unfold tegra_usb_phy_power_on, uhsic_phy_power_on,
    null_phy_power_on, utmi_phy_power_on, utmip_pad_power_on,
    utmi_phy_clk_enable, vbus_enable.
  layer_tac.
Qed.

Lemma layer_power_off phy :
  link_clock_apart phy ->
  only is_phy_layer_event (tegra_usb_phy_power_off cfg usb_phy_data phy).
Proof.
  intros Hc.
  unfold tegra_usb_phy_power_off, null_phy_power_off,
    utmi_phy_power_off, utmip_pad_power_off, utmi_phy_clk_disable, vbus_disable.
  layer_tac.
Qed.

Lemma layer_preresume phy : only is_phy_layer_event (tegra_usb_phy_preresume phy).
Proof. unfold tegra_usb_phy_preresume, utmi_phy_preresume. layer_tac. Qed.

Lemma layer_postresume phy :
  only is_phy_layer_event (tegra_usb_phy_postresume phy).
Proof.
  unfold tegra_usb_phy_postresume, phy_is_uhsic, uhsic_phy_postresume,
    utmi_phy_postresume.
  layer_tac.
Qed.

Lemma layer_restore_start phy speed :
  only is_phy_layer_event
    (tegra_ehci_phy_restore_start TEGRA_USB_PHY_PORT_SPEED_LOW phy speed).
Proof.
  unfold tegra_ehci_phy_restore_start, utmi_phy_restore_start. layer_tac.
Qed.

Lemma layer_restore_end phy :
  only is_phy_layer_event (tegra_ehci_phy_restore_end phy).
Proof. unfold tegra_ehci_phy_restore_end, utmi_phy_restore_end. layer_tac. Qed.

Lemma layer_set_phy_clock phy on :
  only is_phy_layer_event (tegra_usb_set_phy_clock cfg phy on).
Proof.
  unfold tegra_usb_set_phy_clock, usb_enable_phy_clk, usb_disable_phy_clk.
  layer_tac.
Qed.

Lemma layer_bus_connect phy :
  only is_phy_layer_event (tegra_usb_phy_bus_connect cfg phy).
Proof.
  unfold tegra_usb_phy_bus_connect, phy_is_uhsic, hsic_connect_lines,
    bus_connect_waits.
  layer_tac.
Qed.

Lemma layer_bus_reset phy :
  only is_phy_layer_event (tegra_usb_phy_bus_reset cfg phy).
Proof.
  unfold tegra_usb_phy_bus_reset, phy_is_uhsic, bus_reset_handshakes.
  layer_tac.
Qed.

Lemma layer_bus_idle phy :
  only is_phy_layer_event (tegra_usb_phy_bus_idle cfg phy).
Proof.
  unfold tegra_usb_phy_bus_idle, phy_is_uhsic, hsic_connect_lines, bus_idle_n1.
  layer_tac.
Qed.

Lemma layer_is_device_connected phy :
  only is_phy_layer_event (tegra_usb_phy_is_device_connected cfg phy).
Proof.
  unfold tegra_usb_phy_is_device_connected, phy_is_uhsic. layer_tac.
Qed.

(** *** Closing a handle *)

Ltac close_step :=
  first
    [ match goal with
      | H : _ = _ |- _ => progress rewrite H
      end
    | progress cbn [instance config as_ulpi_config lift_option]
    | rewrite bind_assoc
    | rewrite bind_ret
    | rewrite bind_emit
    | rewrite prepend_prepend
    | rewrite emit_run
    | rewrite prepend_Some
    | progress cbn [when app negb andb] ].

Ltac close_run :=
  unfold UsbPhyBoard.tegra_usb_phy_close, UsbPhyBoard.utmip_pad_close,
    phy_is_ulpi, ulpi_config_of, clk_disable, ext_proc;
  repeat close_step.

(** X16.  [tegra_usb_phy_close] releases what a successful
    [tegra_usb_phy_open] took: it disables [pll_u] once, frees the
    vbus interrupt exactly when the open registered it, and frees the
    handle as its last action.  It calls no [gpio_free]: the reset GPIO
    an ULPI link open requested stays requested. *)
Theorem close_releases_what_open_took (env : open_env) (inst base : Z)
    (conf : option config_ptr) (md : tegra_usb_phy_mode) (phy : tegra_usb_phy)
    (evs : list event) (hw : oracle) (s : machine) :
  tegra_usb_phy_open cfg usb_phy_data env inst base conf md
    = Some (inr phy, evs) ->
  exists evs',
    UsbPhyBoard.tegra_usb_phy_close cfg usb_phy_data phy hw s
      = Some (tt, s, evs') /\
    (exists pre, evs' = pre ++ [EvExt "kfree" 0]) /\
    ext_count "kfree" evs' = ext_count "kmalloc" evs /\
    clk_count false "pll_u" evs' = clk_count true "pll_u" evs /\
    ext_count "free_irq" evs' = ext_count "request_threaded_irq" evs /\
    ext_count "gpio_free" evs' = 0%nat.
Proof.
  intros H.
  unfold tegra_usb_phy_open, open_finish, utmip_pad_open, open_err1,
    open_err0 in H.
  open_cases.
  all: close_run.
  all: eexists; (split; [reflexivity|]); (split; [eexists; body_split|]);
    repeat split; reflexivity.
Qed.

(** *** Board data *)

Lemma find_snoc {A} (f : A -> bool) l x :
  find f (l ++ [x]) =
  match find f l with
  | Some y => Some y
  | None => if f x then Some x else None
  end.
Proof.
  induction l as [|a l IH]; cbn [app find]; [reflexivity|].
  destruct (f a); [reflexivity | exact IH].
Qed.

Lemma init_rows_run rows :
  Forall (fun r => 0 <= fst r < UsbPhyBoard.usb_phy_data_rows) rows ->
  forall table, exists table',
    UsbPhyBoard.init_rows cfg (List.length rows) rows table = Some table' /\
    forall i,
      match find (fun r => fst r =? i) (rev rows) with
      | Some (_, d) =>
          vbus_irq (table' i) = vbus_irq d /\
          vbus_gpio (table' i) = vbus_gpio d /\
          usb_ldo_en (table' i) =
            (if CONFIG_MACH_N1 cfg then usb_ldo_en d else usb_ldo_en (table i))
      | None => table' i = table i
      end.
Proof.
  induction 1 as [|[inst d] rest Hr _ IH]; intros table.
  - exists table. split; [reflexivity|]. intros i. reflexivity.
  - cbn [fst] in Hr. cbn [List.length UsbPhyBoard.init_rows].
    replace ((0 <=? inst) && (inst <? UsbPhyBoard.usb_phy_data_rows)) with true
      by (symmetry; apply andb_true_iff; split;
          [apply Z.leb_le | apply Z.ltb_lt]; lia).
    destruct (IH (UsbPhyBoard.row_set table inst
                    (mk_plat_data (vbus_irq d) (vbus_gpio d)
                       (if CONFIG_MACH_N1 cfg then usb_ldo_en d
                        else usb_ldo_en (table inst)))))
      as (table' & E & Hspec).
    exists table'. split; [exact E|]. intros i.
    cbn [rev]. rewrite find_snoc. specialize (Hspec i).
    destruct (find (fun r => fst r =? i) (rev rest)) as [[j d']|].
    + destruct Hspec as (H1 & H2 & H3). split; [exact H1|]. split; [exact H2|].
      rewrite H3. unfold UsbPhyBoard.row_set.
      destruct (CONFIG_MACH_N1 cfg); [reflexivity|].
      destruct (i =? inst) eqn:Ei; [|reflexivity].
      apply Z.eqb_eq in Ei. now subst.
    + cbn [fst]. rewrite Hspec. unfold UsbPhyBoard.row_set.
      rewrite (Z.eqb_sym inst i).
      destruct (i =? inst) eqn:Ei; [|reflexivity].
      apply Z.eqb_eq in Ei. subst. cbn [vbus_irq vbus_gpio usb_ldo_en]. auto.
Qed.

(** X17.  [tegra_usb_phy_init] copies the board rows into
    [usb_phy_data[]] by instance: afterwards a table row holds the
    interrupt and the GPIO of the last board row given for that
    instance (and its LDO switch on the N1 build), and the rows of
    instances the board did not mention are as before.  The result is
    0.  A null [pdata] changes nothing. *)
Theorem phy_init_last_row_wins (rows : list (Z * usb_phy_plat_data))
    (table : Z -> usb_phy_plat_data) :
  Forall (fun r => 0 <= fst r < UsbPhyBoard.usb_phy_data_rows) rows ->
  UsbPhyBoard.tegra_usb_phy_init cfg None (Z.of_nat (List.length rows)) table
    = Some (0, table) /\
  exists table',
    UsbPhyBoard.tegra_usb_phy_init cfg (Some rows)
      (Z.of_nat (List.length rows)) table = Some (0, table') /\
    forall i,
      match find (fun r => fst r =? i) (rev rows) with
      | Some (_, d) =>
          vbus_irq (table' i) = vbus_irq d /\
          vbus_gpio (table' i) = vbus_gpio d /\
          usb_ldo_en (table' i) =
            (if CONFIG_MACH_N1 cfg then usb_ldo_en d else usb_ldo_en (table i))
      | None => table' i = table i
      end.
Proof.
  intros H. split; [reflexivity|].
  destruct (init_rows_run rows H table) as (table' & E & Hspec).
  exists table'. split; [|exact Hspec].
  unfold UsbPhyBoard.tegra_usb_phy_init. now rewrite Nat2Z.id, E.
Qed.

End WithConfig.

(** *** Instances *)


Lemma utmip_pad_refcount_witness :
  utmip_pad_count boot_machine = 0 /\
  [utmi_phy0; utmi_phy2] <> [] /\
  Permutation [utmi_phy0; utmi_phy2] [utmi_phy2; utmi_phy0] /\
  Z.of_nat (List.length [utmi_phy0; utmi_phy2]) < 2 ^ 31 /\
  exists obs s',
    pad_run (map PadOn [utmi_phy0; utmi_phy2] ++ map PadOff [utmi_phy2; utmi_phy0])
            (stuck_at 0xC00) boot_machine = Some (obs, s') /\
    map pad_count_after obs = [1; 2; 1; 0].
Proof.
  assert (utmip_pad_count boot_machine = 0) as H0 by reflexivity.
  assert ([utmi_phy0; utmi_phy2] <> []) as H1 by discriminate.
  assert (Permutation [utmi_phy0; utmi_phy2] [utmi_phy2; utmi_phy0]) as H2
    by apply perm_swap.
  assert (Z.of_nat (List.length [utmi_phy0; utmi_phy2]) < 2 ^ 31) as H3
    by reflexivity.
  destruct (utmip_pad_refcount _ _ (stuck_at 0xC00) boot_machine H0 H1 H2 H3)
    as [(obs & s' & up & down & E & _ & P & _) _].
  repeat split; try assumption.
  exists obs, s'. split; [exact E | exact P].
Defined.


Lemma open_without_config_witness :
  0 <> 1 /\
  exists phy evs,
    tegra_usb_phy_open n1_config no_plat_data healthy_env 0 0xC5000000 None
                       TEGRA_USB_PHY_MODE_HOST = Some (inr phy, evs) /\
    config phy = PtrUtmipDefault 0.
Proof.
  assert (0 <> 1) as H by discriminate.
  split; [exact H|].
  destruct (open_without_config n1_config no_plat_data healthy_env 0 0xC5000000
              TEGRA_USB_PHY_MODE_HOST H)
    as (_ & _ & Hconf & _ & _ & Hgo).
  pose proof (Hgo eq_refl eq_refl eq_refl (or_introl eq_refl)
                (fun _ => eq_refl) (fun _ _ => eq_refl) _ eq_refl) as E.
  eexists _, _. split; [exact E|]. exact (Hconf _ _ E).
Defined.

Lemma is_device_connected_non_hsic_witness :
  (instance utmi_phy0 <> 1 \/
   exists c, config utmi_phy0 = PtrUlpi c /\ inf_type c <> TEGRA_USB_UHSIC) /\
  tegra_usb_phy_is_device_connected n1_config utmi_phy0 (stuck_at 0) boot_machine =
    Some (true, boot_machine,
          [EvPhyOp OpIsDeviceConnected false; EvPhyRet OpIsDeviceConnected 1]).
Proof.
  assert (instance utmi_phy0 <> 1 \/
          exists c, config utmi_phy0 = PtrUlpi c /\ inf_type c <> TEGRA_USB_UHSIC)
    as H by (left; discriminate).
  split; [exact H|].
  exact (proj1 (is_device_connected_non_hsic n1_config utmi_phy0 (stuck_at 0)
                  boot_machine H)).
Defined.

(** [tegra_usb_phy_open] on healthy services: a UTMI handle with the
    default configuration and the 12 MHz row. *)
Example open_default_12mhz :
  tegra_usb_phy_open n1_config no_plat_data healthy_env 0 0xC5000000 None
                     TEGRA_USB_PHY_MODE_HOST =
    Some (inr utmi_phy0, [EvExt "kmalloc" 1; EvClk true "pll_u"]).
Proof. reflexivity. Qed.

(** One matching read: [utmi_wait_register] returns 0 at once. *)
Example utmi_wait_register_hit :
  utmi_wait_register n1_config (Mmio 0x400) 0x80 0x80 (stuck_at 0x80) boot_machine =
    Some (0, consume 1 boot_machine, [EvReadl (Mmio 0x400) 0x80]).
Proof. reflexivity. Qed.

#[export] Hint Resolve total_utmi_wait_register total_phy_enter total_phy_leave
  total_preresume total_restore_start total_restore_end total_set_phy_clock
  : total.
#[export] Hint Resolve quiet_utmi_wait_register quiet_phy_is_uhsic : quiet.

End UsbPhyFacts.

(** ** The host-controller glue *)

Module EhciTegraFacts.

Import UsbPhy EhciTegra UsbPhyFacts.

Local Open Scope string_scope.
Local Open Scope list_scope.
Local Open Scope Z_scope.
Local Open Scope drv_scope.

(** *** Observations *)

Lemma obs_app P e1 e2 : obs P (e1 ++ e2) = obs P e1 ++ obs P e2.
Proof.
  induction e1 as [|e e1 IH]; [reflexivity|]. cbn [app obs].
  destruct (P e); cbn [app]; now rewrite IH.
Qed.

Lemma obs_none P evs : Forall (fun e => P e = false) evs -> obs P evs = [].
Proof.
  induction 1 as [|e evs He _ IH]; [reflexivity|]. cbn [obs]. now rewrite He.
Qed.

Lemma phy_trace_shape op b r evs :
  phy_call_shape op b r evs ->
  phy_trace evs =
  EvPhyOp op b :: match r with Some v => [EvPhyRet op v] | None => [] end.
Proof.
  intros (body & N & ->). unfold phy_trace. cbn [obs is_phy_event].
  rewrite obs_app, (obs_none _ body N). cbn [app]. f_equal.
  destruct r; reflexivity.
Qed.

Lemma calls_app op e1 e2 : calls op (e1 ++ e2) = (calls op e1 + calls op e2)%nat.
Proof. unfold calls. now rewrite filter_app, length_app. Qed.

Lemma calls_phy_trace op evs : calls op (phy_trace evs) = calls op evs.
Proof.
  unfold calls, phy_trace.
  induction evs as [|e evs IH]; [reflexivity|]. cbn [obs filter].
  destruct (is_phy_event e) eqn:E.
  - cbn [filter]. destruct (is_op op e); cbn [List.length]; now rewrite IH.
  - destruct e; try discriminate; cbn [is_op]; exact IH.
Qed.

Lemma calls_phy_trace_obs op evs : calls op (obs is_phy_event evs) = calls op evs.
Proof. exact (calls_phy_trace op evs). Qed.

Lemma plain_phy_event : plain is_phy_event.
Proof. intros e H _. exact H. Qed.

Lemma plain_port_resume_write : plain is_port_resume_write.
Proof. intros e _ H. destruct e; try reflexivity; discriminate. Qed.

(** *** The frame *)

Lemma kept_refl s : kept s s.
Proof. split; reflexivity. Qed.

Lemma kept_trans s1 s2 s3 : kept s1 s2 -> kept s2 s3 -> kept s1 s3.
Proof. intros [A B] [C D]. split; congruence. Qed.

Lemma kept_link s s' : link_of s' = link_of s -> kept s s'.
Proof.
  unfold link_of, kept, ready. intros H. injection H as _ _ _ -> _. split; reflexivity.
Qed.

(** *** Steady computations *)

Section Steady.

Variable P : event -> bool.

Lemma steady_ret {A} (a : A) : steady P (ret a).
Proof. intros hw s. split; [apply kept_refl | reflexivity]. Qed.

Lemma steady_bind {A B} (m : M A) (f : A -> M B) :
  steady P m -> (forall a, steady P (f a)) -> steady P (bind m f).
Proof.
  intros Hm Hf hw s. apply wp_bind. eapply wp_mono; [apply Hm|].
  intros a s1 e1 [K1 O1]. eapply wp_mono; [apply Hf|].
  intros b s2 e2 [K2 O2]. split; [eapply kept_trans; eassumption|].
  now rewrite obs_app, O1, O2.
Qed.

Lemma steady_emit e : P e = false -> steady P (emit e).
Proof.
  intros H hw s. split; [apply kept_refl|]. cbn [obs]. now rewrite H.
Qed.

Lemma steady_get : steady P get.
Proof. intros hw s. split; [apply kept_refl | reflexivity]. Qed.

Lemma steady_input : steady P input.
Proof. intros hw s. split; [split; reflexivity | reflexivity]. Qed.

Lemma steady_modify g : (forall s, kept s (g s)) -> steady P (modify g).
Proof. intros H hw s. split; [apply H | reflexivity]. Qed.

Lemma steady_when b m : steady P m -> steady P (when b m).
Proof. intros H. destruct b; [exact H | apply steady_ret]. Qed.

End Steady.

Create HintDb steady discriminated.

#[export] Hint Resolve steady_ret steady_get steady_input plain_phy_event
  plain_port_resume_write : steady.

(** Walk through a monadic term; an emitted event must be one the
    observer does not select, a state update one that keeps the link. *)
Ltac steady_step :=
  first
    [ solve [auto with steady nocore]
    | apply steady_emit; reflexivity
    | apply steady_modify; intro; split; reflexivity
    | apply steady_bind; [| intro]
    | apply steady_when
    | match goal with
      | |- steady _ (if ?c then _ else _) => destruct c
      end ].

Ltac steady_tac :=
  unfold rmw, readl, writel, udelay, mdelay, msleep, pr_err, clk_enable,
    clk_disable, spin_lock_irqsave, spin_unlock_irqrestore, ext_call, ext_proc,
    upd_tegra, upd_ehci;
  repeat steady_step.

Section SteadyPlain.

Variable P : event -> bool.
Hypothesis HP : plain P.

Lemma steady_plain_emit e :
  is_phy_event e = false -> PadRun.is_writel e = false -> steady P (emit e).
Proof. intros H1 H2. apply steady_emit. now apply HP. Qed.

Lemma steady_readl a : steady P (readl a).
Proof.
  unfold readl. apply steady_bind; [apply steady_input | intro].
  apply steady_bind; [now apply steady_plain_emit | intro; apply steady_ret].
Qed.

Lemma steady_udelay n : steady P (udelay n).
Proof. now apply steady_plain_emit. Qed.

Lemma steady_msleep n : steady P (msleep n).
Proof. now apply steady_plain_emit. Qed.

Lemma steady_mdelay n : steady P (mdelay n).
Proof. now apply steady_plain_emit. Qed.

Lemma steady_pr_err msg : steady P (pr_err msg).
Proof. now apply steady_plain_emit. Qed.

Lemma steady_jiffies_after ms : steady P (jiffies_after ms).
Proof.
  unfold jiffies_after. apply steady_bind; [apply steady_input | intro].
  apply steady_bind; [now apply steady_plain_emit | intro; apply steady_ret].
Qed.

Lemma steady_handshake_loop ptr mask done :
  forall fuel usec,
    (Z.to_nat usec < fuel)%nat -> 0 <= usec < 2 ^ 31 ->
    steady P (handshake_loop fuel ptr mask done usec).
Proof.
  induction fuel as [|fuel IH]; intros usec Hf Hu; [lia|].
  cbn [handshake_loop].
  apply steady_bind; [apply steady_readl | intro result].
  destruct (Z.land result mask =? done); [apply steady_ret|].
  apply steady_bind; [apply steady_udelay | intros _].
  destruct (wrap_int (usec - 1) >? 0) eqn:E; [|apply steady_ret].
  assert (0 < usec).
  { destruct (Z.eq_dec usec 0) as [->|]; [discriminate E | lia]. }
  rewrite wrap_int_small in * by lia. apply IH; lia.
Qed.

Lemma steady_handshake ptr mask done usec :
  0 <= usec < 2 ^ 31 -> steady P (handshake ptr mask done usec).
Proof. intros H. apply steady_handshake_loop; [lia | exact H]. Qed.

End SteadyPlain.

(** *** Rules for [twp] *)

Section Twp.

Variable P : event -> bool.

Lemma twp_ret {A} (a : A) hw s (Q : A -> machine -> list event -> Prop) :
  Q a s [] -> twp P (ret a) hw s Q.
Proof. exact (fun H => H). Qed.

Lemma twp_mono {A} (m : M A) hw s (Q Q' : A -> machine -> list event -> Prop) :
  twp P m hw s Q -> (forall a s' t, Q a s' t -> Q' a s' t) -> twp P m hw s Q'.
Proof. intros H HQ. eapply wp_mono; [exact H|]. intros; now apply HQ. Qed.

Lemma twp_bind {A B} (m : M A) (f : A -> M B) hw s
    (R : A -> machine -> list event -> Prop) Q :
  twp P m hw s R ->
  (forall a s1 t1, R a s1 t1 ->
     twp P (f a) hw s1 (fun b s2 t2 => Q b s2 (t1 ++ t2))) ->
  twp P (bind m f) hw s Q.
Proof.
  intros Hm Hf. apply wp_bind. eapply wp_mono; [exact Hm|].
  intros a s1 e1 HR. eapply wp_mono; [exact (Hf a s1 _ HR)|].
  intros b s2 e2 HQ. cbv beta in *. now rewrite obs_app.
Qed.

Lemma twp_steady {A B} (m : M A) (f : A -> M B) hw s Q :
  steady P m ->
  (forall a s1, kept s s1 -> twp P (f a) hw s1 Q) ->
  twp P (bind m f) hw s Q.
Proof.
  intros Hm Hf.
  apply (twp_bind m f hw s (fun _ s1 t1 => kept s s1 /\ t1 = [])); [apply Hm|].
  intros a s1 t1 [K ->]. cbn [app]. now apply Hf.
Qed.

Lemma twp_get {B} (f : machine -> M B) hw s Q :
  twp P (f s) hw s Q -> twp P (bind get f) hw s Q.
Proof. unfold twp, wp. now rewrite bind_get. Qed.

Lemma twp_modify {B} g (f : unit -> M B) hw s Q :
  twp P (f tt) hw (g s) Q -> twp P (bind (modify g) f) hw s Q.
Proof. unfold twp, wp. now rewrite bind_modify. Qed.

Lemma twp_bind_ret {A B} (a : A) (f : A -> M B) hw s Q :
  twp P (f a) hw s Q -> twp P (bind (ret a) f) hw s Q.
Proof. unfold twp, wp. now rewrite bind_ret. Qed.

Lemma twp_assoc {A B C} (m : M A) (f : A -> M B) (g : B -> M C) hw s Q :
  twp P (bind m (fun a => bind (f a) g)) hw s Q -> twp P (bind (bind m f) g) hw s Q.
Proof. unfold twp, wp. now rewrite bind_assoc. Qed.

Lemma twp_skip {B} e (f : unit -> M B) hw s Q :
  P e = false -> twp P (f tt) hw s Q -> twp P (bind (emit e) f) hw s Q.
Proof.
  intros He. unfold twp, wp. rewrite bind_emit.
  destruct (f tt hw s) as [[[b s2] e2]|]; [|auto]. cbn [prepend app obs].
  now rewrite He.
Qed.

Lemma twp_show {B} e (f : unit -> M B) hw s Q :
  P e = true ->
  twp P (f tt) hw s (fun b s2 t2 => Q b s2 (e :: t2)) ->
  twp P (bind (emit e) f) hw s Q.
Proof.
  intros He. unfold twp, wp. rewrite bind_emit.
  destruct (f tt hw s) as [[[b s2] e2]|]; [|auto]. cbn [prepend app obs].
  now rewrite He.
Qed.

Lemma twp_readl {B} a (f : Z -> M B) hw s Q :
  P (EvReadl a (read_at hw s 0)) = false ->
  twp P (f (read_at hw s 0)) hw (consume 1 s) Q ->
  twp P (bind (readl a) f) hw s Q.
Proof.
  intros He. unfold twp, wp. rewrite bind_readl.
  destruct (f (read_at hw s 0) hw (consume 1 s)) as [[[b s2] e2]|]; [|auto].
  cbn [prepend app obs]. now rewrite He.
Qed.

End Twp.

Lemma twp_run P {A B} (m : M A) (f : A -> M B) hw s a s1 e1 Q :
  m hw s = Some (a, s1, e1) ->
  twp P (f a) hw s1 (fun b s2 t2 => Q b s2 (obs P e1 ++ t2)) ->
  twp P (bind m f) hw s Q.
Proof.
  intros E. unfold twp, wp. rewrite (bind_run _ _ _ _ _ _ _ E).
  destruct (f a hw s1) as [[[b s2] e2]|]; [|auto]. cbn [prepend].
  now rewrite obs_app.
Qed.

(** On a well-formed handle the HSIC test is a pure function of the
    handle. *)
Lemma phy_is_uhsic_run phy :
  phy_wf phy -> exists b, forall hw s, phy_is_uhsic phy hw s = Some (b, s, []).
Proof.
  intros (Hu & _). unfold phy_is_uhsic, phy_is_ulpi, ulpi_config_of.
  destruct (instance phy =? 1) eqn:E.
  - apply Z.eqb_eq in E. destruct (Hu E) as [c ->].
    eexists. intros hw s. cbn [as_ulpi_config lift_option]. now rewrite bind_ret.
  - exists false. reflexivity.
Qed.

Lemma twp_elim P {A} (m : M A) hw s Q :
  twp P m hw s Q ->
  exists a s' evs, m hw s = Some (a, s', evs) /\ Q a s' (obs P evs).
Proof.
  unfold twp, wp. destruct (m hw s) as [[[a s'] evs]|]; [|contradiction].
  intros H. now exists a, s', evs.
Qed.

Lemma twp_modify_end P g hw s (Q : unit -> machine -> list event -> Prop) :
  Q tt (g s) [] -> twp P (modify g) hw s Q.
Proof. exact (fun H => H). Qed.

Lemma twp_steady_end P {A} (m : M A) hw s (Q : A -> machine -> list event -> Prop) :
  steady P m -> (forall a s1, kept s s1 -> Q a s1 []) -> twp P m hw s Q.
Proof.
  intros Hm HQ. eapply wp_mono; [apply Hm|]. intros a s1 e1 [K ->]. now apply HQ.
Qed.

Lemma twp_also P {A} (m : M A) hw s (Q : A -> machine -> list event -> Prop)
    (R : A -> Prop) :
  twp P m hw s Q ->
  (forall a s' evs, m hw s = Some (a, s', evs) -> R a) ->
  twp P m hw s (fun a s' t => Q a s' t /\ R a).
Proof.
  unfold twp, wp. destruct (m hw s) as [[[a s'] evs]|]; [|auto].
  intros H HR. split; [exact H | eapply HR; reflexivity].
Qed.

(** *** Calls into the PHY layer *)

Lemma call_spec {A} op (code : A -> Z) (m : M A) hw s :
  total m ->
  wlp m hw s (fun a s' evs =>
    link_of s' = link_of s /\ phy_call_shape op (ready s) (Some (code a)) evs) ->
  twp is_phy_event m hw s (fun a s' t =>
    kept s s' /\ t = [EvPhyOp op (ready s); EvPhyRet op (code a)]).
Proof.
  intros T W. apply wp_split; [apply T|]. eapply wlp_mono; [exact W|].
  intros a s' evs [L Sh]. split; [now apply kept_link|].
  exact (phy_trace_shape _ _ _ _ Sh).
Qed.

Lemma call_spec_void {A} op (m : M A) hw s :
  total m ->
  wlp m hw s (fun a s' evs =>
    link_of s' = link_of s /\ phy_call_shape op (ready s) None evs) ->
  twp is_phy_event m hw s (fun a s' t =>
    kept s s' /\ t = [EvPhyOp op (ready s)]).
Proof.
  intros T W. apply wp_split; [apply T|]. eapply wlp_mono; [exact W|].
  intros a s' evs [L Sh]. split; [now apply kept_link|].
  exact (phy_trace_shape _ _ _ _ Sh).
Qed.

Lemma failed_polls_S k : failed_polls (S k) = failed_poll ++ failed_polls k.
Proof. reflexivity. Qed.

Lemma phy_is_uhsic_handle phy hw s :
  phy_wf phy -> phy_is_uhsic phy hw s = Some (hsic_handle phy, s, []).
Proof.
  intros (Hu & _). unfold phy_is_uhsic, phy_is_ulpi, ulpi_config_of, hsic_handle.
  destruct (instance phy =? 1) eqn:E; [|reflexivity].
  apply Z.eqb_eq in E. destruct (Hu E) as [c ->].
  cbn [as_ulpi_config lift_option andb]. now rewrite bind_ret.
Qed.

Lemma benign_prefix s s1 s' p t :
  ready s1 = ready s -> calls OpBusReset p = 0%nat ->
  benign s1 s' t -> benign s s' (p ++ t).
Proof.
  intros Hr Hp [C R]. split; [now rewrite calls_app, Hp, C|].
  intros Hs. destruct (R Hs) as [H|(e & He & Hc)].
  - left. congruence.
  - right. exists e. split; [apply in_or_app; now right | exact Hc].
Qed.

(** *** The presence scan *)

Lemma scan_app c t1 t2 :
  presence_scan c (t1 ++ t2) =
  match presence_scan c t1 with
  | Some c1 => presence_scan c1 t2
  | None => None
  end.
Proof.
  revert c. induction t1 as [|e t1 IH]; intros c0; [reflexivity|].
  destruct e as [a v|a v|g v|g v|k n|msg|en clk|acq lk|name rt|op b|op rt]; cbn [app presence_scan]; try apply IH.
  destruct op; try apply IH.
  destruct (c0 && b); [apply IH | reflexivity].
Qed.

Lemma scan_no_reset t :
  calls OpBusReset t = 0%nat ->
  forall c, presence_scan c t = Some (c || existsb is_confirmation t).
Proof.
  unfold calls. induction t as [|e t IH]; intros H c.
  - cbn. now rewrite orb_false_r.
  - destruct e as [a v|a v|g v|g v|k n|msg|en clk|acq lk|name rt|op b|op rt]; cbn [filter is_op] in H;
      cbn [presence_scan existsb];
      try (rewrite (IH H), orb_assoc; reflexivity).
    destruct op; cbn [filter is_op] in H;
      try (rewrite (IH H), orb_assoc; reflexivity).
    discriminate H.
Qed.

Lemma benign_scan_ok s s' t : benign s s' t -> scan_ok s s' t.
Proof.
  intros [C R] c Hc. rewrite (scan_no_reset t C). eexists. split; [reflexivity|].
  intros Hs. destruct (R Hs) as [H|(e & He & Hconf)].
  - now rewrite (Hc H).
  - apply orb_true_intro. right. apply existsb_exists. now exists e.
Qed.

Lemma scan_failed_polls k c :
  presence_scan c (failed_polls k) = Some c.
Proof.
  induction k as [|k IH]; [reflexivity|].
  rewrite failed_polls_S, scan_app. cbn [failed_poll presence_scan is_confirmation].
  change (negb (0 =? 0)) with false. now rewrite !orb_false_r.
Qed.

Lemma reset_trace_scan_ok s s' r0 r t :
  ready s' = false -> port_reset_trace (ready s) r0 r t -> scan_ok s s' t.
Proof.
  intros Hr [[Hs ->]|[(Hs & ri & k & Hk & ->)|(Hs & -> & ri & ->)]] c Hc.
  - rewrite (Hc Hs). exists false. split; [reflexivity | congruence].
  - exists false. split; [|congruence].
    rewrite scan_app. cbn [idle_call presence_scan is_confirmation].
    rewrite scan_app, scan_failed_polls.
    cbn [good_poll reset_call app presence_scan is_confirmation].
    change (negb (1 =? 0)) with true. rewrite orb_true_r. reflexivity.
  - exists c. split; [|congruence].
    rewrite scan_app. cbn [idle_call presence_scan is_confirmation].
    rewrite !orb_false_r. apply scan_failed_polls.
Qed.

Lemma scan_ok_app s s1 s2 t1 t2 :
  scan_ok s s1 t1 -> scan_ok s1 s2 t2 -> scan_ok s s2 (t1 ++ t2).
Proof.
  intros H1 H2 c Hc. destruct (H1 c Hc) as (c1 & E1 & Hc1).
  destruct (H2 c1 Hc1) as (c2 & E2 & Hc2).
  exists c2. split; [|exact Hc2]. now rewrite scan_app, E1.
Qed.

Lemma scan_ok_nil s : scan_ok s s [].
Proof. intros c Hc. exists c. split; [reflexivity | exact Hc]. Qed.

(** *** Bus resets and the readiness flag *)

Lemma resets_ready_app a b : resets_ready (a ++ b) = resets_ready a && resets_ready b.
Proof. apply forallb_app. Qed.

Lemma resets_ready_failed_polls k : resets_ready (failed_polls k) = true.
Proof.
  induction k as [|k IH]; [reflexivity|].
  now rewrite failed_polls_S, resets_ready_app, IH.
Qed.

Lemma resets_ready_no_reset t : calls OpBusReset t = 0%nat -> resets_ready t = true.
Proof.
  unfold calls, resets_ready. induction t as [|e t IH]; intros H; [reflexivity|].
  destruct e as [a v|a v|g v|g v|k n|msg|en clk|acq lk|name rt|op b|op rt];
    cbn [filter is_op] in H; cbn [forallb]; try (apply IH; exact H).
  destruct op; cbn [filter is_op] in H; try (apply IH; exact H).
  discriminate H.
Qed.

Lemma resets_ready_trace b r0 r t : port_reset_trace b r0 r t -> resets_ready t = true.
Proof.
  intros [[_ ->]|[(_ & ri & k & _ & ->)|(_ & _ & ri & ->)]].
  - reflexivity.
  - now rewrite !resets_ready_app, resets_ready_failed_polls.
  - now rewrite resets_ready_app, resets_ready_failed_polls.
Qed.

Lemma resets_ready_obs evs : resets_ready (obs is_phy_event evs) = resets_ready evs.
Proof.
  unfold resets_ready. induction evs as [|e evs IH]; [reflexivity|].
  destruct e; cbn [obs is_phy_event forallb]; rewrite IH; reflexivity.
Qed.

Lemma resets_ready_in evs b :
  resets_ready evs = true -> In (EvPhyOp OpBusReset b) evs -> b = true.
Proof.
  unfold resets_ready. intros H Hin. rewrite forallb_forall in H.
  exact (H _ Hin).
Qed.

Lemma calls_in op b evs : In (EvPhyOp op b) evs -> (1 <= calls op evs)%nat.
Proof.
  unfold calls. induction evs as [|e evs IH]; intros Hin; [destruct Hin|].
  destruct Hin as [->|H].
  - cbn [filter is_op]. destruct op; cbn [List.length]; lia.
  - cbn [filter]. destruct (is_op op e); cbn [List.length]; specialize (IH H); lia.
Qed.

Section WithConfig.

Variable cfg : kconfig.
Variable usb_phy_data : Z -> usb_phy_plat_data.
Variable TEGRA_USB_PHY_PORT_SPEED_FULL : Z.
Variable TEGRA_USB_PHY_PORT_SPEED_LOW : Z.
Variable TEGRA_USB_PHY_PORT_SPEED_HIGH : Z.

(** *** Port resume *)

Lemma steady_preresume_port phy :
  steady is_port_resume_write (tegra_usb_phy_preresume phy).
Proof.
  unfold tegra_usb_phy_preresume, phy_enter, utmi_phy_preresume. steady_tac.
Qed.

Lemma port_resume_write_selected i x :
  is_port_resume_write
    (EvWritel (EhciReg (REG_port_status i)) (wrap32 (Z.lor x PORT_RESUME))) = true.
Proof.
  cbn [is_port_resume_write]. rewrite land_wrap32_set by (cbv; split; congruence).
  reflexivity.
Qed.

Ltac steady_here :=
  first [ apply steady_handshake; [auto with steady nocore | lia]
        | apply steady_jiffies_after; auto with steady nocore
        | apply steady_preresume_port
        | solve [steady_tac] ].

(** Read a frame hypothesis as equations on the two fields. *)
Ltac kept_norm H :=
  unfold kept, ready, consume in H;
  cbn [tegra ehci device_ready_for_reset port_speed
       set_inputs set_regulator_on set_utmip_pad_count set_shutdown
       set_work_count set_ehci_power_up_by_sysfs set_tegra set_ehci
       set_hub_suspend_req set_host_resumed set_bus_is_power_down
       set_port_resuming set_device_ready_for_reset set_port_speed] in H;
  destruct H as [? ?].

Ltac kept_done :=
  unfold kept, ready, consume;
  cbn [tegra ehci device_ready_for_reset port_speed
       set_inputs set_regulator_on set_utmip_pad_count set_shutdown
       set_work_count set_ehci_power_up_by_sysfs set_tegra set_ehci
       set_hub_suspend_req set_host_resumed set_bus_is_power_down
       set_port_resuming set_device_ready_for_reset set_port_speed];
  split; congruence.

Ltac twp_step :=
  first
    [ apply twp_ret
    | apply twp_skip; [reflexivity|]
    | apply twp_get
    | apply twp_modify
    | apply twp_bind_ret
    | apply twp_steady;
      [steady_here | let K := fresh "K" in intros ? ? K; kept_norm K]
    | apply twp_assoc ].

Lemma hub_port_resume_run hcd wIndex hw s :
  phy_wf (hcd_phy hcd) ->
  twp is_port_resume_write
    (tegra_ehci_hub_control cfg hcd ClearPortFeature USB_PORT_FEAT_SUSPEND wIndex)
    hw s
    (fun r s' t =>
       let temp := read_at hw s 0 in
       if negb (Z.land temp PORT_RESET =? 0) || (Z.land temp PORT_PE =? 0)
       then r = - EPIPE /\ t = [] /\ tegra s' = tegra s
       else if Z.land temp PORT_SUSPEND =? 0
       then r = 0 /\ t = [] /\ tegra s' = tegra s
       else r = 0 /\ t = [EvWritel (port_of wIndex) (resume_value temp)] /\
            port_resuming (tegra s') = 1 /\ kept s s').
Proof.
  intros Hwf. destruct (phy_is_uhsic_run _ Hwf) as [hsic Hh].
  unfold tegra_ehci_hub_control.
  eapply twp_run; [apply Hh|]. cbn [obs app].
  change (ClearPortFeature =? GetPortStatus) with false.
  change (ClearPortFeature =? ClearPortFeature) with true.
  change (ClearPortFeature =? SetPortFeature) with false.
  change (USB_PORT_FEAT_SUSPEND =? USB_PORT_FEAT_ENABLE) with false.
  change (USB_PORT_FEAT_SUSPEND =? USB_PORT_FEAT_SUSPEND) with true.
  cbn [andb]. unfold spin_lock_irqsave, hub_port_resume, hub_done,
    spin_unlock_irqrestore.
  apply twp_skip; [reflexivity|].
  apply twp_readl; [reflexivity|]. cbv zeta.
  destruct (negb (Z.land (read_at hw s 0) PORT_RESET =? 0)
            || (Z.land (read_at hw s 0) PORT_PE =? 0)).
  { repeat twp_step. auto. }
  destruct (Z.land (read_at hw s 0) PORT_SUSPEND =? 0).
  { repeat twp_step. auto. }
  repeat twp_step.
  unfold writel. apply twp_show; [apply port_resume_write_selected|].
  destruct (N1 cfg); repeat twp_step; (split; [reflexivity|]);
    (split; [reflexivity|]); (split; [reflexivity | kept_done]).
Qed.

(** C7 (amended).  Port resume is decided by the port status alone.  A
    ClearPortFeature(PORT_SUSPEND) request always returns.  When the
    status read at its start shows the port enabled, suspended and not in
    reset, the request writes PORT_RESUME to the port status register
    exactly once and ends with [port_resuming] set, whatever the value
    of [port_resuming] was on entry.  When the port is in reset or
    disabled the result is -EPIPE, when it is not suspended the result is
    0, and in both cases nothing is written and the controller state is
    left as it was. *)
Theorem port_resume_decided_by_port_status (hcd : usb_hcd) (wIndex : Z)
    (hw : oracle) (s : machine) :
  phy_wf (hcd_phy hcd) ->
  exists r s' evs,
    tegra_ehci_hub_control cfg hcd ClearPortFeature USB_PORT_FEAT_SUSPEND wIndex
                           hw s = Some (r, s', evs) /\
    let temp := read_at hw s 0 in
    (Z.land temp PORT_RESET = 0 -> Z.land temp PORT_PE <> 0 ->
     Z.land temp PORT_SUSPEND <> 0 ->
     r = 0 /\
     obs is_port_resume_write evs = [EvWritel (port_of wIndex) (resume_value temp)] /\
     port_resuming (tegra s') = 1) /\
    (Z.land temp PORT_RESET <> 0 \/ Z.land temp PORT_PE = 0 ->
     r = - EPIPE /\ obs is_port_resume_write evs = [] /\ tegra s' = tegra s) /\
    (Z.land temp PORT_RESET = 0 -> Z.land temp PORT_PE <> 0 ->
     Z.land temp PORT_SUSPEND = 0 ->
     r = 0 /\ obs is_port_resume_write evs = [] /\ tegra s' = tegra s).
Proof.
  intros Hwf.
  destruct (twp_elim _ _ _ _ _ (hub_port_resume_run hcd wIndex hw s Hwf))
    as (r & s' & evs & E & H).
  exists r, s', evs. split; [exact E|]. cbv zeta in *.
  destruct (Z.eqb_spec (Z.land (read_at hw s 0) PORT_RESET) 0) as [R|R];
    destruct (Z.eqb_spec (Z.land (read_at hw s 0) PORT_PE) 0) as [E0|E0];
    cbn [negb orb] in H;
    try (split; [intros; congruence|];
         split; [intros _; exact H | intros; congruence]).
  destruct (Z.eqb_spec (Z.land (read_at hw s 0) PORT_SUSPEND) 0) as [S0|S0].
  - split; [intros; congruence|]. split; [intros [?|?]; congruence|].
    intros _ _ _. exact H.
  - destruct H as (Hr & Ht & Hp & _).
    split; [intros _ _ _; auto|]. split; [intros [?|?]; congruence|].
    intros; congruence.
Qed.

(** *** Presence polls *)

Lemma is_device_connected_absent phy hw s :
  CONFIG_MACH_N1 cfg = true -> phy_is_hsic phy -> never_detects hw ->
  exists s' evs,
    tegra_usb_phy_is_device_connected cfg phy hw s = Some (false, s', evs).
Proof.
  intros HN Hh Hnd. unfold tegra_usb_phy_is_device_connected, phy_enter.
  rewrite bind_assoc, bind_get, bind_emit.
  rewrite (bind_run _ _ _ _ _ _ _ (phy_is_uhsic_hsic phy hw s Hh)).
  rewrite HN, !bind_assoc. unfold utmi_wait_register.
  pose proof (utmi_wait_timeout_range cfg) as R.
  destruct (utmi_wait_loop_run (Mmio (regs phy + UHSIC_STAT_CFG0))
              UHSIC_CONNECT_DETECT UHSIC_CONNECT_DETECT
              (Z.to_nat (utmi_wait_timeout cfg)) (utmi_wait_timeout cfg) hw s)
    as (n & Hn & _ & [[Hit _]|(_ & _ & E)]); [lia | lia | |].
  - exfalso. apply (Hnd (inputs s + (n - 1))%nat). exact Hit.
  - rewrite (bind_run _ _ _ _ _ _ _ E), bind_ret.
    change (-1 <? 0) with true. cbv iota. unfold pr_err, phy_leave.
    rewrite !bind_assoc, bind_emit, bind_ret. cbv iota.
    rewrite bind_assoc, bind_emit, bind_ret, ret_run.
    cbn [prepend]. eexists _, _. reflexivity.
Qed.

Lemma poll_spec phy hw s :
  phy_wf phy ->
  twp is_phy_event (tegra_usb_phy_is_device_connected cfg phy) hw s
    (fun a s' t =>
       (kept s s' /\
        t = [EvPhyOp OpIsDeviceConnected (ready s);
             EvPhyRet OpIsDeviceConnected (bool_code a)]) /\
       (CONFIG_MACH_N1 cfg = true -> phy_is_hsic phy -> never_detects hw ->
        a = false)).
Proof.
  intros Hwf. apply twp_also.
  - apply (call_spec OpIsDeviceConnected bool_code);
      [now apply total_is_device_connected | apply shape_is_device_connected].
  - intros a s' evs E HN Hh Hnd.
    destruct (is_device_connected_absent phy hw s HN Hh Hnd) as (s2 & e2 & E2).
    congruence.
Qed.

Lemma hsic_wait_connected_run hcd hw :
  phy_wf (hcd_phy hcd) ->
  forall fuel retry s,
    0 <= retry < 2 ^ 32 -> (Z.to_nat retry < fuel)%nat -> ready s = false ->
    twp is_phy_event (hsic_wait_connected cfg fuel hcd retry) hw s
      (fun _ s' t =>
         port_speed (tegra s') = port_speed (tegra s) /\
         ((exists k, (k < Z.to_nat retry)%nat /\
                     t = failed_polls k ++ good_poll /\ ready s' = true) \/
          (t = failed_polls (Z.to_nat retry) /\ ready s' = false)) /\
         (CONFIG_MACH_N1 cfg = true -> phy_is_hsic (hcd_phy hcd) ->
          never_detects hw ->
          t = failed_polls (Z.to_nat retry) /\ ready s' = false)).
Proof.
  intros Hwf. induction fuel as [|fuel IH]; intros retry s Hr Hf Hs; [lia|].
  cbn [hsic_wait_connected].
  destruct (Z.eqb_spec retry 0) as [->|Hnz]; cbn [negb].
  { apply twp_ret. split; [reflexivity|]. split; [right|]; auto. }
  eapply twp_bind; [apply (poll_spec _ hw s Hwf)|].
  intros connected s1 t1 [[K ->] Habs]. kept_norm K.
  assert (Z.to_nat retry = S (Z.to_nat (retry - 1))) as Hsucc by lia.
  destruct connected.
  - unfold upd_tegra. apply twp_modify_end.
    split; [cbn; congruence|]. split.
    + left. exists 0%nat. split; [lia|]. unfold ready in *. rewrite Hs.
      split; reflexivity.
    + intros HN Hh Hnd. discriminate (Habs HN Hh Hnd).
  - unfold spin_unlock_irqrestore, spin_lock_irqsave, msleep.
    do 3 (apply twp_skip; [reflexivity|]).
    rewrite wrap32_small by lia.
    eapply twp_mono;
      [apply (IH (retry - 1) s1); [lia | lia | unfold ready in *; congruence]|].
    intros _ s2 t2 (Hp & Hc & Hn). cbv beta. rewrite Hs.
    cbn [bool_code app]. rewrite Hsucc.
    split; [congruence|]. split.
    + destruct Hc as [(k & Hk & -> & Hr2)|[-> Hr2]].
      * left. exists (S k). split; [lia|]. split; [reflexivity | exact Hr2].
      * right. split; [reflexivity | exact Hr2].
    + intros HN Hh Hnd. destruct (Hn HN Hh Hnd) as [-> Hr2].
      split; [reflexivity | exact Hr2].
Qed.

Lemma idle_spec phy hw s :
  phy_wf phy ->
  twp is_phy_event (tegra_usb_phy_bus_idle cfg phy) hw s
    (fun r s' t => kept s s' /\ t = [EvPhyOp OpBusIdle (ready s); EvPhyRet OpBusIdle r]).
Proof.
  intros Hwf. apply (call_spec OpBusIdle (fun r => r));
    [now apply total_bus_idle | apply shape_bus_idle].
Qed.

Lemma reset_spec phy hw s :
  phy_wf phy ->
  twp is_phy_event (tegra_usb_phy_bus_reset cfg phy) hw s
    (fun r s' t => kept s s' /\ t = [EvPhyOp OpBusReset (ready s); EvPhyRet OpBusReset r]).
Proof.
  intros Hwf. apply (call_spec OpBusReset (fun r => r));
    [now apply total_bus_reset | apply shape_bus_reset].
Qed.

Lemma connect_spec phy hw s :
  phy_wf phy ->
  twp is_phy_event (tegra_usb_phy_bus_connect cfg phy) hw s
    (fun r s' t =>
       kept s s' /\ t = [EvPhyOp OpBusConnect (ready s); EvPhyRet OpBusConnect r]).
Proof.
  intros Hwf. apply (call_spec OpBusConnect (fun r => r));
    [now apply total_bus_connect | apply shape_bus_connect].
Qed.

(** *** The HSIC reset block *)

Lemma hsic_port_reset_run hcd retval0 hw s :
  CONFIG_MACH_N1 cfg = true -> phy_wf (hcd_phy hcd) ->
  twp is_phy_event (hsic_port_reset cfg hcd retval0) hw s
    (fun r s' t =>
       ready s' = false /\
       port_speed (tegra s') = port_speed (tegra s) /\
       port_reset_trace (ready s) retval0 r t /\
       (phy_is_hsic (hcd_phy hcd) -> never_detects hw -> ready s = false ->
        r = retval0 /\ exists ri, t = idle_call ri ++ failed_polls 20)).
Proof.
  intros HN Hwf. unfold hsic_port_reset, N1. rewrite HN.
  apply twp_get. unfold ready. destruct (device_ready_for_reset (tegra s)) eqn:Hs;
    cbn [negb when].
  - apply twp_bind_ret, twp_get. rewrite Hs.
    eapply twp_bind; [apply (reset_spec _ hw s Hwf)|].
    intros r s1 t1 [K ->]. kept_norm K. unfold upd_tegra.
    apply twp_modify, twp_ret. unfold ready. rewrite Hs.
    split; [reflexivity|]. split; [cbn; congruence|].
    split; [left; split; reflexivity | discriminate].
  - apply twp_assoc.
    eapply twp_bind; [apply (idle_spec _ hw s Hwf)|].
    intros ri s1 t1 [K ->]. kept_norm K.
    eapply twp_bind;
      [apply (hsic_wait_connected_run hcd hw Hwf _ retry_connect_init s1);
       [unfold retry_connect_init; lia
       | unfold retry_connect_init; lia
       | unfold ready; congruence]|].
    change (Z.to_nat retry_connect_init) with 20%nat.
    intros _ s2 t2 (Hp & Hc & Hn). apply twp_get. unfold ready. rewrite Hs.
    destruct Hc as [(k & Hk & -> & Hr2)|[-> Hr2]]; unfold ready in Hr2; rewrite Hr2.
    + eapply twp_bind; [apply (reset_spec _ hw s2 Hwf)|].
      intros r s3 t3 [K3 ->]. kept_norm K3. unfold upd_tegra.
      apply twp_modify, twp_ret. unfold ready. rewrite Hr2.
      split; [reflexivity|]. split; [cbn; congruence|]. split.
      * right. left. split; [reflexivity|]. exists ri, k. split; [exact Hk|].
        cbn [app]. now rewrite <- !app_assoc.
      * intros Hh Hnd _. destruct (Hn HN Hh Hnd) as [_ Hf]. unfold ready in Hf.
        congruence.
    + apply twp_ret. split; [exact Hr2|]. split; [congruence|]. split.
      * right. right. split; [reflexivity|]. split; [reflexivity|].
        exists ri. cbn [app]. now rewrite app_nil_r.
      * intros _ _ _. split; [reflexivity|]. exists ri. cbn [app].
        now rewrite app_nil_r.
Qed.

Ltac steady_phy :=
  repeat first
    [ apply steady_handshake; [auto with steady nocore | lia]
    | apply steady_jiffies_after; auto with steady nocore
    | steady_step
    | progress unfold rmw, readl, writel, udelay, mdelay, msleep, pr_err,
        clk_enable, clk_disable, spin_lock_irqsave, spin_unlock_irqrestore,
        ext_call, ext_proc, upd_tegra, upd_ehci ].

Ltac trace_step :=
  first
    [ apply twp_ret
    | apply twp_skip; [reflexivity|]
    | apply twp_get
    | apply twp_modify
    | apply twp_bind_ret
    | apply twp_steady;
      [solve [steady_phy] | let K := fresh "K" in intros ? ? K; kept_norm K]
    | apply twp_assoc ].

(** The reset branch of the block under [Handle port reset here]. *)
Lemma reset_block_run hcd hsic wIndex status_reg hw s :
  CONFIG_MACH_N1 cfg = true -> phy_wf (hcd_phy hcd) ->
  twp is_phy_event
    (hub_hsic_reset_power cfg hcd hsic USB_PORT_FEAT_RESET wIndex status_reg) hw s
    (fun r s' t =>
       if reaches_hsic_reset hcd hsic wIndex (read_at hw s 0) then
         ready s' = false /\
         port_speed (tegra s') = port_speed (tegra s) /\
         port_reset_trace (ready s) 0 r t /\
         (phy_is_hsic (hcd_phy hcd) -> never_detects hw -> ready s = false ->
          r = 0 /\ exists ri, t = idle_call ri ++ failed_polls 20)
       else t = [] /\ kept s s').
Proof.
  intros HN Hwf.
  unfold hub_hsic_reset_power, hub_done, spin_unlock_irqrestore,
    reaches_hsic_reset.
  change (USB_PORT_FEAT_RESET =? USB_PORT_FEAT_RESET) with true.
  cbv zeta.
  destruct ((Z.land wIndex 255 =? 0)
            || (Z.land wIndex 255 >? HCS_N_PORTS (hcs_params hcd))); cbn [negb andb].
  { repeat trace_step. split; [reflexivity | apply kept_refl]. }
  apply twp_readl; [reflexivity|].
  destruct (Z.land (read_at hw s 0) PORT_OWNER =? 0); cbn [negb andb].
  2:{ repeat trace_step. split; [reflexivity | kept_done]. }
  destruct (Z.land (clr (read_at hw s 0) PORT_RWC_BITS) PORT_RESUME =? 0);
    cbn [negb andb].
  2:{ repeat trace_step. split; [reflexivity | kept_done]. }
  destruct ((Z.land (clr (read_at hw s 0) PORT_RWC_BITS) (Z.lor PORT_PE PORT_CONNECT)
               =? PORT_CONNECT)
            && negb (has_tt hcd) && PORT_USB11 (clr (read_at hw s 0) PORT_RWC_BITS));
    cbn [negb andb].
  { unfold writel. repeat trace_step. split; [reflexivity | kept_done]. }
  unfold writel, upd_ehci.
  apply twp_steady; [solve [steady_phy] | intros t0 s1 K; kept_norm K].
  apply twp_modify. apply twp_skip; [reflexivity|].
  destruct (hsic && (Z.land wIndex 255 - 1 =? 0)).
  2:{ repeat trace_step. split; [reflexivity | kept_done]. }
  eapply twp_bind; [apply hsic_port_reset_run; [exact HN | exact Hwf]|].
  intros r s2 t2 (Hr & Hp & Ht & Hn).
  repeat trace_step. rewrite app_nil_r. unfold ready in *.
  cbn [tegra set_ehci] in Ht, Hn, Hp. rewrite H in Ht, Hn.
  split; [exact Hr|]. split; [congruence|]. split; [exact Ht | exact Hn].
Qed.


Lemma calls_failed_polls_reset k : calls OpBusReset (failed_polls k) = 0%nat.
Proof.
  induction k as [|k IH]; [reflexivity|].
  rewrite failed_polls_S, calls_app, IH. reflexivity.
Qed.


Lemma calls_reset_trace b r0 r t :
  port_reset_trace b r0 r t ->
  (calls OpBusReset t = 1%nat /\
   (b = true /\ t = reset_call r \/
    b = false /\ exists ri k, (k < 20)%nat /\
      t = idle_call ri ++ failed_polls k ++ good_poll ++ reset_call r)) \/
  (calls OpBusReset t = 0%nat /\ b = false /\ r = r0 /\
   exists ri, t = idle_call ri ++ failed_polls 20).
Proof.
  intros [[-> ->]|[(-> & ri & k & Hk & ->)|(-> & -> & ri & ->)]].
  - left. split; [reflexivity | left; split; reflexivity].
  - left. split.
    + rewrite !calls_app, calls_failed_polls_reset. reflexivity.
    + right. split; [reflexivity|]. now exists ri, k.
  - right. split; [|split; [reflexivity | split; [reflexivity | now exists ri]]].
    rewrite calls_app, calls_failed_polls_reset. reflexivity.
Qed.


(** *** Every hub request *)

Ltac benign_kept :=
  split;
  [ reflexivity
  | intros; left; unfold ready, consume in *;
    cbn [tegra ehci device_ready_for_reset set_tegra set_ehci
         set_hub_suspend_req set_host_resumed set_bus_is_power_down
         set_port_resuming set_port_speed set_work_count set_inputs] in *;
    congruence ].

(** The power branch of the block under [Handle port reset here]. *)
Lemma power_block_run hcd wValue wIndex status_reg hw s :
  phy_wf (hcd_phy hcd) ->
  (wValue =? USB_PORT_FEAT_RESET) = false ->
  twp is_phy_event
    (hub_hsic_reset_power cfg hcd true wValue wIndex status_reg) hw s
    (fun r s' t => benign s s' t).
Proof.
  intros Hwf Hv.
  unfold hub_hsic_reset_power, hub_done, spin_unlock_irqrestore. rewrite Hv.
  cbv zeta.
  destruct ((Z.land wIndex 255 =? 0)
            || (Z.land wIndex 255 >? HCS_N_PORTS (hcs_params hcd))).
  { repeat trace_step. benign_kept. }
  apply twp_readl; [reflexivity|].
  destruct (Z.land (read_at hw s 0) PORT_OWNER =? 0); cbn [negb].
  2:{ repeat trace_step. benign_kept. }
  apply twp_steady; [solve [steady_phy] | intros t0 s1 K; kept_norm K].
  cbn [andb]. destruct (Z.land wIndex 255 - 1 =? 0).
  2:{ repeat trace_step. benign_kept. }
  apply twp_get. destruct (N1 cfg && (shutdown s1 =? 1)).
  { repeat trace_step. benign_kept. }
  eapply twp_bind; [apply (connect_spec _ hw s1 Hwf)|].
  intros rc s2 t2 [K2 ->]. kept_norm K2.
  destruct (N1 cfg); cbn [when]; repeat trace_step.
  - split; [reflexivity|]. intros _. right.
    eexists. split; [left; reflexivity | reflexivity].
  - benign_kept.
Qed.

Lemma postresume_spec phy hw s :
  phy_wf phy ->
  twp is_phy_event (tegra_usb_phy_postresume phy) hw s
    (fun _ s' t => kept s s' /\ t = [EvPhyOp OpPostresume (ready s)]).
Proof.
  intros Hwf. apply (call_spec_void OpPostresume);
    [now apply total_postresume | apply shape_postresume].
Qed.

Lemma preresume_spec phy hw s :
  twp is_phy_event (tegra_usb_phy_preresume phy) hw s
    (fun _ s' t => kept s s' /\ t = [EvPhyOp OpPreresume (ready s)]).
Proof.
  apply (call_spec_void OpPreresume);
    [apply total_preresume | apply shape_preresume].
Qed.

Lemma hub_rest_run hcd hsic typeReq wValue wIndex status_reg hw s :
  CONFIG_MACH_N1 cfg = true -> phy_wf (hcd_phy hcd) ->
  twp is_phy_event (hub_rest cfg hcd hsic typeReq wValue wIndex status_reg) hw s
    (fun r s' t =>
       benign s s' t \/ (ready s' = false /\ port_reset_trace (ready s) 0 r t)).
Proof.
  intros HN Hwf. unfold hub_rest.
  destruct (hsic && (typeReq =? SetPortFeature)
            && ((wValue =? USB_PORT_FEAT_RESET) || (wValue =? USB_PORT_FEAT_POWER)))
    eqn:E.
  2:{ unfold spin_unlock_irqrestore. apply twp_skip; [reflexivity|].
      apply twp_steady_end; [solve [steady_phy]|].
      intros r s1 K. kept_norm K. left. benign_kept. }
  apply andb_prop in E. destruct E as [E _]. apply andb_prop in E.
  destruct E as [-> _].
  destruct (wValue =? USB_PORT_FEAT_RESET) eqn:Ev.
  - apply Z.eqb_eq in Ev. subst wValue.
    eapply twp_mono; [apply reset_block_run; [exact HN | exact Hwf]|].
    intros r s' t H. cbv beta in H.
    destruct (reaches_hsic_reset hcd true wIndex (read_at hw s 0)).
    + right. destruct H as (Hr & _ & Ht & _). split; assumption.
    + left. destruct H as [-> K]. kept_norm K. benign_kept.
  - eapply twp_mono; [apply power_block_run; [exact Hwf | exact Ev]|].
    intros r s' t H. left. exact H.
Qed.

Lemma hub_control_run hcd typeReq wValue wIndex hw s :
  CONFIG_MACH_N1 cfg = true -> phy_wf (hcd_phy hcd) ->
  twp is_phy_event (tegra_ehci_hub_control cfg hcd typeReq wValue wIndex) hw s
    (fun r s' t =>
       benign s s' t \/ (ready s' = false /\ port_reset_trace (ready s) 0 r t)).
Proof.
  intros HN Hwf. destruct (phy_is_uhsic_run _ Hwf) as [hsic Hh].
  unfold tegra_ehci_hub_control.
  eapply twp_run; [apply Hh|]. cbn [obs app].
  unfold spin_lock_irqsave. apply twp_skip; [reflexivity|].
  destruct ((typeReq =? ClearPortFeature) && (wValue =? USB_PORT_FEAT_ENABLE)).
  { unfold hub_done, spin_unlock_irqrestore.
    apply twp_steady_end; [solve [steady_phy]|].
    intros r s1 K. kept_norm K. left. benign_kept. }
  destruct (typeReq =? GetPortStatus) eqn:Eg.
  { apply Z.eqb_eq in Eg. subst typeReq. unfold hub_rest.
    change (GetPortStatus =? SetPortFeature) with false.
    rewrite andb_false_r. cbn [andb]. unfold spin_unlock_irqrestore.
    apply twp_steady; [solve [steady_phy] | intros temp s1 K; kept_norm K].
    apply twp_get.
    destruct (negb (port_resuming (tegra s1) =? 0)
              && (Z.land temp PORT_SUSPEND =? 0)); cbn [when].
    - apply twp_assoc. unfold upd_tegra. apply twp_modify.
      eapply twp_bind; [apply postresume_spec; exact Hwf|].
      intros _ s2 t2 [K2 ->]. kept_norm K2.
      apply twp_skip; [reflexivity|].
      apply twp_steady_end; [solve [steady_phy]|].
      intros r s3 K3. kept_norm K3. left. benign_kept.
    - apply twp_bind_ret. apply twp_skip; [reflexivity|].
      apply twp_steady_end; [solve [steady_phy]|].
      intros r s3 K3. kept_norm K3. left. benign_kept. }
  destruct ((typeReq =? SetPortFeature) && (wValue =? USB_PORT_FEAT_SUSPEND)).
  { unfold hub_port_suspend, hub_done, spin_unlock_irqrestore.
    apply twp_steady_end; [solve [steady_phy]|].
    intros r s1 K. kept_norm K. left. benign_kept. }
  destruct ((typeReq =? ClearPortFeature) && (wValue =? USB_PORT_FEAT_SUSPEND)).
  { unfold hub_port_resume, hub_done, spin_unlock_irqrestore, N1. rewrite HN.
    apply twp_steady; [solve [steady_phy] | intros temp s1 K; kept_norm K].
    destruct (negb (Z.land temp PORT_RESET =? 0) || (Z.land temp PORT_PE =? 0)).
    { repeat trace_step. left. benign_kept. }
    destruct (Z.land temp PORT_SUSPEND =? 0).
    { repeat trace_step. left. benign_kept. }
    eapply twp_bind; [apply preresume_spec|].
    intros _ s2 t2 [K2 ->]. kept_norm K2.
    apply twp_steady_end; [solve [steady_phy]|].
    intros r s3 K3. kept_norm K3. left. benign_kept. }
  apply hub_rest_run; [exact HN | exact Hwf].
Qed.

(** *** Power, suspend and resume *)

Lemma power_on_spec phy hw s :
  phy_wf phy ->
  twp is_phy_event (tegra_usb_phy_power_on cfg usb_phy_data phy) hw s
    (fun r s' t => kept s s' /\ t = [EvPhyOp OpPowerOn (ready s); EvPhyRet OpPowerOn r]).
Proof.
  intros Hwf. apply (call_spec OpPowerOn (fun r => r));
    [now apply total_power_on | apply shape_power_on].
Qed.

Lemma power_off_spec phy hw s :
  phy_wf phy ->
  twp is_phy_event (tegra_usb_phy_power_off cfg usb_phy_data phy) hw s
    (fun _ s' t => kept s s' /\ t = [EvPhyOp OpPowerOff (ready s)]).
Proof.
  intros Hwf. apply (call_spec_void OpPowerOff);
    [now apply total_power_off | apply shape_power_off].
Qed.

Lemma restore_start_spec phy speed hw s :
  twp is_phy_event
    (tegra_ehci_phy_restore_start TEGRA_USB_PHY_PORT_SPEED_LOW phy speed) hw s
    (fun _ s' t => kept s s' /\ t = [EvPhyOp OpRestoreStart (ready s)]).
Proof.
  apply (call_spec_void OpRestoreStart);
    [apply total_restore_start | apply shape_restore_start].
Qed.

Lemma restore_end_spec phy hw s :
  twp is_phy_event (tegra_ehci_phy_restore_end phy) hw s
    (fun _ s' t => kept s s' /\ t = [EvPhyOp OpRestoreEnd (ready s)]).
Proof.
  apply (call_spec_void OpRestoreEnd);
    [apply total_restore_end | apply shape_restore_end].
Qed.

Lemma set_phy_clock_spec phy on hw s :
  twp is_phy_event (tegra_usb_set_phy_clock cfg phy on) hw s
    (fun r s' t =>
       kept s s' /\ t = [EvPhyOp OpSetPhyClock (ready s); EvPhyRet OpSetPhyClock r]).
Proof.
  apply (call_spec OpSetPhyClock (fun r => r));
    [apply total_set_phy_clock | apply shape_set_phy_clock].
Qed.

Lemma power_up_run hcd hw s :
  phy_wf (hcd_phy hcd) ->
  twp is_phy_event (tegra_ehci_power_up cfg usb_phy_data hcd) hw s
    (fun _ s' t =>
       kept s s' /\
       exists r, t = [EvPhyOp OpPowerOn (ready s); EvPhyRet OpPowerOn r]).
Proof.
  intros Hwf. unfold tegra_ehci_power_up.
  do 3 (apply twp_steady; [solve [steady_phy] | intros ? ? K; kept_norm K]).
  apply twp_steady; [solve [steady_phy] | intros ? ? K; kept_norm K].
  eapply twp_bind; [apply power_on_spec; exact Hwf|].
  intros r s5 t5 [K5 ->]. kept_norm K5. unfold upd_tegra.
  apply twp_modify, twp_modify_end. unfold ready in *.
  split; [kept_done|]. exists r. cbn [app]. congruence.
Qed.

Lemma power_down_run hcd hw s :
  phy_wf (hcd_phy hcd) ->
  twp is_phy_event (tegra_ehci_power_down cfg usb_phy_data hcd) hw s
    (fun _ s' t => kept s s' /\ t = [EvPhyOp OpPowerOff (ready s)]).
Proof.
  intros Hwf. unfold tegra_ehci_power_down, upd_tegra.
  apply twp_modify.
  eapply twp_bind; [apply power_off_spec; exact Hwf|].
  intros _ s1 t1 [K1 ->]. kept_norm K1.
  apply twp_steady_end; [solve [steady_phy]|].
  intros _ s2 K2. kept_norm K2. unfold ready in *. cbn [tegra set_tegra] in *.
  split; [kept_done | reflexivity].
Qed.

Lemma suspend_run hcd hw s :
  phy_wf (hcd_phy hcd) ->
  twp is_phy_event (tegra_usb_suspend cfg usb_phy_data hcd) hw s
    (fun r s' t =>
       r = 0 /\
       port_speed (tegra s') = Z.land (Z.shiftr (read_at hw s 0) 26) 0x3 /\
       benign s s' t).
Proof.
  intros Hwf. destruct (phy_is_uhsic_run _ Hwf) as [hsic Hh].
  unfold tegra_usb_suspend.
  eapply twp_run; [apply Hh|]. cbn [obs app].
  unfold spin_lock_irqsave, spin_unlock_irqrestore, upd_tegra, upd_ehci.
  apply twp_skip; [reflexivity|].
  apply twp_readl; [reflexivity|]. apply twp_modify.
  apply twp_steady; [solve [steady_phy] | intros ? s1 K; kept_norm K].
  apply twp_modify.
  destruct (N1 cfg && hsic); cbn [when].
  - apply twp_modify. apply twp_skip; [reflexivity|]. apply twp_get.
    match goal with |- twp _ (if ?c then _ else _) _ _ _ => destruct c end.
    + apply twp_ret. split; [reflexivity|]. split; [exact H0|].
      split; [reflexivity | discriminate].
    + eapply twp_bind; [apply power_down_run; exact Hwf|].
      intros _ s2 t2 [K2 ->]. kept_norm K2. apply twp_ret.
      split; [reflexivity|]. split; [congruence|].
      split; [reflexivity|]. unfold ready. intros; congruence.
  - apply twp_bind_ret. apply twp_skip; [reflexivity|]. apply twp_get.
    match goal with |- twp _ (if ?c then _ else _) _ _ _ => destruct c end.
    + apply twp_ret. split; [reflexivity|]. split; [exact H0|]. benign_kept.
    + eapply twp_bind; [apply power_down_run; exact Hwf|].
      intros _ s2 t2 [K2 ->]. kept_norm K2. apply twp_ret.
      split; [reflexivity|]. split; [congruence|]. benign_kept.
Qed.

Lemma connection_work_run hcd hw s :
  phy_wf (hcd_phy hcd) ->
  twp is_phy_event (tegra_hsic_connection_work cfg hcd) hw s
    (fun _ s' t => benign s s' t).
Proof.
  intros Hwf. unfold tegra_hsic_connection_work.
  eapply twp_bind; [apply (poll_spec _ hw s Hwf)|].
  intros connected s1 t1 [[K ->] _]. kept_norm K.
  destruct connected.
  - unfold ext_proc. apply twp_skip; [reflexivity|].
    destruct (N1 cfg); cbn [when].
    + unfold upd_tegra. apply twp_modify, twp_modify_end.
      split; [reflexivity|]. intros _. right.
      eexists. split; [right; left; reflexivity | reflexivity].
    + apply twp_ret. benign_kept.
  - apply twp_get.
    match goal with |- twp _ (if ?c then _ else _) _ _ _ => destruct c end.
    + apply twp_modify_end. benign_kept.
    + apply twp_steady_end; [solve [steady_phy]|].
      intros _ s2 K2. kept_norm K2. benign_kept.
Qed.

Lemma bus_suspend_run hcd hw s :
  twp is_phy_event (tegra_ehci_bus_suspend cfg hcd) hw s
    (fun _ s' t => benign s s' t).
Proof.
  unfold tegra_ehci_bus_suspend. apply twp_get.
  match goal with |- twp _ (if ?c then _ else _) _ _ _ => destruct c end.
  { apply twp_ret. benign_kept. }
  apply twp_steady; [solve [steady_phy] | intros r s1 K; kept_norm K].
  destruct (negb (r =? 0)).
  { apply twp_ret. benign_kept. }
  apply twp_get.
  match goal with |- twp _ (if ?c then _ else _) _ _ _ => destruct c end.
  2:{ apply twp_ret. benign_kept. }
  eapply twp_bind; [apply set_phy_clock_spec|].
  intros rc s2 t2 [K2 ->]. kept_norm K2.
  apply twp_steady_end; [solve [steady_phy]|].
  intros r3 s3 K3. kept_norm K3. benign_kept.
Qed.

(** One step through a glue function: PHY calls by their
    specifications, everything else by the frame. *)
Ltac link_step Hwf :=
  let K := fresh "K" in
  match goal with
  | |- twp _ (bind (bind _ _) _) _ _ _ => apply twp_assoc
  | |- twp _ (bind (ret _) _) _ _ _ => apply twp_bind_ret
  | |- twp _ (bind get _) _ _ _ => apply twp_get
  | |- twp _ (bind (tegra_usb_phy_preresume _) _) _ _ _ =>
      eapply twp_bind; [apply preresume_spec | intros ? ? ? [K ->]; kept_norm K]
  | |- twp _ (bind (tegra_usb_phy_postresume _) _) _ _ _ =>
      eapply twp_bind;
      [apply postresume_spec; exact Hwf | intros ? ? ? [K ->]; kept_norm K]
  | |- twp _ (bind (tegra_usb_set_phy_clock _ _ _) _) _ _ _ =>
      eapply twp_bind; [apply set_phy_clock_spec | intros ? ? ? [K ->]; kept_norm K]
  | |- twp _ (bind (tegra_ehci_phy_restore_start _ _ _) _) _ _ _ =>
      eapply twp_bind; [apply restore_start_spec | intros ? ? ? [K ->]; kept_norm K]
  | |- twp _ (bind (tegra_ehci_phy_restore_end _) _) _ _ _ =>
      eapply twp_bind; [apply restore_end_spec | intros ? ? ? [K ->]; kept_norm K]
  | |- twp _ (bind (tegra_usb_phy_bus_idle _ _) _) _ _ _ =>
      eapply twp_bind;
      [apply idle_spec; exact Hwf | intros ? ? ? [K ->]; kept_norm K]
  | |- twp _ (bind (tegra_usb_phy_is_device_connected _ _) _) _ _ _ =>
      eapply twp_bind;
      [apply poll_spec; exact Hwf | intros ? ? ? [[K ->] _]; kept_norm K]
  | |- twp _ (bind (tegra_ehci_power_up _ _ _) _) _ _ _ =>
      eapply twp_bind;
      [apply power_up_run; exact Hwf | intros ? ? ? [K [? ->]]; kept_norm K]
  | |- twp _ (bind (tegra_ehci_power_down _ _ _) _) _ _ _ =>
      eapply twp_bind;
      [apply power_down_run; exact Hwf | intros ? ? ? [K ->]; kept_norm K]
  | |- twp _ (bind _ _) _ _ _ =>
      apply twp_steady; [solve [steady_phy] | intros ? ? K; kept_norm K]
  | |- twp _ (bind (when ?c _) _) _ _ _ => destruct c; cbn [when]
  | |- twp _ (bind (if negb ?c then _ else _) _) _ _ _ => destruct c; cbn [negb]
  | |- twp _ (bind (if ?c then _ else _) _) _ _ _ => destruct c
  | |- twp _ (when ?c _) _ _ _ => destruct c; cbn [when]
  | |- twp _ (bind (modify _) _) _ _ _ => apply twp_modify
  | |- twp _ (bind (upd_tegra _) _) _ _ _ => unfold upd_tegra at 1; apply twp_modify
  | |- twp _ (if ?c then _ else _) _ _ _ => destruct c
  | |- twp _ (ret _) _ _ _ => apply twp_ret
  | |- twp _ (modify _) _ _ _ => apply twp_modify_end
  | |- twp _ (upd_tegra _) _ _ _ => unfold upd_tegra; apply twp_modify_end
  | |- twp _ _ _ _ _ =>
      apply twp_steady_end; [solve [steady_phy] | intros ? ? K; kept_norm K]
  end.

Lemma bus_resume_run hcd hw s :
  twp is_phy_event (tegra_ehci_bus_resume cfg hcd) hw s
    (fun _ s' t => benign s s' t).
Proof.
  unfold tegra_ehci_bus_resume. repeat link_step I; benign_kept.
Qed.

Lemma steady_restart hcd : steady is_phy_event (tegra_ehci_restart cfg hcd).
Proof. unfold tegra_ehci_restart, N1. destruct (CONFIG_MACH_N1 cfg); steady_phy. Qed.

(** Close a leaf: the trace is explicit, the flag is kept or raised
    after a poll that found the device. *)
Ltac benign_leaf :=
  split;
  [ reflexivity
  | intros;
    first
      [ left; unfold ready, consume in *;
        cbn [tegra ehci device_ready_for_reset set_tegra set_ehci
             set_hub_suspend_req set_host_resumed set_bus_is_power_down
             set_port_resuming set_port_speed set_work_count set_inputs] in *;
        congruence
      | right; eexists; split; [cbn [app In bool_code]; auto 20 | reflexivity] ] ].

Ltac resume_leaf :=
  split; [reflexivity|];
  split; [benign_leaf|];
  split; [cbn [tegra set_tegra port_speed set_device_ready_for_reset]; congruence|];
  split; reflexivity.

Lemma resume_restart_run hcd hsic hw s :
  phy_wf (hcd_phy hcd) ->
  twp is_phy_event (resume_restart cfg TEGRA_USB_PHY_PORT_SPEED_HIGH hcd hsic) hw s
    (fun r s' t =>
       r = 0 /\ benign s s' t /\
       port_speed (tegra s') = port_speed (tegra s) /\
       calls OpRestoreStart t = 0%nat /\
       calls OpRestoreEnd t =
         restore_end_expected cfg TEGRA_USB_PHY_PORT_SPEED_HIGH hsic
                              (port_speed (tegra s))).
Proof.
  intros Hwf. pose proof (steady_restart hcd) as SR.
  unfold resume_restart, restore_end_expected, N1. cbv zeta.
  apply twp_get.
  destruct ((CONFIG_MACH_N1 cfg && negb hsic)
            || (port_speed (tegra s) <=? TEGRA_USB_PHY_PORT_SPEED_HIGH));
    cbn [when]; destruct hsic; repeat link_step Hwf; resume_leaf.
Qed.

Lemma resume_restore_run hcd hsic hw s :
  phy_wf (hcd_phy hcd) ->
  (port_speed (tegra s) >? TEGRA_USB_PHY_PORT_SPEED_HIGH) = false ->
  twp is_phy_event
    (resume_restore cfg TEGRA_USB_PHY_PORT_SPEED_FULL TEGRA_USB_PHY_PORT_SPEED_LOW
                    TEGRA_USB_PHY_PORT_SPEED_HIGH hcd hsic) hw s
    (fun r s' t =>
       r = 0 /\ benign s s' t /\
       calls OpRestoreStart t = 1%nat /\ calls OpRestoreEnd t = 1%nat).
Proof.
  intros Hwf Hsp.
  assert (Hexp : forall s1, port_speed (tegra s1) = port_speed (tegra s) ->
            restore_end_expected cfg TEGRA_USB_PHY_PORT_SPEED_HIGH hsic
              (port_speed (tegra s1)) = 1%nat).
  { intros s1 ->. unfold restore_end_expected.
    replace (port_speed (tegra s) <=? TEGRA_USB_PHY_PORT_SPEED_HIGH) with true.
    - now rewrite orb_true_r.
    - symmetry. apply Z.leb_le. rewrite Z.gtb_ltb in Hsp. now apply Z.ltb_ge. }
  unfold resume_restore. cbv zeta.
  repeat link_step Hwf;
    try (eapply twp_mono; [apply resume_restart_run; exact Hwf|];
         intros r s' t HQ; cbv beta in HQ |- *;
         destruct HQ as (-> & B & P & CS & CE);
         split; [reflexivity|];
         split;
         [eapply benign_prefix; [| | exact B];
          [unfold ready; congruence | reflexivity]|];
         rewrite !calls_app, CS, CE, Hexp by congruence; split; reflexivity).
  all: split; [reflexivity|]; split; [benign_leaf|]; split; reflexivity.
Qed.

Lemma resume_run hcd hw s :
  phy_wf (hcd_phy hcd) ->
  twp is_phy_event
    (tegra_usb_resume cfg usb_phy_data TEGRA_USB_PHY_PORT_SPEED_FULL
       TEGRA_USB_PHY_PORT_SPEED_LOW TEGRA_USB_PHY_PORT_SPEED_HIGH hcd) hw s
    (fun r s' t =>
       r = 0 /\ benign s s' t /\
       calls OpRestoreStart t =
         restore_start_expected cfg TEGRA_USB_PHY_PORT_SPEED_HIGH
           (hsic_handle (hcd_phy hcd)) (port_speed (tegra s)) /\
       calls OpRestoreEnd t =
         restore_end_expected cfg TEGRA_USB_PHY_PORT_SPEED_HIGH
           (hsic_handle (hcd_phy hcd)) (port_speed (tegra s))).
Proof.
  intros Hwf. unfold tegra_usb_resume.
  eapply twp_run; [apply (phy_is_uhsic_handle _ hw s Hwf)|]. cbn [obs app].
  set (hsic := hsic_handle (hcd_phy hcd)).
  unfold upd_ehci. apply twp_modify.
  eapply twp_bind; [apply power_up_run; exact Hwf|].
  intros _ s1 t1 [K [rp ->]]. kept_norm K.
  unfold restore_start_expected, N1.
  destruct (CONFIG_MACH_N1 cfg && hsic) eqn:Eh; cbn [orb].
  - eapply twp_mono; [apply resume_restart_run; exact Hwf|].
    intros r s' t HQ; cbv beta in HQ |- *.
    destruct HQ as (-> & B & P & CS & CE).
    split; [reflexivity|].
    split; [eapply benign_prefix; [| | exact B];
            [unfold ready; congruence | reflexivity]|].
    rewrite !calls_app, CS, CE, H0. split; reflexivity.
  - apply twp_get. rewrite H0.
    destruct (port_speed (tegra s) >? TEGRA_USB_PHY_PORT_SPEED_HIGH) eqn:Es.
    + apply twp_steady; [solve [steady_phy] | intros ? s2 K2; kept_norm K2].
      eapply twp_mono; [apply resume_restart_run; exact Hwf|].
      intros r s' t HQ; cbv beta in HQ |- *.
      destruct HQ as (-> & B & P & CS & CE).
      split; [reflexivity|].
      split; [eapply benign_prefix; [| | exact B];
              [unfold ready; congruence | reflexivity]|].
      rewrite !calls_app, CS, CE. replace (port_speed (tegra s2)) with
        (port_speed (tegra s)) by congruence. split; reflexivity.
    + eapply twp_mono;
        [apply resume_restore_run; [exact Hwf | now rewrite H0]|].
      intros r s' t HQ; cbv beta in HQ |- *.
      destruct HQ as (-> & B & CS & CE).
      split; [reflexivity|].
      split; [eapply benign_prefix; [| | exact B];
              [unfold ready; congruence | reflexivity]|].
      rewrite !calls_app, CS, CE. split; [reflexivity|].
      unfold restore_end_expected.
      replace (port_speed (tegra s) <=? TEGRA_USB_PHY_PORT_SPEED_HIGH) with true.
      * now rewrite orb_true_r.
      * symmetry. apply Z.leb_le. rewrite Z.gtb_ltb in Es. now apply Z.ltb_ge.
Qed.

(** C4 (amended).  [tegra_usb_resume] on a well-formed handle always
    returns 0, and the recorded port speed decides the restore pair as
    follows.  [tegra_ehci_phy_restore_start] is entered exactly once
    when the recorded speed is at most TEGRA_USB_PHY_PORT_SPEED_HIGH
    (and the port is not an HSIC port of the CONFIG_MACH_N1 build), and
    not at all when it is above.  [tegra_ehci_phy_restore_end] is
    entered exactly once when the recorded speed is at most HIGH, also
    on the paths that time out and restart the controller.  In
    particular a recorded speed equal to HIGH takes the forced
    data-line path with both halves of the pair; the wait-and-restart
    path is the one for a speed above HIGH. *)
Theorem resume_restore_pair_by_speed (hcd : usb_hcd) (hw : oracle) (s : machine) :
  phy_wf (hcd_phy hcd) ->
  exists s' evs,
    tegra_usb_resume cfg usb_phy_data TEGRA_USB_PHY_PORT_SPEED_FULL
      TEGRA_USB_PHY_PORT_SPEED_LOW TEGRA_USB_PHY_PORT_SPEED_HIGH hcd hw s
      = Some (0, s', evs) /\
    calls OpRestoreStart evs =
      restore_start_expected cfg TEGRA_USB_PHY_PORT_SPEED_HIGH
        (hsic_handle (hcd_phy hcd)) (port_speed (tegra s)) /\
    calls OpRestoreEnd evs =
      restore_end_expected cfg TEGRA_USB_PHY_PORT_SPEED_HIGH
        (hsic_handle (hcd_phy hcd)) (port_speed (tegra s)) /\
    (port_speed (tegra s) = TEGRA_USB_PHY_PORT_SPEED_HIGH ->
     calls OpRestoreEnd evs = 1%nat /\
     (CONFIG_MACH_N1 cfg && hsic_handle (hcd_phy hcd) = false ->
      calls OpRestoreStart evs = 1%nat)) /\
    (port_speed (tegra s) > TEGRA_USB_PHY_PORT_SPEED_HIGH ->
     calls OpRestoreStart evs = 0%nat).
Proof.
  intros Hwf.
  destruct (twp_elim _ _ _ _ _ (resume_run hcd hw s Hwf))
    as (r & s' & evs & E & -> & _ & CS & CE).
  rewrite !calls_phy_trace_obs in CS, CE.
  exists s', evs. split; [exact E|]. split; [exact CS|]. split; [exact CE|].
  rewrite CS, CE. unfold restore_start_expected, restore_end_expected. split.
  - intros ->. rewrite Z.leb_refl, orb_true_r. split; [reflexivity|].
    intros ->. rewrite Z.gtb_ltb, Z.ltb_irrefl. reflexivity.
  - intros Hgt. apply Z.gtb_gt in Hgt. rewrite Hgt. now rewrite orb_true_r.
Qed.

(** *** Runs of entry points *)

Lemma twp_then_ret P {A} (m : M A) hw s (Q : unit -> machine -> list event -> Prop) :
  twp P m hw s (fun _ s' t => Q tt s' t) ->
  twp P (bind m (fun _ => ret tt)) hw s Q.
Proof.
  intros H. eapply twp_bind; [exact H|]. intros a s1 t1 HQ. apply twp_ret.
  now rewrite app_nil_r.
Qed.

Lemma entry_run hcd e hw s :
  CONFIG_MACH_N1 cfg = true -> phy_wf (hcd_phy hcd) ->
  twp is_phy_event
    (run_entry cfg usb_phy_data TEGRA_USB_PHY_PORT_SPEED_FULL
       TEGRA_USB_PHY_PORT_SPEED_LOW TEGRA_USB_PHY_PORT_SPEED_HIGH hcd e) hw s
    (fun _ s' t => scan_ok s s' t).
Proof.
  intros HN Hwf. destruct e as [typeReq wValue wIndex| | | | |]; cbn [run_entry].
  - apply twp_then_ret.
    eapply twp_mono; [apply hub_control_run; [exact HN | exact Hwf]|].
    intros r s' t [B|[Hr Ht]]; cbv beta.
    + now apply benign_scan_ok.
    + eapply reset_trace_scan_ok; eassumption.
  - eapply twp_mono; [apply connection_work_run; exact Hwf|].
    intros r s' t B. now apply benign_scan_ok.
  - apply twp_then_ret.
    eapply twp_mono; [apply suspend_run; exact Hwf|].
    intros r s' t (_ & _ & B). now apply benign_scan_ok.
  - apply twp_then_ret.
    eapply twp_mono; [apply resume_run; exact Hwf|].
    intros r s' t (_ & B & _). now apply benign_scan_ok.
  - apply twp_then_ret.
    eapply twp_mono; [apply bus_suspend_run|].
    intros r s' t B. now apply benign_scan_ok.
  - apply twp_then_ret.
    eapply twp_mono; [apply bus_resume_run|].
    intros r s' t B. now apply benign_scan_ok.
Qed.

Lemma entries_run hcd es :
  CONFIG_MACH_N1 cfg = true -> phy_wf (hcd_phy hcd) ->
  forall hw s,
    twp is_phy_event
      (run_entries cfg usb_phy_data TEGRA_USB_PHY_PORT_SPEED_FULL
         TEGRA_USB_PHY_PORT_SPEED_LOW TEGRA_USB_PHY_PORT_SPEED_HIGH hcd es) hw s
      (fun _ s' t => scan_ok s s' t).
Proof.
  intros HN Hwf. induction es as [|e es IH]; intros hw s; cbn [run_entries].
  - apply twp_ret. apply scan_ok_nil.
  - eapply twp_bind; [apply entry_run; [exact HN | exact Hwf]|].
    intros u1 s1 t1 H1. eapply twp_mono; [apply IH|].
    intros u2 s2 t2 H2. cbv beta in *. eapply scan_ok_app; eassumption.
Qed.

(** C10.  In the CONFIG_MACH_N1 build, on a well-formed handle:
    every hub request returns and enters [tegra_usb_phy_bus_reset] at
    most once; each bus reset it enters finds [device_ready_for_reset]
    set, and the flag is clear when the request ends; a bus reset in a
    request that started with the flag clear comes after a presence poll
    of that request that found the device.  In every run of entry
    points (hub requests, the connection worker, suspend, resume, bus
    suspend, bus resume) each bus reset is entered with the flag set and
    after a confirmation of the device, by a bus connect or by a
    presence poll that returned true, that is later than the bus reset
    before it. *)
Theorem bus_reset_consumes_ready (hcd : usb_hcd) :
  CONFIG_MACH_N1 cfg = true ->
  phy_wf (hcd_phy hcd) ->
  (forall typeReq wValue wIndex hw s,
      exists r s' evs,
        tegra_ehci_hub_control cfg hcd typeReq wValue wIndex hw s
          = Some (r, s', evs) /\
        (calls OpBusReset evs <= 1)%nat /\
        (forall b, In (EvPhyOp OpBusReset b) evs -> b = true /\ ready s' = false) /\
        (calls OpBusReset evs = 1%nat -> ready s = false ->
         exists ri k, (k < 20)%nat /\
           phy_trace evs = idle_call ri ++ failed_polls k ++ good_poll ++ reset_call r))
  /\
  (forall es hw s,
      exists s' evs c',
        run_entries cfg usb_phy_data TEGRA_USB_PHY_PORT_SPEED_FULL
          TEGRA_USB_PHY_PORT_SPEED_LOW TEGRA_USB_PHY_PORT_SPEED_HIGH hcd es hw s
          = Some (tt, s', evs) /\
        presence_scan (ready s) (phy_trace evs) = Some c' /\
        (ready s' = true -> c' = true)).
Proof.
  intros HN Hwf. split.
  - intros typeReq wValue wIndex hw s.
    destruct (twp_elim _ _ _ _ _
                (hub_control_run hcd typeReq wValue wIndex hw s HN Hwf))
      as (r & s' & evs & E & H).
    exists r, s', evs. split; [exact E|].
    rewrite <- (calls_phy_trace_obs OpBusReset evs). unfold phy_trace.
    destruct H as [[C R]|[Hr Ht]].
    + rewrite C. split; [lia|]. split; [|intros D; discriminate D].
      intros b Hin. exfalso.
      pose proof (calls_in _ _ _ Hin) as Hc.
      rewrite <- calls_phy_trace_obs in Hc. lia.
    + pose proof (resets_ready_trace _ _ _ _ Ht) as RR.
      rewrite resets_ready_obs in RR.
      destruct (calls_reset_trace _ _ _ _ Ht) as [[C D]|(C & _)]; rewrite C.
      * split; [lia|]. split.
        -- intros b Hin. split; [exact (resets_ready_in _ _ RR Hin) | exact Hr].
        -- intros _ Hs. destruct D as [[D _]|[_ D]]; [congruence | exact D].
      * split; [lia|]. split; [|intros D; discriminate D].
        intros b Hin. split; [exact (resets_ready_in _ _ RR Hin) | exact Hr].
  - intros es hw s.
    destruct (twp_elim _ _ _ _ _ (entries_run hcd es HN Hwf hw s))
      as ([] & s' & evs & E & H).
    destruct (H (ready s) (fun e => e)) as (c' & Hc & Hs).
    exists s', evs, c'. split; [exact E|]. split; [exact Hc | exact Hs].
Qed.

(** *** Controller reset: [tegra_ehci_reset] *)

Lemma tegra_ehci_reset_loop_run hcd :
  forall fuel usec hw s,
    1 <= usec < 2 ^ 31 ->
    (Z.to_nat usec <= fuel)%nat ->
    let reg := Mmio (hcd_regs hcd + TEGRA_USB_USBCMD_REG_OFFSET) in
    exists n : nat,
      (1 <= n <= Z.to_nat usec)%nat /\
      (forall k, (k < n - 1)%nat ->
                 Z.land (read_at hw s k) TEGRA_USB_USBCMD_RESET <> 0) /\
      ((Z.land (read_at hw s (n - 1)) TEGRA_USB_USBCMD_RESET = 0 /\
        tegra_ehci_reset_loop fuel hcd usec hw s =
        Some (usec - Z.of_nat (n - 1), consume n s,
              poll_events reg hw s (n - 1) ++ [EvReadl reg (read_at hw s (n - 1))]))
       \/
       (n = Z.to_nat usec /\
        Z.land (read_at hw s (n - 1)) TEGRA_USB_USBCMD_RESET <> 0 /\
        tegra_ehci_reset_loop fuel hcd usec hw s =
        Some (0, consume n s, poll_events reg hw s n))).
Proof.
  induction fuel as [|fuel IH]; intros usec hw s Hu Hf reg; [lia|].
  cbn [tegra_ehci_reset_loop]. rewrite bind_readl. fold reg.
  destruct (Z.land (read_at hw s 0) TEGRA_USB_USBCMD_RESET =? 0) eqn:Hit.
  - apply Z.eqb_eq in Hit. exists 1%nat. split; [lia|]. split; [intros; lia|].
    left. split; [exact Hit|]. rewrite ret_run, prepend_Some.
    cbn [Nat.sub Z.of_nat]. now rewrite Z.sub_0_r.
  - apply Z.eqb_neq in Hit.
    rewrite bind_udelay, prepend_prepend, wrap_int_small by lia.
    destruct (usec - 1 =? 0) eqn:Hz; cbn [negb].
    + apply Z.eqb_eq in Hz. exists 1%nat.
      split; [lia|]. split; [intros; lia|]. right.
      split; [lia|]. split; [exact Hit|]. rewrite ret_run, prepend_Some, Hz.
      reflexivity.
    + apply Z.eqb_neq in Hz.
      destruct (IH (usec - 1) hw (consume 1 s)) as (n & Hn & Hbefore & Hres);
        [lia | lia |].
      exists (S n). split; [lia|]. split.
      * intros k Hk. destruct k as [|k]; [exact Hit|].
        specialize (Hbefore k). rewrite read_at_consume in Hbefore.
        apply Hbefore. lia.
      * replace (S n - 1)%nat with (S (n - 1)) by lia.
        rewrite read_at_consume in Hres.
        replace (1 + (n - 1))%nat with (S (n - 1)) in Hres by lia.
        destruct Hres as [[Hhit E]|(Hn' & Hmiss & E)].
        -- left. split; [exact Hhit|].
           rewrite E, prepend_Some, consume_consume, (poll_events_S reg).
           rewrite <- app_assoc. do 3 f_equal. lia.
        -- right. split; [lia|]. split; [exact Hmiss|].
           rewrite E, prepend_Some, consume_consume, (poll_events_S reg hw s n).
           reflexivity.
Qed.

(** X1.  [tegra_ehci_reset] always returns.  It sets the RESET bit of
    USBCMD and then reads USBCMD at most 250000 times, 1 us apart.  At
    the first read that shows the bit clear it switches USBMODE to host
    mode (one read-modify-write that sets both mode bits) and returns 0.
    When all 250000 reads show the bit set it returns -ETIMEDOUT and
    USBMODE is not touched. *)
Theorem tegra_ehci_reset_bounded (hcd : usb_hcd) (hw : oracle) (s : machine) :
  let cmd := Mmio (hcd_regs hcd + TEGRA_USB_USBCMD_REG_OFFSET) in
  let mode := Mmio (hcd_regs hcd + TEGRA_USB_USBMODE_REG_OFFSET) in
  let start :=
    [EvReadl cmd (read_at hw s 0);
     EvWritel cmd (wrap32 (Z.lor (read_at hw s 0) TEGRA_USB_USBCMD_RESET))] in
  exists n : nat,
    1 <= Z.of_nat n <= 250000 /\
    (forall k, (1 <= k < n)%nat ->
               Z.land (read_at hw s k) TEGRA_USB_USBCMD_RESET <> 0) /\
    ((Z.land (read_at hw s n) TEGRA_USB_USBCMD_RESET = 0 /\
      tegra_ehci_reset hcd hw s =
      Some (0, consume (n + 2) s,
            start ++ poll_events cmd hw (consume 1 s) (n - 1)
              ++ [EvReadl cmd (read_at hw s n);
                  EvReadl mode (read_at hw s (n + 1));
                  EvWritel mode
                    (wrap32 (Z.lor (read_at hw s (n + 1)) TEGRA_USB_USBMODE_HOST))]))
     \/
     (Z.of_nat n = 250000 /\
      Z.land (read_at hw s n) TEGRA_USB_USBCMD_RESET <> 0 /\
      tegra_ehci_reset hcd hw s =
      Some (- ETIMEDOUT, consume (n + 1) s,
            start ++ poll_events cmd hw (consume 1 s) n))).
Proof.
  intros cmd mode start.
  assert (E0 : tegra_ehci_reset hcd hw s =
               prepend start
                 (bind (tegra_ehci_reset_loop (Z.to_nat 250000) hcd 250000)
                    (fun usec =>
                       if usec =? 0 then ret (- ETIMEDOUT)
                       else
                         bind (rmw mode (fun temp => Z.lor temp TEGRA_USB_USBMODE_HOST))
                              (fun _ => ret 0))
                    hw (consume 1 s))).
  { unfold tegra_ehci_reset. cbv zeta. unfold rmw at 1, writel at 1.
    rewrite bind_assoc, bind_readl, bind_emit, prepend_prepend.
    reflexivity. }
  rewrite E0. clear E0.
  destruct (tegra_ehci_reset_loop_run hcd (Z.to_nat 250000) 250000 hw (consume 1 s))
    as (n & Hn & Hbefore & Hres); [lia | lia |].
  fold cmd in Hres. exists n. split; [lia|]. split.
  { intros k Hk. specialize (Hbefore (k - 1)%nat).
    rewrite read_at_consume in Hbefore.
    replace (1 + (k - 1))%nat with k in Hbefore by lia. apply Hbefore. lia. }
  rewrite read_at_consume in Hres.
  replace (1 + (n - 1))%nat with n in Hres by lia.
  destruct Hres as [[Hhit E]|(Hn' & Hmiss & E)].
  - left. split; [exact Hhit|].
    rewrite (bind_run _ _ _ _ _ _ _ E), prepend_prepend.
    replace (250000 - Z.of_nat (n - 1) =? 0) with false
      by (symmetry; apply Z.eqb_neq; lia).
    unfold rmw, writel.
    rewrite bind_assoc, bind_readl, bind_emit, ret_run, !prepend_Some.
    rewrite !consume_consume, read_at_consume.
    replace (1 + n + 1)%nat with (n + 2)%nat by lia.
    replace (1 + n + 0)%nat with (n + 1)%nat by lia.
    replace (1 + (n + 1))%nat with (n + 2)%nat by lia.
    unfold start. cbn [app]. rewrite <- !app_assoc. reflexivity.
  - right. split; [lia|]. split; [exact Hmiss|].
    rewrite (bind_run _ _ _ _ _ _ _ E), prepend_prepend.
    change (0 =? 0) with true. cbv iota.
    rewrite ret_run, prepend_Some, consume_consume.
    replace (1 + n)%nat with (n + 1)%nat by lia.
    unfold start. cbn [app]. rewrite app_nil_r. reflexivity.
Qed.

(** *** The connection worker: [tegra_hsic_connection_work] *)

Lemma ext_count_app name e1 e2 :
  ext_count name (e1 ++ e2) = (ext_count name e1 + ext_count name e2)%nat.
Proof. unfold ext_count. now rewrite filter_app, length_app. Qed.

Lemma ext_count_wait name evs :
  Forall (fun e => is_wait_event e = true) evs -> ext_count name evs = 0%nat.
Proof.
  unfold ext_count. induction 1 as [|e evs He _ IH]; [reflexivity|].
  cbn [filter]. destruct e; try discriminate He; exact IH.
Qed.

(** One run of the worker that finds no device. *)
Lemma connection_work_absent hcd hw s :
  CONFIG_MACH_N1 cfg = true -> phy_wf (hcd_phy hcd) ->
  phy_is_hsic (hcd_phy hcd) -> never_detects hw ->
  exists s' evs,
    tegra_hsic_connection_work cfg hcd hw s = Some (tt, s', evs) /\
    tegra s' = tegra s /\
    (if work_count s >? 40
     then work_count s' = 0 /\ ext_count schedule_work evs = 0%nat
     else work_count s' = wrap_int (work_count s + 1) /\
          ext_count schedule_work evs = 1%nat).
Proof.
  intros HN Hwf Hh Hnd.
  destruct (is_device_connected_absent (hcd_phy hcd) hw s HN Hh Hnd)
    as (s1 & e1 & E).
  pose proof (wlp_elim _ _ _ _ _ _ _
                (shape_is_device_connected cfg (hcd_phy hcd) hw s) E) as [L _].
  pose proof (wlp_elim _ _ _ _ _ _ _
                (only_is_device_connected cfg (hcd_phy hcd) hw s) E) as W.
  pose proof (ext_count_wait schedule_work e1 W) as C1.
  unfold link_of in L. injection L as Lsh Lwc Lsy Lt Le.
  unfold tegra_hsic_connection_work, N1.
  rewrite (bind_run _ _ _ _ _ _ _ E), HN, bind_get, Lwc. cbn [andb].
  destruct (work_count s >? 40).
  - eexists _, _. split; [reflexivity|]. cbn [tegra set_work_count].
    split; [exact Lt|]. split; [reflexivity|].
    now rewrite app_nil_r.
  - cbn [when]. unfold ext_proc. rewrite bind_modify.
    eexists _, _. split; [reflexivity|]. cbn [tegra work_count set_work_count].
    split; [exact Lt|]. split; [reflexivity|].
    rewrite ext_count_app, C1. reflexivity.
Qed.

Lemma run_entries_app hcd es1 es2 hw s :
  run_entries cfg usb_phy_data TEGRA_USB_PHY_PORT_SPEED_FULL
    TEGRA_USB_PHY_PORT_SPEED_LOW TEGRA_USB_PHY_PORT_SPEED_HIGH hcd
    (es1 ++ es2) hw s =
  bind (run_entries cfg usb_phy_data TEGRA_USB_PHY_PORT_SPEED_FULL
          TEGRA_USB_PHY_PORT_SPEED_LOW TEGRA_USB_PHY_PORT_SPEED_HIGH hcd es1)
       (fun _ => run_entries cfg usb_phy_data TEGRA_USB_PHY_PORT_SPEED_FULL
                   TEGRA_USB_PHY_PORT_SPEED_LOW TEGRA_USB_PHY_PORT_SPEED_HIGH
                   hcd es2) hw s.
Proof.
  revert hw s. induction es1 as [|e es1 IH]; intros hw s; cbn [app run_entries].
  - now rewrite bind_ret.
  - rewrite bind_assoc.
    destruct (run_entry cfg usb_phy_data TEGRA_USB_PHY_PORT_SPEED_FULL
                TEGRA_USB_PHY_PORT_SPEED_LOW TEGRA_USB_PHY_PORT_SPEED_HIGH
                hcd e hw s) as [[[a s1] e1]|] eqn:E.
    + rewrite !(bind_run _ _ _ _ _ _ _ E). now rewrite IH.
    + unfold bind. now rewrite E.
Qed.

Lemma connection_work_chain hcd hw :
  CONFIG_MACH_N1 cfg = true -> phy_wf (hcd_phy hcd) ->
  phy_is_hsic (hcd_phy hcd) -> never_detects hw ->
  forall n s,
    0 <= work_count s -> work_count s + Z.of_nat n <= 41 ->
    exists s' evs,
      run_entries cfg usb_phy_data TEGRA_USB_PHY_PORT_SPEED_FULL
        TEGRA_USB_PHY_PORT_SPEED_LOW TEGRA_USB_PHY_PORT_SPEED_HIGH hcd
        (repeat ConnectionWork n) hw s = Some (tt, s', evs) /\
      tegra s' = tegra s /\
      work_count s' = work_count s + Z.of_nat n /\
      ext_count schedule_work evs = n.
Proof.
  intros HN Hwf Hh Hnd. induction n as [|n IH]; intros s H0 H1.
  - exists s, []. cbn [repeat run_entries]. split; [reflexivity|].
    split; [reflexivity|]. split; [cbn; lia | reflexivity].
  - destruct (connection_work_absent hcd hw s HN Hwf Hh Hnd)
      as (s1 & e1 & E1 & T1 & C1).
    replace (work_count s >? 40) with false in C1
      by (symmetry; rewrite Z.gtb_ltb; apply Z.ltb_ge; lia).
    destruct C1 as [W1 X1]. rewrite wrap_int_small in W1 by lia.
    destruct (IH s1) as (s2 & e2 & E2 & T2 & W2 & X2); [lia | lia |].
    exists s2, (e1 ++ e2). cbn [repeat run_entries run_entry].
    rewrite (bind_run _ _ _ _ _ _ _ E1), E2, prepend_Some.
    split; [reflexivity|]. split; [congruence|]. split; [lia|].
    rewrite ext_count_app, X1, X2. reflexivity.
Qed.

(** X2.  The connection worker gives up after 41 re-arms.  In the
    CONFIG_MACH_N1 build, on an HSIC link that never shows a device and
    starting from [work_count = 0]: each of the first 41 runs of
    [tegra_hsic_connection_work] re-arms the delayed work once and
    counts up; the 42nd run does not re-arm it and puts [work_count]
    back to 0.  None of these runs changes the controller state. *)
Theorem connection_work_gives_up (hcd : usb_hcd) (hw : oracle) (s : machine) :
  CONFIG_MACH_N1 cfg = true ->
  phy_wf (hcd_phy hcd) ->
  phy_is_hsic (hcd_phy hcd) ->
  never_detects hw ->
  work_count s = 0 ->
  (forall n, (n <= 41)%nat ->
     exists s' evs,
       run_entries cfg usb_phy_data TEGRA_USB_PHY_PORT_SPEED_FULL
         TEGRA_USB_PHY_PORT_SPEED_LOW TEGRA_USB_PHY_PORT_SPEED_HIGH hcd
         (repeat ConnectionWork n) hw s = Some (tt, s', evs) /\
       tegra s' = tegra s /\
       work_count s' = Z.of_nat n /\
       ext_count schedule_work evs = n)
  /\
  (exists s' evs,
     run_entries cfg usb_phy_data TEGRA_USB_PHY_PORT_SPEED_FULL
       TEGRA_USB_PHY_PORT_SPEED_LOW TEGRA_USB_PHY_PORT_SPEED_HIGH hcd
       (repeat ConnectionWork 42) hw s = Some (tt, s', evs) /\
     tegra s' = tegra s /\
     work_count s' = 0 /\
     ext_count schedule_work evs = 41%nat).
Proof.
  intros HN Hwf Hh Hnd H0. split.
  - intros n Hn.
    destruct (connection_work_chain hcd hw HN Hwf Hh Hnd n s)
      as (s' & evs & E & T & W & X); [lia | lia |].
    exists s', evs. rewrite H0 in W. auto.
  - destruct (connection_work_chain hcd hw HN Hwf Hh Hnd 41 s)
      as (s1 & e1 & E1 & T1 & W1 & X1); [lia | lia |].
    destruct (connection_work_absent hcd hw s1 HN Hwf Hh Hnd)
      as (s2 & e2 & E2 & T2 & C2).
    replace (work_count s1 >? 40) with true in C2
      by (symmetry; rewrite Z.gtb_ltb; apply Z.ltb_lt; lia).
    destruct C2 as [W2 X2].
    exists s2, (e1 ++ e2).
    change 42%nat with (41 + 1)%nat. rewrite repeat_app.
    split; [|split; [congruence | split; [exact W2|]]].
    + rewrite run_entries_app, (bind_run _ _ _ _ _ _ _ E1).
      cbn [repeat run_entries run_entry].
      rewrite (bind_run _ _ _ _ _ _ _ E2), ret_run, !prepend_Some.
      now rewrite app_nil_r.
    + rewrite ext_count_app, X1, X2. reflexivity.
Qed.

(** *** The glue seen from outside the register file *)

Lemma glue_view_body evs :
  no_phy_events evs -> Forall (fun e => is_phy_layer_event e = true) evs ->
  obs glue_view evs = [].
Proof.
  intros N L. apply obs_none. apply Forall_forall. intros e He.
  unfold glue_view.
  rewrite (proj1 (Forall_forall _ _) N e He), (proj1 (Forall_forall _ _) L e He).
  reflexivity.
Qed.

Lemma glue_call {A} op (code : A -> Z) (m : M A) hw s :
  total m -> only is_phy_layer_event m ->
  wlp m hw s (fun a s' evs =>
    link_of s' = link_of s /\ phy_call_shape op (ready s) (Some (code a)) evs) ->
  twp glue_view m hw s (fun a s' t =>
    link_of s' = link_of s /\ t = [EvPhyOp op (ready s); EvPhyRet op (code a)]).
Proof.
  intros T O W. destruct (T hw s) as [[[a s'] evs] E].
  pose proof (wlp_elim _ _ _ _ _ _ _ W E) as (L & body & N & ->).
  pose proof (wlp_elim _ _ _ _ _ _ _ (O hw s) E) as F. cbv beta in F.
  unfold twp, wp. rewrite E. split; [exact L|].
  apply Forall_inv_tail in F. apply Forall_app in F. destruct F as [F _].
  cbn [obs glue_view is_phy_event orb]. rewrite obs_app, (glue_view_body body N F).
  reflexivity.
Qed.

Lemma glue_call_void {A} op (m : M A) hw s :
  total m -> only is_phy_layer_event m ->
  wlp m hw s (fun a s' evs =>
    link_of s' = link_of s /\ phy_call_shape op (ready s) None evs) ->
  twp glue_view m hw s (fun a s' t =>
    link_of s' = link_of s /\ t = [EvPhyOp op (ready s)]).
Proof.
  intros T O W. destruct (T hw s) as [[[a s'] evs] E].
  pose proof (wlp_elim _ _ _ _ _ _ _ W E) as (L & body & N & ->).
  pose proof (wlp_elim _ _ _ _ _ _ _ (O hw s) E) as F. cbv beta in F.
  unfold twp, wp. rewrite E. split; [exact L|].
  apply Forall_inv_tail in F. rewrite app_nil_r in F.
  cbn [obs glue_view is_phy_event orb]. rewrite app_nil_r.
  now rewrite (glue_view_body body N F).
Qed.

Lemma glue_power_on phy hw s :
  phy_wf phy -> link_clock_apart phy ->
  twp glue_view (tegra_usb_phy_power_on cfg usb_phy_data phy) hw s
    (fun r s' t =>
       link_of s' = link_of s /\
       t = [EvPhyOp OpPowerOn (ready s); EvPhyRet OpPowerOn r]).
Proof.
  intros Hwf Hc. apply (glue_call OpPowerOn (fun r => r));
    [now apply total_power_on | now apply layer_power_on | apply shape_power_on].
Qed.

Lemma glue_power_off phy hw s :
  phy_wf phy -> link_clock_apart phy ->
  twp glue_view (tegra_usb_phy_power_off cfg usb_phy_data phy) hw s
    (fun _ s' t => link_of s' = link_of s /\ t = [EvPhyOp OpPowerOff (ready s)]).
Proof.
  intros Hwf Hc. apply (glue_call_void OpPowerOff);
    [now apply total_power_off | now apply layer_power_off | apply shape_power_off].
Qed.

Lemma glue_set_phy_clock phy on hw s :
  twp glue_view (tegra_usb_set_phy_clock cfg phy on) hw s
    (fun r s' t =>
       link_of s' = link_of s /\
       t = [EvPhyOp OpSetPhyClock (ready s); EvPhyRet OpSetPhyClock r]).
Proof.
  apply (glue_call OpSetPhyClock (fun r => r));
    [apply total_set_phy_clock | apply layer_set_phy_clock
    | apply shape_set_phy_clock].
Qed.

Lemma glue_preresume phy hw s :
  twp glue_view (tegra_usb_phy_preresume phy) hw s
    (fun _ s' t => link_of s' = link_of s /\ t = [EvPhyOp OpPreresume (ready s)]).
Proof.
  apply (glue_call_void OpPreresume);
    [apply total_preresume | apply layer_preresume | apply shape_preresume].
Qed.

Lemma twp_input P {B} (f : Z -> M B) hw s Q :
  twp P (f (hw (inputs s))) hw (consume 1 s) Q -> twp P (bind input f) hw s Q.
Proof.
  unfold twp, wp. rewrite bind_input. unfold consume.
  now rewrite Nat.add_1_r.
Qed.

Lemma twp_emit_end P e hw s (Q : unit -> machine -> list event -> Prop) :
  Q tt s (obs P [e]) -> twp P (emit e) hw s Q.
Proof. exact (fun H => H). Qed.

(** The fields the glue reads are those of [link_of]. *)
Lemma link_fields s s' :
  link_of s' = link_of s ->
  shutdown s' = shutdown s /\ work_count s' = work_count s /\
  ehci_power_up_by_sysfs s' = ehci_power_up_by_sysfs s /\
  tegra s' = tegra s /\ ehci s' = ehci s.
Proof. unfold link_of. intros H. injection H as -> -> -> -> ->. auto. Qed.

Ltac link_norm L :=
  apply link_fields in L;
  cbn [shutdown work_count ehci_power_up_by_sysfs tegra ehci consume
       set_inputs set_regulator_on set_utmip_pad_count set_shutdown
       set_work_count set_ehci_power_up_by_sysfs set_tegra set_ehci] in L;
  let L1 := fresh "Lsh" in
  let L2 := fresh "Lwc" in
  let L3 := fresh "Lfs" in
  let L4 := fresh "Ltg" in
  let L5 := fresh "Leh" in
  destruct L as (L1 & L2 & L3 & L4 & L5).

(** One step of the glue: hide what [glue_view] hides, show what it
    shows. *)
Ltac glue_step Hwf Hc :=
  match goal with
  | |- twp _ (bind (bind _ _) _) _ _ _ => apply twp_assoc
  | |- twp _ (bind (ret _) _) _ _ _ => apply twp_bind_ret
  | |- twp _ (bind get _) _ _ _ => apply twp_get
  | |- twp _ (bind input _) _ _ _ => apply twp_input
  | |- twp _ (bind (modify _) _) _ _ _ => apply twp_modify
  | |- twp _ (bind (emit _) _) _ _ _ =>
      first [apply twp_skip; [reflexivity|] | apply twp_show; [reflexivity|]]
  | |- twp _ (bind (when true _) _) _ _ _ => cbn [when]
  | |- twp _ (bind (when false _) _) _ _ _ => cbn [when]
  | |- twp _ (bind (tegra_usb_phy_power_on _ _ _) _) _ _ _ =>
      eapply twp_bind;
      [apply glue_power_on; [exact Hwf | exact Hc]
      | let L := fresh "L" in intros ? ? ? [L ->]; link_norm L]
  | |- twp _ (bind (tegra_usb_phy_power_off _ _ _) _) _ _ _ =>
      eapply twp_bind;
      [apply glue_power_off; [exact Hwf | exact Hc]
      | let L := fresh "L" in intros ? ? ? [L ->]; link_norm L]
  | |- twp _ (bind (tegra_usb_set_phy_clock _ _ _) _) _ _ _ =>
      eapply twp_bind;
      [apply glue_set_phy_clock
      | let L := fresh "L" in intros ? ? ? [L ->]; link_norm L]
  | |- twp _ (bind (tegra_usb_phy_preresume _) _) _ _ _ =>
      eapply twp_bind;
      [apply glue_preresume
      | let L := fresh "L" in intros ? ? ? [L ->]; link_norm L]
  | |- twp _ (ret _) _ _ _ => apply twp_ret
  | |- twp _ (modify _) _ _ _ => apply twp_modify_end
  | |- twp _ (emit _) _ _ _ => apply twp_emit_end
  end.

Ltac glue_open :=
  unfold clk_enable, clk_disable, spin_lock_irqsave, spin_unlock_irqrestore,
    udelay, mdelay, msleep, pr_err, gpio_set_value, writel, rmw, readl,
    ext_call, ext_proc, upd_tegra, upd_ehci.

Ltac glue_simpl :=
  unfold ready in *;
  cbn [app tegra ehci shutdown work_count ehci_power_up_by_sysfs consume
       set_inputs set_regulator_on set_utmip_pad_count set_shutdown
       set_work_count set_ehci_power_up_by_sysfs set_tegra set_ehci] in *.

Ltac glue_done :=
  glue_simpl;
  repeat match goal with
         | |- _ /\ _ => split
         | |- exists _, _ => eexists
         end;
  first [reflexivity | congruence | idtac].

Lemma power_up_glue hcd hw s :
  phy_wf (hcd_phy hcd) -> link_clock_apart (hcd_phy hcd) ->
  twp glue_view (tegra_ehci_power_up cfg usb_phy_data hcd) hw s
    (fun _ s' t =>
       (exists r,
           t = [EvClk true "emc"; EvClk true "sclk"; EvClk true "usb2";
                EvPhyOp OpPowerOn (ready s); EvPhyRet OpPowerOn r]) /\
       tegra s' = set_bus_is_power_down 0 (set_host_resumed 1 (tegra s)) /\
       ehci s' = ehci s /\ shutdown s' = shutdown s /\
       work_count s' = work_count s /\
       ehci_power_up_by_sysfs s' =
         ehci_power_up_by_sysfs s
         && negb (CONFIG_USB_EHCI_ONOFF_FEATURE cfg && CONFIG_MACH_N1 cfg
                  && (instance (hcd_phy hcd) =? 1))).
Proof.
  intros Hwf Hc. unfold tegra_ehci_power_up, N1. glue_open.
  do 3 glue_step Hwf Hc.
  destruct (CONFIG_USB_EHCI_ONOFF_FEATURE cfg && CONFIG_MACH_N1 cfg) eqn:EN;
    cbn [when andb negb].
  - repeat glue_step Hwf Hc.
    destruct (ehci_power_up_by_sysfs s) eqn:E1,
             (instance (hcd_phy hcd) =? 1) eqn:E2;
      cbn [when andb negb]; repeat glue_step Hwf Hc; glue_done.
  - repeat glue_step Hwf Hc. rewrite andb_true_r. glue_done.
Qed.

Lemma power_down_glue hcd hw s :
  phy_wf (hcd_phy hcd) -> link_clock_apart (hcd_phy hcd) ->
  twp glue_view (tegra_ehci_power_down cfg usb_phy_data hcd) hw s
    (fun _ s' t =>
       t = EvPhyOp OpPowerOff (ready s)
             :: (if bus_is_power_down (tegra s) =? 0
                 then [EvClk false "usb2"; EvClk false "sclk"; EvClk false "emc"]
                 else [EvClk false "usb2min"]) /\
       tegra s' =
         (if bus_is_power_down (tegra s) =? 0
          then set_hub_suspend_req 0 (set_host_resumed 0 (tegra s))
          else set_host_resumed 0 (tegra s)) /\
       ehci s' = ehci s /\ shutdown s' = shutdown s /\
       work_count s' = work_count s /\
       ehci_power_up_by_sysfs s' = ehci_power_up_by_sysfs s).
Proof.
  intros Hwf Hc. unfold tegra_ehci_power_down. glue_open.
  repeat glue_step Hwf Hc.
  rewrite Ltg. cbn [tegra set_tegra bus_is_power_down set_host_resumed].
  destruct (bus_is_power_down (tegra s) =? 0) eqn:E; cbn [negb];
    repeat glue_step Hwf Hc; glue_done.
Qed.

(** X8.  [tegra_ehci_power_down] after [tegra_ehci_power_up] undoes it:
    the three clocks the power-up enabled ([emc], [sclk], [usb2]) are
    disabled in the reverse order, the PHY is powered on once and off
    once in between, and of [struct tegra_ehci_hcd] only three fields
    have changed: [host_resumed], [bus_is_power_down] and
    [hub_suspend_req] are 0.  A power-down that finds
    [bus_is_power_down] set instead disables only the [usb2min] clock
    and leaves [hub_suspend_req] alone. *)
Theorem power_up_down_round_trip (hcd : usb_hcd) (hw : oracle) (s : machine) :
  phy_wf (hcd_phy hcd) -> link_clock_apart (hcd_phy hcd) ->
  (exists s1 e1 s2 e2 r,
      tegra_ehci_power_up cfg usb_phy_data hcd hw s = Some (tt, s1, e1) /\
      tegra_ehci_power_down cfg usb_phy_data hcd hw s1 = Some (tt, s2, e2) /\
      obs glue_view (e1 ++ e2) =
        [EvClk true "emc"; EvClk true "sclk"; EvClk true "usb2";
         EvPhyOp OpPowerOn (ready s); EvPhyRet OpPowerOn r;
         EvPhyOp OpPowerOff (ready s);
         EvClk false "usb2"; EvClk false "sclk"; EvClk false "emc"] /\
      host_resumed (tegra s1) = 1 /\
      tegra s2 =
        set_hub_suspend_req 0
          (set_bus_is_power_down 0 (set_host_resumed 0 (tegra s))))
  /\
  (bus_is_power_down (tegra s) <> 0 ->
   exists s2 e2,
     tegra_ehci_power_down cfg usb_phy_data hcd hw s = Some (tt, s2, e2) /\
     obs glue_view e2 = [EvPhyOp OpPowerOff (ready s); EvClk false "usb2min"] /\
     tegra s2 = set_host_resumed 0 (tegra s)).
Proof.
  intros Hwf Hc. split.
  - destruct (twp_elim _ _ _ _ _ (power_up_glue hcd hw s Hwf Hc))
      as ([] & s1 & e1 & E1 & (r & T1) & G1 & _).
    destruct (twp_elim _ _ _ _ _ (power_down_glue hcd hw s1 Hwf Hc))
      as ([] & s2 & e2 & E2 & T2 & G2 & _).
    exists s1, e1, s2, e2, r. split; [exact E1|]. split; [exact E2|].
    rewrite G1 in G2, T2. unfold ready in T2. rewrite G1 in T2.
    cbn [bus_is_power_down set_bus_is_power_down set_host_resumed
         device_ready_for_reset Z.eqb] in G2, T2.
    rewrite obs_app, T1, T2, G1, G2. split; [reflexivity|].
    split; [reflexivity|]. now destruct (tegra s).
  - intros Hb. apply Z.eqb_neq in Hb.
    destruct (twp_elim _ _ _ _ _ (power_down_glue hcd hw s Hwf Hc))
      as ([] & s2 & e2 & E2 & T2 & G2 & _).
    rewrite Hb in T2, G2. now exists s2, e2.
Qed.

Ltac glue_fields :=
  cbn [port_speed hw_accessible device_ready_for_reset host_resumed
       bus_is_power_down hub_suspend_req port_resuming
       set_device_ready_for_reset set_port_speed set_host_resumed
       set_hub_suspend_req set_bus_is_power_down set_port_resuming
       set_hw_accessible inputs app] in *.

Ltac glue_power Hwf Hc :=
  let HQ := fresh "HQ" in
  match goal with
  | |- twp _ (bind (phy_is_uhsic _) _) _ _ _ =>
      eapply twp_run; [apply phy_is_uhsic_handle; exact Hwf|]; cbn [obs app]
  | |- twp _ (bind (tegra_ehci_power_down _ _ _) _) _ _ _ =>
      eapply twp_bind;
      [apply power_down_glue; [exact Hwf | exact Hc]
      | intros [] ? ? HQ; cbv beta in HQ;
        destruct HQ as (-> & ? & ? & ? & ? & ?)]
  | |- twp _ (bind (tegra_ehci_power_up _ _ _) _) _ _ _ =>
      eapply twp_bind;
      [apply power_up_glue; [exact Hwf | exact Hc]
      | intros [] ? ? HQ; cbv beta in HQ;
        destruct HQ as ((? & ->) & ? & ? & ? & ? & ?)]
  | _ => glue_step Hwf Hc
  end.

Lemma suspend_glue hcd hw s :
  phy_wf (hcd_phy hcd) -> link_clock_apart (hcd_phy hcd) ->
  twp glue_view (tegra_usb_suspend cfg usb_phy_data hcd) hw s
    (fun r s' t =>
       r = 0 /\
       port_speed (tegra s') = Z.land (Z.shiftr (read_at hw s 0) 26) 0x3 /\
       hw_accessible (ehci s') = false /\
       device_ready_for_reset (tegra s') =
         device_ready_for_reset (tegra s)
         && negb (CONFIG_MACH_N1 cfg && hsic_handle (hcd_phy hcd)) /\
       host_resumed (tegra s') =
         (if CONFIG_MACH_N1 cfg && (instance (hcd_phy hcd) =? 1)
             && (shutdown s =? 1)
          then host_resumed (tegra s) else 0) /\
       exists halt off,
         t = [EvLock true "ehci->lock"; EvExt "ehci_halt" halt;
              EvLock false "ehci->lock"]
               ++ (if CONFIG_MACH_N1 cfg && (instance (hcd_phy hcd) =? 1)
                      && (shutdown s =? 1)
                   then [] else EvPhyOp OpPowerOff (ready s') :: off) /\
         Forall (fun e => exists n, e = EvClk false n) off).
Proof.
  intros Hwf Hc.
  unfold tegra_usb_suspend, N1. glue_open.
  repeat glue_power Hwf Hc.
  destruct (CONFIG_MACH_N1 cfg && hsic_handle (hcd_phy hcd)) eqn:EH;
    cbn [when]; repeat glue_power Hwf Hc; glue_simpl;
    (destruct (CONFIG_MACH_N1 cfg && (instance (hcd_phy hcd) =? 1)
               && (shutdown s =? 1)) eqn:EL;
     repeat glue_power Hwf Hc; glue_simpl;
     rewrite ?read_at_0; glue_fields;
     repeat match goal with
            | H : tegra _ = _ |- _ => rewrite H; clear H
            | H : ehci _ = _ |- _ => rewrite H; clear H
            end;
     try destruct (bus_is_power_down (tegra s) =? 0);
     glue_fields; rewrite ?andb_true_r, ?andb_false_r, ?app_nil_r;
     repeat split;
     eexists _, _; (split; [reflexivity|]);
     repeat constructor; eexists; reflexivity).
Qed.

(** X9.  [tegra_usb_suspend] always returns 0, whatever [ehci_halt]
    reported.  It records bits 27:26 of the port status it read as
    [port_speed], marks the controller as not accessible and, on the N1
    build, clears [device_ready_for_reset] of an HSIC port.  It then
    powers the PHY down once, after the lock is released; only when the
    N1 shutdown latch is set on instance 1 is the power-down skipped and
    [host_resumed] left as it was. *)
Theorem suspend_records_speed_and_powers_down (hcd : usb_hcd) (hw : oracle)
    (s : machine) :
  phy_wf (hcd_phy hcd) -> link_clock_apart (hcd_phy hcd) ->
  let latched :=
    CONFIG_MACH_N1 cfg && (instance (hcd_phy hcd) =? 1) && (shutdown s =? 1) in
  exists s' evs halt off,
    tegra_usb_suspend cfg usb_phy_data hcd hw s = Some (0, s', evs) /\
    port_speed (tegra s') = Z.land (Z.shiftr (read_at hw s 0) 26) 0x3 /\
    hw_accessible (ehci s') = false /\
    device_ready_for_reset (tegra s') =
      device_ready_for_reset (tegra s)
      && negb (CONFIG_MACH_N1 cfg && hsic_handle (hcd_phy hcd)) /\
    host_resumed (tegra s') = (if latched then host_resumed (tegra s) else 0) /\
    obs glue_view evs =
      [EvLock true "ehci->lock"; EvExt "ehci_halt" halt;
       EvLock false "ehci->lock"]
        ++ (if latched then [] else EvPhyOp OpPowerOff (ready s') :: off) /\
    Forall (fun e => exists n, e = EvClk false n) off.
Proof.
  intros Hwf Hc latched. subst latched.
  destruct (twp_elim _ _ _ _ _ (suspend_glue hcd hw s Hwf Hc))
    as (r & s' & evs & E & -> & H1 & H2 & H3 & H4 & halt & off & H5 & H6).
  exists s', evs, halt, off. auto 10.
Qed.

(** *** The shutdown latch *)

Lemma shutdown_glue hcd hw s :
  phy_wf (hcd_phy hcd) -> link_clock_apart (hcd_phy hcd) ->
  twp glue_view (EhciPower.tegra_ehci_shutdown cfg usb_phy_data hcd) hw s
    (fun _ s' t =>
       shutdown s' =
         (if CONFIG_MACH_N1 cfg && (instance (hcd_phy hcd) =? 1) then 1
          else shutdown s) /\
       host_resumed (tegra s') = 0 /\
       exists up off,
         t = up ++ [EvExt "ehci_shutdown" 0; EvPhyOp OpPowerOff (ready s)] ++ off /\
         (if host_resumed (tegra s) =? 0
          then exists r, up = [EvClk true "emc"; EvClk true "sclk";
                               EvClk true "usb2";
                               EvPhyOp OpPowerOn (ready s); EvPhyRet OpPowerOn r]
          else up = []) /\
         Forall (fun e => exists n, e = EvClk false n) off).
Proof.
  intros Hwf Hc. unfold EhciPower.tegra_ehci_shutdown. glue_open.
  glue_power Hwf Hc.
  destruct (CONFIG_MACH_N1 cfg && (instance (hcd_phy hcd) =? 1)) eqn:EN;
    cbn [when]; repeat glue_power Hwf Hc; glue_simpl;
    (destruct (host_resumed (tegra s) =? 0) eqn:ER; cbn [when];
     repeat glue_power Hwf Hc; glue_simpl; glue_fields;
     repeat match goal with
            | H : tegra _ = _ |- _ => rewrite H in *; clear H
            end;
     glue_fields;
     try destruct (bus_is_power_down (tegra s) =? 0);
     glue_fields; rewrite ?app_nil_r;
     (split; [congruence|]); (split; [reflexivity|]);
     cbn [obs glue_view is_phy_event is_phy_layer_event orb negb Z.eqb];
     first [ eexists [_; _; _; _; _], _; split; [reflexivity|]
           | exists []; eexists; split; [reflexivity|] ];
     (split; [first [reflexivity | eexists; reflexivity]|]);
     repeat constructor; eexists; reflexivity).
Qed.

Lemma bus_suspend_latched hcd hw s :
  CONFIG_MACH_N1 cfg = true -> instance (hcd_phy hcd) = 1 -> shutdown s = 1 ->
  tegra_ehci_bus_suspend cfg hcd hw s = Some (0, s, []).
Proof.
  intros HN Hi Hs. unfold tegra_ehci_bus_suspend, N1.
  rewrite bind_get, HN, Hi, Hs. reflexivity.
Qed.

Ltac glue_case :=
  match goal with
  | |- twp _ (if ?c then _ else _) _ _ _ => destruct c eqn:?
  | |- twp _ (bind (when ?c _) _) _ _ _ => destruct c eqn:?; cbn [when]
  | |- twp _ (bind (if ?c then _ else _) _) _ _ _ => destruct c eqn:?
  end.

Lemma hub_power_latched hcd wIndex hw s :
  phy_wf (hcd_phy hcd) -> link_clock_apart (hcd_phy hcd) ->
  CONFIG_MACH_N1 cfg = true -> shutdown s = 1 ->
  twp glue_view
    (tegra_ehci_hub_control cfg hcd SetPortFeature USB_PORT_FEAT_POWER wIndex)
    hw s
    (fun _ s' t =>
       link_of s' = link_of s /\
       exists r, t = [EvLock true "ehci->lock"; EvLock false "ehci->lock"]
                       ++ match r with
                          | Some v => [EvExt "ehci_hub_control" v]
                          | None => []
                          end).
Proof.
  intros Hwf Hc HN Hs.
  unfold tegra_ehci_hub_control, hub_rest, hub_hsic_reset_power, hub_done, N1.
  glue_open. rewrite HN.
  change (SetPortFeature =? ClearPortFeature) with false.
  change (SetPortFeature =? GetPortStatus) with false.
  change (SetPortFeature =? SetPortFeature) with true.
  change (USB_PORT_FEAT_POWER =? USB_PORT_FEAT_SUSPEND) with false.
  change (USB_PORT_FEAT_POWER =? USB_PORT_FEAT_RESET) with false.
  change (USB_PORT_FEAT_POWER =? USB_PORT_FEAT_POWER) with true.
  cbn [andb orb].
  repeat glue_power Hwf Hc.
  destruct (hsic_handle (hcd_phy hcd)) eqn:EH; cbn [andb];
    repeat first
      [ glue_power Hwf Hc
      | progress (glue_simpl; rewrite ?Hs; cbn [Z.eqb Pos.eqb])
      | glue_case ];
    (split; [reflexivity|]);
    first [exists None; reflexivity | eexists (Some _); reflexivity].
Qed.

Lemma phy_trace_glue_view evs : phy_trace (obs glue_view evs) = phy_trace evs.
Proof.
  unfold phy_trace. induction evs as [|e evs IH]; [reflexivity|].
  cbn [obs]. unfold glue_view at 1.
  destruct (is_phy_event e) eqn:E; cbn [orb].
  - cbn [obs]. now rewrite E, IH.
  - destruct (negb (is_phy_layer_event e)); [cbn [obs]; rewrite E|]; exact IH.
Qed.

(** X10.  The N1 shutdown latch.  On instance 1 of the N1 build
    [tegra_ehci_shutdown] sets [shutdown]; it powers the PHY up first
    when the host was not resumed, so that [ehci_shutdown] runs with the
    PHY on, then powers it off and leaves [host_resumed] at 0.  From
    then on [tegra_ehci_bus_suspend] returns 0 without doing anything,
    and neither [tegra_usb_suspend] nor a port-power request to
    [tegra_ehci_hub_control] enters the PHY layer again. *)
Theorem shutdown_latch (hcd : usb_hcd) (hw : oracle) (s : machine) :
  phy_wf (hcd_phy hcd) -> link_clock_apart (hcd_phy hcd) ->
  CONFIG_MACH_N1 cfg = true -> instance (hcd_phy hcd) = 1 ->
  exists s1 e1 up off,
    EhciPower.tegra_ehci_shutdown cfg usb_phy_data hcd hw s = Some (tt, s1, e1) /\
    shutdown s1 = 1 /\
    host_resumed (tegra s1) = 0 /\
    obs glue_view e1 =
      up ++ [EvExt "ehci_shutdown" 0; EvPhyOp OpPowerOff (ready s)] ++ off /\
    calls OpPowerOn up = (if host_resumed (tegra s) =? 0 then 1%nat else 0%nat) /\
    Forall (fun e => exists n, e = EvClk false n) off /\
    (forall hw', tegra_ehci_bus_suspend cfg hcd hw' s1 = Some (0, s1, [])) /\
    (forall hw', exists s2 e2,
        tegra_usb_suspend cfg usb_phy_data hcd hw' s1 = Some (0, s2, e2) /\
        phy_trace e2 = []) /\
    (forall hw' wIndex, exists r s2 e2,
        tegra_ehci_hub_control cfg hcd SetPortFeature USB_PORT_FEAT_POWER wIndex
          hw' s1 = Some (r, s2, e2) /\
        phy_trace e2 = []).
Proof.
  intros Hwf Hc HN Hi.
  destruct (twp_elim _ _ _ _ _ (shutdown_glue hcd hw s Hwf Hc))
    as ([] & s1 & e1 & E1 & Hs & Hr & up & off & T & Hup & Hoff).
  rewrite HN, Hi in Hs. cbn [andb Z.eqb Pos.eqb] in Hs.
  exists s1, e1, up, off.
  split; [exact E1|]. split; [exact Hs|]. split; [exact Hr|].
  split; [exact T|]. split.
  { destruct (host_resumed (tegra s) =? 0).
    - destruct Hup as [r ->]. reflexivity.
    - now subst up. }
  split; [exact Hoff|]. split.
  { intros hw'. now apply bus_suspend_latched. }
  split.
  - intros hw'.
    destruct (twp_elim _ _ _ _ _ (suspend_glue hcd hw' s1 Hwf Hc))
      as (r & s2 & e2 & E2 & -> & _ & _ & _ & _ & halt & off2 & T2 & _).
    exists s2, e2. split; [exact E2|].
    rewrite HN, Hi, Hs in T2. cbn [andb Z.eqb Pos.eqb app] in T2.
    rewrite <- phy_trace_glue_view, T2. reflexivity.
  - intros hw' wIndex.
    destruct (twp_elim _ _ _ _ _ (hub_power_latched hcd wIndex hw' s1 Hwf Hc HN Hs))
      as (r & s2 & e2 & E2 & _ & r' & T2).
    exists r, s2, e2. split; [exact E2|].
    rewrite <- phy_trace_glue_view, T2. now destruct r'.
Qed.

(** *** Bus suspend and resume *)

Lemma bus_suspend_glue hcd hw s :
  CONFIG_MACH_N1 cfg && (instance (hcd_phy hcd) =? 1) && (shutdown s =? 1) = false ->
  wrap_int (hw (inputs s)) = 0 ->
  require_power_down_on_bus_suspend hcd <> 0 ->
  hub_suspend_req (tegra s) <> 0 ->
  twp glue_view (tegra_ehci_bus_suspend cfg hcd) hw s
    (fun r s' t =>
       exists off,
         t = [EvExt "ehci_bus_suspend" 0;
              EvPhyOp OpSetPhyClock (ready s); EvPhyRet OpSetPhyClock off;
              EvExt "clk_enable(tegra->clk_min)" r]
               ++ (if r =? 0 then [EvClk false "usb2"; EvClk false "emc"]
                   else []) /\
         tegra s' =
           (if r =? 0
            then set_bus_is_power_down 1 (set_hub_suspend_req 0 (tegra s))
            else tegra s) /\
         ehci s' = ehci s /\ shutdown s' = shutdown s).
Proof.
  intros HL H0 Hreq Hhub. apply Z.eqb_neq in Hreq, Hhub.
  unfold tegra_ehci_bus_suspend, N1. glue_open.
  glue_step I I. rewrite HL.
  repeat glue_step I I. rewrite H0. cbn [Z.eqb negb].
  repeat glue_step I I. glue_simpl. rewrite Hreq, Hhub. cbn [negb andb].
  repeat glue_step I I.
  match goal with
  | |- twp _ (if negb (?r =? 0) then _ else _) _ _ _ => destruct (r =? 0) eqn:ER
  end; cbn [negb]; repeat glue_step I I; glue_simpl; rewrite ?ER;
    eexists; repeat split; try reflexivity; congruence.
Qed.

Lemma bus_resume_glue hcd hw s :
  twp glue_view (tegra_ehci_bus_resume cfg hcd) hw s
    (fun r s' t =>
       let powered_down :=
         negb (require_power_down_on_bus_suspend hcd =? 0)
         && negb (bus_is_power_down (tegra s) =? 0) in
       tegra s' =
         set_port_resuming 1
           (if powered_down then set_bus_is_power_down 0 (tegra s) else tegra s) /\
       exists pre,
         t = pre ++ [EvPhyOp OpPreresume (ready s); EvExt "ehci_bus_resume" r] /\
         if powered_down
         then exists r1 r2 on,
             pre = [EvExt "clk_enable(tegra->clk)" r1;
                    EvExt "clk_enable(tegra->emc_clk)" r2;
                    EvClk false "usb2min";
                    EvPhyOp OpSetPhyClock (ready s); EvPhyRet OpSetPhyClock on]
         else pre = []).
Proof.
  unfold tegra_ehci_bus_resume. glue_open. glue_step I I.
  destruct (negb (require_power_down_on_bus_suspend hcd =? 0)
            && negb (bus_is_power_down (tegra s) =? 0)) eqn:EP; cbn [when];
    repeat first [glue_step I I | glue_case]; glue_simpl;
    repeat match goal with
           | H : tegra _ = _ |- _ => rewrite H in *; clear H
           end;
    (split; [reflexivity|]);
    first [ exists []; split; reflexivity
          | eexists [_; _; _; _; _]; split;
            [reflexivity | eexists _, _, _; reflexivity] ].
Qed.

Lemma calls_glue_view op evs : calls op (obs glue_view evs) = calls op evs.
Proof.
  rewrite <- (calls_phy_trace op (obs glue_view evs)), phy_trace_glue_view.
  apply calls_phy_trace.
Qed.

(** X11.  The power-down bookkeeping of [tegra_ehci_bus_suspend].  When
    the root hub has asked for a suspend on a controller that powers
    down on bus suspend, the function switches the PHY clock off and
    then enables [clk_min].  If that succeeds it disables the [usb2] and
    [emc] clocks and sets [bus_is_power_down], and the next
    [tegra_ehci_bus_resume] switches the PHY clock on again and clears
    the flag.  If enabling [clk_min] fails the error is returned with
    the PHY clock already off and [bus_is_power_down] still 0, so the
    next [tegra_ehci_bus_resume] does not switch the PHY clock on. *)
Theorem bus_suspend_power_down_bookkeeping (hcd : usb_hcd) (hw : oracle)
    (s : machine) :
  CONFIG_MACH_N1 cfg && (instance (hcd_phy hcd) =? 1) && (shutdown s =? 1) = false ->
  wrap_int (hw (inputs s)) = 0 ->
  require_power_down_on_bus_suspend hcd <> 0 ->
  hub_suspend_req (tegra s) <> 0 ->
  bus_is_power_down (tegra s) = 0 ->
  exists rc s1 e1 off,
    tegra_ehci_bus_suspend cfg hcd hw s = Some (rc, s1, e1) /\
    obs glue_view e1 =
      [EvExt "ehci_bus_suspend" 0;
       EvPhyOp OpSetPhyClock (ready s); EvPhyRet OpSetPhyClock off;
       EvExt "clk_enable(tegra->clk_min)" rc]
        ++ (if rc =? 0 then [EvClk false "usb2"; EvClk false "emc"] else []) /\
    bus_is_power_down (tegra s1) = (if rc =? 0 then 1 else 0) /\
    hub_suspend_req (tegra s1) = (if rc =? 0 then 0 else hub_suspend_req (tegra s)) /\
    forall hw', exists r s2 e2,
      tegra_ehci_bus_resume cfg hcd hw' s1 = Some (r, s2, e2) /\
      bus_is_power_down (tegra s2) = 0 /\
      port_resuming (tegra s2) = 1 /\
      calls OpSetPhyClock e2 = (if rc =? 0 then 1%nat else 0%nat) /\
      calls OpPreresume e2 = 1%nat.
Proof.
  intros HL H0 Hreq Hhub Hdown.
  destruct (twp_elim _ _ _ _ _ (bus_suspend_glue hcd hw s HL H0 Hreq Hhub))
    as (rc & s1 & e1 & E1 & off & T1 & G1 & _).
  exists rc, s1, e1, off. split; [exact E1|]. split; [exact T1|].
  split; [rewrite G1; now destruct (rc =? 0)|].
  split; [rewrite G1; now destruct (rc =? 0)|].
  intros hw'.
  destruct (twp_elim _ _ _ _ _ (bus_resume_glue hcd hw' s1))
    as (r & s2 & e2 & E2 & G2 & pre & T2 & Hpre).
  cbv zeta in G2. exists r, s2, e2. split; [exact E2|].
  apply Z.eqb_neq in Hreq. rewrite Hreq in G2, Hpre. cbn [negb andb] in G2, Hpre.
  rewrite <- !(calls_glue_view _ e2), T2, !calls_app.
  rewrite G1 in G2, Hpre.
  destruct (rc =? 0);
    cbn [bus_is_power_down set_bus_is_power_down set_hub_suspend_req Z.eqb negb]
      in G2, Hpre.
  - destruct Hpre as (r1 & r2 & on & ->). rewrite G2. repeat split.
  - rewrite Hdown in G2, Hpre. cbn [Z.eqb negb] in G2, Hpre. subst pre.
    rewrite G2. repeat split. exact Hdown.
Qed.

(** *** The sysfs power switch *)

Lemma store_power_on_glue hcd root_hub count handle hw s :
  phy_wf (hcd_phy hcd) -> link_clock_apart (hcd_phy hcd) ->
  (CONFIG_MACH_N1 cfg = true -> wrap_int (hw (inputs s)) <> 0) ->
  twp glue_view
    (EhciPower.store_ehci_power cfg usb_phy_data hcd root_hub (Some 1) count handle)
    hw s
    (fun rh s' t =>
       exists r add,
         rh = (if add <? 0 then add else count, negb (add <? 0)) /\
         host_resumed (tegra s') = (if add <? 0 then 0 else 1) /\
         t = (if CONFIG_MACH_N1 cfg
              then [EvExt "device_trylock" (wrap_int (hw (inputs s)))] else [])
               ++ (if handle then [EvExt "usb_remove_hcd" 0] else [])
               ++ [EvClk true "emc"; EvClk true "sclk"; EvClk true "usb2";
                   EvPhyOp OpPowerOn (ready s); EvPhyRet OpPowerOn r;
                   EvExt "usb_add_hcd" add]
               ++ (if add <? 0
                   then [EvPhyOp OpPowerOff (ready s); EvClk false "usb2";
                         EvClk false "sclk"; EvClk false "emc"]
                   else [])
               ++ (if CONFIG_MACH_N1 cfg then [EvExt "device_unlock" 0] else [])).
Proof.
  intros Hwf Hc Hlock. unfold EhciPower.store_ehci_power. glue_open.
  change (1 =? 0) with false. change (1 =? 1) with true. cbn [andb].
  destruct (CONFIG_MACH_N1 cfg) eqn:HN.
  - specialize (Hlock eq_refl). apply Z.eqb_neq in Hlock.
    repeat glue_power Hwf Hc. rewrite Hlock.
    destruct handle; cbn [when]; repeat glue_power Hwf Hc; glue_simpl;
      (match goal with
       | |- twp _ (bind (if ?a <? 0 then _ else _) _) _ _ _ =>
           destruct (a <? 0) eqn:EA
       end;
       repeat glue_power Hwf Hc; glue_simpl; glue_fields;
       repeat match goal with
              | H : tegra _ = _ |- _ => rewrite H in *; clear H
              end;
       glue_fields; cbn [Z.eqb];
       eexists _, _; rewrite EA; repeat split; reflexivity).
  - repeat glue_power Hwf Hc. change (1 =? 0) with false. cbv iota.
    destruct handle; cbn [when]; repeat glue_power Hwf Hc; glue_simpl;
      (match goal with
       | |- twp _ (bind (if ?a <? 0 then _ else _) _) _ _ _ =>
           destruct (a <? 0) eqn:EA
       end;
       repeat glue_power Hwf Hc; glue_simpl; glue_fields;
       repeat match goal with
              | H : tegra _ = _ |- _ => rewrite H in *; clear H
              end;
       glue_fields; cbn [Z.eqb];
       eexists _, _; rewrite EA; repeat split; reflexivity).
Qed.

Ltac off_done :=
  (split; [reflexivity|]); (split; [reflexivity|]);
  (split; [rewrite ?app_nil_r; reflexivity|]);
  repeat constructor; eexists; reflexivity.

Lemma store_power_off_glue hcd root_hub count hw s :
  phy_wf (hcd_phy hcd) -> link_clock_apart (hcd_phy hcd) ->
  (CONFIG_MACH_N1 cfg = true -> wrap_int (hw (inputs s)) <> 0) ->
  twp glue_view
    (EhciPower.store_ehci_power cfg usb_phy_data hcd root_hub (Some 0) count true)
    hw s
    (fun rh s' t =>
       exists off,
         rh = (count, false) /\
         host_resumed (tegra s') = 0 /\
         t = (if CONFIG_MACH_N1 cfg
              then [EvExt "device_trylock" (wrap_int (hw (inputs s)))] else [])
               ++ (if root_hub
                   then [EvExt "usb_disable_autosuspend" 0;
                         EvExt "usleep_range(5000, 10000)" 0]
                   else [])
               ++ [EvExt "usb_remove_hcd" 0; EvPhyOp OpPowerOff (ready s)]
               ++ off
               ++ (if CONFIG_MACH_N1 cfg then [EvExt "device_unlock" 0] else []) /\
         Forall (fun e => exists n, e = EvClk false n) off).
Proof.
  intros Hwf Hc Hlock. unfold EhciPower.store_ehci_power. glue_open.
  change (0 =? 0) with true. cbn [andb].
  destruct (CONFIG_MACH_N1 cfg) eqn:HN.
  - specialize (Hlock eq_refl). apply Z.eqb_neq in Hlock.
    repeat glue_power Hwf Hc. rewrite Hlock.
    destruct root_hub; cbn [when]; repeat glue_power Hwf Hc; glue_simpl;
      glue_fields;
      repeat match goal with
             | H : tegra _ = _ |- _ => rewrite H in *; clear H
             end;
      (destruct (bus_is_power_down (tegra s) =? 0); glue_fields;
       first [eexists [_; _; _]; off_done | eexists [_]; off_done]).
  - repeat glue_power Hwf Hc. change (1 =? 0) with false. cbv iota.
    destruct root_hub; cbn [when]; repeat glue_power Hwf Hc; glue_simpl;
      glue_fields;
      repeat match goal with
             | H : tegra _ = _ |- _ => rewrite H in *; clear H
             end;
      (destruct (bus_is_power_down (tegra s) =? 0); glue_fields;
       first [eexists [_; _; _]; off_done | eexists [_]; off_done]).
Qed.

(** X12.  [store_ehci_power], the sysfs power switch.  Input that is
    not a number is refused with [-EINVAL], and on the N1 build a busy
    device with [-EBUSY]; neither touches the controller.  Writing 1
    powers the PHY up and registers the host controller, after removing
    a controller that was still registered; if [usb_add_hcd] fails, its
    error is returned, the PHY is powered down again and [ehci_handle]
    is cleared.  Writing 0 to a live handle removes the controller,
    powers the PHY down and clears the handle.  Writing 0 without a
    handle, or any other number, changes nothing.  On the N1 build the
    device lock taken at the start is released as the last action. *)
Theorem store_ehci_power_switch (hcd : usb_hcd) (root_hub : bool) (count : Z)
    (handle : bool) (hw : oracle) (s : machine) :
  phy_wf (hcd_phy hcd) -> link_clock_apart (hcd_phy hcd) ->
  let store p :=
    EhciPower.store_ehci_power cfg usb_phy_data hcd root_hub p count handle hw s in
  let lock :=
    if CONFIG_MACH_N1 cfg
    then [EvExt "device_trylock" (wrap_int (hw (inputs s)))] else [] in
  let unlock := if CONFIG_MACH_N1 cfg then [EvExt "device_unlock" 0] else [] in
  store None = Some ((- EINVAL, handle), s, [])
  /\
  (forall p,
      CONFIG_MACH_N1 cfg = true -> wrap_int (hw (inputs s)) = 0 ->
      store (Some p) = Some ((- EhciPower.EBUSY, handle), consume 1 s, lock))
  /\
  ((CONFIG_MACH_N1 cfg = true -> wrap_int (hw (inputs s)) <> 0) ->
   (exists s' evs r add,
       store (Some 1) =
         Some ((if add <? 0 then add else count, negb (add <? 0)), s', evs) /\
       host_resumed (tegra s') = (if add <? 0 then 0 else 1) /\
       obs glue_view evs =
         lock ++ (if handle then [EvExt "usb_remove_hcd" 0] else [])
           ++ [EvClk true "emc"; EvClk true "sclk"; EvClk true "usb2";
               EvPhyOp OpPowerOn (ready s); EvPhyRet OpPowerOn r;
               EvExt "usb_add_hcd" add]
           ++ (if add <? 0
               then [EvPhyOp OpPowerOff (ready s); EvClk false "usb2";
                     EvClk false "sclk"; EvClk false "emc"]
               else [])
           ++ unlock)
   /\
   (handle = true ->
    exists s' evs off,
      store (Some 0) = Some ((count, false), s', evs) /\
      host_resumed (tegra s') = 0 /\
      obs glue_view evs =
        lock ++ (if root_hub
                 then [EvExt "usb_disable_autosuspend" 0;
                       EvExt "usleep_range(5000, 10000)" 0]
                 else [])
          ++ [EvExt "usb_remove_hcd" 0; EvPhyOp OpPowerOff (ready s)]
          ++ off ++ unlock /\
      Forall (fun e => exists n, e = EvClk false n) off)
   /\
   (forall p,
       p <> 1 -> (p = 0 -> handle = false) ->
       exists s',
         store (Some p) = Some ((count, handle), s', lock ++ unlock) /\
         link_of s' = link_of s)).
Proof.
  intros Hwf Hc store lock unlock. subst store lock unlock. cbv beta.
  split; [reflexivity|]. split.
  { intros p HN H0. unfold EhciPower.store_ehci_power, ext_call.
    rewrite HN, !bind_assoc, bind_input. cbv zeta.
    rewrite !bind_assoc, bind_emit, bind_ret, H0.
    unfold consume. rewrite Nat.add_1_r. reflexivity. }
  intros Hlock. split; [|split].
  - destruct (twp_elim _ _ _ _ _
                (store_power_on_glue hcd root_hub count handle hw s Hwf Hc Hlock))
      as (rh & s' & evs & E & r & add & -> & Hr & T).
    exists s', evs, r, add. auto.
  - intros ->.
    destruct (twp_elim _ _ _ _ _
                (store_power_off_glue hcd root_hub count hw s Hwf Hc Hlock))
      as (rh & s' & evs & E & off & -> & Hr & T & F).
    exists s', evs, off. auto.
  - intros p Hp1 Hp0. apply Z.eqb_neq in Hp1.
    assert ((p =? 0) && handle = false) as E0.
    { destruct (p =? 0) eqn:E; [|reflexivity].
      apply Z.eqb_eq in E. now rewrite (Hp0 E). }
    unfold EhciPower.store_ehci_power, ext_call, ext_proc.
    rewrite E0, Hp1.
    destruct (CONFIG_MACH_N1 cfg) eqn:HN.
    + specialize (Hlock eq_refl). apply Z.eqb_neq in Hlock.
      rewrite !bind_assoc, bind_input. cbv zeta.
      rewrite !bind_assoc, bind_emit, bind_ret.
      rewrite Hlock, bind_ret. cbn [when]. rewrite bind_emit, ret_run.
      eexists. split; reflexivity.
    + rewrite bind_ret. change (1 =? 0) with false. cbv iota.
      rewrite bind_ret. cbn [when]. rewrite bind_ret, ret_run.
      eexists. split; reflexivity.
Qed.

(** *** Waits on a register *)

Ltac spin_step :=
  first
    [ apply only_ret
    | apply only_stuck
    | apply only_input
    | apply only_emit; reflexivity
    | apply only_bind; [| intro]
    | match goal with
      | |- only _ (if ?c then _ else _) => destruct c
      end ].

Lemma spin_handshake_loop ptr mask done :
  forall fuel usec, only is_spin_event (handshake_loop fuel ptr mask done usec).
Proof.
  induction fuel as [|fuel IH]; intros usec; cbn [handshake_loop].
  - apply only_stuck.
  - unfold readl, udelay.
    repeat first [ apply IH | spin_step ].
Qed.

Lemma total_handshake ptr mask done usec :
  0 <= usec < 2 ^ 31 -> total (handshake ptr mask done usec).
Proof.
  intros H hw s.
  pose proof (steady_handshake is_phy_event plain_phy_event ptr mask done usec
                H hw s) as W.
  unfold wp in W. destruct (handshake ptr mask done usec hw s) as [r|];
    [now exists r | contradiction].
Qed.

Lemma quiet_handshake_loop ptr mask done :
  forall fuel usec, quiet (handshake_loop fuel ptr mask done usec).
Proof.
  induction fuel as [|fuel IH]; intros usec; cbn [handshake_loop]; quiet_tac.
Qed.

Lemma twp_wait P {A B} (m : M A) (f : A -> M B) hw s Q :
  total m -> quiet m -> only is_spin_event m ->
  (forall e, is_spin_event e = true -> P e = false) ->
  (forall a s1, link_of s1 = link_of s -> twp P (f a) hw s1 Q) ->
  twp P (bind m f) hw s Q.
Proof.
  intros T Hq O HP Hf. destruct (T hw s) as [[[a s1] e1] E].
  eapply twp_run; [exact E|].
  pose proof (wlp_elim _ _ _ _ _ _ _ (O hw s) E) as F. cbv beta in F.
  pose proof (wlp_elim _ _ _ _ _ _ _ (Hq hw s) E) as [L _].
  rewrite (obs_none P e1).
  - now apply Hf.
  - eapply Forall_impl; [|exact F]. exact HP.
Qed.

(** *** Port suspend *)

Ltac port_step Hwf :=
  match goal with
  | |- twp _ (bind (bind _ _) _) _ _ _ => apply twp_assoc
  | |- twp _ (bind (ret _) _) _ _ _ => apply twp_bind_ret
  | |- twp _ (bind get _) _ _ _ => apply twp_get
  | |- twp _ (bind input _) _ _ _ => apply twp_input
  | |- twp _ (bind (modify _) _) _ _ _ => apply twp_modify
  | |- twp _ (bind (emit _) _) _ _ _ =>
      first [apply twp_skip; [reflexivity|] | apply twp_show; [reflexivity|]]
  | |- twp _ (bind (phy_is_uhsic _) _) _ _ _ =>
      eapply twp_run; [apply phy_is_uhsic_handle; exact Hwf|]; cbn [obs app]
  | |- twp _ (bind (handshake _ _ _ _) _) _ _ _ =>
      apply twp_wait;
      [ apply total_handshake; lia
      | apply quiet_handshake_loop
      | apply spin_handshake_loop
      | intros e He; destruct e; try discriminate He; reflexivity
      | let L := fresh "L" in intros ? ? L; link_norm L ]
  | |- twp _ (bind (when ?c _) _) _ _ _ => destruct c; cbn [when]
  | |- twp _ (ret _) _ _ _ => apply twp_ret
  end.

(** X21.  A [SetPortFeature(PORT_SUSPEND)] request to
    [tegra_ehci_hub_control].  On a port that is not enabled, or is in
    reset, the request fails with [-EPIPE] and writes nothing.
    Otherwise the port status is written back once with the suspend
    bit set, wake on disconnect and over-current enabled and wake on
    connect disabled; [hub_suspend_req] is set and the port is entered
    in [suspended_ports]; and the result is 0 whether or not the port
    reported the suspend in time. *)
Theorem hub_port_suspend_request (hcd : usb_hcd) (wIndex : Z) (hw : oracle)
    (s : machine) :
  phy_wf (hcd_phy hcd) ->
  let status_reg := EhciReg (REG_port_status (Z.land wIndex 0xff - 1)) in
  let temp := read_at hw s 0 in
  exists r s' evs,
    tegra_ehci_hub_control cfg hcd SetPortFeature USB_PORT_FEAT_SUSPEND wIndex
      hw s = Some (r, s', evs) /\
    if (Z.land temp PORT_PE =? 0) || negb (Z.land temp PORT_RESET =? 0)
    then r = - EPIPE /\ obs PadRun.is_writel evs = [] /\
         tegra s' = tegra s /\ ehci s' = ehci s
    else r = 0 /\
         obs PadRun.is_writel evs =
           [EvWritel status_reg
              (wrap32 (Z.lor (Z.lor (clr temp PORT_WKCONN_E)
                                    (Z.lor PORT_WKDISC_E PORT_WKOC_E))
                             PORT_SUSPEND))] /\
         tegra s' = set_hub_suspend_req 1 (tegra s) /\
         suspended_ports (ehci s') =
           Z.lor (suspended_ports (ehci s)) (BIT (Z.land wIndex 0xff - 1)).
Proof.
  intros Hwf status_reg temp.
  assert (twp PadRun.is_writel
            (tegra_ehci_hub_control cfg hcd SetPortFeature USB_PORT_FEAT_SUSPEND
               wIndex) hw s
            (fun r s' t =>
               if (Z.land temp PORT_PE =? 0) || negb (Z.land temp PORT_RESET =? 0)
               then r = - EPIPE /\ t = [] /\
                    tegra s' = tegra s /\ ehci s' = ehci s
               else r = 0 /\
                    t = [EvWritel status_reg
                           (wrap32 (Z.lor (Z.lor (clr temp PORT_WKCONN_E)
                                                 (Z.lor PORT_WKDISC_E PORT_WKOC_E))
                                          PORT_SUSPEND))] /\
                    tegra s' = set_hub_suspend_req 1 (tegra s) /\
                    suspended_ports (ehci s') =
                      Z.lor (suspended_ports (ehci s))
                            (BIT (Z.land wIndex 0xff - 1)))) as W.
  { unfold tegra_ehci_hub_control, hub_port_suspend, hub_done. glue_open.
    change (SetPortFeature =? ClearPortFeature) with false.
    change (SetPortFeature =? GetPortStatus) with false.
    change (SetPortFeature =? SetPortFeature) with true.
    change (USB_PORT_FEAT_SUSPEND =? USB_PORT_FEAT_SUSPEND) with true.
    cbn [andb]. fold status_reg.
    repeat port_step Hwf. rewrite <- read_at_0. fold temp.
    destruct ((Z.land temp PORT_PE =? 0) || negb (Z.land temp PORT_RESET =? 0)).
    - repeat port_step Hwf. glue_simpl. auto.
    - repeat port_step Hwf; glue_simpl;
        repeat match goal with
               | H : tegra _ = _ |- _ => rewrite H in *; clear H
               | H : ehci _ = _ |- _ => rewrite H in *; clear H
               end;
        cbn [tegra ehci set_tegra set_ehci suspended_ports set_suspended_ports];
        auto. }
  destruct (twp_elim _ _ _ _ _ W) as (r & s' & evs & E & H).
  exists r, s', evs. split; [exact E | exact H].
Qed.

(** *** The platform hooks *)

(** X20.  The platform driver's [suspend] and [resume] on instance 1 of
    an N1 build with the on/off feature.  When no controller is
    registered ([ehci_handle] is null) or the shutdown latch is set,
    [tegra_ehci_suspend] returns 0 after its settle delay without
    suspending anything: no register is touched and no PHY operation is
    entered.  With no controller registered [tegra_ehci_resume] returns
    0 without doing anything at all. *)
Theorem platform_pm_skips_absent_controller (hcd : usb_hcd) (handle : bool)
    (hw : oracle) (s : machine) :
  EhciPower.N1_ONOFF cfg = true -> instance (hcd_phy hcd) = 1 ->
  handle = false \/ shutdown s = 1 ->
  let early := wrap_int (hw (inputs s)) in
  EhciPower.tegra_ehci_suspend cfg usb_phy_data hcd handle hw s =
    Some (0, consume 1 s,
          EvExt "time_before(jiffies, tegra->ehci->next_statechange)" early
            :: (if early =? 0 then [] else [EvDelay Msleep 10]))
  /\
  (handle = false ->
   EhciPower.tegra_ehci_resume cfg usb_phy_data TEGRA_USB_PHY_PORT_SPEED_FULL
     TEGRA_USB_PHY_PORT_SPEED_LOW TEGRA_USB_PHY_PORT_SPEED_HIGH hcd handle hw s
     = Some (0, s, [])).
Proof.
  intros HN Hi Hoff early. split.
  - unfold EhciPower.tegra_ehci_suspend, ext_call, msleep.
    rewrite HN, Hi. cbn [andb Z.eqb Pos.eqb].
    rewrite !bind_assoc, bind_input. cbv zeta.
    rewrite !bind_assoc, bind_emit, bind_ret. fold early.
    assert (forall s1,
               (if shutdown s1 =? 1 then ret 0
                else if negb handle then ret 0
                     else tegra_usb_suspend cfg usb_phy_data hcd) hw s1
               = Some (0, s1, []) \/ shutdown s1 <> shutdown s) as Hret.
    { intros s1. destruct (Z.eq_dec (shutdown s1) (shutdown s)) as [Es|Es];
        [left | now right].
      destruct Hoff as [->|Hs].
      - now destruct (shutdown s1 =? 1).
      - rewrite Es, Hs. reflexivity. }
    destruct (early =? 0); cbn [negb when].
    + rewrite bind_ret, bind_get.
      destruct (Hret (set_inputs (S (inputs s)) s)) as [->|Hne];
        [|now elim Hne].
      unfold consume. rewrite Nat.add_1_r. reflexivity.
    + rewrite bind_emit, bind_get.
      destruct (Hret (set_inputs (S (inputs s)) s)) as [->|Hne];
        [|now elim Hne].
      unfold consume. rewrite Nat.add_1_r. reflexivity.
  - intros ->. unfold EhciPower.tegra_ehci_resume. rewrite HN, Hi. reflexivity.
Qed.

End WithConfig.

(** Without CONFIG_MACH_N1 the reset block has no presence polls: the
    bus reset is entered on every pass, and its result is dropped. *)
Lemma hsic_port_reset_legacy cfg hcd retval0 hw s :
  CONFIG_MACH_N1 cfg = false -> phy_wf (hcd_phy hcd) ->
  twp is_phy_event (hsic_port_reset cfg hcd retval0) hw s
    (fun r s' t =>
       r = retval0 /\ kept s s' /\
       exists rr, t = [EvPhyOp OpBusReset (ready s); EvPhyRet OpBusReset rr]).
Proof.
  intros HN Hwf. unfold hsic_port_reset, N1. rewrite HN.
  eapply twp_bind; [apply (reset_spec cfg _ hw s Hwf)|].
  intros rr s1 t1 [K ->]. apply twp_ret.
  split; [reflexivity|]. split; [exact K|]. exists rr. reflexivity.
Qed.

(** *** Sample runs *)

Lemma utmi_phy0_wf : phy_wf utmi_phy0.
Proof.
  split; [discriminate|]. split; [|eexists; reflexivity].
  intros _. eexists. reflexivity.
Defined.

Lemma hsic_phy_wf : phy_wf hsic_phy.
Proof.
  split; [intros _; eexists; reflexivity|].
  split; [intros H; now destruct H | eexists; reflexivity].
Defined.

Lemma hsic_phy_is_hsic : phy_is_hsic hsic_phy.
Proof. split; [reflexivity|]. eexists. split; reflexivity. Defined.

(** ClearPortFeature(PORT_ENABLE) masks the write-one-to-clear bits and
    clears PORT_PE. *)
Example hub_clear_port_enable :
  option_map (fun x => (fst (fst x), snd x))
    (tegra_ehci_hub_control n1_config utmi_hcd ClearPortFeature
       USB_PORT_FEAT_ENABLE 1 (stuck_at 0x1005) boot_machine)
  = Some (0, [EvLock true "ehci->lock";
              EvReadl (EhciReg (REG_port_status 0)) 0x1005;
              EvWritel (EhciReg (REG_port_status 0)) 0x1001;
              EvLock false "ehci->lock"]).
Proof. vm_compute. reflexivity. Qed.

(** The connection worker on a link that shows the device raises the
    flag. *)
Example connection_work_found :
  option_map (fun x => (ready (snd (fst x)), phy_trace (snd x)))
    (tegra_hsic_connection_work n1_config hsic_hcd (stuck_at 0xFFFFFFFF)
       boot_machine)
  = Some (true, good_poll).
Proof. vm_compute. reflexivity. Qed.

(** A port that is enabled and suspended is sent resume signalling by
    every request, also by one that arrives while [port_resuming] is
    still set from the request before. *)
Lemma port_resume_restarted_while_resuming :
  exists s1 e1 s2 e2,
    tegra_ehci_hub_control n1_config utmi_hcd ClearPortFeature
      USB_PORT_FEAT_SUSPEND 1 (stuck_at 0x84) boot_machine = Some (0, s1, e1) /\
    port_resuming (tegra s1) = 1 /\
    tegra_ehci_hub_control n1_config utmi_hcd ClearPortFeature
      USB_PORT_FEAT_SUSPEND 1 (stuck_at 0x84) s1 = Some (0, s2, e2) /\
    obs is_port_resume_write e2 = [EvWritel (EhciReg (REG_port_status 0)) 0xC4].
Proof.
  assert (C1 : negb (Z.land 0x84 PORT_RESET =? 0) || (Z.land 0x84 PORT_PE =? 0)
               = false) by (vm_compute; reflexivity).
  assert (C2 : (Z.land 0x84 PORT_SUSPEND =? 0) = false) by (vm_compute; reflexivity).
  assert (V : resume_value 0x84 = 0xC4) by (vm_compute; reflexivity).
  pose proof (twp_elim _ _ _ _ _
                (hub_port_resume_run n1_config utmi_hcd 1 (stuck_at 0x84)
                   boot_machine utmi_phy0_wf)) as (r1 & s1 & e1 & E1 & H1).
  change (read_at (stuck_at 0x84) boot_machine 0) with 0x84 in H1.
  cbv zeta in H1. rewrite C1, C2 in H1. destruct H1 as (-> & _ & P1 & _).
  pose proof (twp_elim _ _ _ _ _
                (hub_port_resume_run n1_config utmi_hcd 1 (stuck_at 0x84)
                   s1 utmi_phy0_wf)) as (r2 & s2 & e2 & E2 & H2).
  change (read_at (stuck_at 0x84) s1 0) with 0x84 in H2.
  cbv zeta in H2. rewrite C1, C2, V in H2. destruct H2 as (-> & T2 & _).
  exists s1, e1, s2, e2.
  split; [exact E1|]. split; [exact P1|]. split; [exact E2 | exact T2].
Qed.

Lemma port_resume_decided_by_port_status_witness :
  exists r s' evs,
    tegra_ehci_hub_control n1_config utmi_hcd ClearPortFeature
      USB_PORT_FEAT_SUSPEND 1 (stuck_at 0x84) boot_machine = Some (r, s', evs) /\
    port_resuming (tegra s') = 1.
Proof.
  pose proof (port_resume_decided_by_port_status n1_config utmi_hcd 1 (stuck_at 0x84)
                boot_machine utmi_phy0_wf) as (r & s' & evs & E & H & _).
  exists r, s', evs. split; [exact E|].
  cbv zeta in H. change (read_at (stuck_at 0x84) boot_machine 0) with 0x84 in H.
  refine (proj2 (proj2 (H _ _ _))); vm_compute; congruence.
Defined.

Lemma stuck_at_0_never_detects : never_detects (stuck_at 0).
Proof. intros k. vm_compute. discriminate. Qed.



(** A suspend that records high speed is followed by a resume that goes
    through both halves of the restore pair. *)
Lemma resume_after_high_speed_suspend_restores :
  exists s1 e1 s2 e2,
    tegra_usb_suspend n1_config no_plat_data utmi_hcd
      (stuck_at portsc_high_speed) boot_machine = Some (0, s1, e1) /\
    port_speed (tegra s1) = speed_high /\
    tegra_usb_resume n1_config no_plat_data speed_full speed_low speed_high
      utmi_hcd (stuck_at portsc_high_speed) s1 = Some (0, s2, e2) /\
    calls OpRestoreStart e2 = 1%nat /\
    calls OpRestoreEnd e2 = 1%nat.
Proof.
  pose proof (twp_elim _ _ _ _ _
                (suspend_run n1_config no_plat_data utmi_hcd
                   (stuck_at portsc_high_speed) boot_machine utmi_phy0_wf))
    as (r1 & s1 & e1 & E1 & -> & P1 & _).
  change (read_at (stuck_at portsc_high_speed) boot_machine 0)
    with portsc_high_speed in P1.
  change (Z.land (Z.shiftr portsc_high_speed 26) 3) with speed_high in P1.
  pose proof (twp_elim _ _ _ _ _
                (resume_run n1_config no_plat_data speed_full speed_low speed_high
                   utmi_hcd (stuck_at portsc_high_speed) s1 utmi_phy0_wf))
    as (r2 & s2 & e2 & E2 & -> & _ & CS & CE).
  rewrite calls_phy_trace_obs in CS, CE. rewrite P1 in CS, CE.
  exists s1, e1, s2, e2.
  split; [exact E1|]. split; [exact P1|]. split; [exact E2|].
  split; [exact CS | exact CE].
Qed.

Lemma resume_restore_pair_by_speed_witness :
  exists s' evs,
    tegra_usb_resume n1_config no_plat_data speed_full speed_low speed_high
      utmi_hcd (stuck_at 0) boot_machine = Some (0, s', evs) /\
    calls OpRestoreStart evs = 1%nat.
Proof.
  pose proof (resume_restore_pair_by_speed n1_config no_plat_data speed_full
                speed_low speed_high utmi_hcd (stuck_at 0) boot_machine
                utmi_phy0_wf) as (s' & evs & E & CS & _).
  exists s', evs. split; [exact E | exact CS].
Defined.

Lemma bus_reset_consumes_ready_witness :
  exists s' evs c',
    run_entries n1_config no_plat_data speed_full speed_low speed_high hsic_hcd
      [HubControl SetPortFeature USB_PORT_FEAT_POWER 1;
       HubControl SetPortFeature USB_PORT_FEAT_RESET 1]
      (stuck_at 0) boot_machine = Some (tt, s', evs) /\
    presence_scan false (phy_trace evs) = Some c'.
Proof.
  pose proof (proj2 (bus_reset_consumes_ready n1_config no_plat_data speed_full
                       speed_low speed_high hsic_hcd eq_refl hsic_phy_wf)
                [HubControl SetPortFeature USB_PORT_FEAT_POWER 1;
                 HubControl SetPortFeature USB_PORT_FEAT_RESET 1]
                (stuck_at 0) boot_machine)
    as (s' & evs & c' & E & Hc & _).
  exists s', evs, c'. split; [exact E | exact Hc].
Defined.

Lemma connection_work_gives_up_witness :
  exists s' evs,
    run_entries n1_config no_plat_data speed_full speed_low speed_high hsic_hcd
      (repeat ConnectionWork 42) (stuck_at 0) boot_machine = Some (tt, s', evs) /\
    tegra s' = tegra boot_machine /\ work_count s' = 0 /\
    ext_count schedule_work evs = 41%nat.
Proof.
  exact (proj2 (connection_work_gives_up n1_config no_plat_data speed_full
                  speed_low speed_high hsic_hcd (stuck_at 0) boot_machine
                  eq_refl hsic_phy_wf hsic_phy_is_hsic stuck_at_0_never_detects
                  eq_refl)).
Defined.

(** *** Instances of the further properties *)

Lemma hsic_phy_clock_apart : link_clock_apart hsic_phy.
Proof. intros c E. injection E as <-. reflexivity. Defined.

Lemma utmi_phy0_clock_apart : link_clock_apart utmi_phy0.
Proof. intros c E. discriminate E. Defined.


Lemma bus_operations_non_hsic_witness :
  tegra_usb_phy_bus_connect n1_config utmi_phy0 (stuck_at 0) boot_machine =
    Some (0, boot_machine, [EvPhyOp OpBusConnect false; EvPhyRet OpBusConnect 0]).
Proof.
  assert (instance utmi_phy0 <> 1 \/
          exists c, config utmi_phy0 = PtrUlpi c /\ inf_type c <> TEGRA_USB_UHSIC)
    as H by (left; discriminate).
  exact (proj1 (bus_operations_non_hsic n1_config utmi_phy0 (stuck_at 0)
                  boot_machine H)).
Defined.

Lemma bus_operations_modem_in_reset_witness :
  (exists evs,
     tegra_usb_phy_bus_connect n1_config hsic_phy (stuck_at 0) boot_machine =
       Some (- ENOTCONN, consume 4 boot_machine, evs)) /\
  (exists evs,
     tegra_usb_phy_bus_reset n1_config hsic_phy (stuck_at 0) boot_machine =
       Some (- ENOTCONN, consume 3 boot_machine, evs)).
Proof.
  split; eexists.
  - exact (proj1 (bus_operations_modem_in_reset n1_config hsic_phy (stuck_at 0)
                    boot_machine eq_refl hsic_phy_is_hsic) eq_refl).
  - exact (proj2 (bus_operations_modem_in_reset n1_config hsic_phy (stuck_at 0)
                    boot_machine eq_refl hsic_phy_is_hsic) eq_refl).
Defined.


Lemma open_failure_frees_handle_witness :
  (exists evs,
     tegra_usb_phy_open n1_config no_plat_data no_pll_env 0 0xC5000000 None
       TEGRA_USB_PHY_MODE_HOST = Some (inl (-2), evs) /\
     ext_count "kfree" evs = 1%nat /\
     clk_count true "pll_u" evs = clk_count false "pll_u" evs) /\
  (exists phy evs,
     tegra_usb_phy_open n1_config no_plat_data healthy_env 0 0xC5000000 None
       TEGRA_USB_PHY_MODE_HOST = Some (inr phy, evs) /\
     ext_count "kfree" evs = 0%nat /\
     clk_count true "pll_u" evs = 1%nat).
Proof.
  split.
  - eexists. split; [reflexivity|].
    exact (proj2 (proj1 (open_failure_frees_handle n1_config no_plat_data
                           no_pll_env 0 0xC5000000 None TEGRA_USB_PHY_MODE_HOST _)
                    (-2) eq_refl eq_refl)).
  - eexists _, _. split; [reflexivity|].
    destruct (proj2 (open_failure_frees_handle n1_config no_plat_data
                       healthy_env 0 0xC5000000 None TEGRA_USB_PHY_MODE_HOST _)
                _ eq_refl) as (K & C & _).
    split; [exact K | exact C].
Defined.

Lemma close_releases_what_open_took_witness :
  exists evs',
    UsbPhyBoard.tegra_usb_phy_close n1_config no_plat_data utmi_phy0 (stuck_at 0)
      boot_machine = Some (tt, boot_machine, evs') /\
    ext_count "kfree" evs' = 1%nat.
Proof.
  destruct (close_releases_what_open_took n1_config no_plat_data healthy_env 0
              0xC5000000 None TEGRA_USB_PHY_MODE_HOST utmi_phy0
              [EvExt "kmalloc" 1; EvClk true "pll_u"] (stuck_at 0) boot_machine
              eq_refl) as (evs' & E & _ & K & _).
  exists evs'. split; [exact E | exact K].
Defined.

Lemma phy_init_last_row_wins_witness :
  exists table',
    UsbPhyBoard.tegra_usb_phy_init n1_config (Some board_rows) 3
      UsbPhyBoard.usb_phy_data_static = Some (0, table') /\
    vbus_irq (table' 0) = 9 /\ table' 2 = UsbPhyBoard.usb_phy_data_static 2.
Proof.
  assert (Forall (fun r => 0 <= fst r < UsbPhyBoard.usb_phy_data_rows) board_rows)
    as H by (repeat constructor; cbn; lia).
  destruct (proj2 (phy_init_last_row_wins n1_config board_rows
                     UsbPhyBoard.usb_phy_data_static H))
    as (table' & E & Hspec).
  exists table'. split; [exact E|].
  split; [exact (proj1 (Hspec 0)) | exact (Hspec 2)].
Defined.

Lemma power_up_down_round_trip_witness :
  exists s1 e1 s2 e2,
    tegra_ehci_power_up n1_config no_plat_data hsic_hcd (stuck_at 0) boot_machine
      = Some (tt, s1, e1) /\
    tegra_ehci_power_down n1_config no_plat_data hsic_hcd (stuck_at 0) s1
      = Some (tt, s2, e2) /\
    clk_count true "sclk" (obs glue_view (e1 ++ e2)) =
    clk_count false "sclk" (obs glue_view (e1 ++ e2)).
Proof.
  destruct (proj1 (power_up_down_round_trip n1_config no_plat_data hsic_hcd
                     (stuck_at 0) boot_machine hsic_phy_wf hsic_phy_clock_apart))
    as (s1 & e1 & s2 & e2 & r & E1 & E2 & T & _).
  exists s1, e1, s2, e2. split; [exact E1|]. split; [exact E2|].
  rewrite T. reflexivity.
Defined.

Lemma suspend_records_speed_and_powers_down_witness :
  exists s' evs,
    tegra_usb_suspend n1_config no_plat_data hsic_hcd (stuck_at portsc_high_speed)
      boot_machine = Some (0, s', evs) /\
    port_speed (tegra s') = speed_high /\
    host_resumed (tegra s') = 0.
Proof.
  destruct (suspend_records_speed_and_powers_down n1_config no_plat_data hsic_hcd
              (stuck_at portsc_high_speed) boot_machine hsic_phy_wf
              hsic_phy_clock_apart)
    as (s' & evs & halt & off & E & Hs & _ & _ & Hr & _).
  exists s', evs. split; [exact E|]. split; [exact Hs | exact Hr].
Defined.

Lemma shutdown_latch_witness :
  exists s1 e1,
    EhciPower.tegra_ehci_shutdown n1_config no_plat_data hsic_hcd (stuck_at 0)
      boot_machine = Some (tt, s1, e1) /\
    shutdown s1 = 1 /\
    tegra_ehci_bus_suspend n1_config hsic_hcd (stuck_at 0) s1 = Some (0, s1, []).
Proof.
  destruct (shutdown_latch n1_config no_plat_data hsic_hcd (stuck_at 0)
              boot_machine hsic_phy_wf hsic_phy_clock_apart eq_refl eq_refl)
    as (s1 & e1 & up & off & E & Hs & _ & _ & _ & _ & Hb & _).
  exists s1, e1. split; [exact E|]. split; [exact Hs | exact (Hb (stuck_at 0))].
Defined.

Lemma bus_suspend_power_down_bookkeeping_witness :
  exists rc s1 e1,
    tegra_ehci_bus_suspend n1_config hsic_hcd (stuck_at 0) suspend_requested
      = Some (rc, s1, e1) /\
    bus_is_power_down (tegra s1) = (if rc =? 0 then 1 else 0).
Proof.
  assert (require_power_down_on_bus_suspend hsic_hcd <> 0) as Hreq
    by discriminate.
  assert (hub_suspend_req (tegra suspend_requested) <> 0) as Hhub
    by discriminate.
  destruct (bus_suspend_power_down_bookkeeping n1_config hsic_hcd (stuck_at 0)
              suspend_requested eq_refl eq_refl Hreq Hhub eq_refl)
    as (rc & s1 & e1 & off & E & _ & Hb & _).
  exists rc, s1, e1. split; [exact E | exact Hb].
Defined.

Lemma store_ehci_power_switch_witness :
  EhciPower.store_ehci_power n1_config no_plat_data hsic_hcd true None 2 true
    (stuck_at 0) boot_machine = Some ((- EINVAL, true), boot_machine, []) /\
  EhciPower.store_ehci_power n1_config no_plat_data hsic_hcd true (Some 1) 2 true
    (stuck_at 0) boot_machine =
    Some ((- EhciPower.EBUSY, true), consume 1 boot_machine,
          [EvExt "device_trylock" 0]) /\
  (exists s' evs,
     EhciPower.store_ehci_power n1_config no_plat_data hsic_hcd true (Some 0) 2
       true (stuck_at 1) boot_machine = Some ((2, false), s', evs) /\
     host_resumed (tegra s') = 0).
Proof.
  assert (CONFIG_MACH_N1 n1_config = true ->
          wrap_int (stuck_at 1 (inputs boot_machine)) <> 0) as Hfree
    by (intros _; discriminate).
  split; [|split].
  - exact (proj1 (store_ehci_power_switch n1_config no_plat_data hsic_hcd true 2
                    true (stuck_at 0) boot_machine hsic_phy_wf
                    hsic_phy_clock_apart)).
  - exact (proj1 (proj2 (store_ehci_power_switch n1_config no_plat_data hsic_hcd
                           true 2 true (stuck_at 0) boot_machine hsic_phy_wf
                           hsic_phy_clock_apart)) 1 eq_refl eq_refl).
  - destruct (proj1 (proj2 (proj2 (proj2
                 (store_ehci_power_switch n1_config no_plat_data hsic_hcd true 2
                    true (stuck_at 1) boot_machine hsic_phy_wf
                    hsic_phy_clock_apart)) Hfree)) eq_refl)
      as (s' & evs & off & E & Hr & _).
    exists s', evs. split; [exact E | exact Hr].
Defined.

Lemma platform_pm_skips_absent_controller_witness :
  EhciPower.tegra_ehci_suspend n1_config no_plat_data hsic_hcd false (stuck_at 0)
    boot_machine =
    Some (0, consume 1 boot_machine,
          [EvExt "time_before(jiffies, tegra->ehci->next_statechange)" 0]) /\
  EhciPower.tegra_ehci_resume n1_config no_plat_data speed_full speed_low
    speed_high hsic_hcd false (stuck_at 0) boot_machine
    = Some (0, boot_machine, []).
Proof.
  split.
  - exact (proj1 (platform_pm_skips_absent_controller n1_config no_plat_data
                    speed_full speed_low speed_high hsic_hcd false (stuck_at 0)
                    boot_machine eq_refl eq_refl (or_introl eq_refl))).
  - exact (proj2 (platform_pm_skips_absent_controller n1_config no_plat_data
                    speed_full speed_low speed_high hsic_hcd false (stuck_at 0)
                    boot_machine eq_refl eq_refl (or_introl eq_refl)) eq_refl).
Defined.

Lemma hub_port_suspend_request_witness :
  exists s' evs,
    tegra_ehci_hub_control n1_config utmi_hcd SetPortFeature USB_PORT_FEAT_SUSPEND
      1 (stuck_at 0x1005) boot_machine = Some (0, s', evs) /\
    hub_suspend_req (tegra s') = 1.
Proof.
  destruct (hub_port_suspend_request n1_config utmi_hcd 1 (stuck_at 0x1005)
              boot_machine utmi_phy0_wf) as (r & s' & evs & E & H).
  change (read_at (stuck_at 0x1005) boot_machine 0) with 0x1005 in H.
  change ((Z.land 0x1005 PORT_PE =? 0) || negb (Z.land 0x1005 PORT_RESET =? 0))
    with false in H.
  destruct H as (-> & _ & Ht & _).
  exists s', evs. split; [exact E|]. rewrite Ht. reflexivity.
Defined.

End EhciTegraFacts.

(** ** Bounce buffers *)

Module UrbBufferFacts.

Import UrbBuffer.

Local Open Scope Z_scope.

Lemma wrap32_in_range x : 0 <= x < 2 ^ 32 -> wrap32 x = x.
Proof. intros H. unfold wrap32. now apply Z.mod_small. Qed.

Lemma load_store_same m a v :
  0 <= v < 2 ^ 32 -> load_ptr (store_ptr m a v) a = v.
Proof.
  intros Hv. unfold load_ptr, store_ptr.
  replace ((a <=? a) && (a <? a + 4)) with true
    by (symmetry; apply andb_true_iff; split; [apply Z.leb_le | apply Z.ltb_lt]; lia).
  replace ((a <=? a + 1) && (a + 1 <? a + 4)) with true
    by (symmetry; apply andb_true_iff; split; [apply Z.leb_le | apply Z.ltb_lt]; lia).
  replace ((a <=? a + 2) && (a + 2 <? a + 4)) with true
    by (symmetry; apply andb_true_iff; split; [apply Z.leb_le | apply Z.ltb_lt]; lia).
  replace ((a <=? a + 3) && (a + 3 <? a + 4)) with true
    by (symmetry; apply andb_true_iff; split; [apply Z.leb_le | apply Z.ltb_lt]; lia).
  replace (8 * (a - a)) with 0 by lia.
  replace (8 * (a + 1 - a)) with 8 by lia.
  replace (8 * (a + 2 - a)) with 16 by lia.
  replace (8 * (a + 3 - a)) with 24 by lia.
  change (2 ^ 0) with 1. rewrite Z.div_1_r.
  assert (v / 2 ^ 24 < 2 ^ 8) as H3
    by (apply Z.div_lt_upper_bound; [lia | change (2 ^ 24 * 2 ^ 8) with (2 ^ 32); lia]).
  assert (0 <= v / 2 ^ 24) as H3' by (apply Z.div_pos; lia).
  rewrite (Z.mod_small (v / 2 ^ 24)) by lia.
  pose proof (Z.div_mod v (2 ^ 8) ltac:(lia)) as E0.
  pose proof (Z.div_mod (v / 2 ^ 8) (2 ^ 8) ltac:(lia)) as E1.
  pose proof (Z.div_mod (v / 2 ^ 16) (2 ^ 8) ltac:(lia)) as E2.
  rewrite Z.div_div in E1 by lia. change (2 ^ 8 * 2 ^ 8) with (2 ^ 16) in E1.
  rewrite Z.div_div in E2 by lia. change (2 ^ 16 * 2 ^ 8) with (2 ^ 24) in E2.
  lia.
Qed.

Lemma load_store_other m a v a' :
  a' + 4 <= a \/ a + 4 <= a' -> load_ptr (store_ptr m a v) a' = load_ptr m a'.
Proof.
  intros H. unfold load_ptr, store_ptr.
  repeat match goal with
         | |- context [(a <=? ?x) && (?x <? a + 4)] =>
             replace ((a <=? x) && (x <? a + 4)) with false
               by (symmetry; apply andb_false_iff;
                   destruct H; [left; apply Z.leb_gt | right; apply Z.ltb_ge]; lia)
         end.
  reflexivity.
Qed.

Lemma store_other m a v x : x < a \/ a + 4 <= x -> store_ptr m a v x = m x.
Proof.
  intros H. unfold store_ptr.
  replace ((a <=? x) && (x <? a + 4)) with false; [reflexivity|].
  symmetry. apply andb_false_iff.
  destruct H; [left; apply Z.leb_gt | right; apply Z.ltb_ge]; lia.
Qed.

Lemma memcpy_inside m dst src n i :
  0 <= i < n -> memcpy m dst src n (dst + i) = m (src + i).
Proof.
  intros H. unfold memcpy.
  replace ((dst <=? dst + i) && (dst + i <? dst + n)) with true.
  - f_equal. lia.
  - symmetry. apply andb_true_iff. split; [apply Z.leb_le | apply Z.ltb_lt]; lia.
Qed.

Lemma memcpy_outside m dst src n x :
  x < dst \/ dst + n <= x -> memcpy m dst src n x = m x.
Proof.
  intros H. unfold memcpy.
  replace ((dst <=? x) && (x <? dst + n)) with false; [reflexivity|].
  symmetry. apply andb_false_iff.
  destruct H; [left; apply Z.leb_gt | right; apply Z.ltb_ge]; lia.
Qed.

Lemma load_memcpy_other m dst src n a :
  a + 4 <= dst \/ dst + n <= a -> load_ptr (memcpy m dst src n) a = load_ptr m a.
Proof.
  intros H. unfold load_ptr.
  rewrite !memcpy_outside by lia. reflexivity.
Qed.

(** [PTR_ALIGN] rounds up to the next multiple of 32. *)
Lemma PTR_ALIGN_32 p :
  0 <= p -> p + 31 < 2 ^ 32 ->
  let q := PTR_ALIGN p TEGRA_USB_DMA_ALIGN in
  Z.land q 31 = 0 /\ p <= q <= p + 31.
Proof.
  intros H0 H1 q. subst q. unfold PTR_ALIGN, TEGRA_USB_DMA_ALIGN.
  change (32 - 1) with (Z.ones 5).
  rewrite wrap32_in_range by (change (Z.ones 5) with 31; lia).
  rewrite <- Z.ldiff_land, Z.ldiff_ones_r by lia.
  rewrite Z.shiftr_div_pow2, Z.shiftl_mul_pow2 by lia.
  change (Z.ones 5) with 31. change (2 ^ 5) with 32.
  split.
  - change 31 with (Z.ones 5). rewrite Z.land_ones by lia.
    change (2 ^ 5) with 32. apply Z.mod_mul. lia.
  - pose proof (Z.div_mod (p + 31) 32 ltac:(lia)).
    pose proof (Z.mod_pos_bound (p + 31) 32 ltac:(lia)). lia.
Qed.

Section WithUsbCore.

Variable URB_ALIGNED_TEMP_BUFFER : Z.
Variable usb_urb_dir_in : urb -> bool.
Variable kmalloc : Z -> Z.

(** The size [alloc_temp_buffer] asks [kmalloc] for is computed in
    [size_t]: it wraps for a length of [2^32 - 39] or more. *)
Lemma padded_size_wraps len :
  2 ^ 32 <= len + 39 -> len < 2 ^ 32 -> wrap32 (len + 39) = len + 39 - 2 ^ 32.
Proof.
  intros H1 H2. unfold wrap32.
  replace (len + 39) with (len + 39 - 2 ^ 32 + 1 * 2 ^ 32) at 1 by lia.
  rewrite Z.mod_add by lia. apply Z.mod_small. lia.
Qed.

(** The block [alloc_temp_buffer] asks for, and where it puts the
    data. *)
Lemma alloc_run u m :
  let len := transfer_buffer_length u in
  let size := wrap32 (len + 39) in
  let k := kmalloc size in
  let data := PTR_ALIGN (k + 8) TEGRA_USB_DMA_ALIGN in
  num_sgs u = 0 -> sg u = 0 -> len <> 0 ->
  Z.land (transfer_buffer u) 31 <> 0 ->
  0 < k -> k + 39 < 2 ^ 32 ->
  Z.land data 31 = 0 /\ k + 8 <= data <= k + 39 /\
  alloc_temp_buffer URB_ALIGNED_TEMP_BUFFER usb_urb_dir_in kmalloc u m =
    (0,
     mk_urb (Z.lor (transfer_flags u) URB_ALIGNED_TEMP_BUFFER) data len 0 0,
     (let m1 := store_ptr (store_ptr m (data - 8) k) (data - 4) (transfer_buffer u) in
      if usb_urb_dir_in u then m1 else memcpy m1 data (transfer_buffer u) len),
     [EvExt "kmalloc" k]).
Proof.
  intros len size k data Hn Hs Hl Ha Hk Hb.
  destruct (PTR_ALIGN_32 (k + 8)) as (Hal & Hlo & Hhi); [lia | lia |].
  fold data in Hal, Hlo, Hhi.
  split; [exact Hal|]. split; [lia|].
  unfold alloc_temp_buffer. rewrite Hn, Hs. fold len.
  replace (len =? 0) with false by (symmetry; now apply Z.eqb_neq).
  change (TEGRA_USB_DMA_ALIGN - 1) with 31.
  replace (Z.land (transfer_buffer u) 31 =? 0) with false
    by (symmetry; now apply Z.eqb_neq).
  cbn [Z.eqb negb orb].
  unfold sizeof_temp_buffer, kmalloc_ptr_offset, old_xfer_buffer_offset,
    data_offset.
  change TEGRA_USB_DMA_ALIGN with 32 in *.
  replace (len + 8 + 32 - 1) with (len + 39) by lia.
  fold size. fold k.
  replace (k =? 0) with false by (symmetry; apply Z.eqb_neq; lia).
  rewrite (wrap32_in_range (k + 8)) by lia. fold data.
  rewrite (wrap32_in_range (data - 8)) by lia.
  rewrite (wrap32_in_range (data - 8 + 0)) by lia.
  rewrite (wrap32_in_range (data - 8 + 4)) by lia.
  rewrite (wrap32_in_range (data - 8 + 8)) by lia.
  replace (data - 8 + 0) with (data - 8) by lia.
  replace (data - 8 + 4) with (data - 4) by lia.
  replace (data - 8 + 8) with data by lia.
  unfold set_transfer_flags, set_transfer_buffer.
  cbn [transfer_flags transfer_buffer transfer_buffer_length num_sgs sg].
  rewrite Hn, Hs. fold len. reflexivity.
Qed.

(** X13.  [alloc_temp_buffer] on an unaligned transfer buffer asks
    [kmalloc] for [length + 39] bytes, computed in [size_t].  As long as
    that sum does not wrap (the length is below [2^32 - 39]) and the
    block returned lies in the address space and apart from the caller's
    buffer, the new buffer is aligned to 32 bytes and lies, with the two
    pointers kept in front of it, inside the block; the URB is flagged
    [URB_ALIGNED_TEMP_BUFFER]; the block records its own address and the
    caller's buffer; for an OUT transfer the caller's data has been
    copied over; and no memory outside the block is written.  When the
    sum wraps, the block asked for has fewer than 39 bytes and the data
    area handed to the URB ends beyond it. *)
Theorem alloc_temp_buffer_aligned_in_block (u : urb) (m : memory) :
  let len := transfer_buffer_length u in
  let size := wrap32 (len + 39) in
  let k := kmalloc size in
  num_sgs u = 0 -> sg u = 0 -> 0 < len ->
  Z.land (transfer_buffer u) 31 <> 0 ->
  0 < k ->
  (len + 39 < 2 ^ 32 ->
   0 <= transfer_buffer u < 2 ^ 32 ->
   k + size <= 2 ^ 32 ->
   transfer_buffer u + len <= k \/ k + size <= transfer_buffer u ->
   exists u' m',
     alloc_temp_buffer URB_ALIGNED_TEMP_BUFFER usb_urb_dir_in kmalloc u m =
       (0, u', m', [EvExt "kmalloc" k]) /\
     let data := transfer_buffer u' in
     size = len + 39 /\
     Z.land data 31 = 0 /\
     k + 8 <= data /\ data + len <= k + size /\
     transfer_buffer_length u' = len /\
     transfer_flags u' = Z.lor (transfer_flags u) URB_ALIGNED_TEMP_BUFFER /\
     load_ptr m' (data - 8) = k /\
     load_ptr m' (data - 4) = transfer_buffer u /\
     (usb_urb_dir_in u = false ->
      forall i, 0 <= i < len -> m' (data + i) = m (transfer_buffer u + i)) /\
     (forall x, x < k \/ k + size <= x -> m' x = m x))
  /\
  (2 ^ 32 <= len + 39 -> len < 2 ^ 32 -> k + 39 < 2 ^ 32 ->
   exists u' m',
     alloc_temp_buffer URB_ALIGNED_TEMP_BUFFER usb_urb_dir_in kmalloc u m =
       (0, u', m', [EvExt "kmalloc" k]) /\
     size = len + 39 - 2 ^ 32 /\
     size < 39 /\
     transfer_buffer_length u' = len /\
     k + 8 <= transfer_buffer u' /\
     k + size < transfer_buffer u' + len).
Proof.
  intros len size k Hn Hs Hl Ha Hk. split.
  - intros Hw Hbuf Hb Hd.
    assert (size = len + 39) as Hsz by (apply wrap32_in_range; lia).
    destruct (alloc_run u m Hn Hs ltac:(lia) Ha Hk) as (Hal & Hr & E).
    { fold len size k. lia. }
    fold len size k in Hal, Hr, E.
    set (data := PTR_ALIGN (k + 8) TEGRA_USB_DMA_ALIGN) in *.
    eexists _, _. split; [exact E|].
    cbn [transfer_buffer transfer_buffer_length transfer_flags]. cbv zeta.
    split; [exact Hsz|].
    split; [exact Hal|]. split; [lia|]. split; [lia|].
    split; [reflexivity|]. split; [reflexivity|].
    assert (load_ptr (store_ptr (store_ptr m (data - 8) k) (data - 4)
                        (transfer_buffer u)) (data - 8) = k) as L1.
    { rewrite load_store_other by lia. apply load_store_same. lia. }
    assert (load_ptr (store_ptr (store_ptr m (data - 8) k) (data - 4)
                        (transfer_buffer u)) (data - 4) = transfer_buffer u) as L2.
    { apply load_store_same. lia. }
    destruct (usb_urb_dir_in u).
    + split; [exact L1|]. split; [exact L2|]. split; [discriminate|].
      intros x Hx. rewrite !store_other by lia. reflexivity.
    + split; [rewrite load_memcpy_other by lia; exact L1|].
      split; [rewrite load_memcpy_other by lia; exact L2|].
      split.
      * intros _ i Hi. rewrite memcpy_inside by lia.
        rewrite !store_other by lia. reflexivity.
      * intros x Hx. rewrite memcpy_outside by lia.
        rewrite !store_other by lia. reflexivity.
  - intros Hw Hlen Hb.
    assert (size = len + 39 - 2 ^ 32) as Hsz by now apply padded_size_wraps.
    destruct (alloc_run u m Hn Hs ltac:(lia) Ha Hk) as (Hal & Hr & E).
    { fold len size k. exact Hb. }
    fold len size k in Hal, Hr, E.
    eexists _, _. split; [exact E|].
    cbn [transfer_buffer transfer_buffer_length].
    split; [exact Hsz|]. split; [lia|]. split; [reflexivity|].
    split; lia.
Qed.

Lemma clear_flag f b :
  0 <= f < 2 ^ 32 -> Z.land f b = 0 ->
  Z.land (Z.lor f b) (wrap32 (Z.lnot b)) = f.
Proof.
  intros Hf Hb. apply Z.bits_inj'. intros n Hn.
  assert (Z.testbit f n && Z.testbit b n = false) as Hfb
    by (rewrite <- Z.land_spec, Hb; apply Z.bits_0).
  rewrite Z.land_spec, Z.lor_spec. unfold wrap32.
  destruct (Z.lt_ge_cases n 32) as [Hlt|Hge].
  - rewrite Z.mod_pow2_bits_low, Z.lnot_spec by lia.
    destruct (Z.testbit f n), (Z.testbit b n); try reflexivity; discriminate.
  - rewrite Z.mod_pow2_bits_high by lia.
    rewrite <- (wrap32_in_range f Hf). unfold wrap32.
    rewrite Z.mod_pow2_bits_high by lia. apply andb_false_r.
Qed.

Lemma set_flag_test f b : b <> 0 -> Z.land (Z.lor f b) b <> 0.
Proof.
  intros Hb. rewrite Z.land_comm, Z.land_lor_distr_r, Z.land_diag.
  rewrite Z.lor_comm. intros H. apply Z.lor_eq_0_iff in H. now destruct H.
Qed.

Lemma free_run (u : urb) (m2 : memory) (f old k : Z) :
  let len := transfer_buffer_length u in
  let data := transfer_buffer u in
  transfer_flags u = Z.lor f URB_ALIGNED_TEMP_BUFFER ->
  URB_ALIGNED_TEMP_BUFFER <> 0 ->
  0 <= f < 2 ^ 32 -> Z.land f URB_ALIGNED_TEMP_BUFFER = 0 ->
  8 <= data -> data < 2 ^ 32 ->
  load_ptr m2 (data - 8) = k -> load_ptr m2 (data - 4) = old ->
  old + len <= data - 8 \/ data <= old ->
  free_temp_buffer URB_ALIGNED_TEMP_BUFFER usb_urb_dir_in u m2 =
    (mk_urb f old len (num_sgs u) (sg u),
     (if usb_urb_dir_in u then memcpy m2 old data len else m2),
     [EvExt "kfree" k]).
Proof.
  intros len data Hfl Hb Hf Hfb Hlo Hhi Lk Lo Hd.
  unfold free_temp_buffer. rewrite Hfl.
  replace (Z.land (Z.lor f URB_ALIGNED_TEMP_BUFFER) URB_ALIGNED_TEMP_BUFFER =? 0)
    with false by (symmetry; apply Z.eqb_neq; now apply set_flag_test).
  unfold data_offset, old_xfer_buffer_offset, kmalloc_ptr_offset.
  fold data len.
  rewrite (wrap32_in_range (data - 8)) by lia.
  rewrite (wrap32_in_range (data - 8 + 4)) by lia.
  rewrite (wrap32_in_range (data - 8 + 8)) by lia.
  rewrite (wrap32_in_range (data - 8 + 0)) by lia.
  replace (data - 8 + 4) with (data - 4) by lia.
  replace (data - 8 + 8) with data by lia.
  replace (data - 8 + 0) with (data - 8) by lia.
  rewrite Lo.
  unfold set_transfer_flags, set_transfer_buffer.
  cbn [transfer_flags transfer_buffer transfer_buffer_length num_sgs sg].
  rewrite Hfl, clear_flag by assumption. fold len.
  destruct (usb_urb_dir_in u).
  - rewrite !load_memcpy_other by lia. rewrite Lo, Lk. reflexivity.
  - rewrite Lo, Lk. reflexivity.
Qed.

(** X14.  [free_temp_buffer] undoes [alloc_temp_buffer].  For a
    transfer whose padded size [length + 39] does not wrap in [size_t],
    and a block from [kmalloc] that lies in the address space and apart
    from the caller's buffer: after the bounce buffer was set up, and
    whatever was written into its data area in between, freeing it
    gives the URB back exactly as it was (buffer pointer and flags),
    frees the block [kmalloc] returned, and writes no memory but the
    caller's buffer: for an IN transfer the data area is copied into it,
    for an OUT transfer nothing is written. *)
Theorem temp_buffer_round_trip (u : urb) (m : memory) :
  let len := transfer_buffer_length u in
  let size := wrap32 (len + 39) in
  let k := kmalloc size in
  let old := transfer_buffer u in
  num_sgs u = 0 -> sg u = 0 -> 0 < len ->
  len + 39 < 2 ^ 32 ->
  Z.land old 31 <> 0 ->
  0 <= old < 2 ^ 32 ->
  0 < k -> k + size <= 2 ^ 32 ->
  old + len <= k \/ k + size <= old ->
  URB_ALIGNED_TEMP_BUFFER <> 0 ->
  0 <= transfer_flags u < 2 ^ 32 ->
  Z.land (transfer_flags u) URB_ALIGNED_TEMP_BUFFER = 0 ->
  exists u1 m1,
    alloc_temp_buffer URB_ALIGNED_TEMP_BUFFER usb_urb_dir_in kmalloc u m =
      (0, u1, m1, [EvExt "kmalloc" k]) /\
    let data := transfer_buffer u1 in
    forall m2,
      usb_urb_dir_in u1 = usb_urb_dir_in u ->
      load_ptr m2 (data - 8) = load_ptr m1 (data - 8) ->
      load_ptr m2 (data - 4) = load_ptr m1 (data - 4) ->
      exists m3,
        free_temp_buffer URB_ALIGNED_TEMP_BUFFER usb_urb_dir_in u1 m2 =
          (u, m3, [EvExt "kfree" k]) /\
        (forall x, x < old \/ old + len <= x -> m3 x = m2 x) /\
        (if usb_urb_dir_in u
         then forall i, 0 <= i < len -> m3 (old + i) = m2 (data + i)
         else forall x, m3 x = m2 x).
Proof.
  intros len size k old Hn Hs Hl Hw Ha Hbuf Hk Hb Hd HB Hf Hfb.
  assert (size = len + 39) as Hsz by (apply wrap32_in_range; lia).
  destruct (alloc_run u m Hn Hs ltac:(lia) Ha Hk) as (Hal & Hr & E).
  { fold len size k. lia. }
  fold len size k old in Hal, Hr, E.
  set (data := PTR_ALIGN (k + 8) TEGRA_USB_DMA_ALIGN) in *.
  eexists _, _. split; [exact E|].
  cbn [transfer_buffer]. cbv zeta.
  intros m2 Hdir L1 L2.
  assert (load_ptr m2 (data - 8) = k /\ load_ptr m2 (data - 4) = old) as [Lk Lo].
  { rewrite L1, L2. clear L1 L2.
    destruct (usb_urb_dir_in u); rewrite ?load_memcpy_other by lia;
      (split; [rewrite load_store_other by lia; apply load_store_same; lia
              | apply load_store_same; subst old; lia]). }
  eexists. split.
  - rewrite (free_run _ m2 (transfer_flags u) old k);
      cbn [transfer_flags transfer_buffer transfer_buffer_length num_sgs sg];
      try assumption; try reflexivity; try lia.
    rewrite Hdir. f_equal. f_equal.
    destruct u as [f b l n g]. cbn in *. now subst.
  - split.
    + intros x Hx. destruct (usb_urb_dir_in u); [|reflexivity].
      now apply memcpy_outside.
    + destruct (usb_urb_dir_in u); [|reflexivity].
      intros i Hi. now apply memcpy_inside.
Qed.

Variable usb_hcd_map_urb_for_dma : urb -> Z * urb.
Variable usb_hcd_unmap_urb_for_dma : urb -> urb.

(** X15.  [tegra_ehci_map_urb_for_dma].  A URB that needs no bounce
    buffer goes to [usb_hcd_map_urb_for_dma] as it is, without any
    allocation; the result and the URB are those of that call, as long
    as the call succeeds or hands the URB back without the
    [URB_ALIGNED_TEMP_BUFFER] flag.  When the bounce buffer cannot be
    allocated the result is [-ENOMEM] and [usb_hcd_map_urb_for_dma] is
    not called.  For a transfer whose padded size [length + 39] does
    not wrap in [size_t], and a block from [kmalloc] that lies in the
    address space and apart from the caller's buffer: when the bounce
    buffer was set up and [usb_hcd_map_urb_for_dma] then fails without
    changing the URB, the block is freed again, the error is passed on
    and the URB is as it was before the call; for an IN transfer the
    caller's buffer has by then been filled from the data area of the
    block. *)
Theorem map_urb_for_dma_cleans_up (u : urb) (m : memory) :
  let len := transfer_buffer_length u in
  let size := wrap32 (len + 39) in
  let k := kmalloc size in
  let old := transfer_buffer u in
  let map :=
    tegra_ehci_map_urb_for_dma URB_ALIGNED_TEMP_BUFFER usb_urb_dir_in kmalloc
      usb_hcd_map_urb_for_dma in
  (num_sgs u <> 0 \/ sg u <> 0 \/ len = 0 \/ Z.land old 31 = 0 ->
   fst (usb_hcd_map_urb_for_dma u) = 0 \/
   Z.land (transfer_flags (snd (usb_hcd_map_urb_for_dma u)))
          URB_ALIGNED_TEMP_BUFFER = 0 ->
   map u m =
     (fst (usb_hcd_map_urb_for_dma u), snd (usb_hcd_map_urb_for_dma u), m,
      [EvExt "usb_hcd_map_urb_for_dma" (fst (usb_hcd_map_urb_for_dma u))]))
  /\
  (num_sgs u = 0 -> sg u = 0 -> len <> 0 -> Z.land old 31 <> 0 ->
   k = 0 -> map u m = (- ENOMEM, u, m, [EvExt "kmalloc" 0]))
  /\
  (num_sgs u = 0 -> sg u = 0 -> 0 < len -> len + 39 < 2 ^ 32 ->
   Z.land old 31 <> 0 ->
   0 <= old < 2 ^ 32 -> 0 < k -> k + size <= 2 ^ 32 ->
   old + len <= k \/ k + size <= old ->
   URB_ALIGNED_TEMP_BUFFER <> 0 ->
   0 <= transfer_flags u < 2 ^ 32 ->
   Z.land (transfer_flags u) URB_ALIGNED_TEMP_BUFFER = 0 ->
   forall u1 m1 ret,
     alloc_temp_buffer URB_ALIGNED_TEMP_BUFFER usb_urb_dir_in kmalloc u m =
       (0, u1, m1, [EvExt "kmalloc" k]) ->
     usb_hcd_map_urb_for_dma u1 = (ret, u1) -> ret <> 0 ->
     usb_urb_dir_in u1 = usb_urb_dir_in u ->
     exists m3,
       map u m =
         (ret, u, m3,
          [EvExt "kmalloc" k; EvExt "usb_hcd_map_urb_for_dma" ret;
           EvExt "kfree" k]) /\
       (usb_urb_dir_in u = true ->
        forall i, 0 <= i < len ->
                  m3 (old + i) = m (transfer_buffer u1 + i))).
Proof.
  intros len size k old map. subst map. split; [|split].
  - intros H Hpass. unfold tegra_ehci_map_urb_for_dma, alloc_temp_buffer.
    fold len old. change (TEGRA_USB_DMA_ALIGN - 1) with 31.
    replace (negb (num_sgs u =? 0) || negb (sg u =? 0) || (len =? 0)
             || (Z.land old 31 =? 0)) with true.
    + cbn [Z.eqb negb]. destruct (usb_hcd_map_urb_for_dma u) as [ret u'].
      cbn [fst snd app] in *.
      destruct (ret =? 0) eqn:Er; cbn [negb]; [reflexivity|].
      destruct Hpass as [->|Hz]; [discriminate|].
      unfold free_temp_buffer. rewrite Hz. reflexivity.
    + symmetry. rewrite !orb_true_iff, !negb_true_iff, !Z.eqb_eq, !Z.eqb_neq.
      destruct H as [H|[H|[H|H]]]; auto.
  - intros Hn Hs Hl Ha Hk0.
    unfold tegra_ehci_map_urb_for_dma, alloc_temp_buffer.
    fold len old. change (TEGRA_USB_DMA_ALIGN - 1) with 31.
    rewrite Hn, Hs.
    replace (len =? 0) with false by (symmetry; now apply Z.eqb_neq).
    replace (Z.land old 31 =? 0) with false by (symmetry; now apply Z.eqb_neq).
    cbn [Z.eqb negb orb]. unfold sizeof_temp_buffer.
    change TEGRA_USB_DMA_ALIGN with 32.
    replace (len + 8 + 32 - 1) with (len + 39) by lia.
    fold size. fold k. rewrite Hk0.
    reflexivity.
  - intros Hn Hs Hl Hw Ha Hbuf Hk Hb Hd HB Hf Hfb u1 m1 ret E Hmap Hret Hdir.
    assert (size = len + 39) as Hsz by (apply wrap32_in_range; lia).
    destruct (alloc_run u m Hn Hs ltac:(lia) Ha Hk) as (Hal & Hr & E').
    { fold len size k. lia. }
    fold len size k old in Hal, Hr, E'.
    set (data := PTR_ALIGN (k + 8) TEGRA_USB_DMA_ALIGN) in *.
    rewrite E' in E. injection E as <- <-.
    cbn [transfer_buffer] in *.
    unfold tegra_ehci_map_urb_for_dma. rewrite E'. cbn [Z.eqb negb].
    rewrite Hmap.
    replace (ret =? 0) with false by (symmetry; now apply Z.eqb_neq).
    cbn [negb].
    set (m1 := if usb_urb_dir_in u then _ else _).
    assert (load_ptr m1 (data - 8) = k /\ load_ptr m1 (data - 4) = old) as [Lk Lo].
    { subst m1. destruct (usb_urb_dir_in u); rewrite ?load_memcpy_other by lia;
        (split; [rewrite load_store_other by lia; apply load_store_same; lia
                | apply load_store_same; subst old; lia]). }
    rewrite (free_run _ m1 (transfer_flags u) old k);
      cbn [transfer_flags transfer_buffer transfer_buffer_length num_sgs sg];
      try assumption; try reflexivity; try lia.
    eexists. split.
    + cbn [app]. f_equal. f_equal. f_equal.
      clear Lk Lo. clearbody m1.
      destruct u as [f b l n g]. cbn in *. now subst.
    + intros Hin i Hi. rewrite Hdir, Hin. rewrite memcpy_inside by lia.
      unfold m1. rewrite Hin. rewrite !store_other by lia. reflexivity.
Qed.

End WithUsbCore.

(** *** Instances on a five-byte IN transfer at an odd address *)

Lemma alloc_temp_buffer_aligned_in_block_witness :
  (exists u' m',
     alloc_temp_buffer temp_buffer_flag dir_in_bit block_at_0x1000 odd_urb
       zero_memory = (0, u', m', [EvExt "kmalloc" 0x1000]) /\
     Z.land (transfer_buffer u') 31 = 0 /\
     transfer_buffer u' + 5 <= 0x1000 + 44 /\
     load_ptr m' (transfer_buffer u' - 4) = 0x2003) /\
  (exists u' m',
     alloc_temp_buffer temp_buffer_flag dir_in_bit block_at_0x1000 wrapping_urb
       zero_memory = (0, u', m', [EvExt "kmalloc" 0x1000]) /\
     0x1000 + 23 < transfer_buffer u' + 0xFFFFFFF0).
Proof.
  assert (Z.land 0x2003 31 <> 0) as Ha by discriminate.
  assert (0 <= 0x2003 < 2 ^ 32) as Hb by lia.
  assert (0 < 0x1000) as Hk by reflexivity.
  split.
  - assert (5 + 39 < 2 ^ 32) as Hw by reflexivity.
    assert (0x1000 + 44 <= 2 ^ 32) as Hs by discriminate.
    assert (0x2003 + 5 <= 0x1000 \/ 0x1000 + 44 <= 0x2003) as Hd
      by (right; discriminate).
    destruct (proj1 (alloc_temp_buffer_aligned_in_block temp_buffer_flag
                       dir_in_bit block_at_0x1000 odd_urb zero_memory eq_refl
                       eq_refl eq_refl Ha Hk) Hw Hb Hs Hd)
      as (u' & m' & E & _ & Hal & _ & Hin & _ & _ & _ & Ho & _).
    exists u', m'. split; [exact E|]. split; [exact Hal|].
    split; [exact Hin | exact Ho].
  - assert (2 ^ 32 <= 0xFFFFFFF0 + 39) as Hw by discriminate.
    assert (0xFFFFFFF0 < 2 ^ 32) as Hl by reflexivity.
    assert (0x1000 + 39 < 2 ^ 32) as Hs by reflexivity.
    destruct (proj2 (alloc_temp_buffer_aligned_in_block temp_buffer_flag
                       dir_in_bit block_at_0x1000 wrapping_urb zero_memory
                       eq_refl eq_refl eq_refl Ha Hk) Hw Hl Hs)
      as (u' & m' & E & _ & _ & _ & _ & Hout).
    exists u', m'. split; [exact E | exact Hout].
Defined.

Lemma temp_buffer_round_trip_witness :
  exists u1 m1 m3,
    alloc_temp_buffer temp_buffer_flag dir_in_bit block_at_0x1000 odd_urb
      zero_memory = (0, u1, m1, [EvExt "kmalloc" 0x1000]) /\
    free_temp_buffer temp_buffer_flag dir_in_bit u1 m1 =
      (odd_urb, m3, [EvExt "kfree" 0x1000]).
Proof.
  assert (Z.land 0x2003 31 <> 0) as Ha by discriminate.
  assert (0 <= 0x2003 < 2 ^ 32) as Hb by lia.
  assert (0 < 0x1000) as Hk by reflexivity.
  assert (5 + 39 < 2 ^ 32) as Hw by reflexivity.
  assert (0x1000 + 44 <= 2 ^ 32) as Hs by discriminate.
  assert (0x2003 + 5 <= 0x1000 \/ 0x1000 + 44 <= 0x2003) as Hd
    by (right; discriminate).
  assert (temp_buffer_flag <> 0) as HB by discriminate.
  assert (0 <= 0x0200 < 2 ^ 32) as Hf by lia.
  destruct (temp_buffer_round_trip temp_buffer_flag dir_in_bit block_at_0x1000
              odd_urb zero_memory eq_refl eq_refl eq_refl Hw Ha Hb Hk Hs Hd HB
              Hf eq_refl)
    as (u1 & m1 & E & Hfree).
  assert (dir_in_bit u1 = dir_in_bit odd_urb) as Hdir
    by (injection E; intros; subst; reflexivity).
  destruct (Hfree m1 Hdir eq_refl eq_refl) as (m3 & F & _).
  exists u1, m1, m3. split; [exact E | exact F].
Defined.

Lemma map_urb_for_dma_cleans_up_witness :
  exists m3,
    tegra_ehci_map_urb_for_dma temp_buffer_flag dir_in_bit block_at_0x1000
      failing_map odd_urb zero_memory =
      (-5, odd_urb, m3,
       [EvExt "kmalloc" 0x1000; EvExt "usb_hcd_map_urb_for_dma" (-5);
        EvExt "kfree" 0x1000]).
Proof.
  assert (Z.land 0x2003 31 <> 0) as Ha by discriminate.
  assert (0 <= 0x2003 < 2 ^ 32) as Hb by lia.
  assert (0 < 0x1000) as Hk by reflexivity.
  assert (5 + 39 < 2 ^ 32) as Hw by reflexivity.
  assert (0x1000 + 44 <= 2 ^ 32) as Hs by discriminate.
  assert (0x2003 + 5 <= 0x1000 \/ 0x1000 + 44 <= 0x2003) as Hd
    by (right; discriminate).
  assert (temp_buffer_flag <> 0) as HB by discriminate.
  assert (0 <= 0x0200 < 2 ^ 32) as Hf by lia.
  assert (-5 <> 0) as Hret by discriminate.
  destruct (proj2 (proj2 (map_urb_for_dma_cleans_up temp_buffer_flag dir_in_bit
                            block_at_0x1000 failing_map odd_urb zero_memory))
              eq_refl eq_refl eq_refl Hw Ha Hb Hk Hs Hd HB Hf eq_refl
              _ _ (-5) eq_refl eq_refl Hret eq_refl)
    as (m3 & E & _).
  exists m3. exact E.
Defined.

End UrbBufferFacts.

(** ** FIFO tuning and receive-error recovery *)

Module EhciRecoverFacts.

Import UsbPhy EhciTegra EhciRecover UsbPhyFacts EhciTegraFacts.

Local Open Scope string_scope.
Local Open Scope list_scope.
Local Open Scope Z_scope.
Local Open Scope drv_scope.

Lemma wrap32_idem x : wrap32 (wrap32 x) = wrap32 x.
Proof. unfold wrap32. apply Z.mod_mod. lia. Qed.

(** X18.  [tegra_ehci_txfilltuning] does nothing without a stored
    controller.  With one it reads the TXFILLTUNING register once and
    writes it once, and what it writes always has 0x10 in bits 23:16:
    the value read when the field held 0x10 already, and otherwise
    0x00100000, which clears every other field of the register. *)
Theorem txfilltuning_sets_burst_field (hcd : usb_hcd) (hw : oracle)
    (s : machine) :
  let reg := Mmio (hcd_regs hcd + TEGRA_USB_TXFILLTUNING) in
  let v := read_at hw s 0 in
  tegra_ehci_txfilltuning None hw s = Some (tt, s, []) /\
  exists w,
    tegra_ehci_txfilltuning (Some hcd) hw s =
      Some (tt, consume 1 s, [EvReadl reg v; EvWritel reg w]) /\
    Z.land w 0x00ff0000 = 0x00100000 /\
    (if Z.land v 0x00ff0000 =? 0x00100000 then w = v else w = 0x00100000).
Proof.
  intros reg v. split; [reflexivity|].
  unfold tegra_ehci_txfilltuning, writel. fold reg.
  rewrite bind_readl, emit_run, prepend_Some. fold v. cbn [app].
  eexists. split; [reflexivity|].
  destruct (Z.land v 0x00ff0000 =? 0x00100000) eqn:E; cbn [negb].
  - apply Z.eqb_eq in E. subst v. unfold read_at in *.
    rewrite wrap32_idem. auto.
  - split; reflexivity.
Qed.

(** *** Waits *)

(** [ehci_tegra_wait_register] is the loop of [utmi_wait_register] with
    a budget of 50000 reads. *)
Lemma ehci_tegra_wait_loop_utmi reg mask result :
  forall fuel timeout hw s,
    ehci_tegra_wait_loop fuel reg mask result timeout hw s =
    utmi_wait_loop fuel reg mask result timeout hw s.
Proof.
  induction fuel as [|fuel IH]; intros timeout hw s; [reflexivity|].
  cbn [ehci_tegra_wait_loop utmi_wait_loop]. rewrite !bind_readl.
  destruct (Z.land (read_at hw s 0) mask =? result); [reflexivity|].
  rewrite !bind_udelay.
  destruct (wrap32 (timeout - 1) =? 0); cbn [negb]; [reflexivity|].
  now rewrite IH.
Qed.

Lemma ehci_tegra_wait_register_run reg mask result hw s :
  exists (n : nat) (r : Z) (evs : list event),
    ehci_tegra_wait_register reg mask result hw s = Some (r, consume n s, evs) /\
    1 <= Z.of_nat n <= 50000 /\
    (forall k, (k < n - 1)%nat -> Z.land (read_at hw s k) mask <> result) /\
    ((r = 0 /\
      Z.land (read_at hw s (n - 1)) mask = result /\
      evs = poll_events reg hw s (n - 1) ++ [EvReadl reg (read_at hw s (n - 1))])
     \/
     (r = -1 /\
      Z.of_nat n = 50000 /\
      Z.land (read_at hw s (n - 1)) mask <> result /\
      evs = poll_events reg hw s n)).
Proof.
  unfold ehci_tegra_wait_register. rewrite ehci_tegra_wait_loop_utmi.
  destruct (utmi_wait_loop_run reg mask result (Z.to_nat 50000) 50000 hw s)
    as (n & Hn & Hbefore & Hres); [lia | lia |].
  destruct Hres as [[Hhit E]|(Hn' & Hmiss & E)].
  - exists n, 0, (poll_events reg hw s (n - 1) ++ [EvReadl reg (read_at hw s (n - 1))]).
    split; [exact E|]. split; [lia|]. split; [exact Hbefore|]. left. auto.
  - exists n, (-1), (poll_events reg hw s n).
    split; [exact E|]. split; [lia|]. split; [exact Hbefore|].
    right. repeat split; auto. lia.
Qed.

Lemma handshake_loop_runs ptr mask done :
  forall fuel usec hw s,
    (Z.to_nat usec < fuel)%nat -> 0 <= usec < 2 ^ 31 ->
    exists (n : nat) (r : Z) (w : list event),
      handshake_loop fuel ptr mask done usec hw s = Some (r, consume n s, w).
Proof.
  induction fuel as [|fuel IH]; intros usec hw s Hf Hu; [lia|].
  cbn [handshake_loop]. rewrite bind_readl.
  destruct (Z.land (read_at hw s 0) mask =? done).
  { eexists 1%nat, _, _. rewrite ret_run. reflexivity. }
  rewrite bind_udelay, prepend_prepend.
  destruct (wrap_int (usec - 1) >? 0) eqn:E.
  - assert (0 < usec).
    { destruct (Z.eq_dec usec 0) as [->|]; [discriminate E | lia]. }
    rewrite wrap_int_small in * by lia.
    destruct (IH (usec - 1) hw (consume 1 s)) as (n & r & w & R); [lia | lia |].
    rewrite R, consume_consume. eexists (1 + n)%nat, _, _. reflexivity.
  - eexists 1%nat, _, _. rewrite ret_run. reflexivity.
Qed.

Lemma handshake_runs ptr mask done usec hw s :
  0 <= usec < 2 ^ 31 ->
  exists (n : nat) (r : Z) (w : list event),
    handshake ptr mask done usec hw s = Some (r, consume n s, w).
Proof. intros H. apply handshake_loop_runs; [lia | exact H]. Qed.

Ltac rec_run :=
  repeat first
    [ rewrite bind_assoc
    | rewrite bind_emit
    | rewrite bind_rmw
    | rewrite prepend_prepend
    | rewrite prepend_Some
    | rewrite read_at_consume
    | rewrite consume_consume
    | rewrite emit_run
    | rewrite rmw_run ].

(** Bring the input positions of a goal to one form. *)
Ltac nat_canon :=
  repeat match goal with
         | |- context [consume ?a _] => progress ring_simplify a
         | |- context [read_at _ _ ?a] => progress ring_simplify a
         end.

Ltac rec_leaf :=
  rec_run; unfold rmw_events; rewrite <- ?app_assoc; cbn [app]; nat_canon;
  reflexivity.

(** X19.  [tegra_ehci_recover_rx_error] does nothing without a stored
    controller.  With one it always returns, and each of its four waits
    decides how it goes on.  It logs the opening line, sets
    USB2_CLK_OVR_ON and the port's suspend bit and waits for the suspend
    bit; it sets PHCD and waits for PHY_CLK_VALID to drop; it pulses
    SUSP_CLR and waits for PHY_CLK_VALID; it sets SRT and the port's
    resume bit and waits for the resume bit to clear; it clears SRT and
    logs the closing line.  A wait that fails (a non-zero result of
    [handshake], a negative one of [ehci_tegra_wait_register]) ends the
    routine at once with the log line of that wait, and nothing further
    is written.  [ehci_tegra_wait_register] returns 0 at the first read
    whose masked value is the expected one, and -1 after 50000 reads
    without one. *)
Theorem recover_rx_error_stops_at_first_timeout (clk_reset_base : Z)
    (hcd : usb_hcd) (hw : oracle) (s : machine) :
  let ovr := Mmio (clk_reset_base + TEGRA_LVL2_CLK_GATE_OVRB) in
  let portsc := EhciReg (REG_port_status 0) in
  let susp := Mmio (hcd_regs hcd + TEGRA_USB_SUSP_CTRL_OFFSET) in
  let rd := read_at hw s in
  let recover := tegra_ehci_recover_rx_error clk_reset_base (Some hcd) hw s in
  tegra_ehci_recover_rx_error clk_reset_base None hw s = Some (tt, s, [])
  /\
  (exists (n1 : nat) (r1 : Z) (w1 : list event),
     handshake portsc PORT_SUSPEND PORT_SUSPEND 5000 hw (consume 2 s)
       = Some (r1, consume (2 + n1) s, w1) /\
     let t1 :=
       [EvLog rx_err_start]
         ++ rmw_events ovr (fun val => Z.lor val TEGRA_USB2_CLK_OVR_ON) (rd 0%nat)
         ++ rmw_events portsc (fun val => Z.lor val PORT_SUSPEND) (rd 1%nat)
         ++ w1 in
     if negb (r1 =? 0)
     then recover = Some (tt, consume (2 + n1) s, t1 ++ [EvLog rx_err_suspend])
     else
     exists (n2 : nat) (r2 : Z) (w2 : list event),
       ehci_tegra_wait_register susp TEGRA_USB_PHY_CLK_VALID 0 hw
         (consume (3 + n1) s) = Some (r2, consume (3 + n1 + n2) s, w2) /\
       let t2 :=
         t1 ++ rmw_events portsc (fun val => Z.lor val TEGRA_USB_PORTSC_PHCD)
                          (rd (2 + n1)%nat)
            ++ w2 in
       if r2 <? 0
       then recover =
              Some (tt, consume (3 + n1 + n2) s, t2 ++ [EvLog rx_err_clk_off])
       else
       exists (n3 : nat) (r3 : Z) (w3 : list event),
         ehci_tegra_wait_register susp TEGRA_USB_PHY_CLK_VALID
           TEGRA_USB_PHY_CLK_VALID hw (consume (5 + n1 + n2) s)
           = Some (r3, consume (5 + n1 + n2 + n3) s, w3) /\
         let t3 :=
           t2 ++ rmw_events susp (fun val => Z.lor val TEGRA_USB_SUSP_CLR)
                            (rd (3 + n1 + n2)%nat)
              ++ rmw_events susp (fun val => clr val TEGRA_USB_SUSP_CLR)
                            (rd (4 + n1 + n2)%nat)
              ++ w3 in
         if r3 <? 0
         then recover =
                Some (tt, consume (5 + n1 + n2 + n3) s,
                      t3 ++ [EvLog rx_err_clk_on])
         else
         exists (n4 : nat) (r4 : Z) (w4 : list event),
           handshake portsc PORT_RESUME 0 5000 hw (consume (7 + n1 + n2 + n3) s)
             = Some (r4, consume (7 + n1 + n2 + n3 + n4) s, w4) /\
           let t4 :=
             t3 ++ rmw_events portsc (fun val => Z.lor val TEGRA_USB_SRT)
                              (rd (5 + n1 + n2 + n3)%nat)
                ++ rmw_events portsc (fun val => Z.lor val PORT_RESUME)
                              (rd (6 + n1 + n2 + n3)%nat)
                ++ w4 in
           if negb (r4 =? 0)
           then recover =
                  Some (tt, consume (7 + n1 + n2 + n3 + n4) s,
                        t4 ++ [EvLog rx_err_resume])
           else recover =
                  Some (tt, consume (8 + n1 + n2 + n3 + n4) s,
                        t4 ++ rmw_events portsc
                                (fun val => clr val TEGRA_USB_SRT)
                                (rd (7 + n1 + n2 + n3 + n4)%nat)
                           ++ [EvLog rx_err_end]))
  /\
  (forall reg mask result hw' s',
      exists (n : nat) (r : Z) (evs : list event),
        ehci_tegra_wait_register reg mask result hw' s'
          = Some (r, consume n s', evs) /\
        1 <= Z.of_nat n <= 50000 /\
        (forall k, (k < n - 1)%nat ->
                   Z.land (read_at hw' s' k) mask <> result) /\
        ((r = 0 /\
          Z.land (read_at hw' s' (n - 1)) mask = result /\
          evs = poll_events reg hw' s' (n - 1)
                  ++ [EvReadl reg (read_at hw' s' (n - 1))])
         \/
         (r = -1 /\
          Z.of_nat n = 50000 /\
          Z.land (read_at hw' s' (n - 1)) mask <> result /\
          evs = poll_events reg hw' s' n))).
Proof.
  intros ovr portsc susp rd recover.
  split; [reflexivity|]. split; [|exact ehci_tegra_wait_register_run].
  destruct (handshake_runs portsc PORT_SUSPEND PORT_SUSPEND 5000 hw (consume 2 s))
    as (n1 & r1 & w1 & E1); [lia|].
  rewrite consume_consume in E1.
  exists n1, r1, w1. split; [exact E1|]. cbv zeta.
  subst recover. unfold tegra_ehci_recover_rx_error, pr_err.
  fold ovr portsc susp. rec_run.
  rewrite (bind_run _ _ _ _ _ _ _ E1).
  subst rd.
  destruct (negb (r1 =? 0)); [rec_leaf|].
  rec_run.
  match goal with
  | |- context [bind (ehci_tegra_wait_register ?a ?b ?c) _ hw ?st] =>
      destruct (ehci_tegra_wait_register_run a b c hw st)
        as (n2 & r2 & w2 & E2 & _)
  end.
  rewrite (bind_run _ _ _ _ _ _ _ E2).
  rewrite consume_consume in E2.
  exists n2, r2, w2. split; [revert E2; nat_canon; exact (fun E => E)|].
  destruct (r2 <? 0); [rec_leaf|].
  rec_run.
  match goal with
  | |- context [bind (ehci_tegra_wait_register ?a ?b ?c) _ hw ?st] =>
      destruct (ehci_tegra_wait_register_run a b c hw st)
        as (n3 & r3 & w3 & E3 & _)
  end.
  rewrite (bind_run _ _ _ _ _ _ _ E3).
  rewrite consume_consume in E3.
  exists n3, r3, w3. split; [revert E3; nat_canon; exact (fun E => E)|].
  destruct (r3 <? 0); [rec_leaf|].
  rec_run.
  match goal with
  | |- context [bind (handshake ?a ?b ?c ?d) _ hw ?st] =>
      destruct (handshake_runs a b c d hw st) as (n4 & r4 & w4 & E4); [lia|]
  end.
  rewrite (bind_run _ _ _ _ _ _ _ E4).
  rewrite consume_consume in E4.
  exists n4, r4, w4. split; [revert E4; nat_canon; exact (fun E => E)|].
  destruct (negb (r4 =? 0)); rec_leaf.
Qed.

End EhciRecoverFacts.

